(** * The render batch compositor of BatchRenderer.cpp

    A shallow embedding of [Source/Urho3D/RenderPipeline/BatchRenderer.cpp]:
    the shader-constant helpers ([GetCameraDepthModeParameter],
    [GetFogParameter], ...), the [DrawCommandCompositor] state machine with
    its dirty tracking and instancing accumulation, and the three
    [BatchRenderer] entry points.

    - [float] values are IEEE-754 binary32 numbers ([spec_float] with a
      24-bit mantissa), compared and computed with the operations of
      [SpecFloat];
    - [unsigned] values are [Z] with the 32-bit wrap-around written out;
    - pointers are addresses in [Z], [0] being [nullptr]; objects that the
      compositor only reads are looked up in a read-only [Heap];
    - the draw queue and the instancing buffer are logs of the calls made
      on them, in call order. *)

From Stdlib Require Import ZArith List Bool Lia.
From Stdlib Require Import Floats.SpecFloat.
From stdpp Require Import base list.
Import ListNotations.

Local Open Scope Z_scope.

(** ** binary32 arithmetic *)

Module Float32.

Definition float := spec_float.

Definition prec : Z := 24.
Definition emax : Z := 128.

Definition add (a b : float) : float := SFadd prec emax a b.
Definition sub (a b : float) : float := SFsub prec emax a b.
Definition mul (a b : float) : float := SFmul prec emax a b.
Definition div (a b : float) : float := SFdiv prec emax a b.
Definition neg (a : float) : float := SFopp a.

(** [a < b], [a <= b], [a == b] and the derived C++ comparisons; every
    comparison with a NaN operand is [false], except [!=]. *)
Definition lt (a b : float) : bool := SFltb a b.
Definition le (a b : float) : bool := SFleb a b.
Definition eq (a b : float) : bool := SFeqb a b.
Definition gt (a b : float) : bool := SFltb b a.
Definition ge (a b : float) : bool := SFleb b a.
Definition ne (a b : float) : bool := negb (SFeqb a b).

Definition zero : float := S754_zero false.
Definition one : float := S754_finite false 8388608 (-23).
Definition half : float := S754_finite false 8388608 (-24).

Definition is_zero (a : float) : bool :=
  match a with S754_zero _ => true | _ => false end.

End Float32.

Import Float32.

(** [Min] and [Max] of MathDefs.h: a comparison followed by a selection, so a
    NaN on the left selects the right operand. *)
Definition Min (lhs rhs : float) : float := if lt lhs rhs then lhs else rhs.
Definition Max (lhs rhs : float) : float := if gt lhs rhs then lhs else rhs.

(** ** Math value types *)

Record Vector2 := mkVector2 { v2x_ : float; v2y_ : float }.
Record Vector3 := mkVector3 { v3x_ : float; v3y_ : float; v3z_ : float }.
Record Vector4 := mkVector4 { x_ : float; y_ : float; z_ : float; w_ : float }.

Definition Vector3_ZERO : Vector3 := mkVector3 zero zero zero.
Definition Vector4_ZERO : Vector4 := mkVector4 zero zero zero zero.

(** [Vector4(const Vector3&, float)]. *)
Definition Vector4_of (v : Vector3) (w : float) : Vector4 :=
  mkVector4 (v3x_ v) (v3y_ v) (v3z_ v) w.

Definition Color := Vector4.

(** Matrices, quaternions and spherical harmonics are carried around but
    never computed with here: they are kept as their coefficient lists. *)
Definition Matrix3 := list float.
Definition Matrix3x4 := list float.
Definition Matrix4 := list float.
Definition Quaternion := list float.

Record SphericalHarmonicsDot9 := mkSphericalHarmonicsDot9 {
  Ar_ : Vector4; Ag_ : Vector4; Ab_ : Vector4;
  Br_ : Vector4; Bg_ : Vector4; Bb_ : Vector4;
  C_ : Vector4
}.

(** [Color(const Vector3&)] has alpha one; [Color::operator*(float)]
    scales the four channels. *)
Definition Color_of (v : Vector3) : Color := Vector4_of v one.
Definition Color_mul (c : Color) (f : float) : Color :=
  mkVector4 (mul (x_ c) f) (mul (y_ c) f) (mul (z_ c) f) (mul (w_ c) f).

(** ** Machine integers and pointers *)

Definition ptr := Z.
Definition nullptr : ptr := 0.

(** [unsigned] is 32 bits wide. *)
Definition UNSIGNED_MODULUS : Z := 2 ^ 32.
Definition wrap32 (z : Z) : Z := z mod UNSIGNED_MODULUS.

(** [M_MAX_UNSIGNED] of MathDefs.h and [MAX_VERTEX_LIGHTS] of
    GraphicsDefs.h. *)
Definition M_MAX_UNSIGNED : Z := 4294967295.
Definition MAX_VERTEX_LIGHTS : nat := 4.

(** ** Enumerations of GraphicsDefs.h and of the render pipeline *)

Inductive GeometryType :=
| GEOM_STATIC | GEOM_SKINNED | GEOM_INSTANCED | GEOM_BILLBOARD
| GEOM_DIRBILLBOARD | GEOM_TRAIL_FACE_CAMERA | GEOM_TRAIL_BONE
| GEOM_STATIC_NOINSTANCING.

Inductive TextureUnit :=
| TU_DIFFUSE | TU_NORMAL | TU_SPECULAR | TU_EMISSIVE | TU_ENVIRONMENT
| TU_VOLUMEMAP | TU_CUSTOM1 | TU_CUSTOM2 | TU_LIGHTRAMP | TU_LIGHTSHAPE
| TU_SHADOWMAP | TU_FACESELECT | TU_INDIRECTION | TU_DEPTHBUFFER
| TU_LIGHTBUFFER | TU_ZONE.

Inductive ShaderParameterGroup :=
| SP_FRAME | SP_CAMERA | SP_ZONE | SP_LIGHT | SP_MATERIAL | SP_OBJECT
| SP_CUSTOM.

Inductive AmbientMode := AmbientMode_Constant | AmbientMode_Flat | AmbientMode_Directional.

Inductive BatchRenderFlag :=
| BatchRenderFlag_AmbientLight
| BatchRenderFlag_VertexLights
| BatchRenderFlag_PixelLight
| BatchRenderFlag_InstantiateStaticGeometry.

#[global] Instance GeometryType_eq_dec : EqDecision GeometryType.
Proof. solve_decision. Defined.
#[global] Instance TextureUnit_eq_dec : EqDecision TextureUnit.
Proof. solve_decision. Defined.
#[global] Instance AmbientMode_eq_dec : EqDecision AmbientMode.
Proof. solve_decision. Defined.
#[global] Instance BatchRenderFlag_eq_dec : EqDecision BatchRenderFlag.
Proof. solve_decision. Defined.

(** [BatchRenderFlags] is a flag set; [Test] asks for one flag. *)
Definition BatchRenderFlags := list BatchRenderFlag.
Definition Test (flags : BatchRenderFlags) (flag : BatchRenderFlag) : bool :=
  bool_decide (flag ∈ flags).

(** Names of the shader parameters the compositor writes; a material
    contributes parameters under hashed names of its own. *)
Inductive ShaderParameterName :=
| VSP_DELTATIME | VSP_ELAPSEDTIME
| VSP_GBUFFEROFFSETS | VSP_CAMERAPOS | VSP_VIEWINV | VSP_VIEW
| VSP_NEARCLIP | VSP_FARCLIP | VSP_NORMALOFFSETSCALE | VSP_DEPTHMODE
| PSP_DEPTHRECONSTRUCT | VSP_FRUSTUMSIZE | VSP_VIEWPROJ
| PSP_AMBIENTCOLOR | PSP_FOGCOLOR | PSP_FOGPARAMS
| VSP_VERTEXLIGHTS
| VSP_LIGHTDIR | VSP_LIGHTPOS | PSP_LIGHTCOLOR | PSP_LIGHTRAD | PSP_LIGHTLENGTH
| VSP_LIGHTMATRICES | PSP_SHADOWDEPTHFADE | PSP_SHADOWINTENSITY
| PSP_SHADOWMAPINVSIZE | PSP_SHADOWSPLITS | PSP_SHADOWCUBEUVBIAS
| PSP_SHADOWCUBEADJUST | PSP_VSMSHADOWPARAMS
| VSP_LMOFFSET
| VSP_AMBIENT | VSP_SHAR | VSP_SHAG | VSP_SHAB | VSP_SHBR | VSP_SHBG | VSP_SHBB
| VSP_SHC | VSP_SKINMATRICES | VSP_MODEL | VSP_BILLBOARDROT
| MaterialParameter (nameHash : Z).

Inductive ShaderParameterValue :=
| ValFloat (f : float)
| ValVector2 (v : Vector2)
| ValVector3 (v : Vector3)
| ValVector4 (v : Vector4)
| ValMatrix3 (m : Matrix3)
| ValMatrix3x4 (m : Matrix3x4)
| ValMatrix4 (m : Matrix4)
| ValVector4Span (vs : list Vector4)
| ValMatrix3x4Span (ms : list Matrix3x4)
| ValMatrix4Span (ms : list Matrix4).

(** ** The draw queue, as the log of the calls made on it *)

Inductive DrawCommand :=
| SetPipelineState (pipelineState : ptr)
| BeginShaderParameterGroup (group : ShaderParameterGroup) (differentFromPrevious : bool)
| AddShaderParameter (name : ShaderParameterName) (value : ShaderParameterValue)
| CommitShaderParameterGroup (group : ShaderParameterGroup)
| AddShaderResource (unit : TextureUnit) (texture : ptr)
| CommitShaderResources
| SetBuffers (vertexBuffers : list ptr) (indexBuffer : ptr) (instancingBuffer : ptr)
| DrawIndexed (indexStart indexCount : Z)
| Draw (vertexStart vertexCount : Z)
| DrawIndexedInstanced (indexStart indexCount instanceStart instanceCount : Z).

Definition DrawCommandQueue := list DrawCommand.

(** ** What the translation unit takes from elsewhere

    Build configuration, constants of MathDefs.h and methods of the math
    and queue classes whose bodies are outside this translation unit. *)
Class Externals := {
  (** The [URHO3D_OPENGL] build switch. *)
  URHO3D_OPENGL : bool;
  (** [M_EPSILON] and [M_LARGE_EPSILON]. *)
  M_EPSILON : float;
  M_LARGE_EPSILON : float;
  (** Default member values of [LightShaderParameters::invRange_],
      [cutoff_] and [invCutoff_]. *)
  default_invRange : float;
  default_cutoff : float;
  default_invCutoff : float;
  (** [Matrix3x4::Translation], [Matrix3x4::RotationMatrix],
      [Quaternion::RotationMatrix]. *)
  Matrix3x4_Translation : Matrix3x4 -> Vector3;
  Matrix3x4_RotationMatrix : Matrix3x4 -> Matrix3;
  Quaternion_RotationMatrix : Quaternion -> Matrix3;
  (** [Color::GammaToLinear], [Color::LinearToGamma]. *)
  Color_GammaToLinear : Color -> Color;
  Color_LinearToGamma : Color -> Color;
  (** [SphericalHarmonicsDot9::EvaluateAverage]. *)
  SphericalHarmonicsDot9_EvaluateAverage : SphericalHarmonicsDot9 -> Vector3;
  (** What [DrawCommandQueue::BeginShaderParameterGroup] returns, given the
      calls made on the queue so far: whether a new group was opened. *)
  DrawCommandQueue_BeginShaderParameterGroup :
    DrawCommandQueue -> ShaderParameterGroup -> bool -> bool
}.

(** ** Camera *)

Record Node := mkNode { GetWorldRotation : Quaternion }.

Record Camera := mkCamera {
  IsOrthographic : bool;
  GetNearClip : float;
  GetFarClip : float;
  GetEffectiveFogStart : float;
  GetEffectiveWorldTransform : Matrix3x4;
  GetView : Matrix3x4;
  (** [GetFrustumSize(near, far)]: the two out-parameters. *)
  GetFrustumSize : Vector3 * Vector3;
  GetEffectiveGPUViewProjection : float -> Matrix4;
  GetEffectiveAmbientColor : Color;
  GetEffectiveAmbientBrightness : float;
  GetEffectiveFogColor : Color;
  GetNode : Node
}.

Section ShaderConstants.
Context `{Externals}.

(** Return shader parameter for camera depth mode. *)
Definition GetCameraDepthModeParameter (camera : Camera) : Vector4 :=
  let depthMode := Vector4_ZERO in
  if IsOrthographic camera then
    let depthMode := mkVector4 one (y_ depthMode) (z_ depthMode) (w_ depthMode) in
    if URHO3D_OPENGL then
      let depthMode := mkVector4 (x_ depthMode) (y_ depthMode) half (w_ depthMode) in
      mkVector4 (x_ depthMode) (y_ depthMode) (z_ depthMode) half
    else
      mkVector4 (x_ depthMode) (y_ depthMode) one (w_ depthMode)
  else
    mkVector4 (x_ depthMode) (y_ depthMode) (z_ depthMode)
              (div one (GetFarClip camera)).

(** Return shader parameter for camera depth reconstruction. *)
Definition GetCameraDepthReconstructParameter (camera : Camera) : Vector4 :=
  let nearClip := GetNearClip camera in
  let farClip := GetFarClip camera in
  mkVector4 (div farClip (sub farClip nearClip))
            (div (neg nearClip) (sub farClip nearClip))
            (if IsOrthographic camera then one else zero)
            (if IsOrthographic camera then zero else one).

(** Return shader parameter for zone fog. *)
Definition GetFogParameter (camera : Camera) : Vector4 :=
  let farClip := GetFarClip camera in
  let fogStart := Min (GetEffectiveFogStart camera) farClip in
  let fogEnd := Min (GetEffectiveFogStart camera) farClip in
  let fogStart :=
    if ge fogStart (mul fogEnd (sub one M_LARGE_EPSILON))
    then mul fogEnd (sub one M_LARGE_EPSILON)
    else fogStart in
  let fogRange := Max (sub fogEnd fogStart) M_EPSILON in
  mkVector4 (div fogEnd farClip) (div farClip fogRange) zero zero.

End ShaderConstants.

(** ** Objects the compositor reads *)

Module PipelineStateDesc.
Record t := mk { constantDepthBias_ : float }.
End PipelineStateDesc.

Record Geometry := mkGeometry {
  GetVertexBuffers : list ptr;
  GetIndexBuffer : ptr;
  GetIndexStart : Z;
  GetIndexCount : Z;
  GetVertexStart : Z;
  GetVertexCount : Z
}.

(** The two maps of a material, in the order their iteration yields. *)
Record Material := mkMaterial {
  GetShaderParameters : list (Z * ShaderParameterValue);
  GetTextures : list (TextureUnit * ptr)
}.

(** What the pointers of a batch designate. None of it is written while a
    pass is rendered. *)
Record Heap := mkHeap {
  PipelineState_GetDesc : ptr -> PipelineStateDesc.t;
  Geometry_at : ptr -> Geometry;
  Material_at : ptr -> Material;
  Vector4_at : ptr -> Vector4
}.

Record LightShaderParameters := mkLightShaderParameters {
  direction_ : Vector3;
  position_ : Vector3;
  invRange_ : float;
  shadowMap_ : ptr;
  lightRamp_ : ptr;
  lightShape_ : ptr;
  numLightMatrices_ : Z;
  lightMatrices_ : list Matrix4;
  (** [GetColor(isLinear)]. *)
  GetColor : bool -> Vector3;
  specularIntensity_ : float;
  radius_ : float;
  length_ : float;
  shadowCubeAdjust_ : Vector4;
  shadowDepthFade_ : Vector4;
  shadowIntensity_ : Vector4;
  shadowMapInvSize_ : Vector2;
  shadowCubeUVBias_ : Vector2;
  shadowSplits_ : Vector4;
  shadowNormalBias_ : list float;
  cutoff_ : float;
  invCutoff_ : float
}.

Record LightProcessor := mkLightProcessor {
  GetShaderParams : LightShaderParameters;
  (** [GetLight()->GetVolumeTransform(camera)]. *)
  GetLight_GetVolumeTransform : Camera -> Matrix3x4
}.

Record ShadowSplitProcessor := mkShadowSplitProcessor {
  GetLightProcessor : LightProcessor;
  GetSplitIndex : Z
}.

Record LightAccumulator := mkLightAccumulator {
  sphericalHarmonics_ : SphericalHarmonicsDot9;
  (** [VertexLightContainer]: [MAX_VERTEX_LIGHTS] light indices. *)
  GetVertexLights : list Z
}.

Record Scene := mkScene {
  GetElapsedTime : float;
  GetLightmapTexture : Z -> ptr
}.

Record FrameInfo := mkFrameInfo {
  timeStep_ : float;
  scene_of : Scene
}.

Record DrawableProcessor := mkDrawableProcessor {
  GetFrameInfo : FrameInfo;
  (** [GetLightProcessors()[i]]. *)
  GetLightProcessors : Z -> LightProcessor;
  GetGeometryLighting : Z -> LightAccumulator
}.

Record BatchRendererSettings := mkBatchRendererSettings {
  gammaCorrection_ : bool;
  ambientMode_ : AmbientMode;
  vsmShadowParams_ : Vector2
}.

Record ShaderResourceDesc := mkShaderResourceDesc {
  unit_ : TextureUnit;
  texture_ : ptr
}.

(** ** Batches *)

Module SourceBatch.
Record t := mk {
  geometryType_ : GeometryType;
  (** The [numWorldTransforms_] matrices [worldTransform_] points to. *)
  worldTransform_ : list Matrix3x4;
  numWorldTransforms_ : Z;
  lightmapScaleOffset_ : ptr;
  lightmapIndex_ : Z
}.
End SourceBatch.

Module PipelineBatch.
Record t := mk {
  pipelineState_ : ptr;
  material_ : ptr;
  geometry_ : ptr;
  drawableIndex_ : Z;
  lightIndex_ : Z;
  geometryType_ : GeometryType;
  GetSourceBatch : SourceBatch.t
}.
End PipelineBatch.

Record PipelineBatchByState := mkPipelineBatchByState {
  byState_pipelineBatch_ : PipelineBatch.t;
  byState_sortKey : Z
}.

Record PipelineBatchBackToFront := mkPipelineBatchBackToFront {
  backToFront_pipelineBatch_ : PipelineBatch.t;
  backToFront_sortKey : Z
}.

Record LightVolumeRenderContext := mkLightVolumeRenderContext {
  ctx_geometryBuffer_ : list ShaderResourceDesc;
  ctx_geometryBufferOffsetAndScale_ : Vector4;
  ctx_geometryBufferInvSize_ : Vector2
}.

(** ** The instancing buffer *)

Inductive InstanceElements :=
| ElementsMatrix3x4 (data : list Matrix3x4)
| ElementsVector4 (data : Vector4)
| ElementsSphericalHarmonics (data : option SphericalHarmonicsDot9).

(** Modelled from the spec: InstancingBufferCompositor.h is not among the
    sources. The buffer "allocates/returns instance slot offsets" and
    accepts "per-instance data writes": [AddInstance] hands out the slots in
    sequence, [SetElements] writes into the slot handed out last. *)
Record InstancingBufferCompositor := mkInstancingBufferCompositor {
  GetVertexBuffer : ptr;
  nextVertex_ : Z;
  (** Writes so far: slot, data, first element, number of elements. *)
  elements_ : list (Z * InstanceElements * Z * Z)
}.

Definition AddInstance (b : InstancingBufferCompositor) : Z * InstancingBufferCompositor :=
  (nextVertex_ b,
   mkInstancingBufferCompositor (GetVertexBuffer b) (wrap32 (nextVertex_ b + 1)) (elements_ b)).

Definition SetElements (data : InstanceElements) (index count : Z)
    (b : InstancingBufferCompositor) : InstancingBufferCompositor :=
  mkInstancingBufferCompositor (GetVertexBuffer b) (nextVertex_ b)
    (elements_ b ++ [(wrap32 (nextVertex_ b - 1), data, index, count)]).

(** ** State of the compositor *)

Module EnabledFeatureFlags.
Record t := mk {
  ambientLighting_ : bool;
  vertexLighting_ : bool;
  pixelLighting_ : bool;
  anyLighting_ : bool;
  staticInstancing_ : bool
}.

Definition make (flags : BatchRenderFlags) : t :=
  let ambientLighting := Test flags BatchRenderFlag_AmbientLight in
  let vertexLighting := Test flags BatchRenderFlag_VertexLights in
  let pixelLighting := Test flags BatchRenderFlag_PixelLight in
  mk ambientLighting vertexLighting pixelLighting
     (ambientLighting || vertexLighting || pixelLighting)
     (Test flags BatchRenderFlag_InstantiateStaticGeometry).
End EnabledFeatureFlags.

Module DirtyStateFlags.
Record t := mk {
  pipelineState_ : bool;
  frameConstants_ : bool;
  cameraConstants_ : bool;
  pixelLightConstants_ : bool;
  pixelLightTextures_ : bool;
  vertexLightConstants_ : bool;
  lightmapConstants_ : bool;
  lightmapTextures_ : bool;
  material_ : bool;
  geometry_ : bool
}.

Definition init : t :=
  mk false true true false false false false false false false.

Definition IsAnyStateDirty (d : t) : bool :=
  pipelineState_ d || frameConstants_ d || cameraConstants_ d
  || pixelLightConstants_ d || pixelLightTextures_ d || vertexLightConstants_ d
  || lightmapConstants_ d || lightmapTextures_ d || material_ d || geometry_ d.

Definition set_pipelineState_ (v : bool) (d : t) : t :=
  let 'mk _ b c e f g h i j k := d in mk v b c e f g h i j k.
Definition set_frameConstants_ (v : bool) (d : t) : t :=
  let 'mk a _ c e f g h i j k := d in mk a v c e f g h i j k.
Definition set_cameraConstants_ (v : bool) (d : t) : t :=
  let 'mk a b _ e f g h i j k := d in mk a b v e f g h i j k.
Definition set_pixelLightConstants_ (v : bool) (d : t) : t :=
  let 'mk a b c _ f g h i j k := d in mk a b c v f g h i j k.
Definition set_pixelLightTextures_ (v : bool) (d : t) : t :=
  let 'mk a b c e _ g h i j k := d in mk a b c e v g h i j k.
Definition set_vertexLightConstants_ (v : bool) (d : t) : t :=
  let 'mk a b c e f _ h i j k := d in mk a b c e f v h i j k.
Definition set_lightmapConstants_ (v : bool) (d : t) : t :=
  let 'mk a b c e f g _ i j k := d in mk a b c e f g v i j k.
Definition set_lightmapTextures_ (v : bool) (d : t) : t :=
  let 'mk a b c e f g h _ j k := d in mk a b c e f g h v j k.
Definition set_material_ (v : bool) (d : t) : t :=
  let 'mk a b c e f g h i _ k := d in mk a b c e f g h i v k.
Definition set_geometry_ (v : bool) (d : t) : t :=
  let 'mk a b c e f g h i j _ := d in mk a b c e f g h i j v.
End DirtyStateFlags.

Module CachedSharedState.
Record t := mk {
  pipelineState_ : ptr;
  constantDepthBias_ : float;
  pixelLightIndex_ : Z;
  pixelLightEnabled_ : bool;
  pixelLightParams_ : option LightShaderParameters;
  pixelLightRamp_ : ptr;
  pixelLightShape_ : ptr;
  pixelLightShadowMap_ : ptr;
  vertexLights_ : list Z;
  vertexLightsData_ : list Vector4;
  lightmapTexture_ : ptr;
  lightmapScaleOffset_ : ptr;
  material_ : ptr;
  geometry_ : ptr
}.

Definition init : t :=
  mk nullptr zero M_MAX_UNSIGNED false None nullptr nullptr nullptr
     (replicate MAX_VERTEX_LIGHTS 0)
     (replicate (MAX_VERTEX_LIGHTS * 3)%nat Vector4_ZERO)
     nullptr nullptr nullptr nullptr.

Definition set_pipelineState_ (v : ptr) (s : t) : t :=
  let 'mk _ b c d e f g h i j k l m n := s in mk v b c d e f g h i j k l m n.
Definition set_constantDepthBias_ (v : float) (s : t) : t :=
  let 'mk a _ c d e f g h i j k l m n := s in mk a v c d e f g h i j k l m n.
Definition set_pixelLightIndex_ (v : Z) (s : t) : t :=
  let 'mk a b _ d e f g h i j k l m n := s in mk a b v d e f g h i j k l m n.
Definition set_pixelLightEnabled_ (v : bool) (s : t) : t :=
  let 'mk a b c _ e f g h i j k l m n := s in mk a b c v e f g h i j k l m n.
Definition set_pixelLightParams_ (v : option LightShaderParameters) (s : t) : t :=
  let 'mk a b c d _ f g h i j k l m n := s in mk a b c d v f g h i j k l m n.
Definition set_pixelLightRamp_ (v : ptr) (s : t) : t :=
  let 'mk a b c d e _ g h i j k l m n := s in mk a b c d e v g h i j k l m n.
Definition set_pixelLightShape_ (v : ptr) (s : t) : t :=
  let 'mk a b c d e f _ h i j k l m n := s in mk a b c d e f v h i j k l m n.
Definition set_pixelLightShadowMap_ (v : ptr) (s : t) : t :=
  let 'mk a b c d e f g _ i j k l m n := s in mk a b c d e f g v i j k l m n.
Definition set_vertexLights_ (v : list Z) (s : t) : t :=
  let 'mk a b c d e f g h _ j k l m n := s in mk a b c d e f g h v j k l m n.
Definition set_vertexLightsData_ (v : list Vector4) (s : t) : t :=
  let 'mk a b c d e f g h i _ k l m n := s in mk a b c d e f g h i v k l m n.
Definition set_lightmapTexture_ (v : ptr) (s : t) : t :=
  let 'mk a b c d e f g h i j _ l m n := s in mk a b c d e f g h i j v l m n.
Definition set_lightmapScaleOffset_ (v : ptr) (s : t) : t :=
  let 'mk a b c d e f g h i j k _ m n := s in mk a b c d e f g h i j k v m n.
Definition set_material_ (v : ptr) (s : t) : t :=
  let 'mk a b c d e f g h i j k l _ n := s in mk a b c d e f g h i j k l v n.
Definition set_geometry_ (v : ptr) (s : t) : t :=
  let 'mk a b c d e f g h i j k l m _ := s in mk a b c d e f g h i j k l m v.
End CachedSharedState.

Module ObjectState.
Record t := mk {
  sh_ : option SphericalHarmonicsDot9;
  ambient_ : Vector4;
  geometryType_ : GeometryType;
  worldTransform_ : list Matrix3x4;
  numWorldTransforms_ : Z
}.

Definition init : t := mk None Vector4_ZERO GEOM_STATIC [] 0.
End ObjectState.

Module InstancingGroupState.
Record t := mk {
  geometry_ : ptr;
  start_ : Z;
  count_ : Z
}.

Definition init : t := mk nullptr 0 0.
End InstancingGroupState.

Module LightVolumeBatchHelpers.
Record t := mk {
  transform_ : Matrix3x4;
  sourceBatch_ : SourceBatch.t
}.

(** A default-constructed [SourceBatch]: static geometry, one world
    transform, no lightmap. *)
Definition init : t := mk [] (SourceBatch.mk GEOM_STATIC [] 1 nullptr 0).
End LightVolumeBatchHelpers.

Record DrawCommandCompositor := mkDrawCommandCompositor {
  (** Destination draw queue. *)
  drawQueue_ : DrawCommandQueue;
  (** External state (required). *)
  settings_ : BatchRendererSettings;
  drawableProcessor_ : DrawableProcessor;
  instancingBuffer_ : InstancingBufferCompositor;
  frameInfo_ : FrameInfo;
  scene_ : Scene;
  lights_ : Z -> LightProcessor;
  camera_ : Camera;
  cameraNode_ : Node;
  (** External state (optional). *)
  outputShadowSplit_ : option ShadowSplitProcessor;
  geometryBufferOffsetAndScale_ : Vector4;
  geometryBufferInvSize_ : Vector2;
  globalResources_ : list ShaderResourceDesc;
  (** Internal state. *)
  enabled_ : EnabledFeatureFlags.t;
  dirty_ : DirtyStateFlags.t;
  current_ : CachedSharedState.t;
  object_ : ObjectState.t;
  instancingGroup_ : InstancingGroupState.t;
  lightVolumeHelpers_ : LightVolumeBatchHelpers.t
}.

Definition set_drawQueue_ (v : DrawCommandQueue) (c : DrawCommandCompositor) :=
  let 'mkDrawCommandCompositor _ a2 a3 a4 a5 a6 a7 a8 a9 b1 b2 b3 b4 b5 b6 b7 b8 b9 c1 := c in
  mkDrawCommandCompositor v a2 a3 a4 a5 a6 a7 a8 a9 b1 b2 b3 b4 b5 b6 b7 b8 b9 c1.
Definition set_instancingBuffer_ (v : InstancingBufferCompositor) (c : DrawCommandCompositor) :=
  let 'mkDrawCommandCompositor a1 a2 a3 _ a5 a6 a7 a8 a9 b1 b2 b3 b4 b5 b6 b7 b8 b9 c1 := c in
  mkDrawCommandCompositor a1 a2 a3 v a5 a6 a7 a8 a9 b1 b2 b3 b4 b5 b6 b7 b8 b9 c1.
Definition set_geometryBufferOffsetAndScale_ (v : Vector4) (c : DrawCommandCompositor) :=
  let 'mkDrawCommandCompositor a1 a2 a3 a4 a5 a6 a7 a8 a9 b1 _ b3 b4 b5 b6 b7 b8 b9 c1 := c in
  mkDrawCommandCompositor a1 a2 a3 a4 a5 a6 a7 a8 a9 b1 v b3 b4 b5 b6 b7 b8 b9 c1.
Definition set_geometryBufferInvSize_ (v : Vector2) (c : DrawCommandCompositor) :=
  let 'mkDrawCommandCompositor a1 a2 a3 a4 a5 a6 a7 a8 a9 b1 b2 _ b4 b5 b6 b7 b8 b9 c1 := c in
  mkDrawCommandCompositor a1 a2 a3 a4 a5 a6 a7 a8 a9 b1 b2 v b4 b5 b6 b7 b8 b9 c1.
Definition set_globalResources_ (v : list ShaderResourceDesc) (c : DrawCommandCompositor) :=
  let 'mkDrawCommandCompositor a1 a2 a3 a4 a5 a6 a7 a8 a9 b1 b2 b3 _ b5 b6 b7 b8 b9 c1 := c in
  mkDrawCommandCompositor a1 a2 a3 a4 a5 a6 a7 a8 a9 b1 b2 b3 v b5 b6 b7 b8 b9 c1.
Definition set_dirty_ (v : DirtyStateFlags.t) (c : DrawCommandCompositor) :=
  let 'mkDrawCommandCompositor a1 a2 a3 a4 a5 a6 a7 a8 a9 b1 b2 b3 b4 b5 _ b7 b8 b9 c1 := c in
  mkDrawCommandCompositor a1 a2 a3 a4 a5 a6 a7 a8 a9 b1 b2 b3 b4 b5 v b7 b8 b9 c1.
Definition set_current_ (v : CachedSharedState.t) (c : DrawCommandCompositor) :=
  let 'mkDrawCommandCompositor a1 a2 a3 a4 a5 a6 a7 a8 a9 b1 b2 b3 b4 b5 b6 _ b8 b9 c1 := c in
  mkDrawCommandCompositor a1 a2 a3 a4 a5 a6 a7 a8 a9 b1 b2 b3 b4 b5 b6 v b8 b9 c1.
Definition set_object_ (v : ObjectState.t) (c : DrawCommandCompositor) :=
  let 'mkDrawCommandCompositor a1 a2 a3 a4 a5 a6 a7 a8 a9 b1 b2 b3 b4 b5 b6 b7 _ b9 c1 := c in
  mkDrawCommandCompositor a1 a2 a3 a4 a5 a6 a7 a8 a9 b1 b2 b3 b4 b5 b6 b7 v b9 c1.
Definition set_instancingGroup_ (v : InstancingGroupState.t) (c : DrawCommandCompositor) :=
  let 'mkDrawCommandCompositor a1 a2 a3 a4 a5 a6 a7 a8 a9 b1 b2 b3 b4 b5 b6 b7 b8 _ c1 := c in
  mkDrawCommandCompositor a1 a2 a3 a4 a5 a6 a7 a8 a9 b1 b2 b3 b4 b5 b6 b7 b8 v c1.
Definition set_lightVolumeHelpers_ (v : LightVolumeBatchHelpers.t) (c : DrawCommandCompositor) :=
  let 'mkDrawCommandCompositor a1 a2 a3 a4 a5 a6 a7 a8 a9 b1 b2 b3 b4 b5 b6 b7 b8 b9 _ := c in
  mkDrawCommandCompositor a1 a2 a3 a4 a5 a6 a7 a8 a9 b1 b2 b3 b4 b5 b6 b7 b8 b9 v.

(** Assignment to one member of [dirty_] or of [current_]. *)
Definition dirty_set (setter : bool -> DirtyStateFlags.t -> DirtyStateFlags.t)
    (v : bool) (c : DrawCommandCompositor) : DrawCommandCompositor :=
  set_dirty_ (setter v (dirty_ c)) c.
Definition current_set {A} (setter : A -> CachedSharedState.t -> CachedSharedState.t)
    (v : A) (c : DrawCommandCompositor) : DrawCommandCompositor :=
  set_current_ (setter v (current_ c)) c.

(** A call on the draw queue. *)
Definition emit (cmd : DrawCommand) (c : DrawCommandCompositor) : DrawCommandCompositor :=
  set_drawQueue_ (drawQueue_ c ++ [cmd]) c.

Definition emit_all (cmds : list DrawCommand) (c : DrawCommandCompositor) : DrawCommandCompositor :=
  fold_left (fun c cmd => emit cmd c) cmds c.

(** [nullVertexLight]: a value-initialised [LightShaderParameters]. Its
    vectors are zero and its pointers null; the three attenuation members
    carry their default member values. *)
Definition nullVertexLight `{Externals} : LightShaderParameters :=
  {| direction_ := Vector3_ZERO;
     position_ := Vector3_ZERO;
     invRange_ := default_invRange;
     shadowMap_ := nullptr;
     lightRamp_ := nullptr;
     lightShape_ := nullptr;
     numLightMatrices_ := 0;
     lightMatrices_ := [];
     GetColor := fun _ => Vector3_ZERO;
     specularIntensity_ := zero;
     radius_ := zero;
     length_ := zero;
     shadowCubeAdjust_ := Vector4_ZERO;
     shadowDepthFade_ := Vector4_ZERO;
     shadowIntensity_ := Vector4_ZERO;
     shadowMapInvSize_ := mkVector2 zero zero;
     shadowCubeUVBias_ := mkVector2 zero zero;
     shadowSplits_ := Vector4_ZERO;
     shadowNormalBias_ := [];
     cutoff_ := default_cutoff;
     invCutoff_ := default_invCutoff |}.

(** The members of [BatchRenderer] that rendering reads. *)
Record BatchRenderer := mkBatchRenderer {
  br_settings_ : BatchRendererSettings;
  br_drawableProcessor_ : DrawableProcessor;
  br_instancingBuffer_ : InstancingBufferCompositor
}.

(** ** DrawCommandCompositor *)

Section Compositor.
Context `{Externals} (heap : Heap).

(** What [drawQueue_.BeginShaderParameterGroup(group, differentFromPrevious)]
    returns when called in state [c]; the call itself is the command
    [BeginShaderParameterGroup group differentFromPrevious]. *)
Definition BeginShaderParameterGroup_returns (group : ShaderParameterGroup)
    (differentFromPrevious : bool) (c : DrawCommandCompositor) : bool :=
  DrawCommandQueue_BeginShaderParameterGroup (drawQueue_ c) group differentFromPrevious.

(** The constructor. *)
Definition DrawCommandCompositor_new (drawQueue : DrawCommandQueue)
    (settings : BatchRendererSettings) (drawableProcessor : DrawableProcessor)
    (instancingBuffer : InstancingBufferCompositor) (renderCamera : Camera)
    (flags : BatchRenderFlags) (outputShadowSplit : option ShadowSplitProcessor)
    : DrawCommandCompositor :=
  {| drawQueue_ := drawQueue;
     settings_ := settings;
     drawableProcessor_ := drawableProcessor;
     instancingBuffer_ := instancingBuffer;
     frameInfo_ := GetFrameInfo drawableProcessor;
     scene_ := scene_of (GetFrameInfo drawableProcessor);
     lights_ := GetLightProcessors drawableProcessor;
     camera_ := renderCamera;
     cameraNode_ := GetNode renderCamera;
     outputShadowSplit_ := outputShadowSplit;
     geometryBufferOffsetAndScale_ := Vector4_ZERO;
     geometryBufferInvSize_ := mkVector2 zero zero;
     globalResources_ := [];
     enabled_ := EnabledFeatureFlags.make flags;
     dirty_ := DirtyStateFlags.init;
     current_ := CachedSharedState.init;
     object_ := ObjectState.init;
     instancingGroup_ := InstancingGroupState.init;
     lightVolumeHelpers_ := LightVolumeBatchHelpers.init |}.

Definition SetGBufferParameters (offsetAndScale : Vector4) (invSize : Vector2)
    (c : DrawCommandCompositor) : DrawCommandCompositor :=
  let c := set_geometryBufferOffsetAndScale_ offsetAndScale c in
  set_geometryBufferInvSize_ invSize c.

Definition SetGlobalResources (globalResources : list ShaderResourceDesc)
    (c : DrawCommandCompositor) : DrawCommandCompositor :=
  set_globalResources_ globalResources c.

(** *** Extract and process batch state w/o any changes in DrawQueue *)

Definition CheckDirtyCommonState (pipelineBatch : PipelineBatch.t)
    (c : DrawCommandCompositor) : DrawCommandCompositor :=
  let c := dirty_set DirtyStateFlags.set_pipelineState_
    (negb (CachedSharedState.pipelineState_ (current_ c) =? PipelineBatch.pipelineState_ pipelineBatch)) c in
  let c := current_set CachedSharedState.set_pipelineState_ (PipelineBatch.pipelineState_ pipelineBatch) c in

  let constantDepthBias :=
    PipelineStateDesc.constantDepthBias_ (PipelineState_GetDesc heap (CachedSharedState.pipelineState_ (current_ c))) in
  let c :=
    if ne (CachedSharedState.constantDepthBias_ (current_ c)) constantDepthBias then
      let c := current_set CachedSharedState.set_constantDepthBias_ constantDepthBias c in
      dirty_set DirtyStateFlags.set_cameraConstants_ true c
    else c in

  let c := dirty_set DirtyStateFlags.set_material_
    (negb (CachedSharedState.material_ (current_ c) =? PipelineBatch.material_ pipelineBatch)) c in
  let c := current_set CachedSharedState.set_material_ (PipelineBatch.material_ pipelineBatch) c in

  let c := dirty_set DirtyStateFlags.set_geometry_
    (negb (CachedSharedState.geometry_ (current_ c) =? PipelineBatch.geometry_ pipelineBatch)) c in
  current_set CachedSharedState.set_geometry_ (PipelineBatch.geometry_ pipelineBatch) c.

Definition CheckDirtyPixelLight (pipelineBatch : PipelineBatch.t)
    (c : DrawCommandCompositor) : DrawCommandCompositor :=
  let c := dirty_set DirtyStateFlags.set_pixelLightConstants_
    (negb (CachedSharedState.pixelLightIndex_ (current_ c) =? PipelineBatch.lightIndex_ pipelineBatch)) c in
  if negb (DirtyStateFlags.pixelLightConstants_ (dirty_ c)) then c
  else
    let c := current_set CachedSharedState.set_pixelLightIndex_ (PipelineBatch.lightIndex_ pipelineBatch) c in
    let c := current_set CachedSharedState.set_pixelLightEnabled_
      (negb (CachedSharedState.pixelLightIndex_ (current_ c) =? M_MAX_UNSIGNED)) c in
    if CachedSharedState.pixelLightEnabled_ (current_ c) then
      let params := GetShaderParams (lights_ c (CachedSharedState.pixelLightIndex_ (current_ c))) in
      let c := current_set CachedSharedState.set_pixelLightParams_ (Some params) c in
      let c := dirty_set DirtyStateFlags.set_pixelLightTextures_
        (negb (CachedSharedState.pixelLightRamp_ (current_ c) =? lightRamp_ params)
         || negb (CachedSharedState.pixelLightShape_ (current_ c) =? lightShape_ params)
         || negb (CachedSharedState.pixelLightShadowMap_ (current_ c) =? shadowMap_ params)) c in
      if DirtyStateFlags.pixelLightTextures_ (dirty_ c) then
        let c := current_set CachedSharedState.set_pixelLightRamp_ (lightRamp_ params) c in
        let c := current_set CachedSharedState.set_pixelLightShape_ (lightShape_ params) c in
        current_set CachedSharedState.set_pixelLightShadowMap_ (shadowMap_ params) c
      else c
    else c.

(** One turn of the loop of [CheckDirtyVertexLight]: the three entries of
    slot [i]. *)
Definition vertexLightSlot (gammaCorrection : bool) (lights : Z -> LightProcessor)
    (vertexLights : list Z) (data : list Vector4) (i : nat) : list Vector4 :=
  let params :=
    if negb (nth i vertexLights 0 =? M_MAX_UNSIGNED)
    then GetShaderParams (lights (nth i vertexLights 0))
    else nullVertexLight in
  let color := GetColor params gammaCorrection in
  let data := <[(i * 3)%nat := Vector4_of color (invRange_ params)]> data in
  let data := <[(i * 3 + 1)%nat := Vector4_of (direction_ params) (cutoff_ params)]> data in
  <[(i * 3 + 2)%nat := Vector4_of (position_ params) (invCutoff_ params)]> data.

Definition CheckDirtyVertexLight (lightAccumulator : LightAccumulator)
    (c : DrawCommandCompositor) : DrawCommandCompositor :=
  let previousVertexLights := CachedSharedState.vertexLights_ (current_ c) in
  let c := current_set CachedSharedState.set_vertexLights_ (GetVertexLights lightAccumulator) c in
  let c := dirty_set DirtyStateFlags.set_vertexLightConstants_
    (bool_decide (previousVertexLights ≠ CachedSharedState.vertexLights_ (current_ c))) c in
  if negb (DirtyStateFlags.vertexLightConstants_ (dirty_ c)) then c
  else
    current_set CachedSharedState.set_vertexLightsData_
      (fold_left
         (vertexLightSlot (gammaCorrection_ (settings_ c)) (lights_ c)
            (CachedSharedState.vertexLights_ (current_ c)))
         (seq 0 MAX_VERTEX_LIGHTS)
         (CachedSharedState.vertexLightsData_ (current_ c))) c.

Definition CheckDirtyLightmap (sourceBatch : SourceBatch.t)
    (c : DrawCommandCompositor) : DrawCommandCompositor :=
  let c := dirty_set DirtyStateFlags.set_lightmapConstants_
    (negb (CachedSharedState.lightmapScaleOffset_ (current_ c) =? SourceBatch.lightmapScaleOffset_ sourceBatch)) c in
  if negb (DirtyStateFlags.lightmapConstants_ (dirty_ c)) then c
  else
    let c := current_set CachedSharedState.set_lightmapScaleOffset_
      (SourceBatch.lightmapScaleOffset_ sourceBatch) c in
    let lightmapTexture :=
      if negb (CachedSharedState.lightmapScaleOffset_ (current_ c) =? nullptr)
      then GetLightmapTexture (scene_ c) (SourceBatch.lightmapIndex_ sourceBatch)
      else nullptr in
    let c := dirty_set DirtyStateFlags.set_lightmapTextures_
      (negb (CachedSharedState.lightmapTexture_ (current_ c) =? lightmapTexture)) c in
    current_set CachedSharedState.set_lightmapTexture_ lightmapTexture c.

Definition ExtractObjectConstants (sourceBatch : SourceBatch.t)
    (lightAccumulator : option LightAccumulator)
    (c : DrawCommandCompositor) : DrawCommandCompositor :=
  let c :=
    if EnabledFeatureFlags.ambientLighting_ (enabled_ c) then
      match lightAccumulator with
      | Some lightAccumulator =>
        if bool_decide (ambientMode_ (settings_ c) = AmbientMode_Flat) then
          let ambient :=
            SphericalHarmonicsDot9_EvaluateAverage (sphericalHarmonics_ lightAccumulator) in
          let o := object_ c in
          if gammaCorrection_ (settings_ c) then
            set_object_ (ObjectState.mk (ObjectState.sh_ o) (Vector4_of ambient one)
              (ObjectState.geometryType_ o) (ObjectState.worldTransform_ o)
              (ObjectState.numWorldTransforms_ o)) c
          else
            set_object_ (ObjectState.mk (ObjectState.sh_ o)
              (Color_LinearToGamma (Color_of ambient))
              (ObjectState.geometryType_ o) (ObjectState.worldTransform_ o)
              (ObjectState.numWorldTransforms_ o)) c
        else if bool_decide (ambientMode_ (settings_ c) = AmbientMode_Directional) then
          let o := object_ c in
          set_object_ (ObjectState.mk (Some (sphericalHarmonics_ lightAccumulator))
            (ObjectState.ambient_ o)
            (ObjectState.geometryType_ o) (ObjectState.worldTransform_ o)
            (ObjectState.numWorldTransforms_ o)) c
        else c
      | None => c
      end
    else c in
  let o := object_ c in
  set_object_ (ObjectState.mk (ObjectState.sh_ o) (ObjectState.ambient_ o)
    (SourceBatch.geometryType_ sourceBatch)
    (SourceBatch.worldTransform_ sourceBatch)
    (SourceBatch.numWorldTransforms_ sourceBatch)) c.

(** *** Commit changes to DrawQueue *)

Definition AddFrameConstants (c : DrawCommandCompositor) : DrawCommandCompositor :=
  let c := emit (AddShaderParameter VSP_DELTATIME (ValFloat (timeStep_ (frameInfo_ c)))) c in
  emit (AddShaderParameter VSP_ELAPSEDTIME (ValFloat (GetElapsedTime (scene_ c)))) c.

Definition AddCameraConstants (constantDepthBias : float)
    (c : DrawCommandCompositor) : DrawCommandCompositor :=
  let c := emit (AddShaderParameter VSP_GBUFFEROFFSETS
                   (ValVector4 (geometryBufferOffsetAndScale_ c))) c in

  let cameraEffectiveTransform := GetEffectiveWorldTransform (camera_ c) in
  let c := emit (AddShaderParameter VSP_CAMERAPOS
                   (ValVector3 (Matrix3x4_Translation cameraEffectiveTransform))) c in
  let c := emit (AddShaderParameter VSP_VIEWINV (ValMatrix3x4 cameraEffectiveTransform)) c in
  let c := emit (AddShaderParameter VSP_VIEW (ValMatrix3x4 (GetView (camera_ c)))) c in

  let nearClip := GetNearClip (camera_ c) in
  let farClip := GetFarClip (camera_ c) in
  let c := emit (AddShaderParameter VSP_NEARCLIP (ValFloat nearClip)) c in
  let c := emit (AddShaderParameter VSP_FARCLIP (ValFloat farClip)) c in

  let c :=
    match outputShadowSplit_ c with
    | Some outputShadowSplit =>
      let lightParams := GetShaderParams (GetLightProcessor outputShadowSplit) in
      emit (AddShaderParameter VSP_NORMALOFFSETSCALE
              (ValFloat (nth (Z.to_nat (GetSplitIndex outputShadowSplit))
                             (shadowNormalBias_ lightParams) zero))) c
    | None => c
    end in

  let c := emit (AddShaderParameter VSP_DEPTHMODE
                   (ValVector4 (GetCameraDepthModeParameter (camera_ c)))) c in
  let c := emit (AddShaderParameter PSP_DEPTHRECONSTRUCT
                   (ValVector4 (GetCameraDepthReconstructParameter (camera_ c)))) c in

  let farVector := snd (GetFrustumSize (camera_ c)) in
  let c := emit (AddShaderParameter VSP_FRUSTUMSIZE (ValVector3 farVector)) c in

  let c := emit (AddShaderParameter VSP_VIEWPROJ
                   (ValMatrix4 (GetEffectiveGPUViewProjection (camera_ c) constantDepthBias))) c in

  let ambientColorGamma :=
    Color_mul (GetEffectiveAmbientColor (camera_ c))
              (GetEffectiveAmbientBrightness (camera_ c)) in
  let c := emit (AddShaderParameter PSP_AMBIENTCOLOR
                   (ValVector4 (if gammaCorrection_ (settings_ c)
                                then Color_GammaToLinear ambientColorGamma
                                else ambientColorGamma))) c in
  let c := emit (AddShaderParameter PSP_FOGCOLOR
                   (ValVector4 (GetEffectiveFogColor (camera_ c)))) c in
  emit (AddShaderParameter PSP_FOGPARAMS (ValVector4 (GetFogParameter (camera_ c)))) c.

Definition AddVertexLightConstants (c : DrawCommandCompositor) : DrawCommandCompositor :=
  emit (AddShaderParameter VSP_VERTEXLIGHTS
          (ValVector4Span (CachedSharedState.vertexLightsData_ (current_ c)))) c.

Definition AddPixelLightConstants (params : LightShaderParameters)
    (c : DrawCommandCompositor) : DrawCommandCompositor :=
  let c := emit (AddShaderParameter VSP_LIGHTDIR (ValVector3 (direction_ params))) c in
  let c := emit (AddShaderParameter VSP_LIGHTPOS
                   (ValVector4 (Vector4_of (position_ params) (invRange_ params)))) c in
  let c := emit (AddShaderParameter PSP_LIGHTCOLOR
                   (ValVector4 (Vector4_of (GetColor params (gammaCorrection_ (settings_ c)))
                                           (specularIntensity_ params)))) c in

  let c := emit (AddShaderParameter PSP_LIGHTRAD (ValFloat (radius_ params))) c in
  let c := emit (AddShaderParameter PSP_LIGHTLENGTH (ValFloat (length_ params))) c in

  let c :=
    if 0 <? numLightMatrices_ params then
      let shadowMatricesSpan :=
        take (Z.to_nat (numLightMatrices_ params)) (lightMatrices_ params) in
      emit (AddShaderParameter VSP_LIGHTMATRICES (ValMatrix4Span shadowMatricesSpan)) c
    else c in

  if negb (shadowMap_ params =? nullptr) then
    let c := emit (AddShaderParameter PSP_SHADOWDEPTHFADE (ValVector4 (shadowDepthFade_ params))) c in
    let c := emit (AddShaderParameter PSP_SHADOWINTENSITY (ValVector4 (shadowIntensity_ params))) c in
    let c := emit (AddShaderParameter PSP_SHADOWMAPINVSIZE (ValVector2 (shadowMapInvSize_ params))) c in
    let c := emit (AddShaderParameter PSP_SHADOWSPLITS (ValVector4 (shadowSplits_ params))) c in
    let c := emit (AddShaderParameter PSP_SHADOWCUBEUVBIAS (ValVector2 (shadowCubeUVBias_ params))) c in
    let c := emit (AddShaderParameter PSP_SHADOWCUBEADJUST (ValVector4 (shadowCubeAdjust_ params))) c in
    emit (AddShaderParameter PSP_VSMSHADOWPARAMS (ValVector2 (vsmShadowParams_ (settings_ c)))) c
  else c.

Definition UpdateDirtyConstants (c : DrawCommandCompositor) : DrawCommandCompositor :=
  let c :=
    if DirtyStateFlags.pipelineState_ (dirty_ c) then
      let c := emit (SetPipelineState (CachedSharedState.pipelineState_ (current_ c))) c in
      dirty_set DirtyStateFlags.set_pipelineState_ false c
    else c in

  let c :=
    let differentFromPrevious := DirtyStateFlags.frameConstants_ (dirty_ c) in
    let began := BeginShaderParameterGroup_returns SP_FRAME differentFromPrevious c in
    let c := emit (BeginShaderParameterGroup SP_FRAME differentFromPrevious) c in
    if began then
      let c := AddFrameConstants c in
      let c := emit (CommitShaderParameterGroup SP_FRAME) c in
      dirty_set DirtyStateFlags.set_frameConstants_ false c
    else c in

  let c :=
    let differentFromPrevious := DirtyStateFlags.cameraConstants_ (dirty_ c) in
    let began := BeginShaderParameterGroup_returns SP_CAMERA differentFromPrevious c in
    let c := emit (BeginShaderParameterGroup SP_CAMERA differentFromPrevious) c in
    if began then
      let c := AddCameraConstants (CachedSharedState.constantDepthBias_ (current_ c)) c in
      let c := emit (CommitShaderParameterGroup SP_CAMERA) c in
      dirty_set DirtyStateFlags.set_cameraConstants_ false c
    else c in

  (* Commit pixel light constants once during shadow map rendering to support normal bias *)
  let c :=
    match outputShadowSplit_ c with
    | Some outputShadowSplit =>
      let began := BeginShaderParameterGroup_returns SP_LIGHT false c in
      let c := emit (BeginShaderParameterGroup SP_LIGHT false) c in
      if began then
        let params := GetShaderParams (GetLightProcessor outputShadowSplit) in
        let c := AddPixelLightConstants params c in
        emit (CommitShaderParameterGroup SP_LIGHT) c
      else c
    | None =>
      if EnabledFeatureFlags.anyLighting_ (enabled_ c) then
        let lightConstantsDirty :=
          DirtyStateFlags.pixelLightConstants_ (dirty_ c)
          || DirtyStateFlags.vertexLightConstants_ (dirty_ c) in
        let began := BeginShaderParameterGroup_returns SP_LIGHT lightConstantsDirty c in
        let c := emit (BeginShaderParameterGroup SP_LIGHT lightConstantsDirty) c in
        if began then
          let c := if EnabledFeatureFlags.vertexLighting_ (enabled_ c)
                   then AddVertexLightConstants c else c in
          let c := if CachedSharedState.pixelLightEnabled_ (current_ c) then
                     match CachedSharedState.pixelLightParams_ (current_ c) with
                     | Some params => AddPixelLightConstants params c
                     | None => c
                     end
                   else c in
          emit (CommitShaderParameterGroup SP_LIGHT) c
        else c
      else c
    end in

  let differentFromPrevious :=
    DirtyStateFlags.material_ (dirty_ c) || DirtyStateFlags.lightmapConstants_ (dirty_ c) in
  let began := BeginShaderParameterGroup_returns SP_MATERIAL differentFromPrevious c in
  let c := emit (BeginShaderParameterGroup SP_MATERIAL differentFromPrevious) c in
  if began then
    let materialParameters :=
      GetShaderParameters (Material_at heap (CachedSharedState.material_ (current_ c))) in
    let c := emit_all
      (map (fun parameter => AddShaderParameter (MaterialParameter (fst parameter)) (snd parameter))
           materialParameters) c in

    let c :=
      if EnabledFeatureFlags.ambientLighting_ (enabled_ c)
         && negb (CachedSharedState.lightmapScaleOffset_ (current_ c) =? nullptr)
      then emit (AddShaderParameter VSP_LMOFFSET
                   (ValVector4 (Vector4_at heap (CachedSharedState.lightmapScaleOffset_ (current_ c))))) c
      else c in

    emit (CommitShaderParameterGroup SP_MATERIAL) c
  else c.

Definition UpdateDirtyResources (c : DrawCommandCompositor) : DrawCommandCompositor :=
  let resourcesDirty :=
    DirtyStateFlags.material_ (dirty_ c)
    || DirtyStateFlags.lightmapTextures_ (dirty_ c)
    || DirtyStateFlags.pixelLightTextures_ (dirty_ c) in
  if resourcesDirty then
    let c := emit_all
      (map (fun desc => AddShaderResource (unit_ desc) (texture_ desc)) (globalResources_ c)) c in

    let materialTextures :=
      GetTextures (Material_at heap (CachedSharedState.material_ (current_ c))) in
    let c := emit_all
      (map (fun texture => AddShaderResource (fst texture) (snd texture))
           (List.filter (fun texture =>
                           (CachedSharedState.lightmapTexture_ (current_ c) =? nullptr)
                           || negb (bool_decide (fst texture = TU_EMISSIVE)))
                        materialTextures)) c in

    let c := if negb (CachedSharedState.lightmapTexture_ (current_ c) =? nullptr)
             then emit (AddShaderResource TU_EMISSIVE (CachedSharedState.lightmapTexture_ (current_ c))) c
             else c in
    let c := if negb (CachedSharedState.pixelLightRamp_ (current_ c) =? nullptr)
             then emit (AddShaderResource TU_LIGHTRAMP (CachedSharedState.pixelLightRamp_ (current_ c))) c
             else c in
    let c := if negb (CachedSharedState.pixelLightShape_ (current_ c) =? nullptr)
             then emit (AddShaderResource TU_LIGHTSHAPE (CachedSharedState.pixelLightShape_ (current_ c))) c
             else c in
    let c := if negb (CachedSharedState.pixelLightShadowMap_ (current_ c) =? nullptr)
             then emit (AddShaderResource TU_SHADOWMAP (CachedSharedState.pixelLightShadowMap_ (current_ c))) c
             else c in

    emit CommitShaderResources c
  else c.

Definition AddObjectConstants (c : DrawCommandCompositor) : DrawCommandCompositor :=
  let c :=
    if EnabledFeatureFlags.ambientLighting_ (enabled_ c) then
      if bool_decide (ambientMode_ (settings_ c) = AmbientMode_Flat) then
        emit (AddShaderParameter VSP_AMBIENT (ValVector4 (ObjectState.ambient_ (object_ c)))) c
      else if bool_decide (ambientMode_ (settings_ c) = AmbientMode_Directional) then
        match ObjectState.sh_ (object_ c) with
        | Some sh =>
          let c := emit (AddShaderParameter VSP_SHAR (ValVector4 (Ar_ sh))) c in
          let c := emit (AddShaderParameter VSP_SHAG (ValVector4 (Ag_ sh))) c in
          let c := emit (AddShaderParameter VSP_SHAB (ValVector4 (Ab_ sh))) c in
          let c := emit (AddShaderParameter VSP_SHBR (ValVector4 (Br_ sh))) c in
          let c := emit (AddShaderParameter VSP_SHBG (ValVector4 (Bg_ sh))) c in
          let c := emit (AddShaderParameter VSP_SHBB (ValVector4 (Bb_ sh))) c in
          emit (AddShaderParameter VSP_SHC (ValVector4 (C_ sh))) c
        | None => c
        end
      else c
    else c in

  let worldTransform := ObjectState.worldTransform_ (object_ c) in
  match ObjectState.geometryType_ (object_ c) with
  | GEOM_SKINNED =>
    emit (AddShaderParameter VSP_SKINMATRICES
            (ValMatrix3x4Span
               (take (Z.to_nat (ObjectState.numWorldTransforms_ (object_ c))) worldTransform))) c

  | GEOM_BILLBOARD =>
    let c := emit (AddShaderParameter VSP_MODEL (ValMatrix3x4 (nth 0 worldTransform []))) c in
    if 1 <? ObjectState.numWorldTransforms_ (object_ c) then
      emit (AddShaderParameter VSP_BILLBOARDROT
              (ValMatrix3 (Matrix3x4_RotationMatrix (nth 1 worldTransform [])))) c
    else
      emit (AddShaderParameter VSP_BILLBOARDROT
              (ValMatrix3 (Quaternion_RotationMatrix (GetWorldRotation (cameraNode_ c))))) c

  | _ =>
    emit (AddShaderParameter VSP_MODEL (ValMatrix3x4 (nth 0 worldTransform []))) c
  end.

Definition AddObjectInstanceData (c : DrawCommandCompositor) : DrawCommandCompositor :=
  let c := set_instancingBuffer_
    (SetElements (ElementsMatrix3x4 (ObjectState.worldTransform_ (object_ c))) 0 3
                 (instancingBuffer_ c)) c in
  if EnabledFeatureFlags.ambientLighting_ (enabled_ c) then
    if bool_decide (ambientMode_ (settings_ c) = AmbientMode_Flat) then
      set_instancingBuffer_
        (SetElements (ElementsVector4 (ObjectState.ambient_ (object_ c))) 3 1
                     (instancingBuffer_ c)) c
    else if bool_decide (ambientMode_ (settings_ c) = AmbientMode_Directional) then
      set_instancingBuffer_
        (SetElements (ElementsSphericalHarmonics (ObjectState.sh_ (object_ c))) 3 7
                     (instancingBuffer_ c)) c
    else c
  else c.

(** *** Draw ops *)

Definition DrawObject (c : DrawCommandCompositor) : DrawCommandCompositor :=
  let geometry := Geometry_at heap (CachedSharedState.geometry_ (current_ c)) in
  let indexBuffer := GetIndexBuffer geometry in
  let c :=
    if DirtyStateFlags.geometry_ (dirty_ c) then
      let c := emit (SetBuffers (GetVertexBuffers geometry) indexBuffer nullptr) c in
      dirty_set DirtyStateFlags.set_geometry_ false c
    else c in

  if negb (indexBuffer =? nullptr) then
    emit (DrawIndexed (GetIndexStart geometry) (GetIndexCount geometry)) c
  else
    emit (Draw (GetVertexStart geometry) (GetVertexCount geometry)) c.

(** The caller has checked [instancingGroup_.count_ > 0]. *)
Definition DrawObjectInstanced (c : DrawCommandCompositor) : DrawCommandCompositor :=
  let geometry := Geometry_at heap (InstancingGroupState.geometry_ (instancingGroup_ c)) in
  let c := emit (SetBuffers (GetVertexBuffers geometry) (GetIndexBuffer geometry)
                            (GetVertexBuffer (instancingBuffer_ c))) c in
  let c := emit (DrawIndexedInstanced (GetIndexStart geometry) (GetIndexCount geometry)
                   (InstancingGroupState.start_ (instancingGroup_ c))
                   (InstancingGroupState.count_ (instancingGroup_ c))) c in
  set_instancingGroup_
    (InstancingGroupState.mk (InstancingGroupState.geometry_ (instancingGroup_ c))
                             (InstancingGroupState.start_ (instancingGroup_ c)) 0) c.

(** *** Process batches *)

Definition resetInstancingGroup (c : DrawCommandCompositor) : bool :=
  (InstancingGroupState.count_ (instancingGroup_ c) =? 0)
  || DirtyStateFlags.IsAnyStateDirty (dirty_ c).

Definition beginInstancingGroup (pipelineBatch : PipelineBatch.t)
    (c : DrawCommandCompositor) : bool :=
  EnabledFeatureFlags.staticInstancing_ (enabled_ c)
  && bool_decide (PipelineBatch.geometryType_ pipelineBatch = GEOM_STATIC)
  && negb (GetIndexBuffer (Geometry_at heap (PipelineBatch.geometry_ pipelineBatch)) =? nullptr).

(** [ProcessBatch], up to the test of [resetInstancingGroup]: the object
    constants are extracted, the dirty flags and the cached state
    updated. *)
Definition afterDirtyChecks (pipelineBatch : PipelineBatch.t) (sourceBatch : SourceBatch.t)
    (c : DrawCommandCompositor) : DrawCommandCompositor :=
  let lightAccumulator :=
    if EnabledFeatureFlags.ambientLighting_ (enabled_ c)
       || EnabledFeatureFlags.vertexLighting_ (enabled_ c)
    then Some (GetGeometryLighting (drawableProcessor_ c) (PipelineBatch.drawableIndex_ pipelineBatch))
    else None in

  let c := ExtractObjectConstants sourceBatch lightAccumulator c in

  (* Update dirty flags and cached state *)
  let c := CheckDirtyCommonState pipelineBatch c in
  let c := if EnabledFeatureFlags.pixelLighting_ (enabled_ c)
           then CheckDirtyPixelLight pipelineBatch c else c in
  let c := if EnabledFeatureFlags.vertexLighting_ (enabled_ c) then
             match lightAccumulator with
             | Some lightAccumulator => CheckDirtyVertexLight lightAccumulator c
             | None => c
             end
           else c in
  if EnabledFeatureFlags.ambientLighting_ (enabled_ c)
  then CheckDirtyLightmap sourceBatch c else c.

(** [ProcessBatch], from the test of [resetInstancingGroup] on. *)
Definition finishBatch (pipelineBatch : PipelineBatch.t)
    (c : DrawCommandCompositor) : DrawCommandCompositor :=
  if resetInstancingGroup c then
    let c := if 0 <? InstancingGroupState.count_ (instancingGroup_ c)
             then DrawObjectInstanced c else c in

    let c := UpdateDirtyConstants c in
    let c := UpdateDirtyResources c in

    if beginInstancingGroup pipelineBatch c then
      let start := fst (AddInstance (instancingBuffer_ c)) in
      let c := set_instancingBuffer_ (snd (AddInstance (instancingBuffer_ c))) c in
      let c := set_instancingGroup_
        (InstancingGroupState.mk (CachedSharedState.geometry_ (current_ c)) start 1) c in
      AddObjectInstanceData c
    else
      let c := emit (BeginShaderParameterGroup SP_OBJECT true) c in
      let c := AddObjectConstants c in
      let c := emit (CommitShaderParameterGroup SP_OBJECT) c in

      DrawObject c
  else
    let g := instancingGroup_ c in
    let c := set_instancingGroup_
      (InstancingGroupState.mk (InstancingGroupState.geometry_ g)
                               (InstancingGroupState.start_ g)
                               (wrap32 (InstancingGroupState.count_ g + 1))) c in
    let c := set_instancingBuffer_ (snd (AddInstance (instancingBuffer_ c))) c in
    AddObjectInstanceData c.

Definition ProcessBatch (pipelineBatch : PipelineBatch.t) (sourceBatch : SourceBatch.t)
    (c : DrawCommandCompositor) : DrawCommandCompositor :=
  finishBatch pipelineBatch (afterDirtyChecks pipelineBatch sourceBatch c).

Definition ProcessSceneBatch (pipelineBatch : PipelineBatch.t)
    (c : DrawCommandCompositor) : DrawCommandCompositor :=
  ProcessBatch pipelineBatch (PipelineBatch.GetSourceBatch pipelineBatch) c.

Definition ProcessLightVolumeBatch (pipelineBatch : PipelineBatch.t)
    (c : DrawCommandCompositor) : DrawCommandCompositor :=
  let light := lights_ c (PipelineBatch.lightIndex_ pipelineBatch) in
  let transform := GetLight_GetVolumeTransform light (camera_ c) in
  let s := LightVolumeBatchHelpers.sourceBatch_ (lightVolumeHelpers_ c) in
  let c := set_lightVolumeHelpers_
    (LightVolumeBatchHelpers.mk transform
       (SourceBatch.mk (SourceBatch.geometryType_ s) [transform]
                       (SourceBatch.numWorldTransforms_ s)
                       (SourceBatch.lightmapScaleOffset_ s)
                       (SourceBatch.lightmapIndex_ s))) c in
  ProcessBatch pipelineBatch (LightVolumeBatchHelpers.sourceBatch_ (lightVolumeHelpers_ c)) c.

Definition FlushDrawCommands (c : DrawCommandCompositor) : DrawCommandCompositor :=
  if 0 <? InstancingGroupState.count_ (instancingGroup_ c)
  then DrawObjectInstanced c
  else c.

(** ** BatchRenderer *)

(** Each entry point returns its compositor as it is when the call ends:
    the draw queue and the instancing buffer are read off it. *)
Definition RenderBatches_ByState (self : BatchRenderer) (drawQueue : DrawCommandQueue)
    (camera : Camera) (flags : BatchRenderFlags) (batches : list PipelineBatchByState)
    (outputShadowSplit : option ShadowSplitProcessor) : DrawCommandCompositor :=
  let compositor := DrawCommandCompositor_new drawQueue (br_settings_ self)
    (br_drawableProcessor_ self) (br_instancingBuffer_ self) camera flags outputShadowSplit in

  let compositor :=
    fold_left (fun compositor sortedBatch =>
                 ProcessSceneBatch (byState_pipelineBatch_ sortedBatch) compositor)
              batches compositor in
  FlushDrawCommands compositor.

Definition RenderBatches_BackToFront (self : BatchRenderer) (drawQueue : DrawCommandQueue)
    (camera : Camera) (flags : BatchRenderFlags) (batches : list PipelineBatchBackToFront)
    (outputShadowSplit : option ShadowSplitProcessor) : DrawCommandCompositor :=
  let compositor := DrawCommandCompositor_new drawQueue (br_settings_ self)
    (br_drawableProcessor_ self) (br_instancingBuffer_ self) camera flags outputShadowSplit in

  let compositor :=
    fold_left (fun compositor sortedBatch =>
                 ProcessSceneBatch (backToFront_pipelineBatch_ sortedBatch) compositor)
              batches compositor in
  FlushDrawCommands compositor.

Definition RenderLightVolumeBatches (self : BatchRenderer) (drawQueue : DrawCommandQueue)
    (camera : Camera) (ctx : LightVolumeRenderContext)
    (batches : list PipelineBatchByState) : DrawCommandCompositor :=
  let compositor := DrawCommandCompositor_new drawQueue (br_settings_ self)
    (br_drawableProcessor_ self) (br_instancingBuffer_ self) camera
    [BatchRenderFlag_PixelLight] None in

  let compositor := SetGBufferParameters (ctx_geometryBufferOffsetAndScale_ ctx)
                                         (ctx_geometryBufferInvSize_ ctx) compositor in
  let compositor := SetGlobalResources (ctx_geometryBuffer_ ctx) compositor in

  let compositor :=
    fold_left (fun compositor sortedBatch =>
                 ProcessLightVolumeBatch (byState_pipelineBatch_ sortedBatch) compositor)
              batches compositor in
  FlushDrawCommands compositor.

End Compositor.

(** ** What is observed of a pass *)

Definition is_direct_draw (cmd : DrawCommand) : bool :=
  match cmd with DrawIndexed _ _ | Draw _ _ => true | _ => false end.

Definition is_instanced_draw (cmd : DrawCommand) : bool :=
  match cmd with DrawIndexedInstanced _ _ _ _ => true | _ => false end.

Definition is_draw (cmd : DrawCommand) : bool :=
  is_direct_draw cmd || is_instanced_draw cmd.


Definition is_object_commit (cmd : DrawCommand) : bool :=
  match cmd with CommitShaderParameterGroup SP_OBJECT => true | _ => false end.

(** Draw operations and commits of the object group: the commands the
    counting properties are about. *)
Definition is_key (cmd : DrawCommand) : bool :=
  is_direct_draw cmd || is_instanced_draw cmd || is_object_commit cmd.

Definition key_ops (c : DrawCommandCompositor) : list DrawCommand :=
  List.filter is_key (drawQueue_ c).

(** What most operations of the compositor leave alone. *)
Definition quiet (c : DrawCommandCompositor) :=
  (key_ops c, enabled_ c, instancingGroup_ c, instancingBuffer_ c).

(** How many commands of a queue satisfy [p]. *)
Definition count (p : DrawCommand -> bool) (q : DrawCommandQueue) : nat :=
  length (List.filter p q).

(** How many objects the draw commands of a queue draw: one for a direct
    draw, the instance count for an instanced draw. *)
Definition instances_of (cmd : DrawCommand) : Z :=
  match cmd with
  | DrawIndexed _ _ | Draw _ _ => 1
  | DrawIndexedInstanced _ _ _ instanceCount => instanceCount
  | _ => 0
  end.

Definition instances_drawn (q : DrawCommandQueue) : Z :=
  fold_right (fun cmd n => instances_of cmd + n) 0 q.

(** The objects the draw commands of a queue draw, in order: one object
    for a direct draw and, for an instanced draw, one object for each
    instance, with the slot of the instancing buffer it is read from. *)
Inductive DrawnObject :=
| DirectObject (draw : DrawCommand)
| InstancedObject (indexStart indexCount slot : Z).

Definition objects_of (cmd : DrawCommand) : list DrawnObject :=
  match cmd with
  | DrawIndexed _ _ | Draw _ _ => [DirectObject cmd]
  | DrawIndexedInstanced indexStart indexCount instanceStart instanceCount =>
    map (fun i => InstancedObject indexStart indexCount (instanceStart + Z.of_nat i))
        (seq 0 (Z.to_nat instanceCount))
  | _ => []
  end.

Definition objects_drawn (q : DrawCommandQueue) : list DrawnObject :=
  flat_map objects_of q.

(** The writes of world transforms into the instancing buffer, and those
    by which the batches drawn as instances have their world transform
    written once each and in order, each into its slot, the slots being
    taken from [slot] on in sequence. *)
Definition is_transform_write (write : Z * InstanceElements * Z * Z) : bool :=
  match write with
  | (_, ElementsMatrix3x4 _, _, _) => true
  | _ => false
  end.

Fixpoint transforms_for (slot : Z) (batches : list (bool * list Matrix3x4))
    : list (Z * InstanceElements * Z * Z) :=
  match batches with
  | [] => []
  | (true, worldTransform) :: batches =>
    (slot, ElementsMatrix3x4 worldTransform, 0, 3) :: transforms_for (slot + 1) batches
  | (false, _) :: batches => transforms_for slot batches
  end.

(** The constants of the object group: what [AddObjectConstants] adds. *)
Definition is_object_constant (name : ShaderParameterName) : bool :=
  match name with
  | VSP_AMBIENT | VSP_SHAR | VSP_SHAG | VSP_SHAB | VSP_SHBR | VSP_SHBG | VSP_SHBB | VSP_SHC
  | VSP_SKINMATRICES | VSP_MODEL | VSP_BILLBOARDROT => true
  | _ => false
  end.

(** The commands of the object group, and the draws. *)
Definition is_object_op (cmd : DrawCommand) : bool :=
  match cmd with
  | BeginShaderParameterGroup SP_OBJECT _ | CommitShaderParameterGroup SP_OBJECT => true
  | AddShaderParameter name _ => is_object_constant name
  | DrawIndexed _ _ | Draw _ _ | DrawIndexedInstanced _ _ _ _ => true
  | _ => false
  end.

(** The object constants extracted from the batch being processed, and
    the source batch kept for light volumes. *)
Definition objectView (c : DrawCommandCompositor) :=
  (object_ c, lightVolumeHelpers_ c).

(** The features of a light-volume pass: pixel lighting only. *)
Definition lightVolumeFeatures : EnabledFeatureFlags.t :=
  EnabledFeatureFlags.mk false false true true false.

(** What a batch looks like to the instancing accumulator when it arrives:
    whether the dirty checks reported anything, its geometry, and whether
    it may begin an instancing run. *)
Record BatchClass := mkBatchClass {
  anyStateDirty : bool;
  classGeometry : ptr;
  instancingEligible : bool
}.

(** Runs and direct draws of a classified batch sequence, [open] being
    the geometry of the run that is open when the sequence starts, if one
    is. A batch that arrives with a run open, nothing dirty and the
    geometry of the run extends the run, whether or not it is eligible;
    any other batch begins a run when it is eligible and is drawn directly
    when it is not. *)
Fixpoint partition (open : option ptr) (l : list BatchClass) : nat * nat :=
  match l with
  | [] => (0, 0)%nat
  | b :: l =>
    let continues :=
      match open with
      | Some geometry => negb (anyStateDirty b) && (geometry =? classGeometry b)
      | None => false
      end in
    if continues then partition open l
    else if instancingEligible b
         then (S (fst (partition (Some (classGeometry b)) l)),
               snd (partition (Some (classGeometry b)) l))
         else (fst (partition None l), S (snd (partition None l)))
  end.

(** The partition in the words of the specification: contiguous runs of
    batches with no dirty state, the same geometry and instancing
    eligibility, and one draw for each batch that is not eligible. [open]
    is the geometry of the run that is open, if one is. *)
Fixpoint partition_as_specified (open : option ptr) (l : list BatchClass) : nat * nat :=
  match l with
  | [] => (0, 0)%nat
  | b :: l =>
    if instancingEligible b then
      let continues :=
        match open with
        | Some geometry => negb (anyStateDirty b) && (geometry =? classGeometry b)
        | None => false
        end in
      if continues then partition_as_specified open l
      else (S (fst (partition_as_specified (Some (classGeometry b)) l)),
            snd (partition_as_specified (Some (classGeometry b)) l))
    else (fst (partition_as_specified None l), S (snd (partition_as_specified None l)))
  end.

(** The dirty flags and the cached keys, grouped by the check that
    maintains them: [CheckDirtyCommonState] (and [UpdateDirtyConstants] and
    [DrawObject], which clear flags), [CheckDirtyPixelLight],
    [CheckDirtyVertexLight] and [CheckDirtyLightmap]. *)
Definition commonView (c : DrawCommandCompositor) :=
  (DirtyStateFlags.pipelineState_ (dirty_ c),
   DirtyStateFlags.material_ (dirty_ c),
   DirtyStateFlags.geometry_ (dirty_ c),
   DirtyStateFlags.cameraConstants_ (dirty_ c),
   DirtyStateFlags.frameConstants_ (dirty_ c),
   CachedSharedState.pipelineState_ (current_ c),
   CachedSharedState.material_ (current_ c),
   CachedSharedState.geometry_ (current_ c),
   CachedSharedState.constantDepthBias_ (current_ c)).

Definition pixelLightView (c : DrawCommandCompositor) :=
  (DirtyStateFlags.pixelLightConstants_ (dirty_ c),
   DirtyStateFlags.pixelLightTextures_ (dirty_ c),
   CachedSharedState.pixelLightIndex_ (current_ c),
   CachedSharedState.pixelLightRamp_ (current_ c),
   CachedSharedState.pixelLightShape_ (current_ c),
   CachedSharedState.pixelLightShadowMap_ (current_ c)).

Definition vertexLightView (c : DrawCommandCompositor) :=
  (DirtyStateFlags.vertexLightConstants_ (dirty_ c),
   CachedSharedState.vertexLights_ (current_ c)).

Definition lightmapView (c : DrawCommandCompositor) :=
  (DirtyStateFlags.lightmapConstants_ (dirty_ c),
   DirtyStateFlags.lightmapTextures_ (dirty_ c),
   CachedSharedState.lightmapScaleOffset_ (current_ c),
   CachedSharedState.lightmapTexture_ (current_ c)).

(** The members of the compositor that are references to constant objects
    or constants themselves. *)
Definition environment (c : DrawCommandCompositor) :=
  (settings_ c, drawableProcessor_ c, frameInfo_ c, scene_ c, lights_ c, camera_ c,
   cameraNode_ c, outputShadowSplit_ c, enabled_ c).

Definition geometryFlag (c : DrawCommandCompositor) : bool :=
  DirtyStateFlags.geometry_ (dirty_ c).

(** The dirty flags that only the dirty checks assign. *)
Definition lightFlags (c : DrawCommandCompositor) :=
  (DirtyStateFlags.pixelLightConstants_ (dirty_ c),
   DirtyStateFlags.pixelLightTextures_ (dirty_ c),
   DirtyStateFlags.vertexLightConstants_ (dirty_ c),
   DirtyStateFlags.lightmapConstants_ (dirty_ c),
   DirtyStateFlags.lightmapTextures_ (dirty_ c),
   DirtyStateFlags.material_ (dirty_ c)).

(** The commands of the queue that satisfy [p], in order. *)
Definition emitted (p : DrawCommand -> bool) (c : DrawCommandCompositor) : list DrawCommand :=
  List.filter p (drawQueue_ c).

Definition is_set_pipeline_state (cmd : DrawCommand) : bool :=
  match cmd with SetPipelineState _ => true | _ => false end.

Definition is_set_buffers (cmd : DrawCommand) : bool :=
  match cmd with SetBuffers _ _ _ => true | _ => false end.

(** The commands that select what is drawn and with which pipeline state
    and buffers; the others set shader parameters and resources. *)
Definition is_binding_or_draw (cmd : DrawCommand) : bool :=
  is_set_pipeline_state cmd || is_set_buffers cmd || is_draw cmd.

(** The pipeline state and the buffers a draw appended to the queue would
    use: those of the last [SetPipelineState] and [SetBuffers] commands. *)
Definition bound_pipeline_state (q : DrawCommandQueue) : option DrawCommand :=
  last (List.filter is_set_pipeline_state q).

Definition bound_buffers (q : DrawCommandQueue) : option DrawCommand :=
  last (List.filter is_set_buffers q).

(** The elements of a sequence that differ from their predecessor,
    [previous] being the predecessor of the first. *)
Fixpoint changes (previous : ptr) (l : list ptr) : list ptr :=
  match l with
  | [] => []
  | x :: l => if previous =? x then changes x l else x :: changes x l
  end.

(** What the early returns of [CheckDirtyPixelLight] and
    [CheckDirtyLightmap] are decided by, with the texture flag each
    guards. *)
Definition pixelLightKey (c : DrawCommandCompositor) : bool * Z :=
  (DirtyStateFlags.pixelLightTextures_ (dirty_ c),
   CachedSharedState.pixelLightIndex_ (current_ c)).

Definition lightmapKey (c : DrawCommandCompositor) : bool * ptr :=
  (DirtyStateFlags.lightmapTextures_ (dirty_ c),
   CachedSharedState.lightmapScaleOffset_ (current_ c)).

Section PassObservations.
Context `{Externals} (heap : Heap).

(** The instanced draw that closes the open run of [c], if one is open. *)
Definition flush_ops (c : DrawCommandCompositor) : list DrawCommand :=
  if 0 <? InstancingGroupState.count_ (instancingGroup_ c) then
    let geometry := Geometry_at heap (InstancingGroupState.geometry_ (instancingGroup_ c)) in
    [DrawIndexedInstanced (GetIndexStart geometry) (GetIndexCount geometry)
       (InstancingGroupState.start_ (instancingGroup_ c))
       (InstancingGroupState.count_ (instancingGroup_ c))]
  else [].

(** The commands by which [DrawObjectInstanced] draws the open run of [c],
    if one is open. *)
Definition flush_commands (c : DrawCommandCompositor) : list DrawCommand :=
  if 0 <? InstancingGroupState.count_ (instancingGroup_ c) then
    let geometry := Geometry_at heap (InstancingGroupState.geometry_ (instancingGroup_ c)) in
    [SetBuffers (GetVertexBuffers geometry) (GetIndexBuffer geometry)
                (GetVertexBuffer (instancingBuffer_ c));
     DrawIndexedInstanced (GetIndexStart geometry) (GetIndexCount geometry)
       (InstancingGroupState.start_ (instancingGroup_ c))
       (InstancingGroupState.count_ (instancingGroup_ c))]
  else [].

(** The binding of the buffers of a geometry for a direct draw. *)
Definition bind_geometry (geometry : ptr) : DrawCommand :=
  let geometry := Geometry_at heap geometry in
  SetBuffers (GetVertexBuffers geometry) (GetIndexBuffer geometry) nullptr.

(** The buffers bound by the last [SetBuffers] of [q] are the vertex and
    index buffers of [geometry], with or without an instancing buffer. *)
Definition buffers_bound (q : DrawCommandQueue) (geometry : ptr) : Prop :=
  exists instancingBuffer,
    bound_buffers q
    = Some (SetBuffers (GetVertexBuffers (Geometry_at heap geometry))
                       (GetIndexBuffer (Geometry_at heap geometry)) instancingBuffer).

(** What the accumulator keeps for the buffers of a draw to be right: the
    group of an open run has the cached geometry, and with no run open the
    buffers bound are those of the cached geometry, if there is one. *)
Definition buffers_coherent (c : DrawCommandCompositor) : Prop :=
  0 <= InstancingGroupState.count_ (instancingGroup_ c)
  /\ (0 < InstancingGroupState.count_ (instancingGroup_ c) ->
      InstancingGroupState.geometry_ (instancingGroup_ c)
      = CachedSharedState.geometry_ (current_ c))
  /\ (InstancingGroupState.count_ (instancingGroup_ c) = 0 ->
      CachedSharedState.geometry_ (current_ c) = nullptr
      \/ buffers_bound (drawQueue_ c) (CachedSharedState.geometry_ (current_ c))).

(** The direct draw of a geometry: indexed when it has an index buffer. *)
Definition direct_draw (geometry : ptr) : DrawCommand :=
  let geometry := Geometry_at heap geometry in
  if negb (GetIndexBuffer geometry =? nullptr)
  then DrawIndexed (GetIndexStart geometry) (GetIndexCount geometry)
  else Draw (GetVertexStart geometry) (GetVertexCount geometry).

(** The objects by which batches are drawn once each and in order, given
    the geometry of each batch and whether it is drawn as an instance:
    a direct draw of its geometry, or an instance of its geometry at the
    next slot of the instancing buffer, the slots being taken from [slot]
    on in sequence. *)
Fixpoint objects_for (slot : Z) (batches : list (bool * ptr)) : list DrawnObject :=
  match batches with
  | [] => []
  | (true, geometry) :: batches =>
    InstancedObject (GetIndexStart (Geometry_at heap geometry))
                    (GetIndexCount (Geometry_at heap geometry)) slot
    :: objects_for (slot + 1) batches
  | (false, geometry) :: batches =>
    DirectObject (direct_draw geometry) :: objects_for slot batches
  end.

(** [dirty_.IsAnyStateDirty()] as [ProcessBatch] sees it for a batch
    arriving in state [c]. *)
Definition dirtyWhenProcessed (pipelineBatch : PipelineBatch.t) (sourceBatch : SourceBatch.t)
    (c : DrawCommandCompositor) : bool :=
  DirtyStateFlags.IsAnyStateDirty (dirty_ (afterDirtyChecks heap pipelineBatch sourceBatch c)).

(** The classes of the batches of a scene pass streamed from state [c]. *)
Fixpoint classify (batches : list PipelineBatch.t) (c : DrawCommandCompositor)
    : list BatchClass :=
  match batches with
  | [] => []
  | b :: batches =>
    mkBatchClass (dirtyWhenProcessed b (PipelineBatch.GetSourceBatch b) c)
                 (PipelineBatch.geometry_ b)
                 (beginInstancingGroup heap b c)
    :: classify batches (ProcessSceneBatch heap b c)
  end.

(** The batches accumulated into the open run once [pipelineBatch] has
    been processed from state [c], [run] being those accumulated before. *)
Definition accumulate (pipelineBatch : PipelineBatch.t) (sourceBatch : SourceBatch.t)
    (c : DrawCommandCompositor) (run : list PipelineBatch.t) : list PipelineBatch.t :=
  if resetInstancingGroup (afterDirtyChecks heap pipelineBatch sourceBatch c) then
    if beginInstancingGroup heap pipelineBatch c then [pipelineBatch] else []
  else run ++ [pipelineBatch].

(** The states a compositor goes through, each with the batches of its
    open instancing run. [ProcessSceneBatch] and [ProcessLightVolumeBatch]
    are [ProcessBatch] steps, the latter after an assignment to
    [lightVolumeHelpers_]. *)
Inductive reachable : DrawCommandCompositor -> list PipelineBatch.t -> Prop :=
| reachable_new drawQueue settings drawableProcessor instancingBuffer renderCamera
                flags outputShadowSplit :
    reachable (DrawCommandCompositor_new drawQueue settings drawableProcessor
                 instancingBuffer renderCamera flags outputShadowSplit) []
| reachable_SetGBufferParameters c run offsetAndScale invSize :
    reachable c run ->
    reachable (SetGBufferParameters offsetAndScale invSize c) run
| reachable_SetGlobalResources c run globalResources :
    reachable c run ->
    reachable (SetGlobalResources globalResources c) run
| reachable_lightVolumeHelpers c run helpers :
    reachable c run ->
    reachable (set_lightVolumeHelpers_ helpers c) run
| reachable_ProcessBatch c run pipelineBatch sourceBatch :
    reachable c run ->
    reachable (ProcessBatch heap pipelineBatch sourceBatch c)
              (accumulate pipelineBatch sourceBatch c run)
| reachable_FlushDrawCommands c run :
    reachable c run ->
    reachable (FlushDrawCommands heap c) [].

(** What the final flush of a pass amounts to. [c] is the compositor
    when the batches have been streamed, [run] the batches accumulated
    into its instancing group and not drawn yet, [c'] the compositor when
    the entry point returns. [c'] is [FlushDrawCommands] of [c]; the count
    of [c] is the number of batches of [run]; if [run] is not empty the
    queue has grown by the binding of the buffers and one instanced draw
    of as many instances as [run] has batches, from [start_] on, and by
    nothing otherwise; the group of [c'] is that of [c] with no count. *)
Definition final_flush (c c' : DrawCommandCompositor) (run : list PipelineBatch.t) : Prop :=
  reachable c run
  /\ c' = FlushDrawCommands heap c
  /\ InstancingGroupState.count_ (instancingGroup_ c) = Z.of_nat (length run)
  /\ drawQueue_ c'
     = drawQueue_ c
       ++ (match run with
           | [] => []
           | _ :: _ =>
             let geometry :=
               Geometry_at heap (InstancingGroupState.geometry_ (instancingGroup_ c)) in
             [SetBuffers (GetVertexBuffers geometry) (GetIndexBuffer geometry)
                         (GetVertexBuffer (instancingBuffer_ c));
              DrawIndexedInstanced (GetIndexStart geometry) (GetIndexCount geometry)
                (InstancingGroupState.start_ (instancingGroup_ c))
                (Z.of_nat (length run))]
           end)
  /\ instancingGroup_ c'
     = InstancingGroupState.mk (InstancingGroupState.geometry_ (instancingGroup_ c))
                               (InstancingGroupState.start_ (instancingGroup_ c)) 0.

(** The depth-mode constant as the specification words it: [x = 1] for an
    orthographic camera, with [z/w] being [0.5/0.5] under OpenGL and [0/1]
    otherwise; [{0, 0, 0, 1/farClip}] for a perspective camera. *)
Definition depth_mode_as_specified (camera : Camera) : Prop :=
  let depthMode := GetCameraDepthModeParameter camera in
  (IsOrthographic camera = true ->
     x_ depthMode = one
     /\ (if URHO3D_OPENGL
         then z_ depthMode = half /\ w_ depthMode = half
         else z_ depthMode = zero /\ w_ depthMode = one))
  /\ (IsOrthographic camera = false ->
        depthMode = mkVector4 zero zero zero (div one (GetFarClip camera))).

End PassObservations.

(** ** Sample builds, scenes and batches

    Concrete inputs on which the definitions above are run. *)

Module Sample.

(** [M_EPSILON = 0.000001f] and [M_LARGE_EPSILON = 0.00005f] as binary32
    numbers. *)
Definition epsilon : float := S754_finite false 8796093 (-43).
Definition large_epsilon : float := S754_finite false 13743895 (-38).

(** A build: with or without [URHO3D_OPENGL]; a queue that opens a group
    exactly when told that it differs from the previous one. *)
Definition build (opengl : bool) : Externals :=
  {| URHO3D_OPENGL := opengl;
     M_EPSILON := epsilon;
     M_LARGE_EPSILON := large_epsilon;
     default_invRange := zero;
     default_cutoff := S754_finite true 8388608 (-22);
     default_invCutoff := one;
     Matrix3x4_Translation := fun _ => Vector3_ZERO;
     Matrix3x4_RotationMatrix := fun _ => [];
     Quaternion_RotationMatrix := fun _ => [];
     Color_GammaToLinear := fun c => c;
     Color_LinearToGamma := fun c => c;
     SphericalHarmonicsDot9_EvaluateAverage := fun _ => Vector3_ZERO;
     DrawCommandQueue_BeginShaderParameterGroup := fun _ _ differentFromPrevious => differentFromPrevious |}.

Definition float_100 : float := S754_finite false 13107200 (-17).
Definition float_80 : float := S754_finite false 10485760 (-17).

Definition camera (orthographic : bool) : Camera :=
  {| IsOrthographic := orthographic;
     GetNearClip := one;
     GetFarClip := float_100;
     GetEffectiveFogStart := float_80;
     GetEffectiveWorldTransform := [];
     GetView := [];
     GetFrustumSize := (Vector3_ZERO, Vector3_ZERO);
     GetEffectiveGPUViewProjection := fun _ => [];
     GetEffectiveAmbientColor := Vector4_ZERO;
     GetEffectiveAmbientBrightness := one;
     GetEffectiveFogColor := Vector4_ZERO;
     GetNode := mkNode [] |}.

(** A camera whose near and far clip planes coincide. *)
Definition degenerateCamera : Camera :=
  {| IsOrthographic := false;
     GetNearClip := float_100;
     GetFarClip := float_100;
     GetEffectiveFogStart := float_80;
     GetEffectiveWorldTransform := [];
     GetView := [];
     GetFrustumSize := (Vector3_ZERO, Vector3_ZERO);
     GetEffectiveGPUViewProjection := fun _ => [];
     GetEffectiveAmbientColor := Vector4_ZERO;
     GetEffectiveAmbientBrightness := one;
     GetEffectiveFogColor := Vector4_ZERO;
     GetNode := mkNode [] |}.

(** Geometries 1 and 2 are indexed (index buffer at 100 and 200), every
    other geometry has no index buffer. Material 1 has a diffuse and an
    emissive texture. *)
Definition heap : Heap :=
  {| PipelineState_GetDesc := fun _ => PipelineStateDesc.mk zero;
     Geometry_at := fun p =>
       if p =? 1 then mkGeometry [10] 100 0 36 0 24
       else if p =? 2 then mkGeometry [20] 200 0 60 0 40
       else mkGeometry [30] nullptr 0 0 0 12;
     Material_at := fun p =>
       if p =? 1 then mkMaterial [] [(TU_DIFFUSE, 500); (TU_EMISSIVE, 501)]
       else mkMaterial [] [];
     Vector4_at := fun _ => Vector4_ZERO |}.

(** Light 0 has a ramp texture (at 700); every other light has none. *)
Definition lightParams (index : Z) : LightShaderParameters :=
  {| direction_ := Vector3_ZERO;
     position_ := Vector3_ZERO;
     invRange_ := one;
     shadowMap_ := nullptr;
     lightRamp_ := if index =? 0 then 700 else nullptr;
     lightShape_ := nullptr;
     numLightMatrices_ := 0;
     lightMatrices_ := [];
     GetColor := fun _ => mkVector3 one one one;
     specularIntensity_ := one;
     radius_ := zero;
     length_ := zero;
     shadowCubeAdjust_ := Vector4_ZERO;
     shadowDepthFade_ := Vector4_ZERO;
     shadowIntensity_ := Vector4_ZERO;
     shadowMapInvSize_ := mkVector2 zero zero;
     shadowCubeUVBias_ := mkVector2 zero zero;
     shadowSplits_ := Vector4_ZERO;
     shadowNormalBias_ := [];
     cutoff_ := zero;
     invCutoff_ := one |}.

Definition sphericalHarmonics : SphericalHarmonicsDot9 :=
  mkSphericalHarmonicsDot9 Vector4_ZERO Vector4_ZERO Vector4_ZERO Vector4_ZERO
                           Vector4_ZERO Vector4_ZERO Vector4_ZERO.

(** Lightmap 0 is the texture at 900. Drawable 7 is lit by vertex lights
    0 and 1; the other drawables by none. *)
Definition drawableProcessor : DrawableProcessor :=
  {| GetFrameInfo := mkFrameInfo one (mkScene one (fun index => if index =? 0 then 900 else nullptr));
     GetLightProcessors := fun index => mkLightProcessor (lightParams index) (fun _ => []);
     GetGeometryLighting := fun drawableIndex =>
       mkLightAccumulator sphericalHarmonics
         (if drawableIndex =? 7
          then [0; 1; M_MAX_UNSIGNED; M_MAX_UNSIGNED]
          else [M_MAX_UNSIGNED; M_MAX_UNSIGNED; M_MAX_UNSIGNED; M_MAX_UNSIGNED]) |}.

Definition settings : BatchRendererSettings :=
  mkBatchRendererSettings false AmbientMode_Flat (mkVector2 zero zero).

Definition renderer : BatchRenderer :=
  mkBatchRenderer settings drawableProcessor (mkInstancingBufferCompositor 50 0 []).

(** An unlit batch without lightmap. *)
Definition batch (pipelineState material geometry : ptr) (geometryType : GeometryType)
    : PipelineBatch.t :=
  PipelineBatch.mk pipelineState material geometry 0 M_MAX_UNSIGNED geometryType
    (SourceBatch.mk geometryType [[]] 1 nullptr 0).

(** A batch lit per pixel by light [lightIndex]. *)
Definition litBatch (pipelineState material geometry : ptr) (lightIndex : Z)
    : PipelineBatch.t :=
  PipelineBatch.mk pipelineState material geometry 0 lightIndex GEOM_STATIC
    (SourceBatch.mk GEOM_STATIC [[]] 1 nullptr 0).

(** A batch with a lightmap: scale and offset at [lightmapScaleOffset]. *)
Definition lightmappedBatch (pipelineState material geometry lightmapScaleOffset : ptr)
    : PipelineBatch.t :=
  PipelineBatch.mk pipelineState material geometry 0 M_MAX_UNSIGNED GEOM_STATIC
    (SourceBatch.mk GEOM_STATIC [[]] 1 lightmapScaleOffset 0).

Definition byState (batches : list PipelineBatch.t) : list PipelineBatchByState :=
  map (fun b => mkPipelineBatchByState b 0) batches.

(** The compositor a scene pass of [renderer] starts from, over an empty
    queue, in a build without OpenGL. *)
Definition compositor (flags : BatchRenderFlags) : DrawCommandCompositor :=
  DrawCommandCompositor_new [] settings drawableProcessor
    (br_instancingBuffer_ renderer) (camera false) flags None.

(** The compositor [RenderBatches] returns for [batches]. *)
Definition scenePass (flags : BatchRenderFlags) (batches : list PipelineBatch.t)
    : DrawCommandCompositor :=
  RenderBatches_ByState (H := build false) heap renderer [] (camera false) flags
    (byState batches) None.

(** The compositor after [batches] have been processed, before the final
    flush. *)
Definition processed (flags : BatchRenderFlags) (batches : list PipelineBatch.t)
    : DrawCommandCompositor :=
  fold_left (fun c b => ProcessSceneBatch (H := build false) heap b c) batches
            (compositor flags).

End Sample.

(** * Properties *)

(** ** Shader constants *)

Section ShaderConstantFacts.
Context `{Externals}.

Lemma gt_positive (x eps : float) :
  lt zero eps = true -> gt x eps = true -> lt zero x = true.
Proof.
  unfold lt, gt, SFltb.
  destruct eps as [[]|[]| |[] me ee], x as [[]|[]| |[] mx ex];
    simpl; try discriminate; try reflexivity.
Qed.

Lemma Max_positive (x eps : float) :
  lt zero eps = true -> lt zero (Max x eps) = true.
Proof.
  intros Heps. unfold Max.
  destruct (gt x eps) eqn:Hgt; [ | exact Heps ].
  exact (gt_positive x eps Heps Hgt).
Qed.

Lemma positive_not_zero (x : float) : lt zero x = true -> is_zero x = false.
Proof. destruct x as [[]|[]| |[] m e]; simpl; try discriminate; reflexivity. Qed.

(** C4. [GetFogParameter] takes both the fog start and the fog end from
    [Min(GetEffectiveFogStart(), farClip)], moves the start down to
    [fogEnd * (1 - M_LARGE_EPSILON)] when it is not below that value, and
    divides the far clip by [Max(fogEnd - fogStart, M_EPSILON)], which is
    strictly positive (in particular neither a zero nor a NaN) as soon
    as [M_EPSILON] is; the result is
    [{fogEnd / farClip, farClip / fogRange, 0, 0}]. *)
Theorem GetFogParameter_spec (camera : Camera) :
  lt zero M_EPSILON = true ->
  let farClip := GetFarClip camera in
  let fogEnd := Min (GetEffectiveFogStart camera) farClip in
  let fogStart :=
    if ge fogEnd (mul fogEnd (sub one M_LARGE_EPSILON))
    then mul fogEnd (sub one M_LARGE_EPSILON)
    else fogEnd in
  let fogRange := Max (sub fogEnd fogStart) M_EPSILON in
  lt zero fogRange = true
  /\ is_zero fogRange = false
  /\ GetFogParameter camera
     = mkVector4 (div fogEnd farClip) (div farClip fogRange) zero zero.
Proof.
  intros Heps farClip fogEnd fogStart fogRange.
  assert (Hpos : lt zero fogRange = true) by (apply Max_positive; exact Heps).
  split; [ exact Hpos | split; [ apply positive_not_zero; exact Hpos | reflexivity ] ].
Qed.

(** C5, as the code has it. The depth-mode constant of an orthographic
    camera is [{1, 0, 0.5, 0.5}] in an OpenGL build and [{1, 0, 1, 0}]
    otherwise; that of a perspective camera is [{0, 0, 0, 1/farClip}]. *)
Theorem GetCameraDepthModeParameter_spec (camera : Camera) :
  GetCameraDepthModeParameter camera =
    if IsOrthographic camera then
      if URHO3D_OPENGL
      then mkVector4 one zero half half
      else mkVector4 one zero one zero
    else mkVector4 zero zero zero (div one (GetFarClip camera)).
Proof.
  unfold GetCameraDepthModeParameter.
  destruct (IsOrthographic camera); [ destruct URHO3D_OPENGL | ]; reflexivity.
Qed.

End ShaderConstantFacts.

(** The specification's fog example: far clip 100 and effective fog start
    80 give a fog range of 0.004 and the constant [{0.8, 25000, 0, 0}] up
    to rounding. *)
Lemma GetFogParameter_spec_witness :
  lt zero (@M_EPSILON (Sample.build false)) = true
  /\ GetFogParameter (H := Sample.build false) (Sample.camera false)
     = mkVector4 (S754_finite false 13421773 (-24)) (S754_finite false 12807035 (-9))
                 zero zero.
Proof.
  split; [ reflexivity | ].
  destruct (GetFogParameter_spec (H := Sample.build false) (Sample.camera false) eq_refl)
    as (_ & _ & ->).
  reflexivity.
Defined.

(** C5, as the specification words it, fails for an orthographic camera in a
    build without OpenGL: there [z = 1] and [w = 0]. *)
Lemma depth_mode_as_specified_fails :
  ~ depth_mode_as_specified (H := Sample.build false) (Sample.camera true).
Proof.
  intros [Hortho _].
  destruct (Hortho eq_refl) as [_ [Hz _]].
  discriminate Hz.
Qed.

(** ** Frame properties of the compositor's operations

    [quiet c] is what most operations leave alone: the draw operations and
    object commits emitted so far, the enabled features, the instancing
    group and the instancing buffer. *)

Lemma filter_map_none {A B} (p : B -> bool) (f : A -> B) (l : list A) :
  (forall a, p (f a) = false) -> List.filter p (map f l) = [].
Proof.
  intros Hp. induction l as [ | a l IH ]; simpl; [ reflexivity | ].
  rewrite Hp. exact IH.
Qed.

(** The operations are reasoned about through their lemmas, never through
    their bodies. *)
Arguments AddFrameConstants : simpl never.
Arguments AddCameraConstants : simpl never.
Arguments AddVertexLightConstants : simpl never.
Arguments AddPixelLightConstants : simpl never.
Arguments UpdateDirtyConstants : simpl never.
Arguments UpdateDirtyResources : simpl never.
Arguments AddObjectConstants : simpl never.
Arguments AddObjectInstanceData : simpl never.
Arguments ExtractObjectConstants : simpl never.
Arguments CheckDirtyCommonState : simpl never.
Arguments CheckDirtyPixelLight : simpl never.
Arguments CheckDirtyVertexLight : simpl never.
Arguments CheckDirtyLightmap : simpl never.
Arguments DrawObject : simpl never.
Arguments DrawObjectInstanced : simpl never.
Arguments afterDirtyChecks : simpl never.
Arguments finishBatch : simpl never.
Arguments ProcessBatch : simpl never.
Arguments ProcessSceneBatch : simpl never.
Arguments ProcessLightVolumeBatch : simpl never.
Arguments FlushDrawCommands : simpl never.
Arguments DrawCommandCompositor_new : simpl never.
Arguments emit : simpl never.
Arguments emit_all : simpl never.
Arguments dirty_set : simpl never.
Arguments current_set : simpl never.

Section Setters.
Variable c : DrawCommandCompositor.

Lemma drawQueue_emit cmd : drawQueue_ (emit cmd c) = drawQueue_ c ++ [cmd].
Proof. destruct c; reflexivity. Qed.

Lemma key_ops_emit cmd :
  key_ops (emit cmd c) = key_ops c ++ (if is_key cmd then [cmd] else []).
Proof.
  unfold key_ops. rewrite drawQueue_emit, List.filter_app. simpl.
  destruct (is_key cmd); reflexivity.
Qed.

Lemma key_ops_emit_skip cmd : is_key cmd = false -> key_ops (emit cmd c) = key_ops c.
Proof. intros Hcmd. rewrite key_ops_emit, Hcmd. apply app_nil_r. Qed.

Lemma key_ops_emit_key cmd : is_key cmd = true -> key_ops (emit cmd c) = key_ops c ++ [cmd].
Proof. intros Hcmd. rewrite key_ops_emit, Hcmd. reflexivity. Qed.

Lemma quiet_emit_skip cmd : is_key cmd = false -> quiet (emit cmd c) = quiet c.
Proof.
  intros Hcmd. unfold quiet. rewrite key_ops_emit, Hcmd, app_nil_r.
  destruct c; reflexivity.
Qed.
Lemma quiet_dirty_set s v : quiet (dirty_set s v c) = quiet c.
Proof. destruct c; reflexivity. Qed.
Lemma quiet_current_set {A} s (v : A) : quiet (current_set s v c) = quiet c.
Proof. destruct c; reflexivity. Qed.
Lemma quiet_set_object_ v : quiet (set_object_ v c) = quiet c.
Proof. destruct c; reflexivity. Qed.
Lemma quiet_set_lightVolumeHelpers_ v : quiet (set_lightVolumeHelpers_ v c) = quiet c.
Proof. destruct c; reflexivity. Qed.

Lemma key_ops_set_instancingGroup_ v : key_ops (set_instancingGroup_ v c) = key_ops c.
Proof. destruct c; reflexivity. Qed.
Lemma key_ops_set_instancingBuffer_ v : key_ops (set_instancingBuffer_ v c) = key_ops c.
Proof. destruct c; reflexivity. Qed.
Lemma key_ops_dirty_set s v : key_ops (dirty_set s v c) = key_ops c.
Proof. destruct c; reflexivity. Qed.

Lemma enabled_emit cmd : enabled_ (emit cmd c) = enabled_ c.
Proof. destruct c; reflexivity. Qed.
Lemma enabled_dirty_set s v : enabled_ (dirty_set s v c) = enabled_ c.
Proof. destruct c; reflexivity. Qed.
Lemma enabled_set_instancingGroup_ v : enabled_ (set_instancingGroup_ v c) = enabled_ c.
Proof. destruct c; reflexivity. Qed.
Lemma enabled_set_instancingBuffer_ v : enabled_ (set_instancingBuffer_ v c) = enabled_ c.
Proof. destruct c; reflexivity. Qed.

Lemma instancingGroup_emit cmd : instancingGroup_ (emit cmd c) = instancingGroup_ c.
Proof. destruct c; reflexivity. Qed.
Lemma instancingGroup_dirty_set s v : instancingGroup_ (dirty_set s v c) = instancingGroup_ c.
Proof. destruct c; reflexivity. Qed.
Lemma instancingGroup_set_instancingGroup_ v : instancingGroup_ (set_instancingGroup_ v c) = v.
Proof. destruct c; reflexivity. Qed.
Lemma instancingGroup_set_instancingBuffer_ v :
  instancingGroup_ (set_instancingBuffer_ v c) = instancingGroup_ c.
Proof. destruct c; reflexivity. Qed.

Lemma instancingBuffer_emit cmd : instancingBuffer_ (emit cmd c) = instancingBuffer_ c.
Proof. destruct c; reflexivity. Qed.
Lemma instancingBuffer_dirty_set s v : instancingBuffer_ (dirty_set s v c) = instancingBuffer_ c.
Proof. destruct c; reflexivity. Qed.
Lemma instancingBuffer_set_instancingGroup_ v :
  instancingBuffer_ (set_instancingGroup_ v c) = instancingBuffer_ c.
Proof. destruct c; reflexivity. Qed.
Lemma instancingBuffer_set_instancingBuffer_ v : instancingBuffer_ (set_instancingBuffer_ v c) = v.
Proof. destruct c; reflexivity. Qed.

Lemma current_emit cmd : current_ (emit cmd c) = current_ c.
Proof. destruct c; reflexivity. Qed.
Lemma current_dirty_set s v : current_ (dirty_set s v c) = current_ c.
Proof. destruct c; reflexivity. Qed.
Lemma current_current_set {A} s (v : A) : current_ (current_set s v c) = s v (current_ c).
Proof. destruct c; reflexivity. Qed.
Lemma current_set_object_ v : current_ (set_object_ v c) = current_ c.
Proof. destruct c; reflexivity. Qed.
Lemma current_set_instancingGroup_ v : current_ (set_instancingGroup_ v c) = current_ c.
Proof. destruct c; reflexivity. Qed.
Lemma current_set_instancingBuffer_ v : current_ (set_instancingBuffer_ v c) = current_ c.
Proof. destruct c; reflexivity. Qed.
Lemma current_set_lightVolumeHelpers_ v : current_ (set_lightVolumeHelpers_ v c) = current_ c.
Proof. destruct c; reflexivity. Qed.

Lemma drawQueue_dirty_set s v : drawQueue_ (dirty_set s v c) = drawQueue_ c.
Proof. destruct c; reflexivity. Qed.
Lemma dirty_dirty_set s v : dirty_ (dirty_set s v c) = s v (dirty_ c).
Proof. destruct c; reflexivity. Qed.
Lemma dirty_current_set {A} s (v : A) : dirty_ (current_set s v c) = dirty_ c.
Proof. destruct c; reflexivity. Qed.

End Setters.

Lemma drawQueue_emit_all cmds c : drawQueue_ (emit_all cmds c) = drawQueue_ c ++ cmds.
Proof.
  unfold emit_all. revert c. induction cmds as [ | cmd cmds IH ]; intros c; cbn [fold_left].
  - symmetry. apply app_nil_r.
  - rewrite IH, drawQueue_emit, <- app_assoc. reflexivity.
Qed.

Lemma emit_all_frame {A} (P : DrawCommandCompositor -> A) cmds c :
  (forall cmd c, In cmd cmds -> P (emit cmd c) = P c) -> P (emit_all cmds c) = P c.
Proof.
  unfold emit_all. revert c.
  induction cmds as [ | cmd cmds IH ]; intros c HP; cbn [fold_left].
  - reflexivity.
  - rewrite IH.
    + apply HP. left. reflexivity.
    + intros cmd' c' Hin. apply HP. right. exact Hin.
Qed.

Lemma quiet_emit_all_map_skip {A} (f : A -> DrawCommand) l c :
  (forall a, is_key (f a) = false) -> quiet (emit_all (map f l) c) = quiet c.
Proof.
  intros Hf. apply emit_all_frame. intros cmd c' Hin.
  apply quiet_emit_skip. apply in_map_iff in Hin. destruct Hin as (a & <- & _). apply Hf.
Qed.

Lemma current_emit_all cmds c : current_ (emit_all cmds c) = current_ c.
Proof. apply emit_all_frame. intros. apply current_emit. Qed.

Lemma quiet_inv c c' :
  quiet c' = quiet c ->
  key_ops c' = key_ops c /\ enabled_ c' = enabled_ c
  /\ instancingGroup_ c' = instancingGroup_ c /\ instancingBuffer_ c' = instancingBuffer_ c.
Proof. unfold quiet. intros Hq. injection Hq as -> -> -> ->. repeat split. Qed.

Create Rewrite HintDb frame.
#[local] Hint Rewrite
  quiet_dirty_set @quiet_current_set quiet_set_object_ quiet_set_lightVolumeHelpers_
  key_ops_set_instancingGroup_ key_ops_set_instancingBuffer_ key_ops_dirty_set
  enabled_emit enabled_dirty_set enabled_set_instancingGroup_ enabled_set_instancingBuffer_
  instancingGroup_emit instancingGroup_dirty_set instancingGroup_set_instancingBuffer_
  instancingBuffer_emit instancingBuffer_dirty_set instancingBuffer_set_instancingGroup_
  current_emit current_dirty_set current_set_object_ current_set_instancingGroup_
  current_set_instancingBuffer_ current_set_lightVolumeHelpers_ current_emit_all
  : frame.

(** The goal [P (...) = R], for a state transformer written with [let],
    [if] and [match], is carried from each intermediate state to the next. *)
Ltac frame_rewrite :=
  first
    [ rewrite quiet_emit_skip by reflexivity
    | rewrite quiet_emit_all_map_skip by (intros; reflexivity)
    | progress autorewrite with frame ].

Ltac frame :=
  lazymatch goal with
  | |- ?P (let x := ?e in @?B x) = ?R =>
      let T := type of e in
      lazymatch T with
      | DrawCommandCompositor =>
          tryif is_var e then (change (P (B e) = R); cbv beta; frame)
          else (let c' := fresh "c" in
                let Hc := fresh "Hc" in
                assert (Hc : P e = R) by frame;
                revert Hc; generalize e; intros c' Hc;
                change (P (B c') = R); cbv beta; frame)
      | _ => change (P (B e) = R); cbv beta; frame
      end
  | |- ?P (if ?b then _ else _) = _ => destruct b; frame
  | |- ?P (match ?o with _ => _ end) = _ => destruct o; frame
  | |- ?P ?c = ?P ?c => reflexivity
  | H : ?P ?c = ?R |- ?P ?c = ?R => exact H
  | |- _ => frame_rewrite; frame
  end.

Tactic Notation "frame_of" reference(f) := cbv beta delta [f]; frame.

Section Frames.
Context `{Externals} (heap : Heap).

Lemma quiet_AddFrameConstants c : quiet (AddFrameConstants c) = quiet c.
Proof. frame_of AddFrameConstants. Qed.
Lemma quiet_AddCameraConstants bias c : quiet (AddCameraConstants bias c) = quiet c.
Proof. frame_of AddCameraConstants. Qed.
Lemma quiet_AddVertexLightConstants c : quiet (AddVertexLightConstants c) = quiet c.
Proof. frame_of AddVertexLightConstants. Qed.
Lemma quiet_AddPixelLightConstants params c : quiet (AddPixelLightConstants params c) = quiet c.
Proof. frame_of AddPixelLightConstants. Qed.

Lemma current_AddFrameConstants c : current_ (AddFrameConstants c) = current_ c.
Proof. frame_of AddFrameConstants. Qed.
Lemma current_AddCameraConstants bias c : current_ (AddCameraConstants bias c) = current_ c.
Proof. frame_of AddCameraConstants. Qed.
Lemma current_AddVertexLightConstants c : current_ (AddVertexLightConstants c) = current_ c.
Proof. frame_of AddVertexLightConstants. Qed.
Lemma current_AddPixelLightConstants params c :
  current_ (AddPixelLightConstants params c) = current_ c.
Proof. frame_of AddPixelLightConstants. Qed.

Hint Rewrite quiet_AddFrameConstants quiet_AddCameraConstants quiet_AddVertexLightConstants
  quiet_AddPixelLightConstants current_AddFrameConstants current_AddCameraConstants
  current_AddVertexLightConstants current_AddPixelLightConstants : frame.

Lemma quiet_UpdateDirtyConstants c : quiet (UpdateDirtyConstants heap c) = quiet c.
Proof. frame_of UpdateDirtyConstants. Qed.
Lemma current_UpdateDirtyConstants c : current_ (UpdateDirtyConstants heap c) = current_ c.
Proof. frame_of UpdateDirtyConstants. Qed.

Lemma quiet_UpdateDirtyResources c : quiet (UpdateDirtyResources heap c) = quiet c.
Proof. frame_of UpdateDirtyResources. Qed.
Lemma current_UpdateDirtyResources c : current_ (UpdateDirtyResources heap c) = current_ c.
Proof. frame_of UpdateDirtyResources. Qed.

Lemma quiet_AddObjectConstants c : quiet (AddObjectConstants c) = quiet c.
Proof. frame_of AddObjectConstants. Qed.
Lemma current_AddObjectConstants c : current_ (AddObjectConstants c) = current_ c.
Proof. frame_of AddObjectConstants. Qed.

Lemma quiet_ExtractObjectConstants sourceBatch lightAccumulator c :
  quiet (ExtractObjectConstants sourceBatch lightAccumulator c) = quiet c.
Proof. frame_of ExtractObjectConstants. Qed.
Lemma current_ExtractObjectConstants sourceBatch lightAccumulator c :
  current_ (ExtractObjectConstants sourceBatch lightAccumulator c) = current_ c.
Proof. frame_of ExtractObjectConstants. Qed.

Lemma quiet_CheckDirtyCommonState pipelineBatch c :
  quiet (CheckDirtyCommonState heap pipelineBatch c) = quiet c.
Proof. frame_of CheckDirtyCommonState. Qed.
Lemma quiet_CheckDirtyPixelLight pipelineBatch c :
  quiet (CheckDirtyPixelLight pipelineBatch c) = quiet c.
Proof. frame_of CheckDirtyPixelLight. Qed.
Lemma quiet_CheckDirtyVertexLight lightAccumulator c :
  quiet (CheckDirtyVertexLight lightAccumulator c) = quiet c.
Proof. frame_of CheckDirtyVertexLight. Qed.
Lemma quiet_CheckDirtyLightmap sourceBatch c :
  quiet (CheckDirtyLightmap sourceBatch c) = quiet c.
Proof. frame_of CheckDirtyLightmap. Qed.

Hint Rewrite quiet_UpdateDirtyConstants current_UpdateDirtyConstants
  quiet_UpdateDirtyResources current_UpdateDirtyResources
  quiet_AddObjectConstants current_AddObjectConstants
  quiet_ExtractObjectConstants current_ExtractObjectConstants
  quiet_CheckDirtyCommonState quiet_CheckDirtyPixelLight
  quiet_CheckDirtyVertexLight quiet_CheckDirtyLightmap : frame.

Lemma quiet_afterDirtyChecks pipelineBatch sourceBatch c :
  quiet (afterDirtyChecks heap pipelineBatch sourceBatch c) = quiet c.
Proof. frame_of afterDirtyChecks. Qed.

(** The dirty checks after [CheckDirtyCommonState] leave the cached
    geometry and its dirty flag alone. *)
Lemma CheckDirtyPixelLight_geometry pipelineBatch c :
  CachedSharedState.geometry_ (current_ (CheckDirtyPixelLight pipelineBatch c))
  = CachedSharedState.geometry_ (current_ c)
  /\ DirtyStateFlags.geometry_ (dirty_ (CheckDirtyPixelLight pipelineBatch c))
     = DirtyStateFlags.geometry_ (dirty_ c).
Proof.
  destruct c as [? ? ? ? ? ? ? ? ? ? ? ? ? ? [] [] ? ? ?].
  cbv [CheckDirtyPixelLight current_set dirty_set]. simpl.
  repeat (case_match; simpl); split; reflexivity.
Qed.

Lemma CheckDirtyVertexLight_geometry lightAccumulator c :
  CachedSharedState.geometry_ (current_ (CheckDirtyVertexLight lightAccumulator c))
  = CachedSharedState.geometry_ (current_ c)
  /\ DirtyStateFlags.geometry_ (dirty_ (CheckDirtyVertexLight lightAccumulator c))
     = DirtyStateFlags.geometry_ (dirty_ c).
Proof.
  destruct c as [? ? ? ? ? ? ? ? ? ? ? ? ? ? [] [] ? ? ?].
  cbv [CheckDirtyVertexLight current_set dirty_set]. simpl.
  repeat (case_match; simpl); split; reflexivity.
Qed.

Lemma CheckDirtyLightmap_geometry sourceBatch c :
  CachedSharedState.geometry_ (current_ (CheckDirtyLightmap sourceBatch c))
  = CachedSharedState.geometry_ (current_ c)
  /\ DirtyStateFlags.geometry_ (dirty_ (CheckDirtyLightmap sourceBatch c))
     = DirtyStateFlags.geometry_ (dirty_ c).
Proof.
  destruct c as [? ? ? ? ? ? ? ? ? ? ? ? ? ? [] [] ? ? ?].
  cbv [CheckDirtyLightmap current_set dirty_set]. simpl.
  repeat (case_match; simpl); split; reflexivity.
Qed.

Lemma CheckDirtyCommonState_geometry pipelineBatch c :
  CachedSharedState.geometry_ (current_ (CheckDirtyCommonState heap pipelineBatch c))
  = PipelineBatch.geometry_ pipelineBatch
  /\ DirtyStateFlags.geometry_ (dirty_ (CheckDirtyCommonState heap pipelineBatch c))
     = negb (CachedSharedState.geometry_ (current_ c) =? PipelineBatch.geometry_ pipelineBatch).
Proof.
  destruct c as [? ? ? ? ? ? ? ? ? ? ? ? ? ? [] [] ? ? ?].
  cbv [CheckDirtyCommonState current_set dirty_set]. simpl.
  repeat (case_match; simpl); split; reflexivity.
Qed.

Lemma dirty_ExtractObjectConstants sourceBatch lightAccumulator c :
  dirty_ (ExtractObjectConstants sourceBatch lightAccumulator c) = dirty_ c.
Proof.
  destruct c. cbv [ExtractObjectConstants]. simpl.
  repeat (case_match; simpl); reflexivity.
Qed.

(** After the dirty checks the cached geometry is that of the batch, and
    its dirty flag tells whether it differs from the one cached before. *)
Lemma afterDirtyChecks_geometry pipelineBatch sourceBatch c :
  CachedSharedState.geometry_ (current_ (afterDirtyChecks heap pipelineBatch sourceBatch c))
  = PipelineBatch.geometry_ pipelineBatch
  /\ DirtyStateFlags.geometry_ (dirty_ (afterDirtyChecks heap pipelineBatch sourceBatch c))
     = negb (CachedSharedState.geometry_ (current_ c) =? PipelineBatch.geometry_ pipelineBatch).
Proof.
  cbv beta delta [afterDirtyChecks].
  match goal with |- context [let lightAccumulator := ?e in _] => generalize e end.
  intros la. cbv zeta.
  set (c0 := ExtractObjectConstants sourceBatch la c).
  destruct (CheckDirtyCommonState_geometry pipelineBatch c0) as [Hcur Hdirty].
  unfold c0 in Hdirty at 2. rewrite current_ExtractObjectConstants in Hdirty.
  set (c1 := CheckDirtyCommonState heap pipelineBatch c0) in *.
  repeat match goal with
  | |- context [if ?b then _ else _] => destruct b
  | |- context [match ?o with Some _ => _ | None => _ end] => destruct o
  end;
  repeat match goal with
  | |- context [CheckDirtyLightmap ?s ?x] =>
      destruct (CheckDirtyLightmap_geometry s x) as [-> ->]
  | |- context [CheckDirtyVertexLight ?s ?x] =>
      destruct (CheckDirtyVertexLight_geometry s x) as [-> ->]
  | |- context [CheckDirtyPixelLight ?s ?x] =>
      destruct (CheckDirtyPixelLight_geometry s x) as [-> ->]
  end; split; assumption.
Qed.

End Frames.

(** ** One batch *)

Section BatchSteps.
Context `{Externals} (heap : Heap).

Lemma ProcessBatch_split pipelineBatch sourceBatch c :
  ProcessBatch heap pipelineBatch sourceBatch c
  = finishBatch heap pipelineBatch (afterDirtyChecks heap pipelineBatch sourceBatch c).
Proof. reflexivity. Qed.

(** *** The draw operations *)

Lemma FlushDrawCommands_key_ops c :
  key_ops (FlushDrawCommands heap c) = key_ops c ++ flush_ops heap c.
Proof.
  cbv beta delta [FlushDrawCommands flush_ops DrawObjectInstanced].
  destruct (0 <? InstancingGroupState.count_ (instancingGroup_ c)).
  - cbv zeta.
    rewrite key_ops_set_instancingGroup_, key_ops_emit_key, key_ops_emit_skip
      by reflexivity.
    rewrite !instancingGroup_emit. reflexivity.
  - symmetry. apply app_nil_r.
Qed.

Lemma FlushDrawCommands_instancingGroup c :
  instancingGroup_ (FlushDrawCommands heap c)
  = if 0 <? InstancingGroupState.count_ (instancingGroup_ c)
    then InstancingGroupState.mk (InstancingGroupState.geometry_ (instancingGroup_ c))
                                 (InstancingGroupState.start_ (instancingGroup_ c)) 0
    else instancingGroup_ c.
Proof.
  cbv beta delta [FlushDrawCommands DrawObjectInstanced].
  destruct (0 <? InstancingGroupState.count_ (instancingGroup_ c)); [ | reflexivity ].
  cbv zeta. rewrite instancingGroup_set_instancingGroup_, !instancingGroup_emit. reflexivity.
Qed.

Lemma enabled_FlushDrawCommands c : enabled_ (FlushDrawCommands heap c) = enabled_ c.
Proof. cbv beta delta [FlushDrawCommands DrawObjectInstanced]. frame. Qed.
Lemma instancingBuffer_FlushDrawCommands c :
  instancingBuffer_ (FlushDrawCommands heap c) = instancingBuffer_ c.
Proof. cbv beta delta [FlushDrawCommands DrawObjectInstanced]. frame. Qed.
Lemma current_FlushDrawCommands c : current_ (FlushDrawCommands heap c) = current_ c.
Proof. cbv beta delta [FlushDrawCommands DrawObjectInstanced]. frame. Qed.

Lemma key_ops_AddObjectInstanceData c : key_ops (AddObjectInstanceData c) = key_ops c.
Proof. frame_of AddObjectInstanceData. Qed.
Lemma enabled_AddObjectInstanceData c : enabled_ (AddObjectInstanceData c) = enabled_ c.
Proof. frame_of AddObjectInstanceData. Qed.
Lemma instancingGroup_AddObjectInstanceData c :
  instancingGroup_ (AddObjectInstanceData c) = instancingGroup_ c.
Proof. frame_of AddObjectInstanceData. Qed.
Lemma current_AddObjectInstanceData c : current_ (AddObjectInstanceData c) = current_ c.
Proof. frame_of AddObjectInstanceData. Qed.

Lemma enabled_DrawObject c : enabled_ (DrawObject heap c) = enabled_ c.
Proof. frame_of DrawObject. Qed.
Lemma instancingGroup_DrawObject c : instancingGroup_ (DrawObject heap c) = instancingGroup_ c.
Proof. frame_of DrawObject. Qed.
Lemma instancingBuffer_DrawObject c : instancingBuffer_ (DrawObject heap c) = instancingBuffer_ c.
Proof. frame_of DrawObject. Qed.
Lemma current_DrawObject c : current_ (DrawObject heap c) = current_ c.
Proof. frame_of DrawObject. Qed.

(** [DrawObject] binds the buffers when the geometry is dirty and issues
    one direct draw of the cached geometry. *)
Lemma DrawObject_drawQueue c :
  drawQueue_ (DrawObject heap c)
  = drawQueue_ c
    ++ (if DirtyStateFlags.geometry_ (dirty_ c)
        then let geometry := Geometry_at heap (CachedSharedState.geometry_ (current_ c)) in
             [SetBuffers (GetVertexBuffers geometry) (GetIndexBuffer geometry) nullptr]
        else [])
    ++ [direct_draw heap (CachedSharedState.geometry_ (current_ c))].
Proof.
  cbv beta delta [DrawObject direct_draw]. cbv zeta.
  destruct (DirtyStateFlags.geometry_ (dirty_ c));
    destruct (negb (GetIndexBuffer (Geometry_at heap (CachedSharedState.geometry_ (current_ c)))
                    =? nullptr));
    rewrite ?drawQueue_emit, ?drawQueue_dirty_set, ?drawQueue_emit, <- ?app_assoc;
    reflexivity.
Qed.

Lemma direct_draw_is_direct geometry : is_direct_draw (direct_draw heap geometry) = true.
Proof. unfold direct_draw. cbv zeta. case_match; reflexivity. Qed.

Lemma direct_draw_is_key geometry : is_key (direct_draw heap geometry) = true.
Proof. unfold is_key. rewrite direct_draw_is_direct. reflexivity. Qed.

Lemma DrawObject_key_ops c :
  key_ops (DrawObject heap c)
  = key_ops c ++ [direct_draw heap (CachedSharedState.geometry_ (current_ c))].
Proof.
  unfold key_ops. rewrite DrawObject_drawQueue, !List.filter_app.
  cbn [List.filter]. rewrite direct_draw_is_key.
  destruct (DirtyStateFlags.geometry_ (dirty_ c)); reflexivity.
Qed.

(** *** Projections of the quiet operations *)

Lemma UpdateDirty_quiet c :
  quiet (UpdateDirtyResources heap (UpdateDirtyConstants heap c)) = quiet c.
Proof. rewrite quiet_UpdateDirtyResources. apply quiet_UpdateDirtyConstants. Qed.

Lemma UpdateDirty_current c :
  current_ (UpdateDirtyResources heap (UpdateDirtyConstants heap c)) = current_ c.
Proof. rewrite current_UpdateDirtyResources. apply current_UpdateDirtyConstants. Qed.

Lemma beginInstancingGroup_enabled pipelineBatch c c' :
  enabled_ c' = enabled_ c ->
  beginInstancingGroup heap pipelineBatch c' = beginInstancingGroup heap pipelineBatch c.
Proof. unfold beginInstancingGroup. intros ->. reflexivity. Qed.

(** *** The second half of [ProcessBatch] *)

(** At a flush point: the open run is drawn, then the batch either begins
    a run or is drawn directly with its object constants committed. *)
Lemma finishBatch_reset pipelineBatch c :
  resetInstancingGroup c = true ->
  let c' := finishBatch heap pipelineBatch c in
  key_ops c'
  = key_ops c ++ flush_ops heap c
    ++ (if beginInstancingGroup heap pipelineBatch c then []
        else [CommitShaderParameterGroup SP_OBJECT;
              direct_draw heap (CachedSharedState.geometry_ (current_ c))])
  /\ instancingGroup_ c'
     = (if beginInstancingGroup heap pipelineBatch c
        then InstancingGroupState.mk (CachedSharedState.geometry_ (current_ c))
                                     (nextVertex_ (instancingBuffer_ c)) 1
        else instancingGroup_ (FlushDrawCommands heap c))
  /\ enabled_ c' = enabled_ c
  /\ current_ c' = current_ c.
Proof.
  intros Hreset. cbv beta delta [finishBatch]. rewrite Hreset.
  change (if 0 <? InstancingGroupState.count_ (instancingGroup_ c)
          then DrawObjectInstanced heap c else c) with (FlushDrawCommands heap c).
  cbv zeta.
  set (c1 := FlushDrawCommands heap c).
  set (c2 := UpdateDirtyResources heap (UpdateDirtyConstants heap c1)).
  destruct (quiet_inv _ _ (UpdateDirty_quiet c1)) as (Hk & He & Hg & Hb).
  pose proof (UpdateDirty_current c1) as Hc.
  fold c2 in Hk, He, Hg, Hb, Hc.
  assert (He1 : enabled_ c2 = enabled_ c)
    by (rewrite He; apply enabled_FlushDrawCommands).
  rewrite (beginInstancingGroup_enabled pipelineBatch c c2 He1).
  destruct (beginInstancingGroup heap pipelineBatch c).
  - rewrite key_ops_AddObjectInstanceData, instancingGroup_AddObjectInstanceData,
      enabled_AddObjectInstanceData, current_AddObjectInstanceData.
    rewrite key_ops_set_instancingGroup_, key_ops_set_instancingBuffer_,
      instancingGroup_set_instancingGroup_, enabled_set_instancingGroup_,
      enabled_set_instancingBuffer_, !current_set_instancingGroup_,
      !current_set_instancingBuffer_.
    rewrite Hk, Hc, Hb. unfold c1.
    rewrite FlushDrawCommands_key_ops, current_FlushDrawCommands,
      instancingBuffer_FlushDrawCommands, app_nil_r.
    repeat split; assumption.
  - rewrite DrawObject_key_ops, instancingGroup_DrawObject, enabled_DrawObject,
      !current_DrawObject.
    rewrite key_ops_emit_key by reflexivity.
    destruct (quiet_inv _ _ (quiet_AddObjectConstants
                               (emit (BeginShaderParameterGroup SP_OBJECT true) c2)))
      as (Hk' & He' & Hg' & _).
    rewrite !current_emit, !current_AddObjectConstants, !current_emit.
    rewrite instancingGroup_emit, enabled_emit, Hk', He', Hg'.
    rewrite key_ops_emit_skip by reflexivity.
    rewrite instancingGroup_emit, enabled_emit.
    rewrite Hk, Hc, Hg. unfold c1.
    rewrite FlushDrawCommands_key_ops, current_FlushDrawCommands, <- !app_assoc.
    repeat split; assumption.
Qed.

(** Otherwise the batch joins the open run. *)
Lemma finishBatch_continue pipelineBatch c :
  resetInstancingGroup c = false ->
  let c' := finishBatch heap pipelineBatch c in
  key_ops c' = key_ops c
  /\ instancingGroup_ c'
     = InstancingGroupState.mk (InstancingGroupState.geometry_ (instancingGroup_ c))
         (InstancingGroupState.start_ (instancingGroup_ c))
         (wrap32 (InstancingGroupState.count_ (instancingGroup_ c) + 1))
  /\ enabled_ c' = enabled_ c
  /\ current_ c' = current_ c.
Proof.
  intros Hreset. cbv beta delta [finishBatch]. rewrite Hreset. cbv zeta.
  rewrite key_ops_AddObjectInstanceData, instancingGroup_AddObjectInstanceData,
    enabled_AddObjectInstanceData, current_AddObjectInstanceData.
  rewrite key_ops_set_instancingBuffer_, key_ops_set_instancingGroup_,
    instancingGroup_set_instancingBuffer_, instancingGroup_set_instancingGroup_,
    enabled_set_instancingBuffer_, enabled_set_instancingGroup_,
    current_set_instancingBuffer_, current_set_instancingGroup_.
  repeat split.
Qed.

End BatchSteps.

(** ** A batch as the instancing accumulator sees it *)

Section BatchView.
Context `{Externals} (heap : Heap).

Lemma flush_ops_instancingGroup c c' :
  instancingGroup_ c' = instancingGroup_ c -> flush_ops heap c' = flush_ops heap c.
Proof. unfold flush_ops. intros ->. reflexivity. Qed.

Lemma IsAnyStateDirty_geometry d :
  DirtyStateFlags.IsAnyStateDirty d = false -> DirtyStateFlags.geometry_ d = false.
Proof.
  unfold DirtyStateFlags.IsAnyStateDirty. intros Hd.
  apply orb_false_iff in Hd. apply Hd.
Qed.

(** What [ProcessBatch] does to the draw operations, the instancing group
    and the cached geometry. *)
Lemma ProcessBatch_step pipelineBatch sourceBatch c :
  let c' := ProcessBatch heap pipelineBatch sourceBatch c in
  enabled_ c' = enabled_ c
  /\ CachedSharedState.geometry_ (current_ c') = PipelineBatch.geometry_ pipelineBatch
  /\ if resetInstancingGroup (afterDirtyChecks heap pipelineBatch sourceBatch c)
     then
       key_ops c'
       = key_ops c ++ flush_ops heap c
         ++ (if beginInstancingGroup heap pipelineBatch c then []
             else [CommitShaderParameterGroup SP_OBJECT;
                   direct_draw heap (PipelineBatch.geometry_ pipelineBatch)])
       /\ instancingGroup_ c'
          = (if beginInstancingGroup heap pipelineBatch c
             then InstancingGroupState.mk (PipelineBatch.geometry_ pipelineBatch)
                                          (nextVertex_ (instancingBuffer_ c)) 1
             else instancingGroup_ (FlushDrawCommands heap c))
     else
       key_ops c' = key_ops c
       /\ instancingGroup_ c'
          = InstancingGroupState.mk (InstancingGroupState.geometry_ (instancingGroup_ c))
              (InstancingGroupState.start_ (instancingGroup_ c))
              (wrap32 (InstancingGroupState.count_ (instancingGroup_ c) + 1))
       /\ CachedSharedState.geometry_ (current_ c) = PipelineBatch.geometry_ pipelineBatch.
Proof.
  unfold ProcessBatch. cbv zeta.
  destruct (quiet_inv _ _ (quiet_afterDirtyChecks heap pipelineBatch sourceBatch c))
    as (Hk & He & Hg & Hb).
  destruct (afterDirtyChecks_geometry heap pipelineBatch sourceBatch c) as [Hcur Hdirty].
  revert Hk He Hg Hb Hcur Hdirty.
  generalize (afterDirtyChecks heap pipelineBatch sourceBatch c).
  intros c1 Hk He Hg Hb Hcur Hdirty.
  destruct (resetInstancingGroup c1) eqn:Hreset.
  - destruct (finishBatch_reset heap pipelineBatch c1 Hreset) as (Hk' & Hg' & He' & Hc').
    rewrite Hk', Hg', He', Hc', Hcur, Hk, Hb, He.
    rewrite (flush_ops_instancingGroup c c1 Hg).
    rewrite (beginInstancingGroup_enabled heap pipelineBatch c c1 He).
    rewrite !FlushDrawCommands_instancingGroup, Hg.
    repeat split.
  - destruct (finishBatch_continue heap pipelineBatch c1 Hreset) as (Hk' & Hg' & He' & Hc').
    rewrite Hk', Hg', He', Hc', Hcur, Hk, Hg, He.
    repeat split.
    unfold resetInstancingGroup in Hreset. apply orb_false_iff in Hreset.
    destruct Hreset as [_ Hclean]. apply IsAnyStateDirty_geometry in Hclean.
    rewrite Hdirty in Hclean. apply negb_false_iff, Z.eqb_eq in Hclean. exact Hclean.
Qed.

Lemma resetInstancingGroup_afterDirtyChecks pipelineBatch sourceBatch c :
  resetInstancingGroup (afterDirtyChecks heap pipelineBatch sourceBatch c)
  = (InstancingGroupState.count_ (instancingGroup_ c) =? 0)
    || dirtyWhenProcessed heap pipelineBatch sourceBatch c.
Proof.
  unfold resetInstancingGroup, dirtyWhenProcessed.
  destruct (quiet_inv _ _ (quiet_afterDirtyChecks heap pipelineBatch sourceBatch c))
    as (_ & _ & -> & _).
  reflexivity.
Qed.

End BatchView.

(** ** The instancing run *)

Lemma wrap32_range z : 0 <= wrap32 z < UNSIGNED_MODULUS.
Proof. unfold wrap32, UNSIGNED_MODULUS. apply Z.mod_pos_bound. lia. Qed.

Lemma wrap32_succ z : wrap32 (wrap32 z + 1) = wrap32 (z + 1).
Proof. unfold wrap32, UNSIGNED_MODULUS. rewrite Zplus_mod_idemp_l. reflexivity. Qed.

Lemma wrap32_small z : 0 <= z < UNSIGNED_MODULUS -> wrap32 z = z.
Proof. unfold wrap32. apply Z.mod_small. Qed.

Section InstancingRun.
Context `{Externals} (heap : Heap).

Local Abbreviation count_of c := (InstancingGroupState.count_ (instancingGroup_ c)).

(** The count of the instancing group is the length of the open run. *)
Lemma reachable_count (c : DrawCommandCompositor) (run : list PipelineBatch.t) :
  reachable heap c run -> count_of c = wrap32 (Z.of_nat (length run)).
Proof.
  induction 1 as [ | c run ? ? _ IH | c run ? _ IH | c run ? _ IH
                 | c run pipelineBatch sourceBatch _ IH | c run _ IH ].
  - reflexivity.
  - destruct c; exact IH.
  - destruct c; exact IH.
  - destruct c; exact IH.
  - pose proof (wrap32_range (Z.of_nat (length run))) as Hrange.
    destruct (ProcessBatch_step heap pipelineBatch sourceBatch c) as (_ & _ & Hstep).
    unfold accumulate.
    destruct (resetInstancingGroup (afterDirtyChecks heap pipelineBatch sourceBatch c)).
    + destruct Hstep as [_ ->].
      destruct (beginInstancingGroup heap pipelineBatch c); [ reflexivity | ].
      rewrite FlushDrawCommands_instancingGroup.
      rewrite IH in *.
      destruct (0 <? wrap32 (Z.of_nat (length run))) eqn:Hopen; [ reflexivity | ].
      apply Z.ltb_ge in Hopen. change (wrap32 (Z.of_nat (length []))) with 0. lia.
    + destruct Hstep as (_ & -> & _).
      cbn [InstancingGroupState.count_].
      rewrite IH, wrap32_succ, length_app, Nat2Z.inj_add. reflexivity.
  - pose proof (wrap32_range (Z.of_nat (length run))) as Hrange.
    rewrite FlushDrawCommands_instancingGroup, IH.
    destruct (0 <? wrap32 (Z.of_nat (length run))) eqn:Hopen; [ reflexivity | ].
    apply Z.ltb_ge in Hopen. change (wrap32 (Z.of_nat (length []))) with 0. lia.
Qed.

(** C3. In every state a compositor goes through there is one instancing
    group, whose count is the number of batches accumulated into the open
    run (modulo [2^32]); whenever the count is positive, the geometry of
    the group is the cached geometry and the geometry of every batch
    accumulated into the run. *)
Theorem instancing_run_invariant (c : DrawCommandCompositor) (run : list PipelineBatch.t) :
  reachable heap c run ->
  count_of c = wrap32 (Z.of_nat (length run))
  /\ (0 < count_of c ->
      InstancingGroupState.geometry_ (instancingGroup_ c)
      = CachedSharedState.geometry_ (current_ c)
      /\ forall b, In b run ->
           PipelineBatch.geometry_ b = InstancingGroupState.geometry_ (instancingGroup_ c)).
Proof.
  induction 1 as [ | c run ? ? _ IH | c run ? _ IH | c run ? _ IH
                 | c run pipelineBatch sourceBatch _ IH | c run _ IH ].
  - split; [ reflexivity | ].
    cbv [DrawCommandCompositor_new instancingGroup_ InstancingGroupState.init
         InstancingGroupState.count_]. lia.
  - destruct c; exact IH.
  - destruct c; exact IH.
  - destruct c; exact IH.
  - destruct IH as [Hcount Hrun].
    pose proof (wrap32_range (Z.of_nat (length run))) as Hrange.
    destruct (ProcessBatch_step heap pipelineBatch sourceBatch c) as (_ & Hcur & Hstep).
    unfold accumulate.
    destruct (resetInstancingGroup (afterDirtyChecks heap pipelineBatch sourceBatch c))
      eqn:Hreset.
    + destruct Hstep as [_ ->].
      destruct (beginInstancingGroup heap pipelineBatch c).
      * cbn [InstancingGroupState.count_ InstancingGroupState.geometry_].
        split; [ reflexivity | ].
        intros _. split; [ symmetry; exact Hcur | ].
        intros b [<- | []]. reflexivity.
      * rewrite FlushDrawCommands_instancingGroup.
        destruct (0 <? count_of c) eqn:Hopen;
          cbn [InstancingGroupState.count_ InstancingGroupState.geometry_].
        -- split; [ reflexivity | lia ].
        -- apply Z.ltb_ge in Hopen.
           assert (Hzero : count_of c = 0) by lia.
           rewrite Hzero. split; [ reflexivity | lia ].
    + destruct Hstep as (_ & -> & Hsame).
      cbn [InstancingGroupState.count_ InstancingGroupState.geometry_].
      rewrite resetInstancingGroup_afterDirtyChecks in Hreset.
      apply orb_false_iff in Hreset. destruct Hreset as [Hopen _].
      apply Z.eqb_neq in Hopen.
      destruct (Hrun ltac:(lia)) as [Hgeometry Hall].
      split.
      * rewrite Hcount, wrap32_succ, length_app, Nat2Z.inj_add. reflexivity.
      * intros _. split; [ congruence | ].
        intros b Hin. apply in_app_or in Hin. destruct Hin as [Hin | [<- | []]].
        -- apply Hall, Hin.
        -- congruence.
  - destruct IH as [Hcount _].
    pose proof (wrap32_range (Z.of_nat (length run))) as Hrange.
    rewrite FlushDrawCommands_instancingGroup.
    destruct (0 <? count_of c) eqn:Hopen;
      cbn [InstancingGroupState.count_ InstancingGroupState.geometry_].
    + split; [ reflexivity | lia ].
    + apply Z.ltb_ge in Hopen.
      assert (Hzero : count_of c = 0) by lia.
      rewrite Hzero. split; [ reflexivity | lia ].
Qed.

End InstancingRun.

(** Two static batches of geometry 1: the run holds both. *)
Lemma instancing_run_invariant_witness :
  reachable (H := Sample.build false) Sample.heap
    (Sample.processed [BatchRenderFlag_InstantiateStaticGeometry]
       [Sample.batch 1 1 1 GEOM_STATIC; Sample.batch 1 1 1 GEOM_STATIC])
    [Sample.batch 1 1 1 GEOM_STATIC; Sample.batch 1 1 1 GEOM_STATIC]
  /\ instancingGroup_
       (Sample.processed [BatchRenderFlag_InstantiateStaticGeometry]
          [Sample.batch 1 1 1 GEOM_STATIC; Sample.batch 1 1 1 GEOM_STATIC])
     = InstancingGroupState.mk 1 0 2
  /\ CachedSharedState.geometry_
       (current_ (Sample.processed [BatchRenderFlag_InstantiateStaticGeometry]
                    [Sample.batch 1 1 1 GEOM_STATIC; Sample.batch 1 1 1 GEOM_STATIC]))
     = 1.
Proof.
  assert (Hreach :
    reachable (H := Sample.build false) Sample.heap
      (Sample.processed [BatchRenderFlag_InstantiateStaticGeometry]
         [Sample.batch 1 1 1 GEOM_STATIC; Sample.batch 1 1 1 GEOM_STATIC])
      [Sample.batch 1 1 1 GEOM_STATIC; Sample.batch 1 1 1 GEOM_STATIC]).
  { pose proof (reachable_ProcessBatch (H := Sample.build false) Sample.heap _ _
                  (Sample.batch 1 1 1 GEOM_STATIC)
                  (PipelineBatch.GetSourceBatch (Sample.batch 1 1 1 GEOM_STATIC))
                  (reachable_ProcessBatch (H := Sample.build false) Sample.heap _ _
                     (Sample.batch 1 1 1 GEOM_STATIC)
                     (PipelineBatch.GetSourceBatch (Sample.batch 1 1 1 GEOM_STATIC))
                     (reachable_new Sample.heap [] Sample.settings Sample.drawableProcessor
                        (br_instancingBuffer_ Sample.renderer) (Sample.camera false)
                        [BatchRenderFlag_InstantiateStaticGeometry] None))) as Hr.
    match type of Hr with
    | reachable _ _ ?run =>
        replace run with [Sample.batch 1 1 1 GEOM_STATIC; Sample.batch 1 1 1 GEOM_STATIC]
          in Hr by (vm_compute; reflexivity)
    end.
    exact Hr. }
  split; [ exact Hreach | ].
  destruct (instancing_run_invariant (H := Sample.build false) Sample.heap _ _ Hreach)
    as [Hcount Hrun].
  assert (Hgroup :
    instancingGroup_
      (Sample.processed [BatchRenderFlag_InstantiateStaticGeometry]
         [Sample.batch 1 1 1 GEOM_STATIC; Sample.batch 1 1 1 GEOM_STATIC])
    = InstancingGroupState.mk 1 0 2) by (vm_compute; reflexivity).
  split; [ exact Hgroup | ].
  rewrite Hgroup in Hrun. destruct (Hrun eq_refl) as [Hgeometry _].
  symmetry. exact Hgeometry.
Defined.

(** ** Counting the draw operations of a pass *)

Lemma filter_filter_key (p : DrawCommand -> bool) (q : DrawCommandQueue) :
  (forall cmd, p cmd = true -> is_key cmd = true) ->
  List.filter p (List.filter is_key q) = List.filter p q.
Proof.
  intros Hp. induction q as [ | cmd q IH ]; [ reflexivity | ].
  cbn [List.filter]. destruct (is_key cmd) eqn:Hkey; cbn [List.filter].
  - rewrite IH. reflexivity.
  - destruct (p cmd) eqn:Hcmd; [ | exact IH ].
    apply Hp in Hcmd. congruence.
Qed.

Lemma count_key_ops (p : DrawCommand -> bool) (c : DrawCommandCompositor) :
  (forall cmd, p cmd = true -> is_key cmd = true) ->
  count p (drawQueue_ c) = length (List.filter p (key_ops c)).
Proof. intros Hp. unfold count, key_ops. rewrite filter_filter_key by exact Hp. reflexivity. Qed.

Lemma is_instanced_draw_key cmd : is_instanced_draw cmd = true -> is_key cmd = true.
Proof. unfold is_key. intros ->. destruct (is_direct_draw cmd); reflexivity. Qed.

Lemma is_direct_draw_key cmd : is_direct_draw cmd = true -> is_key cmd = true.
Proof. unfold is_key. intros ->. reflexivity. Qed.

Lemma is_object_commit_key cmd : is_object_commit cmd = true -> is_key cmd = true.
Proof. unfold is_key. intros ->. apply orb_true_r. Qed.

Section PassCounts.
Context `{Externals} (heap : Heap).

Local Abbreviation count_of c := (InstancingGroupState.count_ (instancingGroup_ c)).

(** The counts of a state whose draw operations extend those of another. *)
Lemma counts_extend c c' ops :
  key_ops c' = key_ops c ++ ops ->
  count is_instanced_draw (drawQueue_ c')
  = (count is_instanced_draw (drawQueue_ c) + length (List.filter is_instanced_draw ops))%nat
  /\ count is_direct_draw (drawQueue_ c')
     = (count is_direct_draw (drawQueue_ c) + length (List.filter is_direct_draw ops))%nat
  /\ count is_object_commit (drawQueue_ c')
     = (count is_object_commit (drawQueue_ c) + length (List.filter is_object_commit ops))%nat.
Proof.
  intros Hops.
  rewrite !(count_key_ops _ c') by auto using is_instanced_draw_key, is_direct_draw_key, is_object_commit_key.
  rewrite !(count_key_ops _ c) by auto using is_instanced_draw_key, is_direct_draw_key, is_object_commit_key.
  rewrite Hops, !List.filter_app, !length_app. repeat split.
Qed.

Lemma direct_draw_not_instanced geometry :
  is_instanced_draw (direct_draw heap geometry) = false.
Proof. unfold direct_draw. cbv zeta. case_match; reflexivity. Qed.

Lemma direct_draw_not_commit geometry :
  is_object_commit (direct_draw heap geometry) = false.
Proof. unfold direct_draw. cbv zeta. case_match; reflexivity. Qed.

Lemma flush_ops_counts c :
  length (List.filter is_instanced_draw (flush_ops heap c))
  = (if (0 <? count_of c)%Z then 1 else 0)%nat
  /\ length (List.filter is_direct_draw (flush_ops heap c)) = 0%nat
  /\ length (List.filter is_object_commit (flush_ops heap c)) = 0%nat.
Proof. unfold flush_ops. destruct (0 <? count_of c); repeat split. Qed.

Lemma commit_draw_counts geometry :
  let ops := [CommitShaderParameterGroup SP_OBJECT; direct_draw heap geometry] in
  length (List.filter is_instanced_draw ops) = 0%nat
  /\ length (List.filter is_direct_draw ops) = 1%nat
  /\ length (List.filter is_object_commit ops) = 1%nat.
Proof.
  cbv zeta. cbn [List.filter is_instanced_draw is_direct_draw is_object_commit].
  rewrite direct_draw_is_direct, direct_draw_not_instanced, direct_draw_not_commit.
  repeat split.
Qed.

(** One batch of a pass: it either joins the open run, or closes it and
    then begins a run or is drawn directly. *)
Lemma ProcessBatch_counts pipelineBatch sourceBatch c :
  0 <= count_of c -> count_of c + 1 < UNSIGNED_MODULUS ->
  let c' := ProcessBatch heap pipelineBatch sourceBatch c in
  let open := 0 <? count_of c in
  let closed := if open then 1%nat else 0%nat in
  if open && negb (dirtyWhenProcessed heap pipelineBatch sourceBatch c) then
    count_of c' = count_of c + 1
    /\ count is_instanced_draw (drawQueue_ c') = count is_instanced_draw (drawQueue_ c)
    /\ count is_direct_draw (drawQueue_ c') = count is_direct_draw (drawQueue_ c)
    /\ count is_object_commit (drawQueue_ c') = count is_object_commit (drawQueue_ c)
  else if beginInstancingGroup heap pipelineBatch c then
    count_of c' = 1
    /\ count is_instanced_draw (drawQueue_ c')
       = (count is_instanced_draw (drawQueue_ c) + closed)%nat
    /\ count is_direct_draw (drawQueue_ c') = count is_direct_draw (drawQueue_ c)
    /\ count is_object_commit (drawQueue_ c') = count is_object_commit (drawQueue_ c)
  else
    count_of c' = 0
    /\ count is_instanced_draw (drawQueue_ c')
       = (count is_instanced_draw (drawQueue_ c) + closed)%nat
    /\ count is_direct_draw (drawQueue_ c') = S (count is_direct_draw (drawQueue_ c))
    /\ count is_object_commit (drawQueue_ c') = S (count is_object_commit (drawQueue_ c)).
Proof.
  intros Hlo Hhi. cbv zeta.
  pose proof (ProcessBatch_step heap pipelineBatch sourceBatch c) as Hstep.
  cbv zeta in Hstep. destruct Hstep as (_ & _ & Hstep).
  rewrite resetInstancingGroup_afterDirtyChecks in Hstep.
  revert Hstep. generalize (ProcessBatch heap pipelineBatch sourceBatch c).
  intros c' Hstep.
  destruct (flush_ops_counts c) as (Hfi & Hfd & Hfc).
  pose proof (commit_draw_counts (PipelineBatch.geometry_ pipelineBatch)) as (Hci & Hcd & Hcc).
  rewrite (FlushDrawCommands_instancingGroup heap c) in Hstep.
  assert (Hzero : (count_of c =? 0) = negb (0 <? count_of c)).
  { destruct (Z.eqb_spec (count_of c) 0), (Z.ltb_spec 0 (count_of c)); simpl; lia. }
  rewrite Hzero in Hstep.
  destruct (0 <? count_of c) eqn:Hopen;
    destruct (dirtyWhenProcessed heap pipelineBatch sourceBatch c);
    cbn [negb orb andb] in Hstep |- *;
    try (destruct (beginInstancingGroup heap pipelineBatch c));
    first [ destruct Hstep as (Hk & Hg & _) | destruct Hstep as (Hk & Hg) ];
    try (apply Z.ltb_lt in Hopen); try (apply Z.ltb_ge in Hopen);
    first [ destruct (counts_extend c c' _ Hk) as (Hi & Hd & Hc)
          | destruct (counts_extend c c' [] ltac:(rewrite app_nil_r; exact Hk))
              as (Hi & Hd & Hc) ];
    rewrite Hi, Hd, Hc, Hg, ?List.filter_app, ?length_app, ?Hfi, ?Hfd, ?Hfc,
      ?Hci, ?Hcd, ?Hcc;
    cbn [InstancingGroupState.count_ List.filter length];
    rewrite ?wrap32_small by lia;
    repeat split; lia.
Qed.

Lemma FlushDrawCommands_counts c :
  0 <= count_of c ->
  let c' := FlushDrawCommands heap c in
  count_of c' = 0
  /\ count is_instanced_draw (drawQueue_ c')
     = (count is_instanced_draw (drawQueue_ c) + if (0 <? count_of c)%Z then 1 else 0)%nat
  /\ count is_direct_draw (drawQueue_ c') = count is_direct_draw (drawQueue_ c)
  /\ count is_object_commit (drawQueue_ c') = count is_object_commit (drawQueue_ c).
Proof.
  intros Hlo. cbv zeta.
  destruct (counts_extend c _ _ (FlushDrawCommands_key_ops heap c)) as (Hi & Hd & Hc).
  destruct (flush_ops_counts c) as (Hfi & Hfd & Hfc).
  rewrite Hi, Hd, Hc, Hfi, Hfd, Hfc, FlushDrawCommands_instancingGroup.
  destruct (0 <? count_of c) eqn:Hopen; cbn [InstancingGroupState.count_].
  - repeat split; lia.
  - apply Z.ltb_ge in Hopen. repeat split; lia.
Qed.

Lemma fold_left_cons {A B} (f : A -> B -> A) b l a :
  fold_left f (b :: l) a = fold_left f l (f a b).
Proof. reflexivity. Qed.

Lemma ProcessSceneBatch_eq b c :
  ProcessSceneBatch heap b c = ProcessBatch heap b (PipelineBatch.GetSourceBatch b) c.
Proof. reflexivity. Qed.

Lemma classify_cons b batches c :
  classify heap (b :: batches) c
  = mkBatchClass (dirtyWhenProcessed heap b (PipelineBatch.GetSourceBatch b) c)
                 (PipelineBatch.geometry_ b)
                 (beginInstancingGroup heap b c)
    :: classify heap batches (ProcessSceneBatch heap b c).
Proof. reflexivity. Qed.

Lemma partition_cons open b l :
  partition open (b :: l)
  = if match open with
       | Some geometry => negb (anyStateDirty b) && (geometry =? classGeometry b)
       | None => false
       end
    then partition open l
    else if instancingEligible b
         then (S (fst (partition (Some (classGeometry b)) l)),
               snd (partition (Some (classGeometry b)) l))
         else (fst (partition None l), S (snd (partition None l))).
Proof. reflexivity. Qed.

(** The geometry of the open run, if a run is open. *)
Local Abbreviation open_run c :=
  (if 0 <? count_of c
   then Some (InstancingGroupState.geometry_ (instancingGroup_ c)) else None).

(** The open run has the cached geometry, and a batch joins it only with
    that geometry. *)
Lemma ProcessBatch_run_geometry pipelineBatch sourceBatch c :
  0 <= count_of c -> count_of c + 1 < UNSIGNED_MODULUS ->
  (0 < count_of c ->
   InstancingGroupState.geometry_ (instancingGroup_ c)
   = CachedSharedState.geometry_ (current_ c)) ->
  let c' := ProcessBatch heap pipelineBatch sourceBatch c in
  (0 < count_of c' ->
   InstancingGroupState.geometry_ (instancingGroup_ c')
   = CachedSharedState.geometry_ (current_ c'))
  /\ (0 < count_of c' ->
      InstancingGroupState.geometry_ (instancingGroup_ c')
      = PipelineBatch.geometry_ pipelineBatch)
  /\ ((0 <? count_of c) && negb (dirtyWhenProcessed heap pipelineBatch sourceBatch c) = true ->
      InstancingGroupState.geometry_ (instancingGroup_ c)
      = PipelineBatch.geometry_ pipelineBatch
      /\ InstancingGroupState.geometry_ (instancingGroup_ c')
         = InstancingGroupState.geometry_ (instancingGroup_ c)).
Proof.
  intros Hlo Hhi Hrun. cbv zeta.
  pose proof (ProcessBatch_step heap pipelineBatch sourceBatch c) as Hstep.
  cbv zeta in Hstep. destruct Hstep as (_ & Hcur & Hstep).
  rewrite resetInstancingGroup_afterDirtyChecks in Hstep.
  rewrite (FlushDrawCommands_instancingGroup heap c) in Hstep.
  revert Hcur Hstep. generalize (ProcessBatch heap pipelineBatch sourceBatch c).
  intros c' Hcur Hstep.
  destruct (Z.eqb_spec (count_of c) 0) as [Hzero | Hzero];
    destruct (Z.ltb_spec 0 (count_of c)) as [Hopen | Hopen]; try lia;
    destruct (dirtyWhenProcessed heap pipelineBatch sourceBatch c);
    cbn [negb orb andb] in Hstep |- *;
    try (destruct (beginInstancingGroup heap pipelineBatch c));
    first [ destruct Hstep as (_ & Hg & Hsame) | destruct Hstep as (_ & Hg) ];
    rewrite Hg, Hcur; cbn [InstancingGroupState.count_ InstancingGroupState.geometry_];
    repeat split; intros; try reflexivity; try discriminate; try lia.
  all: rewrite (Hrun Hopen); assumption.
Qed.

(** A scene pass streamed from any state: the instanced draws are the run
    that was open, if any, and the runs of the partition; the direct draws
    are those of the partition. *)
Lemma scene_pass_counts (batches : list PipelineBatch.t) :
  forall c,
  0 <= count_of c ->
  count_of c + Z.of_nat (length batches) < UNSIGNED_MODULUS ->
  (0 < count_of c ->
   InstancingGroupState.geometry_ (instancingGroup_ c)
   = CachedSharedState.geometry_ (current_ c)) ->
  let c' := FlushDrawCommands heap
              (fold_left (fun c b => ProcessSceneBatch heap b c) batches c) in
  count is_instanced_draw (drawQueue_ c')
  = (count is_instanced_draw (drawQueue_ c) + (if (0 <? count_of c)%Z then 1 else 0)
     + fst (partition (open_run c) (classify heap batches c)))%nat
  /\ count is_direct_draw (drawQueue_ c')
     = (count is_direct_draw (drawQueue_ c)
        + snd (partition (open_run c) (classify heap batches c)))%nat.
Proof.
  induction batches as [ | b batches IH ]; intros c Hlo Hhi Hrun; cbv zeta.
  - cbn [fold_left classify partition fst snd].
    destruct (FlushDrawCommands_counts c Hlo) as (_ & -> & -> & _). lia.
  - rewrite fold_left_cons, classify_cons, partition_cons.
    cbn [anyStateDirty instancingEligible classGeometry].
    rewrite length_cons, Nat2Z.inj_succ in Hhi.
    pose proof (ProcessBatch_counts b (PipelineBatch.GetSourceBatch b) c Hlo ltac:(lia))
      as Hstep.
    pose proof (ProcessBatch_run_geometry b (PipelineBatch.GetSourceBatch b) c Hlo
                  ltac:(lia) Hrun) as Hgeometry.
    cbv zeta in Hstep, Hgeometry.
    rewrite ProcessSceneBatch_eq.
    specialize (IH (ProcessBatch heap b (PipelineBatch.GetSourceBatch b) c)).
    cbv zeta in IH.
    revert Hstep Hgeometry IH.
    generalize (classify heap batches (ProcessBatch heap b (PipelineBatch.GetSourceBatch b) c)).
    generalize (fold_left (fun c b => ProcessSceneBatch heap b c) batches
                          (ProcessBatch heap b (PipelineBatch.GetSourceBatch b) c)).
    generalize (ProcessBatch heap b (PipelineBatch.GetSourceBatch b) c).
    generalize (dirtyWhenProcessed heap b (PipelineBatch.GetSourceBatch b) c).
    generalize (beginInstancingGroup heap b c).
    intros eligible dirty c1 c' classes Hstep (Hrun1 & Hbegun & Hjoined) IH.
    destruct ((0 <? count_of c) && negb dirty) eqn:Hjoin.
    + destruct Hstep as (Hcount & Hi & Hd & _).
      destruct (Hjoined eq_refl) as (Hsame & Hkept).
      apply andb_true_iff in Hjoin. destruct Hjoin as [Hopen Hclean].
      rewrite Hopen, Hclean, Hsame, Z.eqb_refl. cbn [andb].
      apply Z.ltb_lt in Hopen.
      assert (Hopen' : (0 <? count_of c1) = true) by (apply Z.ltb_lt; lia).
      destruct (IH ltac:(lia) ltac:(lia) Hrun1) as [IHi IHd].
      rewrite Hopen', Hkept, Hsame in IHi, IHd.
      rewrite IHi, IHd, Hi, Hd. split; lia.
    + assert (Hstop : match open_run c with
                      | Some geometry => negb dirty && (geometry =? PipelineBatch.geometry_ b)
                      | None => false
                      end = false).
      { destruct (0 <? count_of c); [ | reflexivity ].
        cbn [andb] in Hjoin. rewrite Hjoin. reflexivity. }
      rewrite Hstop.
      destruct eligible; destruct Hstep as (Hcount & Hi & Hd & _).
      * assert (Hopen' : (0 <? count_of c1) = true) by (apply Z.ltb_lt; lia).
        assert (Hstart : InstancingGroupState.geometry_ (instancingGroup_ c1)
                         = PipelineBatch.geometry_ b) by (apply Hbegun; lia).
        destruct (IH ltac:(lia) ltac:(lia) Hrun1) as [IHi IHd].
        rewrite Hopen', Hstart in IHi, IHd.
        cbn [fst snd]. rewrite IHi, IHd, Hi, Hd. split; lia.
      * assert (Hopen' : (0 <? count_of c1) = false) by (apply Z.ltb_ge; lia).
        destruct (IH ltac:(lia) ltac:(lia) Hrun1) as [IHi IHd].
        rewrite Hopen' in IHi, IHd.
        cbn [fst snd]. rewrite IHi, IHd, Hi, Hd. split; lia.
Qed.

End PassCounts.

(** ** Passes *)

Section Passes.
Context `{Externals} (heap : Heap).

Local Abbreviation count_of c := (InstancingGroupState.count_ (instancingGroup_ c)).

Lemma DrawCommandCompositor_new_fields drawQueue settings drawableProcessor
    instancingBuffer renderCamera flags outputShadowSplit :
  let c := DrawCommandCompositor_new drawQueue settings drawableProcessor
             instancingBuffer renderCamera flags outputShadowSplit in
  drawQueue_ c = drawQueue
  /\ instancingGroup_ c = InstancingGroupState.init
  /\ enabled_ c = EnabledFeatureFlags.make flags.
Proof. repeat split. Qed.

(** The classes of a pass tell of each batch its geometry and whether the
    pass has static instancing, the batch is static and its geometry has
    an index buffer. *)
Lemma classify_batches (batches : list PipelineBatch.t) :
  forall c,
  map classGeometry (classify heap batches c) = map PipelineBatch.geometry_ batches
  /\ map instancingEligible (classify heap batches c)
     = map (fun b =>
              EnabledFeatureFlags.staticInstancing_ (enabled_ c)
              && bool_decide (PipelineBatch.geometryType_ b = GEOM_STATIC)
              && negb (GetIndexBuffer (Geometry_at heap (PipelineBatch.geometry_ b))
                       =? nullptr))
           batches.
Proof.
  induction batches as [ | b batches IH ]; intros c; [ split; reflexivity | ].
  rewrite classify_cons, ProcessSceneBatch_eq, !map_cons.
  cbn [classGeometry instancingEligible].
  pose proof (ProcessBatch_step heap b (PipelineBatch.GetSourceBatch b) c) as Hstep.
  cbv zeta in Hstep. destruct Hstep as (Henabled & _).
  specialize (IH (ProcessBatch heap b (PipelineBatch.GetSourceBatch b) c)).
  revert Henabled IH.
  generalize (ProcessBatch heap b (PipelineBatch.GetSourceBatch b) c).
  intros c1 Henabled [IHgeometry IHeligible].
  rewrite IHgeometry, IHeligible, Henabled. split; reflexivity.
Qed.

(** C1, as the code has it. A sequence of fewer than [2^32] batches is
    streamed through a fresh compositor and flushed. The instanced draws
    emitted are as many as the runs, and the direct draws as many as the
    directly drawn batches, of this partition: a batch that arrives with
    a run open, no dirty state and the geometry of the run joins the run,
    whether or not it is itself instancing-eligible; any other batch
    begins a run if it is eligible and is drawn directly if it is not.
    The batches are classified by their geometry, by what the dirty checks
    report when they arrive, and by their eligibility: the pass has static
    instancing, the batch is static and its geometry has an index
    buffer. *)
Theorem scene_pass_draw_count drawQueue settings drawableProcessor instancingBuffer
    renderCamera flags outputShadowSplit (batches : list PipelineBatch.t) :
  Z.of_nat (length batches) < UNSIGNED_MODULUS ->
  let c0 := DrawCommandCompositor_new drawQueue settings drawableProcessor
              instancingBuffer renderCamera flags outputShadowSplit in
  let c' := FlushDrawCommands heap
              (fold_left (fun c b => ProcessSceneBatch heap b c) batches c0) in
  let classes := classify heap batches c0 in
  let runs_and_directs := partition None classes in
  count is_instanced_draw (drawQueue_ c')
  = (count is_instanced_draw drawQueue + fst runs_and_directs)%nat
  /\ count is_direct_draw (drawQueue_ c')
     = (count is_direct_draw drawQueue + snd runs_and_directs)%nat
  /\ map classGeometry classes = map PipelineBatch.geometry_ batches
  /\ map instancingEligible classes
     = map (fun b =>
              Test flags BatchRenderFlag_InstantiateStaticGeometry
              && bool_decide (PipelineBatch.geometryType_ b = GEOM_STATIC)
              && negb (GetIndexBuffer (Geometry_at heap (PipelineBatch.geometry_ b))
                       =? nullptr))
           batches.
Proof.
  intros Hlen c0 c' classes runs_and_directs.
  destruct (scene_pass_counts heap batches c0) as [Hi Hd].
  - reflexivity.
  - exact Hlen.
  - intros Hopen. discriminate Hopen.
  - fold c' in Hi, Hd. rewrite Hi, Hd. unfold runs_and_directs, classes.
    change (0 <? count_of c0) with false. cbn iota.
    change (drawQueue_ c0) with drawQueue.
    split; [ lia | split; [ lia | apply (classify_batches batches c0) ] ].
Qed.

Lemma fold_left_map {A B C} (f : C -> B -> C) (g : A -> B) (l : list A) (c : C) :
  fold_left f (map g l) c = fold_left (fun c a => f c (g a)) l c.
Proof. revert c. induction l as [ | a l IH ]; intros c; [ reflexivity | apply IH ]. Qed.

(** Both overloads of [RenderBatches] are such a pass. *)
Lemma RenderBatches_ByState_eq self drawQueue camera flags batches outputShadowSplit :
  RenderBatches_ByState heap self drawQueue camera flags batches outputShadowSplit
  = FlushDrawCommands heap
      (fold_left (fun c b => ProcessSceneBatch heap b c)
         (map byState_pipelineBatch_ batches)
         (DrawCommandCompositor_new drawQueue (br_settings_ self)
            (br_drawableProcessor_ self) (br_instancingBuffer_ self) camera flags
            outputShadowSplit)).
Proof. unfold RenderBatches_ByState. rewrite fold_left_map. reflexivity. Qed.

Lemma RenderBatches_BackToFront_eq self drawQueue camera flags batches outputShadowSplit :
  RenderBatches_BackToFront heap self drawQueue camera flags batches outputShadowSplit
  = FlushDrawCommands heap
      (fold_left (fun c b => ProcessSceneBatch heap b c)
         (map backToFront_pipelineBatch_ batches)
         (DrawCommandCompositor_new drawQueue (br_settings_ self)
            (br_drawableProcessor_ self) (br_instancingBuffer_ self) camera flags
            outputShadowSplit)).
Proof. unfold RenderBatches_BackToFront. rewrite fold_left_map. reflexivity. Qed.

Lemma RenderLightVolumeBatches_eq self drawQueue camera ctx batches :
  RenderLightVolumeBatches heap self drawQueue camera ctx batches
  = FlushDrawCommands heap
      (fold_left (fun c b => ProcessLightVolumeBatch heap b c)
         (map byState_pipelineBatch_ batches)
         (SetGlobalResources (ctx_geometryBuffer_ ctx)
            (SetGBufferParameters (ctx_geometryBufferOffsetAndScale_ ctx)
               (ctx_geometryBufferInvSize_ ctx)
               (DrawCommandCompositor_new drawQueue (br_settings_ self)
                  (br_drawableProcessor_ self) (br_instancingBuffer_ self) camera
                  [BatchRenderFlag_PixelLight] None)))).
Proof. unfold RenderLightVolumeBatches. rewrite fold_left_map. reflexivity. Qed.

End Passes.

(** The end-to-end example of the specification: two static batches of
    one indexed geometry, then a skinned batch of a geometry without index
    buffer, give one instanced draw and one direct draw. *)
Lemma scene_pass_draw_count_witness :
  Z.of_nat (length [Sample.batch 1 1 1 GEOM_STATIC; Sample.batch 1 1 1 GEOM_STATIC;
                    Sample.batch 1 2 3 GEOM_SKINNED]) < UNSIGNED_MODULUS
  /\ count is_instanced_draw
       (drawQueue_ (Sample.scenePass [BatchRenderFlag_InstantiateStaticGeometry]
                      [Sample.batch 1 1 1 GEOM_STATIC; Sample.batch 1 1 1 GEOM_STATIC;
                       Sample.batch 1 2 3 GEOM_SKINNED])) = 1%nat
  /\ count is_direct_draw
       (drawQueue_ (Sample.scenePass [BatchRenderFlag_InstantiateStaticGeometry]
                      [Sample.batch 1 1 1 GEOM_STATIC; Sample.batch 1 1 1 GEOM_STATIC;
                       Sample.batch 1 2 3 GEOM_SKINNED])) = 1%nat.
Proof.
  split; [ reflexivity | ].
  unfold Sample.scenePass. rewrite RenderBatches_ByState_eq.
  destruct (scene_pass_draw_count (H := Sample.build false) Sample.heap []
              Sample.settings Sample.drawableProcessor
              (br_instancingBuffer_ Sample.renderer) (Sample.camera false)
              [BatchRenderFlag_InstantiateStaticGeometry] None
              [Sample.batch 1 1 1 GEOM_STATIC; Sample.batch 1 1 1 GEOM_STATIC;
               Sample.batch 1 2 3 GEOM_SKINNED] eq_refl) as (Hi & Hd & _).
  split.
  - etransitivity; [ exact Hi | vm_compute; reflexivity ].
  - etransitivity; [ exact Hd | vm_compute; reflexivity ].
Defined.

(** C1, as the specification words it, fails: a skinned batch that follows
    a static batch of the same pipeline state, material and geometry
    arrives with a run open and nothing dirty, and joins the run. The pass
    emits one draw, where the partition of the specification has one run
    and one batch that is not eligible. *)
Lemma draw_count_as_specified_fails :
  count is_draw
    (drawQueue_ (Sample.scenePass [BatchRenderFlag_InstantiateStaticGeometry]
                   [Sample.batch 1 1 1 GEOM_STATIC; Sample.batch 1 1 1 GEOM_SKINNED]))
  = 1%nat
  /\ partition_as_specified None
       (classify (H := Sample.build false) Sample.heap
          [Sample.batch 1 1 1 GEOM_STATIC; Sample.batch 1 1 1 GEOM_SKINNED]
          (Sample.compositor [BatchRenderFlag_InstantiateStaticGeometry]))
     = (1%nat, 1%nat).
Proof. split; vm_compute; reflexivity. Qed.

(** ** The final flush and the light-volume pass *)

Section EntryPoints.
Context `{Externals} (heap : Heap).

Local Abbreviation count_of c := (InstancingGroupState.count_ (instancingGroup_ c)).

Lemma FlushDrawCommands_drawQueue c :
  drawQueue_ (FlushDrawCommands heap c)
  = drawQueue_ c
    ++ (if 0 <? count_of c then
          let geometry :=
            Geometry_at heap (InstancingGroupState.geometry_ (instancingGroup_ c)) in
          [SetBuffers (GetVertexBuffers geometry) (GetIndexBuffer geometry)
                      (GetVertexBuffer (instancingBuffer_ c));
           DrawIndexedInstanced (GetIndexStart geometry) (GetIndexCount geometry)
             (InstancingGroupState.start_ (instancingGroup_ c)) (count_of c)]
        else []).
Proof.
  cbv beta delta [FlushDrawCommands DrawObjectInstanced].
  destruct (0 <? count_of c); [ | symmetry; apply app_nil_r ].
  cbv zeta.
  assert (Hq : forall v x, drawQueue_ (set_instancingGroup_ v x) = drawQueue_ x)
    by (intros v []; reflexivity).
  rewrite Hq, !drawQueue_emit, ?instancingGroup_emit, ?instancingBuffer_emit, <- app_assoc.
  reflexivity.
Qed.

(** *** Light volumes *)

Lemma light_volume_step b c :
  enabled_ c = lightVolumeFeatures ->
  count_of c = 0 ->
  let c' := ProcessLightVolumeBatch heap b c in
  enabled_ c' = lightVolumeFeatures
  /\ count_of c' = 0
  /\ key_ops c'
     = key_ops c ++ [CommitShaderParameterGroup SP_OBJECT;
                     direct_draw heap (PipelineBatch.geometry_ b)].
Proof.
  intros Henabled Hcount.
  cbv beta delta [ProcessLightVolumeBatch]. cbv zeta.
  match goal with
  | |- context [ProcessBatch heap b ?s (set_lightVolumeHelpers_ ?h c)] =>
      pose proof (ProcessBatch_step heap b s (set_lightVolumeHelpers_ h c)) as Hstep;
      destruct (quiet_inv _ _ (quiet_set_lightVolumeHelpers_ c h)) as (Hk & He & Hg & _);
      revert Hstep Hk He Hg;
      generalize s; generalize (set_lightVolumeHelpers_ h c)
  end.
  intros c1 s Hstep Hk He Hg. cbv zeta in Hstep.
  rewrite resetInstancingGroup_afterDirtyChecks, FlushDrawCommands_instancingGroup in Hstep.
  unfold beginInstancingGroup, flush_ops in Hstep.
  rewrite Hg, He, Henabled, Hcount in Hstep.
  cbn [Z.eqb Z.ltb Z.compare orb andb lightVolumeFeatures
       EnabledFeatureFlags.staticInstancing_] in Hstep.
  destruct Hstep as (-> & _ & -> & ->).
  rewrite ?Hg, ?He, ?Hk, ?Hcount. repeat split; assumption.
Qed.

Lemma light_volume_pass_ops (batches : list PipelineBatch.t) c :
  enabled_ c = lightVolumeFeatures ->
  count_of c = 0 ->
  let c' := fold_left (fun c b => ProcessLightVolumeBatch heap b c) batches c in
  enabled_ c' = lightVolumeFeatures
  /\ count_of c' = 0
  /\ key_ops c'
     = key_ops c
       ++ flat_map (fun b => [CommitShaderParameterGroup SP_OBJECT;
                              direct_draw heap (PipelineBatch.geometry_ b)]) batches.
Proof.
  revert c. induction batches as [ | b batches IH ]; intros c Henabled Hcount; cbv zeta.
  - cbn [fold_left flat_map]. rewrite app_nil_r. repeat split; assumption.
  - rewrite fold_left_cons.
    destruct (light_volume_step b c Henabled Hcount) as (He & Hc & Hk).
    destruct (IH _ He Hc) as (He' & Hc' & Hk').
    rewrite He', Hc', Hk', Hk. cbn [flat_map]. rewrite <- !app_assoc.
    repeat split.
Qed.

(** The draws and object commits of a light-volume pass. *)
Lemma light_volume_pass_keys self drawQueue camera ctx (batches : list PipelineBatchByState) :
  let c' := RenderLightVolumeBatches heap self drawQueue camera ctx batches in
  enabled_ c' = EnabledFeatureFlags.mk false false true true false
  /\ List.filter is_key (drawQueue_ c')
     = List.filter is_key drawQueue
       ++ flat_map (fun sortedBatch =>
                      [CommitShaderParameterGroup SP_OBJECT;
                       direct_draw heap
                         (PipelineBatch.geometry_ (byState_pipelineBatch_ sortedBatch))])
                   batches
  /\ count is_instanced_draw (drawQueue_ c') = count is_instanced_draw drawQueue
  /\ count is_direct_draw (drawQueue_ c') = (count is_direct_draw drawQueue + length batches)%nat
  /\ count is_object_commit (drawQueue_ c')
     = (count is_object_commit drawQueue + length batches)%nat.
Proof.
  cbv zeta. rewrite RenderLightVolumeBatches_eq.
  match goal with
  | |- context [fold_left _ _ ?c0] =>
      assert (Hinit : enabled_ c0 = lightVolumeFeatures /\ count_of c0 = 0
                      /\ drawQueue_ c0 = drawQueue) by (repeat split);
      revert Hinit; generalize c0
  end.
  intros c0 (Henabled & Hcount & Hqueue).
  destruct (light_volume_pass_ops (map byState_pipelineBatch_ batches) c0 Henabled Hcount)
    as (He & Hc & Hk).
  revert He Hc Hk.
  generalize (fold_left (fun c b => ProcessLightVolumeBatch heap b c)
                        (map byState_pipelineBatch_ batches) c0).
  intros c1 He Hc Hk.
  assert (Hk' : key_ops (FlushDrawCommands heap c1)
                = key_ops c0
                  ++ flat_map (fun b => [CommitShaderParameterGroup SP_OBJECT;
                                         direct_draw heap (PipelineBatch.geometry_ b)])
                              (map byState_pipelineBatch_ batches)).
  { rewrite FlushDrawCommands_key_ops, Hk. unfold flush_ops. rewrite Hc.
    change (0 <? 0) with false. cbn iota. apply app_nil_r. }
  destruct (counts_extend c0 _ _ Hk') as (Hi & Hd & Ho).
  rewrite Hi, Hd, Ho, enabled_FlushDrawCommands, He.
  change (List.filter is_key (drawQueue_ (FlushDrawCommands heap c1)))
    with (key_ops (FlushDrawCommands heap c1)).
  rewrite Hk'. unfold key_ops at 1. rewrite Hqueue.
  assert (Hflat : forall l : list PipelineBatchByState,
      flat_map (fun b => [CommitShaderParameterGroup SP_OBJECT;
                          direct_draw heap (PipelineBatch.geometry_ b)])
               (map byState_pipelineBatch_ l)
      = flat_map (fun sortedBatch =>
                    [CommitShaderParameterGroup SP_OBJECT;
                     direct_draw heap
                       (PipelineBatch.geometry_ (byState_pipelineBatch_ sortedBatch))]) l).
  { induction l as [ | a l IHl ]; [ reflexivity | ].
    cbn [map flat_map]. rewrite IHl. reflexivity. }
  assert (Hlen : forall (p : DrawCommand -> bool) (n : nat) (l : list PipelineBatchByState),
      (forall g, length (List.filter p [CommitShaderParameterGroup SP_OBJECT;
                                        direct_draw heap g]) = n) ->
      length (List.filter p
                (flat_map (fun b => [CommitShaderParameterGroup SP_OBJECT;
                                     direct_draw heap (PipelineBatch.geometry_ b)])
                          (map byState_pipelineBatch_ l)))
      = (n * length l)%nat).
  { intros p n l Hp. induction l as [ | a l IHl ]; [ cbn; lia | ].
    cbn [map flat_map]. rewrite List.filter_app, length_app, IHl, Hp.
    cbn [length]. lia. }
  rewrite (Hlen is_instanced_draw 0%nat), (Hlen is_direct_draw 1%nat),
    (Hlen is_object_commit 1%nat), Hflat
    by (intros g; apply (commit_draw_counts heap g)).
  repeat split; lia.
Qed.

End EntryPoints.

(** ** Beginning a run or drawing directly *)

Section BeginOrDraw.
Context `{Externals} (heap : Heap).

Local Abbreviation count_of c := (InstancingGroupState.count_ (instancingGroup_ c)).




End BeginOrDraw.


(** ** Resources and vertex lights *)

Section Resources.
Context `{Externals} (heap : Heap).

Lemma filter_unless_lightmap (lightmapTexture : ptr) (textures : list (TextureUnit * ptr)) :
  List.filter (fun texture =>
                 (lightmapTexture =? nullptr)
                 || negb (bool_decide (fst texture = TU_EMISSIVE))) textures
  = if lightmapTexture =? nullptr then textures
    else List.filter (fun texture => negb (bool_decide (fst texture = TU_EMISSIVE))) textures.
Proof.
  destruct (lightmapTexture =? nullptr); cbn [orb]; [ | reflexivity ].
  induction textures as [ | texture textures IH ]; [ reflexivity | ].
  cbn [List.filter]. rewrite IH. reflexivity.
Qed.

(** C10. When [UpdateDirtyResources] re-binds the resources and a
    lightmap texture is cached, the textures of the material are bound
    except the one of unit [TU_EMISSIVE], and the lightmap texture is
    bound to [TU_EMISSIVE] after them; when no lightmap texture is
    cached, every texture of the material is bound as it is and nothing
    else is bound to [TU_EMISSIVE] on its behalf. Global resources come
    before, the textures of the pixel light after, then the commit. *)
Theorem lightmap_replaces_emissive (c : DrawCommandCompositor) :
  DirtyStateFlags.material_ (dirty_ c)
  || DirtyStateFlags.lightmapTextures_ (dirty_ c)
  || DirtyStateFlags.pixelLightTextures_ (dirty_ c) = true ->
  let lightmapTexture := CachedSharedState.lightmapTexture_ (current_ c) in
  let materialTextures :=
    GetTextures (Material_at heap (CachedSharedState.material_ (current_ c))) in
  let bind := fun texture : TextureUnit * ptr => AddShaderResource (fst texture) (snd texture) in
  let bindIfSet := fun (unit : TextureUnit) (texture : ptr) =>
    if negb (texture =? nullptr) then [AddShaderResource unit texture] else [] in
  drawQueue_ (UpdateDirtyResources heap c)
  = drawQueue_ c
    ++ map (fun desc => AddShaderResource (unit_ desc) (texture_ desc)) (globalResources_ c)
    ++ (if lightmapTexture =? nullptr
        then map bind materialTextures
        else map bind (List.filter
                         (fun texture => negb (bool_decide (fst texture = TU_EMISSIVE)))
                         materialTextures)
             ++ [AddShaderResource TU_EMISSIVE lightmapTexture])
    ++ bindIfSet TU_LIGHTRAMP (CachedSharedState.pixelLightRamp_ (current_ c))
    ++ bindIfSet TU_LIGHTSHAPE (CachedSharedState.pixelLightShape_ (current_ c))
    ++ bindIfSet TU_SHADOWMAP (CachedSharedState.pixelLightShadowMap_ (current_ c))
    ++ [CommitShaderResources].
Proof.
  intros Hdirty. cbv beta delta [UpdateDirtyResources]. cbv zeta. rewrite Hdirty.
  rewrite drawQueue_emit.
  repeat match goal with
  | |- context [drawQueue_ (if ?b then emit ?cmd ?x else ?x)] =>
      replace (drawQueue_ (if b then emit cmd x else x))
        with (drawQueue_ x ++ (if b then [cmd] else []))
        by (destruct b; [ symmetry; apply drawQueue_emit | apply app_nil_r ])
  end.
  rewrite !drawQueue_emit_all.
  assert (Hcur : forall (b : bool) cmd x,
             current_ (if b then emit cmd x else x) = current_ x)
    by (intros [] cmd x; [ apply current_emit | reflexivity ]).
  rewrite ?Hcur, ?current_emit_all.
  rewrite filter_unless_lightmap.
  destruct (CachedSharedState.lightmapTexture_ (current_ c) =? nullptr);
    cbn [negb]; rewrite <- ?app_assoc; cbn [app]; rewrite ?app_nil_r; reflexivity.
Qed.

(** *** Vertex lights *)

(** C7. [CheckDirtyVertexLight] caches the vertex-light indices of the
    batch and flags them dirty exactly when they differ, as a sequence,
    from those cached before. When they do not differ the slot data are
    kept. When they differ, each of the [MAX_VERTEX_LIGHTS] slots gets the
    colour and inverse range, the direction and cutoff, and the position
    and inverse cutoff of its light; for a slot whose index is
    [M_MAX_UNSIGNED] these are those of the null light: zero colour, zero
    direction, zero position and the default attenuation values. *)
Theorem CheckDirtyVertexLight_spec (lightAccumulator : LightAccumulator)
    (c : DrawCommandCompositor) :
  length (CachedSharedState.vertexLightsData_ (current_ c)) = (MAX_VERTEX_LIGHTS * 3)%nat ->
  let c' := CheckDirtyVertexLight lightAccumulator c in
  let previous := CachedSharedState.vertexLights_ (current_ c) in
  let vertexLights := GetVertexLights lightAccumulator in
  let data := CachedSharedState.vertexLightsData_ (current_ c') in
  CachedSharedState.vertexLights_ (current_ c') = vertexLights
  /\ (DirtyStateFlags.vertexLightConstants_ (dirty_ c') = false <-> previous = vertexLights)
  /\ (previous = vertexLights -> data = CachedSharedState.vertexLightsData_ (current_ c))
  /\ (previous <> vertexLights ->
      forall i, (i < MAX_VERTEX_LIGHTS)%nat ->
        let index := nth i vertexLights 0 in
        let params := if index =? M_MAX_UNSIGNED then nullVertexLight
                      else GetShaderParams (lights_ c index) in
        (data !! (i * 3)%nat
         = Some (Vector4_of (GetColor params (gammaCorrection_ (settings_ c)))
                            (invRange_ params))
         /\ data !! (i * 3 + 1)%nat = Some (Vector4_of (direction_ params) (cutoff_ params))
         /\ data !! (i * 3 + 2)%nat = Some (Vector4_of (position_ params) (invCutoff_ params)))
        /\ (index = M_MAX_UNSIGNED ->
            data !! (i * 3)%nat = Some (mkVector4 zero zero zero default_invRange)
            /\ data !! (i * 3 + 1)%nat = Some (mkVector4 zero zero zero default_cutoff)
            /\ data !! (i * 3 + 2)%nat = Some (mkVector4 zero zero zero default_invCutoff))).
Proof.
  intros Hlen c' previous vertexLights data.
  assert (Hshape :
    CachedSharedState.vertexLights_ (current_ c') = vertexLights
    /\ DirtyStateFlags.vertexLightConstants_ (dirty_ c') = bool_decide (previous <> vertexLights)
    /\ data = if bool_decide (previous <> vertexLights)
              then fold_left (vertexLightSlot (gammaCorrection_ (settings_ c)) (lights_ c)
                                              vertexLights)
                             (seq 0 MAX_VERTEX_LIGHTS)
                             (CachedSharedState.vertexLightsData_ (current_ c))
              else CachedSharedState.vertexLightsData_ (current_ c)).
  { subst c' previous vertexLights data.
    destruct c as [q st dp ib fi sc li cam cn oss gb gi gr en [] [] ob ig lv].
    cbv [CheckDirtyVertexLight current_set dirty_set set_current_ set_dirty_ current_
         dirty_ settings_ lights_ DirtyStateFlags.set_vertexLightConstants_
         DirtyStateFlags.vertexLightConstants_ CachedSharedState.set_vertexLights_
         CachedSharedState.set_vertexLightsData_ CachedSharedState.vertexLights_
         CachedSharedState.vertexLightsData_ negb].
    case_bool_decide; repeat split. }
  destruct Hshape as (Hlights & Hflag & Hdata).
  split; [ exact Hlights | ].
  split; [ rewrite Hflag; case_bool_decide; split; intros; try congruence;
           destruct (decide (previous = vertexLights)); congruence | ].
  split.
  - intros Hsame. rewrite Hdata. case_bool_decide; [ contradiction | reflexivity ].
  - intros Hdiff i Hi index params.
    rewrite bool_decide_eq_true_2 in Hdata by exact Hdiff.
    assert (Hslots :
      data !! (i * 3)%nat
      = Some (Vector4_of (GetColor params (gammaCorrection_ (settings_ c))) (invRange_ params))
      /\ data !! (i * 3 + 1)%nat = Some (Vector4_of (direction_ params) (cutoff_ params))
      /\ data !! (i * 3 + 2)%nat = Some (Vector4_of (position_ params) (invCutoff_ params))).
    { rewrite Hdata. subst params index.
      generalize (gammaCorrection_ (settings_ c)) (lights_ c). intros gamma lights.
      destruct (CachedSharedState.vertexLightsData_ (current_ c))
        as [ | d0 [ | d1 [ | d2 [ | d3 [ | d4 [ | d5 [ | d6 [ | d7 [ | d8 [ | d9 [ | d10
           [ | d11 [ | ] ] ] ] ] ] ] ] ] ] ] ] ]; try discriminate Hlen.
      unfold MAX_VERTEX_LIGHTS in Hi.
      cbv [MAX_VERTEX_LIGHTS seq fold_left vertexLightSlot].
      destruct i as [ | [ | [ | [ | ] ] ] ]; try lia;
        destruct (nth 0 vertexLights 0 =? M_MAX_UNSIGNED),
                 (nth 1 vertexLights 0 =? M_MAX_UNSIGNED),
                 (nth 2 vertexLights 0 =? M_MAX_UNSIGNED),
                 (nth 3 vertexLights 0 =? M_MAX_UNSIGNED);
        repeat split; reflexivity. }
    split; [ exact Hslots | ].
    intros Hnull. subst params. unfold index in Hslots. fold index in Hnull.
    unfold index in Hnull. rewrite Hnull in Hslots.
    change (M_MAX_UNSIGNED =? M_MAX_UNSIGNED) with true in Hslots. exact Hslots.
Qed.

End Resources.

(** Drawable 7 is lit by the vertex lights 0 and 1: slot 0 gets the data
    of light 0, and slot 2, which is unused, those of the null light. *)
Lemma CheckDirtyVertexLight_spec_witness :
  length (CachedSharedState.vertexLightsData_
            (current_ (Sample.compositor [BatchRenderFlag_VertexLights])))
  = (MAX_VERTEX_LIGHTS * 3)%nat
  /\ CachedSharedState.vertexLightsData_
       (current_ (CheckDirtyVertexLight (H := Sample.build false)
                    (GetGeometryLighting Sample.drawableProcessor 7)
                    (Sample.compositor [BatchRenderFlag_VertexLights]))) !! 0%nat
     = Some (mkVector4 one one one one)
  /\ CachedSharedState.vertexLightsData_
       (current_ (CheckDirtyVertexLight (H := Sample.build false)
                    (GetGeometryLighting Sample.drawableProcessor 7)
                    (Sample.compositor [BatchRenderFlag_VertexLights]))) !! 6%nat
     = Some (mkVector4 zero zero zero zero).
Proof.
  split; [ reflexivity | ].
  destruct (CheckDirtyVertexLight_spec (H := Sample.build false)
              (GetGeometryLighting Sample.drawableProcessor 7)
              (Sample.compositor [BatchRenderFlag_VertexLights]) eq_refl)
    as (_ & _ & _ & Hslots).
  assert (Hchanged :
    CachedSharedState.vertexLights_
      (current_ (Sample.compositor [BatchRenderFlag_VertexLights]))
    <> GetVertexLights (GetGeometryLighting Sample.drawableProcessor 7)).
  { intros Hsame. vm_compute in Hsame. discriminate Hsame. }
  split.
  - destruct (Hslots Hchanged 0%nat) as [(Hcolor & _ & _) _].
    + unfold MAX_VERTEX_LIGHTS. lia.
    + exact Hcolor.
  - destruct (Hslots Hchanged 2%nat) as [_ Hnull].
    + unfold MAX_VERTEX_LIGHTS. lia.
    + destruct (Hnull eq_refl) as (Hcolor & _ & _). exact Hcolor.
Defined.

(** A lightmapped batch of material 1, whose textures are a diffuse and
    an emissive one: the diffuse texture and the lightmap are bound. *)
Lemma lightmap_replaces_emissive_witness :
  DirtyStateFlags.material_
    (dirty_ (afterDirtyChecks (H := Sample.build false) Sample.heap
               (Sample.lightmappedBatch 1 1 1 5)
               (PipelineBatch.GetSourceBatch (Sample.lightmappedBatch 1 1 1 5))
               (Sample.compositor [BatchRenderFlag_AmbientLight])))
  || DirtyStateFlags.lightmapTextures_
       (dirty_ (afterDirtyChecks (H := Sample.build false) Sample.heap
                  (Sample.lightmappedBatch 1 1 1 5)
                  (PipelineBatch.GetSourceBatch (Sample.lightmappedBatch 1 1 1 5))
                  (Sample.compositor [BatchRenderFlag_AmbientLight])))
  || DirtyStateFlags.pixelLightTextures_
       (dirty_ (afterDirtyChecks (H := Sample.build false) Sample.heap
                  (Sample.lightmappedBatch 1 1 1 5)
                  (PipelineBatch.GetSourceBatch (Sample.lightmappedBatch 1 1 1 5))
                  (Sample.compositor [BatchRenderFlag_AmbientLight]))) = true
  /\ drawQueue_
       (UpdateDirtyResources Sample.heap
          (afterDirtyChecks (H := Sample.build false) Sample.heap
             (Sample.lightmappedBatch 1 1 1 5)
             (PipelineBatch.GetSourceBatch (Sample.lightmappedBatch 1 1 1 5))
             (Sample.compositor [BatchRenderFlag_AmbientLight])))
     = [AddShaderResource TU_DIFFUSE 500; AddShaderResource TU_EMISSIVE 900;
        CommitShaderResources].
Proof.
  split; [ vm_compute; reflexivity | ].
  etransitivity.
  - apply (lightmap_replaces_emissive Sample.heap).
    vm_compute. reflexivity.
  - vm_compute. reflexivity.
Defined.

(** ** Dirty evaluation of a repeated batch *)

Lemma IsAnyStateDirty_pixelLightTextures d :
  DirtyStateFlags.pixelLightTextures_ d = true -> DirtyStateFlags.IsAnyStateDirty d = true.
Proof.
  destruct d as [a b c e f g h i j k]. cbv [DirtyStateFlags.pixelLightTextures_].
  intros ->. destruct a, b, c, e; reflexivity.
Qed.

Lemma IsAnyStateDirty_lightmapTextures d :
  DirtyStateFlags.lightmapTextures_ d = true -> DirtyStateFlags.IsAnyStateDirty d = true.
Proof.
  destruct d as [a b c e f g h i j k]. cbv [DirtyStateFlags.lightmapTextures_].
  intros ->. destruct a, b, c, e, f, g, h; reflexivity.
Qed.

Section RepeatedBatch.
Context `{Externals} (heap : Heap).

Lemma keys_ExtractObjectConstants sourceBatch lightAccumulator c :
  pixelLightKey (ExtractObjectConstants sourceBatch lightAccumulator c) = pixelLightKey c
  /\ lightmapKey (ExtractObjectConstants sourceBatch lightAccumulator c) = lightmapKey c.
Proof.
  unfold pixelLightKey, lightmapKey.
  rewrite dirty_ExtractObjectConstants, current_ExtractObjectConstants. split; reflexivity.
Qed.

Lemma keys_CheckDirtyCommonState pipelineBatch c :
  pixelLightKey (CheckDirtyCommonState heap pipelineBatch c) = pixelLightKey c
  /\ lightmapKey (CheckDirtyCommonState heap pipelineBatch c) = lightmapKey c.
Proof.
  destruct c as [? ? ? ? ? ? ? ? ? ? ? ? ? ? [] [] ? ? ?].
  cbv [CheckDirtyCommonState current_set dirty_set pixelLightKey lightmapKey]. simpl.
  repeat (case_match; simpl); split; reflexivity.
Qed.

Lemma keys_CheckDirtyVertexLight lightAccumulator c :
  pixelLightKey (CheckDirtyVertexLight lightAccumulator c) = pixelLightKey c
  /\ lightmapKey (CheckDirtyVertexLight lightAccumulator c) = lightmapKey c.
Proof.
  destruct c as [? ? ? ? ? ? ? ? ? ? ? ? ? ? [] [] ? ? ?].
  cbv [CheckDirtyVertexLight current_set dirty_set pixelLightKey lightmapKey]. simpl.
  repeat (case_match; simpl); split; reflexivity.
Qed.

(** [CheckDirtyPixelLight] returns before it assigns [pixelLightTextures_]
    when the light index is the cached one. *)
Lemma keys_CheckDirtyPixelLight pipelineBatch c :
  lightmapKey (CheckDirtyPixelLight pipelineBatch c) = lightmapKey c
  /\ (PipelineBatch.lightIndex_ pipelineBatch = snd (pixelLightKey c) ->
      pixelLightKey (CheckDirtyPixelLight pipelineBatch c) = pixelLightKey c).
Proof.
  destruct c as [? ? ? ? ? ? ? ? ? ? ? ? ? ? [] [] ? ? ?].
  cbv [CheckDirtyPixelLight current_set dirty_set pixelLightKey lightmapKey]. simpl.
  split.
  - repeat (case_match; simpl); reflexivity.
  - intros ->. rewrite Z.eqb_refl. reflexivity.
Qed.

(** [CheckDirtyLightmap] returns before it assigns [lightmapTextures_]
    when the scale and offset are the cached ones. *)
Lemma keys_CheckDirtyLightmap sourceBatch c :
  pixelLightKey (CheckDirtyLightmap sourceBatch c) = pixelLightKey c
  /\ (SourceBatch.lightmapScaleOffset_ sourceBatch = snd (lightmapKey c) ->
      lightmapKey (CheckDirtyLightmap sourceBatch c) = lightmapKey c).
Proof.
  destruct c as [? ? ? ? ? ? ? ? ? ? ? ? ? ? [] [] ? ? ?].
  cbv [CheckDirtyLightmap current_set dirty_set pixelLightKey lightmapKey]. simpl.
  split.
  - repeat (case_match; simpl); reflexivity.
  - intros ->. rewrite Z.eqb_refl. reflexivity.
Qed.

(** The two keys through the dirty checks of [ProcessBatch]. *)
Lemma keys_afterDirtyChecks pipelineBatch sourceBatch c :
  (PipelineBatch.lightIndex_ pipelineBatch = snd (pixelLightKey c) ->
   pixelLightKey (afterDirtyChecks heap pipelineBatch sourceBatch c) = pixelLightKey c)
  /\ (SourceBatch.lightmapScaleOffset_ sourceBatch = snd (lightmapKey c) ->
      lightmapKey (afterDirtyChecks heap pipelineBatch sourceBatch c) = lightmapKey c).
Proof.
  cbv beta delta [afterDirtyChecks].
  match goal with |- context [let lightAccumulator := ?e in _] => generalize e end.
  intros la. cbv zeta.
  destruct (keys_ExtractObjectConstants sourceBatch la c) as [Hp0 Hl0].
  revert Hp0 Hl0. generalize (ExtractObjectConstants sourceBatch la c). intros c0 Hp0 Hl0.
  destruct (keys_CheckDirtyCommonState pipelineBatch c0) as [Hp1 Hl1].
  revert Hp1 Hl1. generalize (CheckDirtyCommonState heap pipelineBatch c0).
  intros c1 Hp1 Hl1.
  rewrite <- Hp0, <- Hl0, <- Hp1, <- Hl1. clear Hp0 Hl0 Hp1 Hl1 c c0.
  assert (H2 :
    let c2 := if EnabledFeatureFlags.pixelLighting_ (enabled_ c1)
              then CheckDirtyPixelLight pipelineBatch c1 else c1 in
    lightmapKey c2 = lightmapKey c1
    /\ (PipelineBatch.lightIndex_ pipelineBatch = snd (pixelLightKey c1) ->
        pixelLightKey c2 = pixelLightKey c1)).
  { destruct (EnabledFeatureFlags.pixelLighting_ (enabled_ c1)); cbv zeta;
      [ apply keys_CheckDirtyPixelLight | split; reflexivity ]. }
  cbv zeta in H2. revert H2.
  generalize (if EnabledFeatureFlags.pixelLighting_ (enabled_ c1)
              then CheckDirtyPixelLight pipelineBatch c1 else c1).
  intros c2 [Hl2 Hp2].
  assert (H3 :
    let c3 := if EnabledFeatureFlags.vertexLighting_ (enabled_ c2) then
                match la with
                | Some lightAccumulator => CheckDirtyVertexLight lightAccumulator c2
                | None => c2
                end
              else c2 in
    pixelLightKey c3 = pixelLightKey c2 /\ lightmapKey c3 = lightmapKey c2).
  { destruct (EnabledFeatureFlags.vertexLighting_ (enabled_ c2)), la; cbv zeta;
      solve [ apply keys_CheckDirtyVertexLight | split; reflexivity ]. }
  cbv zeta in H3. revert H3.
  generalize (if EnabledFeatureFlags.vertexLighting_ (enabled_ c2) then
                match la with
                | Some lightAccumulator => CheckDirtyVertexLight lightAccumulator c2
                | None => c2
                end
              else c2).
  intros c3 [Hp3 Hl3].
  destruct (EnabledFeatureFlags.ambientLighting_ (enabled_ c3)).
  - destruct (keys_CheckDirtyLightmap sourceBatch c3) as [Hp4 Hl4].
    split.
    + intros Hsame. rewrite Hp4, Hp3. apply Hp2, Hsame.
    + intros Hsame. rewrite Hl4, Hl3, Hl2; [ reflexivity | ].
      rewrite Hl3, Hl2. exact Hsame.
  - split.
    + intros Hsame. rewrite Hp3. apply Hp2, Hsame.
    + intros _. rewrite Hl3, Hl2. reflexivity.
Qed.

(** C2. The second evaluation of a batch does report dirty state when the
    first one has set a texture flag: [CheckDirtyPixelLight] and
    [CheckDirtyLightmap] return before they assign [pixelLightTextures_]
    and [lightmapTextures_] when the light index, respectively the
    lightmap scale and offset, is the cached one, and nothing else resets
    these flags; so a flag that is set stays set for a batch with the
    cached key, and [IsAnyStateDirty] is true after its dirty checks. *)
Theorem texture_flags_stay_dirty pipelineBatch sourceBatch c :
  (DirtyStateFlags.pixelLightTextures_ (dirty_ c) = true
   /\ PipelineBatch.lightIndex_ pipelineBatch
      = CachedSharedState.pixelLightIndex_ (current_ c))
  \/ (DirtyStateFlags.lightmapTextures_ (dirty_ c) = true
      /\ SourceBatch.lightmapScaleOffset_ sourceBatch
         = CachedSharedState.lightmapScaleOffset_ (current_ c)) ->
  dirtyWhenProcessed heap pipelineBatch sourceBatch c = true.
Proof.
  unfold dirtyWhenProcessed.
  destruct (keys_afterDirtyChecks pipelineBatch sourceBatch c) as [Hp Hl].
  revert Hp Hl. generalize (afterDirtyChecks heap pipelineBatch sourceBatch c).
  unfold pixelLightKey, lightmapKey. cbn [snd].
  intros c' Hp Hl [[Hflag Hsame] | [Hflag Hsame]].
  - apply IsAnyStateDirty_pixelLightTextures.
    specialize (Hp Hsame). injection Hp as Hp _. rewrite Hp. exact Hflag.
  - apply IsAnyStateDirty_lightmapTextures.
    specialize (Hl Hsame). injection Hl as Hl _. rewrite Hl. exact Hflag.
Qed.

End RepeatedBatch.

(** The failing input: light 0 has a ramp texture, and a batch lit by it
    is processed by a fresh compositor with pixel lighting. Evaluating the
    same batch again finds [pixelLightTextures_] still set. *)
Lemma texture_flags_stay_dirty_witness :
  DirtyStateFlags.pixelLightTextures_
    (dirty_ (Sample.processed
               [BatchRenderFlag_PixelLight; BatchRenderFlag_InstantiateStaticGeometry]
               [Sample.litBatch 1 1 1 0])) = true
  /\ PipelineBatch.lightIndex_ (Sample.litBatch 1 1 1 0)
     = CachedSharedState.pixelLightIndex_
         (current_ (Sample.processed
                      [BatchRenderFlag_PixelLight; BatchRenderFlag_InstantiateStaticGeometry]
                      [Sample.litBatch 1 1 1 0]))
  /\ dirtyWhenProcessed (H := Sample.build false) Sample.heap (Sample.litBatch 1 1 1 0)
       (PipelineBatch.GetSourceBatch (Sample.litBatch 1 1 1 0))
       (Sample.processed
          [BatchRenderFlag_PixelLight; BatchRenderFlag_InstantiateStaticGeometry]
          [Sample.litBatch 1 1 1 0]) = true.
Proof.
  assert (Hflag :
    DirtyStateFlags.pixelLightTextures_
      (dirty_ (Sample.processed
                 [BatchRenderFlag_PixelLight; BatchRenderFlag_InstantiateStaticGeometry]
                 [Sample.litBatch 1 1 1 0])) = true) by (vm_compute; reflexivity).
  assert (Hsame :
    PipelineBatch.lightIndex_ (Sample.litBatch 1 1 1 0)
    = CachedSharedState.pixelLightIndex_
        (current_ (Sample.processed
                     [BatchRenderFlag_PixelLight; BatchRenderFlag_InstantiateStaticGeometry]
                     [Sample.litBatch 1 1 1 0]))) by (vm_compute; reflexivity).
  split; [ exact Hflag | split; [ exact Hsame | ] ].
  apply (texture_flags_stay_dirty (H := Sample.build false) Sample.heap).
  left. split; [ exact Hflag | exact Hsame ].
Defined.

(** What it costs: the second of two identical lit batches ends the run
    of the first, so that each is drawn by an instanced draw of its own;
    two identical unlit batches share one. The dirty flags of the second
    evaluation are all clear but [pixelLightTextures_]. *)
Lemma repeated_lit_batch_is_not_instanced :
  List.filter is_draw
    (drawQueue_ (Sample.scenePass
                   [BatchRenderFlag_PixelLight; BatchRenderFlag_InstantiateStaticGeometry]
                   [Sample.litBatch 1 1 1 0; Sample.litBatch 1 1 1 0]))
  = [DrawIndexedInstanced 0 36 0 1; DrawIndexedInstanced 0 36 1 1]
  /\ List.filter is_draw
       (drawQueue_ (Sample.scenePass
                      [BatchRenderFlag_PixelLight; BatchRenderFlag_InstantiateStaticGeometry]
                      [Sample.batch 1 1 1 GEOM_STATIC; Sample.batch 1 1 1 GEOM_STATIC]))
     = [DrawIndexedInstanced 0 36 0 2]
  /\ dirty_ (afterDirtyChecks (H := Sample.build false) Sample.heap
               (Sample.litBatch 1 1 1 0)
               (PipelineBatch.GetSourceBatch (Sample.litBatch 1 1 1 0))
               (Sample.processed
                  [BatchRenderFlag_PixelLight; BatchRenderFlag_InstantiateStaticGeometry]
                  [Sample.litBatch 1 1 1 0]))
     = DirtyStateFlags.mk false false false false true false false false false false.
Proof. repeat split; vm_compute; reflexivity. Qed.

(** The same with a lightmap: the first lightmapped batch sets
    [lightmapTextures_], and the flag is still set when the batch is
    evaluated again. *)
Lemma repeated_lightmapped_batch_is_dirty :
  dirty_ (afterDirtyChecks (H := Sample.build false) Sample.heap
            (Sample.lightmappedBatch 1 1 1 5)
            (PipelineBatch.GetSourceBatch (Sample.lightmappedBatch 1 1 1 5))
            (Sample.processed
               [BatchRenderFlag_AmbientLight; BatchRenderFlag_InstantiateStaticGeometry]
               [Sample.lightmappedBatch 1 1 1 5]))
  = DirtyStateFlags.mk false false false false false false false true false false.
Proof. vm_compute. reflexivity. Qed.

(** ** Every batch is drawn once *)

Lemma instances_drawn_cons cmd q :
  instances_drawn (cmd :: q) = instances_of cmd + instances_drawn q.
Proof. reflexivity. Qed.

Lemma instances_drawn_app q q' :
  instances_drawn (q ++ q') = instances_drawn q + instances_drawn q'.
Proof.
  induction q as [ | cmd q IH ]; [ reflexivity | ].
  rewrite <- app_comm_cons, !instances_drawn_cons, IH. lia.
Qed.

Lemma instances_of_not_key cmd : is_key cmd = false -> instances_of cmd = 0.
Proof. destruct cmd; try reflexivity; discriminate. Qed.

Lemma instances_drawn_key q : instances_drawn (List.filter is_key q) = instances_drawn q.
Proof.
  induction q as [ | cmd q IH ]; [ reflexivity | ].
  cbn [List.filter]. destruct (is_key cmd) eqn:Hkey.
  - rewrite !instances_drawn_cons, IH. reflexivity.
  - rewrite instances_drawn_cons, IH, (instances_of_not_key cmd Hkey). reflexivity.
Qed.

Section PassInstances.
Context `{Externals} (heap : Heap).

Local Abbreviation count_of c := (InstancingGroupState.count_ (instancingGroup_ c)).

Lemma instances_extend c c' ops :
  key_ops c' = key_ops c ++ ops ->
  instances_drawn (drawQueue_ c') = instances_drawn (drawQueue_ c) + instances_drawn ops.
Proof.
  intros Hops.
  rewrite <- (instances_drawn_key (drawQueue_ c')), <- (instances_drawn_key (drawQueue_ c)).
  fold (key_ops c') (key_ops c). rewrite Hops. apply instances_drawn_app.
Qed.

Lemma flush_ops_instances c :
  instances_drawn (flush_ops heap c) = if 0 <? count_of c then count_of c else 0.
Proof.
  unfold flush_ops. destruct (0 <? count_of c); [ | reflexivity ].
  cbv zeta. rewrite instances_drawn_cons. cbn [instances_of instances_drawn fold_right]. lia.
Qed.

Lemma commit_draw_instances geometry :
  instances_drawn [CommitShaderParameterGroup SP_OBJECT; direct_draw heap geometry] = 1.
Proof.
  rewrite !instances_drawn_cons. unfold direct_draw. cbv zeta.
  case_match; reflexivity.
Qed.

(** One batch: the instances drawn and those of the open run grow by one
    together. *)
Lemma ProcessBatch_instances pipelineBatch sourceBatch c :
  0 <= count_of c -> count_of c + 1 < UNSIGNED_MODULUS ->
  let c' := ProcessBatch heap pipelineBatch sourceBatch c in
  0 <= count_of c' <= count_of c + 1
  /\ instances_drawn (drawQueue_ c') + count_of c'
     = instances_drawn (drawQueue_ c) + count_of c + 1.
Proof.
  intros Hlo Hhi. cbv zeta.
  pose proof (ProcessBatch_step heap pipelineBatch sourceBatch c) as Hstep.
  cbv zeta in Hstep. destruct Hstep as (_ & _ & Hstep).
  revert Hstep. generalize (ProcessBatch heap pipelineBatch sourceBatch c).
  generalize (resetInstancingGroup (afterDirtyChecks heap pipelineBatch sourceBatch c)).
  intros reset c' Hstep.
  pose proof (flush_ops_instances c) as Hflush.
  pose proof (commit_draw_instances (PipelineBatch.geometry_ pipelineBatch)) as Hdraw.
  rewrite (FlushDrawCommands_instancingGroup heap c) in Hstep.
  destruct reset.
  - destruct Hstep as [Hk Hg].
    rewrite (instances_extend c c' _ Hk), instances_drawn_app, Hflush, Hg.
    destruct (beginInstancingGroup heap pipelineBatch c);
      destruct (0 <? count_of c) eqn:Hopen;
      try (apply Z.ltb_lt in Hopen); try (apply Z.ltb_ge in Hopen);
      rewrite ?Hdraw; cbn [InstancingGroupState.count_ instances_drawn fold_right];
      lia.
  - destruct Hstep as (Hk & Hg & _).
    rewrite (instances_extend c c' [] ltac:(rewrite app_nil_r; exact Hk)), Hg.
    cbn [InstancingGroupState.count_ instances_drawn fold_right].
    rewrite wrap32_small by lia. lia.
Qed.

Lemma FlushDrawCommands_instances c :
  0 <= count_of c ->
  instances_drawn (drawQueue_ (FlushDrawCommands heap c))
  = instances_drawn (drawQueue_ c) + count_of c.
Proof.
  intros Hlo.
  rewrite (instances_extend c _ _ (FlushDrawCommands_key_ops heap c)), flush_ops_instances.
  destruct (0 <? count_of c) eqn:Hopen; [ reflexivity | ].
  apply Z.ltb_ge in Hopen. lia.
Qed.

Lemma scene_pass_instances_from (batches : list PipelineBatch.t) :
  forall c,
  0 <= count_of c ->
  count_of c + Z.of_nat (length batches) < UNSIGNED_MODULUS ->
  instances_drawn
    (drawQueue_ (FlushDrawCommands heap
                   (fold_left (fun c b => ProcessSceneBatch heap b c) batches c)))
  = instances_drawn (drawQueue_ c) + count_of c + Z.of_nat (length batches).
Proof.
  induction batches as [ | b batches IH ]; intros c Hlo Hhi.
  - cbn [fold_left length Z.of_nat]. rewrite FlushDrawCommands_instances by exact Hlo. lia.
  - rewrite fold_left_cons, ProcessSceneBatch_eq.
    rewrite length_cons, Nat2Z.inj_succ in Hhi |- *.
    pose proof (ProcessBatch_instances b (PipelineBatch.GetSourceBatch b) c Hlo ltac:(lia))
      as Hstep.
    cbv zeta in Hstep.
    specialize (IH (ProcessBatch heap b (PipelineBatch.GetSourceBatch b) c)).
    revert Hstep IH.
    generalize (fold_left (fun c b => ProcessSceneBatch heap b c) batches
                          (ProcessBatch heap b (PipelineBatch.GetSourceBatch b) c)).
    generalize (ProcessBatch heap b (PipelineBatch.GetSourceBatch b) c).
    intros c1 c' [Hcount Hsum] IH.
    rewrite IH by lia. lia.
Qed.

(** The objects drawn by a scene pass are as many as its batches. *)
Lemma scene_pass_instances self drawQueue camera flags
    (batches : list PipelineBatchByState) outputShadowSplit :
  Z.of_nat (length batches) < UNSIGNED_MODULUS ->
  instances_drawn
    (drawQueue_ (RenderBatches_ByState heap self drawQueue camera flags batches
                   outputShadowSplit))
  = instances_drawn drawQueue + Z.of_nat (length batches).
Proof.
  intros Hlen. rewrite RenderBatches_ByState_eq.
  rewrite scene_pass_instances_from; rewrite ?length_map; unfold DrawCommandCompositor_new;
    cbn [drawQueue_ instancingGroup_]; unfold InstancingGroupState.init;
    cbn [InstancingGroupState.count_]; lia.
Qed.

End PassInstances.

(** ** Depth reconstruction *)

Lemma sub_diag_finite (s : bool) (m : positive) (e : Z) :
  sub (S754_finite s m e) (S754_finite s m e) = zero.
Proof.
  unfold sub, SFsub.
  match goal with
  | |- binary_normalize _ _ (?a - ?b) _ _ = _ =>
      replace (a - b) with 0 by (symmetry; apply Z.sub_diag)
  end.
  reflexivity.
Qed.

(** [GetCameraDepthReconstructParameter] divides by [farClip - nearClip]
    without a guard: for a camera whose near and far clip are the same
    finite non-zero value, the first two components are infinities of
    opposite signs. The last two components tell the projection. *)
Theorem GetCameraDepthReconstructParameter_degenerate (camera : Camera)
    (s : bool) (m : positive) (e : Z) :
  GetNearClip camera = S754_finite s m e ->
  GetFarClip camera = S754_finite s m e ->
  GetCameraDepthReconstructParameter camera
  = mkVector4 (S754_infinity s) (S754_infinity (negb s))
              (if IsOrthographic camera then one else zero)
              (if IsOrthographic camera then zero else one).
Proof.
  intros Hnear Hfar. unfold GetCameraDepthReconstructParameter.
  cbv zeta. rewrite Hnear, Hfar, sub_diag_finite.
  destruct (IsOrthographic camera), s; reflexivity.
Qed.

Lemma GetCameraDepthReconstructParameter_degenerate_witness :
  GetNearClip (Sample.degenerateCamera) = S754_finite false 13107200 (-17)
  /\ GetFarClip (Sample.degenerateCamera) = S754_finite false 13107200 (-17)
  /\ GetCameraDepthReconstructParameter Sample.degenerateCamera
     = mkVector4 (S754_infinity false) (S754_infinity true) zero one.
Proof.
  split; [ reflexivity | split; [ reflexivity | ] ].
  exact (GetCameraDepthReconstructParameter_degenerate
           Sample.degenerateCamera false 13107200 (-17) eq_refl eq_refl).
Defined.

(** ** The entry points on their own *)

Section EntryPointFacts.
Context `{Externals} (heap : Heap).

Local Abbreviation count_of c := (InstancingGroupState.count_ (instancingGroup_ c)).

(** A second [FlushDrawCommands] finds the group empty: it changes
    nothing, so a run is never drawn twice. *)
Theorem FlushDrawCommands_idempotent (c : DrawCommandCompositor) :
  FlushDrawCommands heap (FlushDrawCommands heap c) = FlushDrawCommands heap c.
Proof.
  assert (Hclosed : (0 <? count_of (FlushDrawCommands heap c)) = false).
  { rewrite FlushDrawCommands_instancingGroup.
    destruct (0 <? count_of c) eqn:Hopen; [ reflexivity | exact Hopen ]. }
  revert Hclosed. generalize (FlushDrawCommands heap c). intros c1 Hclosed.
  unfold FlushDrawCommands. rewrite Hclosed. reflexivity.
Qed.

(** Without batches, none of the three entry points adds a command to the
    queue or touches the instancing buffer. *)
Theorem empty_pass_emits_nothing (self : BatchRenderer) (drawQueue : DrawCommandQueue)
    (camera : Camera) :
  (forall flags outputShadowSplit,
     let c := RenderBatches_ByState heap self drawQueue camera flags [] outputShadowSplit in
     drawQueue_ c = drawQueue /\ instancingBuffer_ c = br_instancingBuffer_ self)
  /\ (forall flags outputShadowSplit,
        let c := RenderBatches_BackToFront heap self drawQueue camera flags []
                   outputShadowSplit in
        drawQueue_ c = drawQueue /\ instancingBuffer_ c = br_instancingBuffer_ self)
  /\ (forall ctx,
        let c := RenderLightVolumeBatches heap self drawQueue camera ctx [] in
        drawQueue_ c = drawQueue /\ instancingBuffer_ c = br_instancingBuffer_ self).
Proof. repeat split. Qed.

End EntryPointFacts.

(** ** The dirty checks, flag by flag *)

Section DirtyChecks.
Context `{Externals} (heap : Heap).

Lemma enabled_CheckDirtyVertexLight lightAccumulator c :
  enabled_ (CheckDirtyVertexLight lightAccumulator c) = enabled_ c.
Proof.
  destruct (quiet_inv _ _ (quiet_CheckDirtyVertexLight lightAccumulator c)) as (_ & He & _).
  exact He.
Qed.

Lemma views_ExtractObjectConstants sourceBatch lightAccumulator c :
  let c' := ExtractObjectConstants sourceBatch lightAccumulator c in
  commonView c' = commonView c /\ pixelLightView c' = pixelLightView c
  /\ vertexLightView c' = vertexLightView c /\ lightmapView c' = lightmapView c
  /\ environment c' = environment c.
Proof.
  cbv zeta. unfold commonView, pixelLightView, vertexLightView, lightmapView.
  rewrite dirty_ExtractObjectConstants, current_ExtractObjectConstants.
  repeat split.
  destruct c. cbv [ExtractObjectConstants]. simpl.
  repeat (case_match; simpl); reflexivity.
Qed.

Lemma views_CheckDirtyCommonState pipelineBatch c :
  let c' := CheckDirtyCommonState heap pipelineBatch c in
  let bias :=
    PipelineStateDesc.constantDepthBias_
      (PipelineState_GetDesc heap (PipelineBatch.pipelineState_ pipelineBatch)) in
  commonView c'
  = (negb (CachedSharedState.pipelineState_ (current_ c)
           =? PipelineBatch.pipelineState_ pipelineBatch),
     negb (CachedSharedState.material_ (current_ c) =? PipelineBatch.material_ pipelineBatch),
     negb (CachedSharedState.geometry_ (current_ c) =? PipelineBatch.geometry_ pipelineBatch),
     DirtyStateFlags.cameraConstants_ (dirty_ c)
     || ne (CachedSharedState.constantDepthBias_ (current_ c)) bias,
     DirtyStateFlags.frameConstants_ (dirty_ c),
     PipelineBatch.pipelineState_ pipelineBatch,
     PipelineBatch.material_ pipelineBatch,
     PipelineBatch.geometry_ pipelineBatch,
     if ne (CachedSharedState.constantDepthBias_ (current_ c)) bias
     then bias else CachedSharedState.constantDepthBias_ (current_ c))
  /\ pixelLightView c' = pixelLightView c
  /\ vertexLightView c' = vertexLightView c /\ lightmapView c' = lightmapView c
  /\ environment c' = environment c.
Proof.
  destruct c as [? ? ? ? ? ? ? ? ? ? ? ? ? ? [] [] ? ? ?].
  cbv [CheckDirtyCommonState current_set dirty_set commonView pixelLightView
       vertexLightView lightmapView environment]. simpl.
  repeat (case_match; simpl); rewrite ?orb_true_r, ?orb_false_r; repeat split.
Qed.

Lemma views_CheckDirtyPixelLight pipelineBatch c :
  let c' := CheckDirtyPixelLight pipelineBatch c in
  let lightIndex := PipelineBatch.lightIndex_ pipelineBatch in
  let changed := negb (CachedSharedState.pixelLightIndex_ (current_ c) =? lightIndex) in
  let params := GetShaderParams (lights_ c lightIndex) in
  let texturesDirty :=
    negb (CachedSharedState.pixelLightRamp_ (current_ c) =? lightRamp_ params)
    || negb (CachedSharedState.pixelLightShape_ (current_ c) =? lightShape_ params)
    || negb (CachedSharedState.pixelLightShadowMap_ (current_ c) =? shadowMap_ params) in
  pixelLightView c'
  = (if changed && negb (lightIndex =? M_MAX_UNSIGNED) then
       if texturesDirty
       then (true, true, lightIndex, lightRamp_ params, lightShape_ params, shadowMap_ params)
       else (true, false, lightIndex,
             CachedSharedState.pixelLightRamp_ (current_ c),
             CachedSharedState.pixelLightShape_ (current_ c),
             CachedSharedState.pixelLightShadowMap_ (current_ c))
     else (changed, DirtyStateFlags.pixelLightTextures_ (dirty_ c), lightIndex,
           CachedSharedState.pixelLightRamp_ (current_ c),
           CachedSharedState.pixelLightShape_ (current_ c),
           CachedSharedState.pixelLightShadowMap_ (current_ c)))
  /\ commonView c' = commonView c
  /\ vertexLightView c' = vertexLightView c /\ lightmapView c' = lightmapView c
  /\ environment c' = environment c.
Proof.
  destruct c as [? ? ? ? ? ? ? ? ? ? ? ? ? ? [] [] ? ? ?].
  cbv [CheckDirtyPixelLight current_set dirty_set commonView pixelLightView
       vertexLightView lightmapView environment]. simpl.
  destruct (Z.eqb_spec pixelLightIndex_ (PipelineBatch.lightIndex_ pipelineBatch)) as [-> | _];
    simpl; [ repeat split | ].
  repeat (case_match; simpl in * ); try discriminate; repeat split; congruence.
Qed.

Lemma views_CheckDirtyVertexLight lightAccumulator c :
  let c' := CheckDirtyVertexLight lightAccumulator c in
  vertexLightView c'
  = (bool_decide (CachedSharedState.vertexLights_ (current_ c)
                  ≠ GetVertexLights lightAccumulator),
     GetVertexLights lightAccumulator)
  /\ commonView c' = commonView c
  /\ pixelLightView c' = pixelLightView c /\ lightmapView c' = lightmapView c
  /\ environment c' = environment c.
Proof.
  destruct c as [? ? ? ? ? ? ? ? ? ? ? ? ? ? [] [] ? ? ?].
  cbv [CheckDirtyVertexLight current_set dirty_set commonView pixelLightView
       vertexLightView lightmapView environment]. simpl.
  repeat (case_match; simpl); repeat split.
Qed.

Lemma views_CheckDirtyLightmap sourceBatch c :
  let c' := CheckDirtyLightmap sourceBatch c in
  let scaleOffset := SourceBatch.lightmapScaleOffset_ sourceBatch in
  let changed := negb (CachedSharedState.lightmapScaleOffset_ (current_ c) =? scaleOffset) in
  let lightmapTexture :=
    if negb (scaleOffset =? nullptr)
    then GetLightmapTexture (scene_ c) (SourceBatch.lightmapIndex_ sourceBatch)
    else nullptr in
  lightmapView c'
  = (if changed
     then (true, negb (CachedSharedState.lightmapTexture_ (current_ c) =? lightmapTexture),
           scaleOffset, lightmapTexture)
     else (false, DirtyStateFlags.lightmapTextures_ (dirty_ c), scaleOffset,
           CachedSharedState.lightmapTexture_ (current_ c)))
  /\ commonView c' = commonView c
  /\ pixelLightView c' = pixelLightView c /\ vertexLightView c' = vertexLightView c
  /\ environment c' = environment c.
Proof.
  destruct c as [? ? ? ? ? ? ? ? ? ? ? ? ? ? [] [] ? ? ?].
  cbv [CheckDirtyLightmap current_set dirty_set commonView pixelLightView
       vertexLightView lightmapView environment]. simpl.
  destruct (Z.eqb_spec lightmapScaleOffset_ (SourceBatch.lightmapScaleOffset_ sourceBatch))
    as [-> | _]; simpl; repeat split.
Qed.

(** The checks in sequence: the features are constants of the compositor,
    so each check is made or skipped as the features it was constructed
    with say. *)
Lemma afterDirtyChecks_eq pipelineBatch sourceBatch c :
  afterDirtyChecks heap pipelineBatch sourceBatch c
  = let lightAccumulator :=
      if EnabledFeatureFlags.ambientLighting_ (enabled_ c)
         || EnabledFeatureFlags.vertexLighting_ (enabled_ c)
      then Some (GetGeometryLighting (drawableProcessor_ c)
                   (PipelineBatch.drawableIndex_ pipelineBatch))
      else None in
    let c0 := ExtractObjectConstants sourceBatch lightAccumulator c in
    let c1 := CheckDirtyCommonState heap pipelineBatch c0 in
    let c2 := if EnabledFeatureFlags.pixelLighting_ (enabled_ c)
              then CheckDirtyPixelLight pipelineBatch c1 else c1 in
    let c3 := if EnabledFeatureFlags.vertexLighting_ (enabled_ c) then
                match lightAccumulator with
                | Some lightAccumulator => CheckDirtyVertexLight lightAccumulator c2
                | None => c2
                end
              else c2 in
    if EnabledFeatureFlags.ambientLighting_ (enabled_ c)
    then CheckDirtyLightmap sourceBatch c3 else c3.
Proof.
  cbv beta delta [afterDirtyChecks].
  match goal with |- context [let lightAccumulator := ?e in _] => generalize e end.
  intros la. cbv zeta.
  destruct (quiet_inv _ _ (quiet_ExtractObjectConstants sourceBatch la c)) as (_ & He0 & _).
  revert He0. generalize (ExtractObjectConstants sourceBatch la c). intros c0 He0.
  destruct (quiet_inv _ _ (quiet_CheckDirtyCommonState heap pipelineBatch c0)) as (_ & He1 & _).
  revert He1. generalize (CheckDirtyCommonState heap pipelineBatch c0). intros c1 He1.
  rewrite He1, He0.
  destruct (EnabledFeatureFlags.pixelLighting_ (enabled_ c)).
  - destruct (quiet_inv _ _ (quiet_CheckDirtyPixelLight pipelineBatch c1)) as (_ & He2 & _).
    revert He2. generalize (CheckDirtyPixelLight pipelineBatch c1). intros c2 He2.
    rewrite He2, He1, He0.
    destruct (EnabledFeatureFlags.vertexLighting_ (enabled_ c)), la as [la | ];
      try (rewrite enabled_CheckDirtyVertexLight); rewrite ?He2, ?He1, ?He0;
      reflexivity.
  - rewrite He1, He0.
    destruct (EnabledFeatureFlags.vertexLighting_ (enabled_ c)), la as [la | ];
      try (rewrite enabled_CheckDirtyVertexLight); rewrite ?He1, ?He0;
      reflexivity.
Qed.

Lemma environment_inv c c' :
  environment c' = environment c ->
  drawableProcessor_ c' = drawableProcessor_ c /\ scene_ c' = scene_ c
  /\ lights_ c' = lights_ c /\ enabled_ c' = enabled_ c.
Proof. unfold environment. intros Henv. injection Henv as _ -> _ -> -> _ _ _ ->. repeat split. Qed.

Lemma commonView_CheckDirtyCommonState_from c_in pipelineBatch c :
  commonView c = commonView c_in ->
  let bias :=
    PipelineStateDesc.constantDepthBias_
      (PipelineState_GetDesc heap (PipelineBatch.pipelineState_ pipelineBatch)) in
  commonView (CheckDirtyCommonState heap pipelineBatch c)
  = (negb (CachedSharedState.pipelineState_ (current_ c_in)
           =? PipelineBatch.pipelineState_ pipelineBatch),
     negb (CachedSharedState.material_ (current_ c_in) =? PipelineBatch.material_ pipelineBatch),
     negb (CachedSharedState.geometry_ (current_ c_in) =? PipelineBatch.geometry_ pipelineBatch),
     DirtyStateFlags.cameraConstants_ (dirty_ c_in)
     || ne (CachedSharedState.constantDepthBias_ (current_ c_in)) bias,
     DirtyStateFlags.frameConstants_ (dirty_ c_in),
     PipelineBatch.pipelineState_ pipelineBatch,
     PipelineBatch.material_ pipelineBatch,
     PipelineBatch.geometry_ pipelineBatch,
     if ne (CachedSharedState.constantDepthBias_ (current_ c_in)) bias
     then bias else CachedSharedState.constantDepthBias_ (current_ c_in)).
Proof.
  intros Hview. cbv zeta.
  destruct (views_CheckDirtyCommonState pipelineBatch c) as (-> & _).
  unfold commonView in Hview. injection Hview as _ _ _ -> -> -> -> -> ->. reflexivity.
Qed.

Lemma pixelLightView_CheckDirtyPixelLight_from c_in pipelineBatch c :
  pixelLightView c = pixelLightView c_in -> lights_ c = lights_ c_in ->
  let lightIndex := PipelineBatch.lightIndex_ pipelineBatch in
  let changed := negb (CachedSharedState.pixelLightIndex_ (current_ c_in) =? lightIndex) in
  let params := GetShaderParams (lights_ c_in lightIndex) in
  let texturesDirty :=
    negb (CachedSharedState.pixelLightRamp_ (current_ c_in) =? lightRamp_ params)
    || negb (CachedSharedState.pixelLightShape_ (current_ c_in) =? lightShape_ params)
    || negb (CachedSharedState.pixelLightShadowMap_ (current_ c_in) =? shadowMap_ params) in
  pixelLightView (CheckDirtyPixelLight pipelineBatch c)
  = (if changed && negb (lightIndex =? M_MAX_UNSIGNED) then
       if texturesDirty
       then (true, true, lightIndex, lightRamp_ params, lightShape_ params, shadowMap_ params)
       else (true, false, lightIndex,
             CachedSharedState.pixelLightRamp_ (current_ c_in),
             CachedSharedState.pixelLightShape_ (current_ c_in),
             CachedSharedState.pixelLightShadowMap_ (current_ c_in))
     else (changed, DirtyStateFlags.pixelLightTextures_ (dirty_ c_in), lightIndex,
           CachedSharedState.pixelLightRamp_ (current_ c_in),
           CachedSharedState.pixelLightShape_ (current_ c_in),
           CachedSharedState.pixelLightShadowMap_ (current_ c_in))).
Proof.
  intros Hview Hlights. cbv zeta.
  destruct (views_CheckDirtyPixelLight pipelineBatch c) as (-> & _).
  unfold pixelLightView in Hview. injection Hview as _ -> -> -> -> ->.
  rewrite Hlights. reflexivity.
Qed.

Lemma vertexLightView_CheckDirtyVertexLight_from c_in lightAccumulator c :
  vertexLightView c = vertexLightView c_in ->
  vertexLightView (CheckDirtyVertexLight lightAccumulator c)
  = (bool_decide (CachedSharedState.vertexLights_ (current_ c_in)
                  ≠ GetVertexLights lightAccumulator),
     GetVertexLights lightAccumulator).
Proof.
  intros Hview.
  destruct (views_CheckDirtyVertexLight lightAccumulator c) as (-> & _).
  unfold vertexLightView in Hview. injection Hview as _ ->. reflexivity.
Qed.

Lemma lightmapView_CheckDirtyLightmap_from c_in sourceBatch c :
  lightmapView c = lightmapView c_in -> scene_ c = scene_ c_in ->
  let scaleOffset := SourceBatch.lightmapScaleOffset_ sourceBatch in
  let changed :=
    negb (CachedSharedState.lightmapScaleOffset_ (current_ c_in) =? scaleOffset) in
  let lightmapTexture :=
    if negb (scaleOffset =? nullptr)
    then GetLightmapTexture (scene_ c_in) (SourceBatch.lightmapIndex_ sourceBatch)
    else nullptr in
  lightmapView (CheckDirtyLightmap sourceBatch c)
  = (if changed
     then (true, negb (CachedSharedState.lightmapTexture_ (current_ c_in) =? lightmapTexture),
           scaleOffset, lightmapTexture)
     else (false, DirtyStateFlags.lightmapTextures_ (dirty_ c_in), scaleOffset,
           CachedSharedState.lightmapTexture_ (current_ c_in))).
Proof.
  intros Hview Hscene. cbv zeta.
  destruct (views_CheckDirtyLightmap sourceBatch c) as (-> & _).
  unfold lightmapView in Hview. injection Hview as _ -> -> ->.
  rewrite Hscene. reflexivity.
Qed.

(** The four views after the dirty checks of a batch. *)
Lemma afterDirtyChecks_views pipelineBatch sourceBatch c :
  let c' := afterDirtyChecks heap pipelineBatch sourceBatch c in
  let bias :=
    PipelineStateDesc.constantDepthBias_
      (PipelineState_GetDesc heap (PipelineBatch.pipelineState_ pipelineBatch)) in
  let lightIndex := PipelineBatch.lightIndex_ pipelineBatch in
  let lightChanged := negb (CachedSharedState.pixelLightIndex_ (current_ c) =? lightIndex) in
  let params := GetShaderParams (lights_ c lightIndex) in
  let texturesDirty :=
    negb (CachedSharedState.pixelLightRamp_ (current_ c) =? lightRamp_ params)
    || negb (CachedSharedState.pixelLightShape_ (current_ c) =? lightShape_ params)
    || negb (CachedSharedState.pixelLightShadowMap_ (current_ c) =? shadowMap_ params) in
  let vertexLights :=
    GetVertexLights (GetGeometryLighting (drawableProcessor_ c)
                       (PipelineBatch.drawableIndex_ pipelineBatch)) in
  let scaleOffset := SourceBatch.lightmapScaleOffset_ sourceBatch in
  let lightmapChanged :=
    negb (CachedSharedState.lightmapScaleOffset_ (current_ c) =? scaleOffset) in
  let lightmapTexture :=
    if negb (scaleOffset =? nullptr)
    then GetLightmapTexture (scene_ c) (SourceBatch.lightmapIndex_ sourceBatch)
    else nullptr in
  commonView c'
  = (negb (CachedSharedState.pipelineState_ (current_ c)
           =? PipelineBatch.pipelineState_ pipelineBatch),
     negb (CachedSharedState.material_ (current_ c) =? PipelineBatch.material_ pipelineBatch),
     negb (CachedSharedState.geometry_ (current_ c) =? PipelineBatch.geometry_ pipelineBatch),
     DirtyStateFlags.cameraConstants_ (dirty_ c)
     || ne (CachedSharedState.constantDepthBias_ (current_ c)) bias,
     DirtyStateFlags.frameConstants_ (dirty_ c),
     PipelineBatch.pipelineState_ pipelineBatch,
     PipelineBatch.material_ pipelineBatch,
     PipelineBatch.geometry_ pipelineBatch,
     if ne (CachedSharedState.constantDepthBias_ (current_ c)) bias
     then bias else CachedSharedState.constantDepthBias_ (current_ c))
  /\ pixelLightView c'
     = (if EnabledFeatureFlags.pixelLighting_ (enabled_ c) then
          if lightChanged && negb (lightIndex =? M_MAX_UNSIGNED) then
            if texturesDirty
            then (true, true, lightIndex, lightRamp_ params, lightShape_ params,
                  shadowMap_ params)
            else (true, false, lightIndex,
                  CachedSharedState.pixelLightRamp_ (current_ c),
                  CachedSharedState.pixelLightShape_ (current_ c),
                  CachedSharedState.pixelLightShadowMap_ (current_ c))
          else (lightChanged, DirtyStateFlags.pixelLightTextures_ (dirty_ c), lightIndex,
                CachedSharedState.pixelLightRamp_ (current_ c),
                CachedSharedState.pixelLightShape_ (current_ c),
                CachedSharedState.pixelLightShadowMap_ (current_ c))
        else pixelLightView c)
  /\ vertexLightView c'
     = (if EnabledFeatureFlags.vertexLighting_ (enabled_ c)
        then (bool_decide (CachedSharedState.vertexLights_ (current_ c) ≠ vertexLights),
              vertexLights)
        else vertexLightView c)
  /\ lightmapView c'
     = (if EnabledFeatureFlags.ambientLighting_ (enabled_ c) then
          if lightmapChanged
          then (true,
                negb (CachedSharedState.lightmapTexture_ (current_ c) =? lightmapTexture),
                scaleOffset, lightmapTexture)
          else (false, DirtyStateFlags.lightmapTextures_ (dirty_ c), scaleOffset,
                CachedSharedState.lightmapTexture_ (current_ c))
        else lightmapView c)
  /\ environment c' = environment c.
Proof.
  cbv zeta. rewrite afterDirtyChecks_eq.
  match goal with
  | |- context [let lightAccumulator := ?e in _] =>
      assert (Hla : EnabledFeatureFlags.vertexLighting_ (enabled_ c) = true ->
                    e = Some (GetGeometryLighting (drawableProcessor_ c)
                                (PipelineBatch.drawableIndex_ pipelineBatch)))
        by (intros ->; rewrite orb_true_r; reflexivity);
      revert Hla; generalize e
  end.
  intros la Hla. cbv zeta.
  pose proof (views_ExtractObjectConstants sourceBatch la c) as H0. cbv zeta in H0.
  revert H0. generalize (ExtractObjectConstants sourceBatch la c).
  intros c0 (Hc0 & Hp0 & Hv0 & Hl0 & He0).
  pose proof (views_CheckDirtyCommonState pipelineBatch c0) as H1. cbv zeta in H1.
  destruct H1 as (_ & Hp1 & Hv1 & Hl1 & He1).
  pose proof (commonView_CheckDirtyCommonState_from c pipelineBatch c0 Hc0) as Hc1.
  rewrite Hp0 in Hp1. rewrite Hv0 in Hv1. rewrite Hl0 in Hl1. rewrite He0 in He1.
  clear Hc0 Hp0 Hv0 Hl0 He0.
  revert Hc1 Hp1 Hv1 Hl1 He1. generalize (CheckDirtyCommonState heap pipelineBatch c0).
  clear c0. intros c1 Hc1 Hp1 Hv1 Hl1 He1.
  (* the pixel light *)
  eassert (H2 : exists c2,
    c2 = (if EnabledFeatureFlags.pixelLighting_ (enabled_ c)
          then CheckDirtyPixelLight pipelineBatch c1 else c1)
    /\ commonView c2 = commonView c1
    /\ vertexLightView c2 = vertexLightView c /\ lightmapView c2 = lightmapView c
    /\ environment c2 = environment c
    /\ pixelLightView c2
       = (if EnabledFeatureFlags.pixelLighting_ (enabled_ c)
          then _ else pixelLightView c)).
  { eexists. split; [ reflexivity | ].
    destruct (EnabledFeatureFlags.pixelLighting_ (enabled_ c)).
    - pose proof (views_CheckDirtyPixelLight pipelineBatch c1) as H2. cbv zeta in H2.
      destruct H2 as (_ & Hc2 & Hv2 & Hl2 & He2).
      rewrite Hv2, Hl2, He2.
      refine (conj Hc2 (conj Hv1 (conj Hl1 (conj He1 _)))).
      apply (pixelLightView_CheckDirtyPixelLight_from c); [ exact Hp1 | ].
      apply environment_inv in He1. apply He1.
    - repeat split; assumption. }
  destruct H2 as (? & -> & Hc2 & Hv2 & Hl2 & He2 & Hp2).
  rewrite Hc1 in Hc2. clear Hc1 Hp1 Hv1 Hl1 He1.
  revert Hc2 Hv2 Hl2 He2 Hp2.
  generalize (if EnabledFeatureFlags.pixelLighting_ (enabled_ c)
              then CheckDirtyPixelLight pipelineBatch c1 else c1).
  clear c1. intros c2 Hc2 Hv2 Hl2 He2 Hp2.
  (* the vertex lights *)
  eassert (H3 : exists c3,
    c3 = (if EnabledFeatureFlags.vertexLighting_ (enabled_ c) then
            match la with
            | Some lightAccumulator => CheckDirtyVertexLight lightAccumulator c2
            | None => c2
            end
          else c2)
    /\ commonView c3 = commonView c2 /\ pixelLightView c3 = pixelLightView c2
    /\ lightmapView c3 = lightmapView c /\ environment c3 = environment c
    /\ vertexLightView c3
       = (if EnabledFeatureFlags.vertexLighting_ (enabled_ c)
          then _ else vertexLightView c)).
  { eexists. split; [ reflexivity | ].
    destruct (EnabledFeatureFlags.vertexLighting_ (enabled_ c)).
    - rewrite (Hla eq_refl).
      pose proof (views_CheckDirtyVertexLight
                    (GetGeometryLighting (drawableProcessor_ c)
                       (PipelineBatch.drawableIndex_ pipelineBatch)) c2) as H3.
      cbv zeta in H3. destruct H3 as (_ & Hc3 & Hp3 & Hl3 & He3).
      rewrite Hl3, He3.
      refine (conj Hc3 (conj Hp3 (conj Hl2 (conj He2 _)))).
      apply (vertexLightView_CheckDirtyVertexLight_from c). exact Hv2.
    - repeat split; assumption. }
  destruct H3 as (? & -> & Hc3 & Hp3 & Hl3 & He3 & Hv3).
  rewrite Hc2 in Hc3. rewrite Hp2 in Hp3. clear Hc2 Hv2 Hl2 He2 Hp2 Hla.
  revert Hc3 Hp3 Hl3 He3 Hv3.
  generalize (if EnabledFeatureFlags.vertexLighting_ (enabled_ c) then
                match la with
                | Some lightAccumulator => CheckDirtyVertexLight lightAccumulator c2
                | None => c2
                end
              else c2).
  clear c2. intros c3 Hc3 Hp3 Hl3 He3 Hv3.
  (* the lightmap *)
  destruct (EnabledFeatureFlags.ambientLighting_ (enabled_ c)).
  - pose proof (views_CheckDirtyLightmap sourceBatch c3) as H4. cbv zeta in H4.
    destruct H4 as (_ & Hc4 & Hp4 & Hv4 & He4).
    rewrite Hc4, Hp4, Hv4, He4.
    refine (conj Hc3 (conj Hp3 (conj Hv3 (conj _ He3)))).
    apply (lightmapView_CheckDirtyLightmap_from c); [ exact Hl3 | ].
    apply environment_inv in He3. apply He3.
  - repeat split; assumption.
Qed.

(** After the dirty checks of a batch, each dirty flag tells whether the
    key of the batch differs from the key that was cached, for the checks
    the features enable: the pipeline state, the material, the geometry,
    the index of the pixel light, the vertex lights as a sequence, the
    lightmap scale and offset. [cameraConstants_] is also set when the
    depth bias of the pipeline state differs from the cached one, and is
    never cleared here; [frameConstants_] is not touched. The texture
    flags are assigned only when the key they hang on has changed (and,
    for the pixel light, the batch is lit). The check of a disabled
    feature leaves its flags as they are. *)
Theorem dirty_flags_after_checks pipelineBatch sourceBatch c :
  let c' := afterDirtyChecks heap pipelineBatch sourceBatch c in
  let cached := current_ c in
  let dirty := dirty_ c in
  let bias :=
    PipelineStateDesc.constantDepthBias_
      (PipelineState_GetDesc heap (PipelineBatch.pipelineState_ pipelineBatch)) in
  let lightIndex := PipelineBatch.lightIndex_ pipelineBatch in
  let lightChanged := negb (CachedSharedState.pixelLightIndex_ cached =? lightIndex) in
  let params := GetShaderParams (lights_ c lightIndex) in
  let vertexLights :=
    GetVertexLights (GetGeometryLighting (drawableProcessor_ c)
                       (PipelineBatch.drawableIndex_ pipelineBatch)) in
  let scaleOffset := SourceBatch.lightmapScaleOffset_ sourceBatch in
  let lightmapChanged :=
    negb (CachedSharedState.lightmapScaleOffset_ cached =? scaleOffset) in
  let lightmapTexture :=
    if negb (scaleOffset =? nullptr)
    then GetLightmapTexture (scene_ c) (SourceBatch.lightmapIndex_ sourceBatch)
    else nullptr in
  dirty_ c'
  = DirtyStateFlags.mk
      (negb (CachedSharedState.pipelineState_ cached
             =? PipelineBatch.pipelineState_ pipelineBatch))
      (DirtyStateFlags.frameConstants_ dirty)
      (DirtyStateFlags.cameraConstants_ dirty
       || ne (CachedSharedState.constantDepthBias_ cached) bias)
      (if EnabledFeatureFlags.pixelLighting_ (enabled_ c)
       then lightChanged else DirtyStateFlags.pixelLightConstants_ dirty)
      (if EnabledFeatureFlags.pixelLighting_ (enabled_ c)
          && lightChanged && negb (lightIndex =? M_MAX_UNSIGNED)
       then negb (CachedSharedState.pixelLightRamp_ cached =? lightRamp_ params)
            || negb (CachedSharedState.pixelLightShape_ cached =? lightShape_ params)
            || negb (CachedSharedState.pixelLightShadowMap_ cached =? shadowMap_ params)
       else DirtyStateFlags.pixelLightTextures_ dirty)
      (if EnabledFeatureFlags.vertexLighting_ (enabled_ c)
       then bool_decide (CachedSharedState.vertexLights_ cached ≠ vertexLights)
       else DirtyStateFlags.vertexLightConstants_ dirty)
      (if EnabledFeatureFlags.ambientLighting_ (enabled_ c)
       then lightmapChanged else DirtyStateFlags.lightmapConstants_ dirty)
      (if EnabledFeatureFlags.ambientLighting_ (enabled_ c) && lightmapChanged
       then negb (CachedSharedState.lightmapTexture_ cached =? lightmapTexture)
       else DirtyStateFlags.lightmapTextures_ dirty)
      (negb (CachedSharedState.material_ cached =? PipelineBatch.material_ pipelineBatch))
      (negb (CachedSharedState.geometry_ cached =? PipelineBatch.geometry_ pipelineBatch)).
Proof.
  cbv zeta.
  pose proof (afterDirtyChecks_views pipelineBatch sourceBatch c) as Hviews.
  cbv zeta in Hviews. revert Hviews.
  generalize (afterDirtyChecks heap pipelineBatch sourceBatch c).
  intros c' (Hc & Hp & Hv & Hl & _).
  unfold commonView, pixelLightView, vertexLightView, lightmapView in Hc, Hp, Hv, Hl.
  destruct (dirty_ c') as [ps fr cam plc plt vlc lmc lmt mat geo].
  cbn [DirtyStateFlags.pipelineState_ DirtyStateFlags.frameConstants_
       DirtyStateFlags.cameraConstants_ DirtyStateFlags.pixelLightConstants_
       DirtyStateFlags.pixelLightTextures_ DirtyStateFlags.vertexLightConstants_
       DirtyStateFlags.lightmapConstants_ DirtyStateFlags.lightmapTextures_
       DirtyStateFlags.material_ DirtyStateFlags.geometry_] in Hc, Hp, Hv, Hl.
  injection Hc as -> -> -> -> -> _ _ _ _.
  destruct (EnabledFeatureFlags.pixelLighting_ (enabled_ c));
    destruct (EnabledFeatureFlags.vertexLighting_ (enabled_ c));
    destruct (EnabledFeatureFlags.ambientLighting_ (enabled_ c));
    cbn [andb];
    repeat match goal with
    | H : _ = (if ?b then _ else _) |- _ => destruct b eqn:?
    end;
    injection Hp as -> -> _ _ _ _; injection Hv as -> _; injection Hl as -> -> _ _;
    repeat match goal with
    | H : _ && _ = true |- _ => apply andb_true_iff in H; destruct H as [? ?]
    end;
    repeat match goal with
    | H : ?b = _ |- context [?b] => rewrite H
    end;
    reflexivity.
Qed.

(** After the dirty checks the cache holds the keys of the batch: its
    pipeline state, material and geometry and, for the checks the
    features enable, its light index, vertex lights and lightmap scale
    and offset. The constants of the compositor are left alone. *)
Theorem cache_after_checks pipelineBatch sourceBatch c :
  let c' := afterDirtyChecks heap pipelineBatch sourceBatch c in
  CachedSharedState.pipelineState_ (current_ c') = PipelineBatch.pipelineState_ pipelineBatch
  /\ CachedSharedState.material_ (current_ c') = PipelineBatch.material_ pipelineBatch
  /\ CachedSharedState.geometry_ (current_ c') = PipelineBatch.geometry_ pipelineBatch
  /\ (EnabledFeatureFlags.pixelLighting_ (enabled_ c) = true ->
      CachedSharedState.pixelLightIndex_ (current_ c') = PipelineBatch.lightIndex_ pipelineBatch)
  /\ (EnabledFeatureFlags.vertexLighting_ (enabled_ c) = true ->
      CachedSharedState.vertexLights_ (current_ c')
      = GetVertexLights (GetGeometryLighting (drawableProcessor_ c)
                           (PipelineBatch.drawableIndex_ pipelineBatch)))
  /\ (EnabledFeatureFlags.ambientLighting_ (enabled_ c) = true ->
      CachedSharedState.lightmapScaleOffset_ (current_ c')
      = SourceBatch.lightmapScaleOffset_ sourceBatch)
  /\ environment c' = environment c.
Proof.
  cbv zeta.
  pose proof (afterDirtyChecks_views pipelineBatch sourceBatch c) as Hviews.
  cbv zeta in Hviews. revert Hviews.
  generalize (afterDirtyChecks heap pipelineBatch sourceBatch c).
  intros c' (Hc & Hp & Hv & Hl & He).
  unfold commonView, pixelLightView, vertexLightView, lightmapView in Hc, Hp, Hv, Hl.
  injection Hc as _ _ _ _ _ -> -> -> _.
  repeat split; try assumption.
  - intros Hon. rewrite Hon in Hp.
    repeat match type of Hp with _ = (if ?b then _ else _) => destruct b end;
      injection Hp as _ _ -> _ _ _; reflexivity.
  - intros Hon. rewrite Hon in Hv. injection Hv as _ ->. reflexivity.
  - intros Hon. rewrite Hon in Hl.
    repeat match type of Hl with _ = (if ?b then _ else _) => destruct b end;
      injection Hl as _ _ -> _; reflexivity.
Qed.

End DirtyChecks.

(** ** More frame properties: bindings, flags and constants *)

Section MoreSetters.
Variable c : DrawCommandCompositor.

Lemma emitted_emit p cmd :
  emitted p (emit cmd c) = emitted p c ++ (if p cmd then [cmd] else []).
Proof.
  unfold emitted. rewrite drawQueue_emit, List.filter_app. cbn [List.filter].
  destruct (p cmd); reflexivity.
Qed.
Lemma emitted_emit_skip p cmd : p cmd = false -> emitted p (emit cmd c) = emitted p c.
Proof. intros Hcmd. rewrite emitted_emit, Hcmd. apply app_nil_r. Qed.
Lemma emitted_emit_keep p cmd : p cmd = true -> emitted p (emit cmd c) = emitted p c ++ [cmd].
Proof. intros Hcmd. rewrite emitted_emit, Hcmd. reflexivity. Qed.
Lemma emitted_dirty_set p s v : emitted p (dirty_set s v c) = emitted p c.
Proof. destruct c; reflexivity. Qed.
Lemma emitted_current_set {A} p s (v : A) : emitted p (current_set s v c) = emitted p c.
Proof. destruct c; reflexivity. Qed.
Lemma emitted_set_object_ p v : emitted p (set_object_ v c) = emitted p c.
Proof. destruct c; reflexivity. Qed.
Lemma emitted_set_instancingGroup_ p v : emitted p (set_instancingGroup_ v c) = emitted p c.
Proof. destruct c; reflexivity. Qed.
Lemma emitted_set_instancingBuffer_ p v : emitted p (set_instancingBuffer_ v c) = emitted p c.
Proof. destruct c; reflexivity. Qed.
Lemma emitted_set_lightVolumeHelpers_ p v :
  emitted p (set_lightVolumeHelpers_ v c) = emitted p c.
Proof. destruct c; reflexivity. Qed.

Lemma drawQueue_current_set {A} s (v : A) : drawQueue_ (current_set s v c) = drawQueue_ c.
Proof. destruct c; reflexivity. Qed.
Lemma drawQueue_set_object_ v : drawQueue_ (set_object_ v c) = drawQueue_ c.
Proof. destruct c; reflexivity. Qed.

Lemma environment_emit cmd : environment (emit cmd c) = environment c.
Proof. destruct c; reflexivity. Qed.
Lemma environment_dirty_set s v : environment (dirty_set s v c) = environment c.
Proof. destruct c; reflexivity. Qed.
Lemma environment_current_set {A} s (v : A) : environment (current_set s v c) = environment c.
Proof. destruct c; reflexivity. Qed.
Lemma environment_set_object_ v : environment (set_object_ v c) = environment c.
Proof. destruct c; reflexivity. Qed.
Lemma environment_set_instancingGroup_ v :
  environment (set_instancingGroup_ v c) = environment c.
Proof. destruct c; reflexivity. Qed.
Lemma environment_set_instancingBuffer_ v :
  environment (set_instancingBuffer_ v c) = environment c.
Proof. destruct c; reflexivity. Qed.
Lemma environment_set_lightVolumeHelpers_ v :
  environment (set_lightVolumeHelpers_ v c) = environment c.
Proof. destruct c; reflexivity. Qed.

Lemma lightFlags_emit cmd : lightFlags (emit cmd c) = lightFlags c.
Proof. destruct c; reflexivity. Qed.
Lemma lightFlags_set_pipelineState_ v :
  lightFlags (dirty_set DirtyStateFlags.set_pipelineState_ v c) = lightFlags c.
Proof. destruct c as [? ? ? ? ? ? ? ? ? ? ? ? ? ? [] ? ? ? ?]; reflexivity. Qed.
Lemma lightFlags_set_frameConstants_ v :
  lightFlags (dirty_set DirtyStateFlags.set_frameConstants_ v c) = lightFlags c.
Proof. destruct c as [? ? ? ? ? ? ? ? ? ? ? ? ? ? [] ? ? ? ?]; reflexivity. Qed.
Lemma lightFlags_set_cameraConstants_ v :
  lightFlags (dirty_set DirtyStateFlags.set_cameraConstants_ v c) = lightFlags c.
Proof. destruct c as [? ? ? ? ? ? ? ? ? ? ? ? ? ? [] ? ? ? ?]; reflexivity. Qed.
Lemma lightFlags_set_geometry_ v :
  lightFlags (dirty_set DirtyStateFlags.set_geometry_ v c) = lightFlags c.
Proof. destruct c as [? ? ? ? ? ? ? ? ? ? ? ? ? ? [] ? ? ? ?]; reflexivity. Qed.
Lemma geometryFlag_emit cmd : geometryFlag (emit cmd c) = geometryFlag c.
Proof. destruct c; reflexivity. Qed.
Lemma geometryFlag_set_pipelineState_ v :
  geometryFlag (dirty_set DirtyStateFlags.set_pipelineState_ v c) = geometryFlag c.
Proof. destruct c as [? ? ? ? ? ? ? ? ? ? ? ? ? ? [] ? ? ? ?]; reflexivity. Qed.
Lemma geometryFlag_set_frameConstants_ v :
  geometryFlag (dirty_set DirtyStateFlags.set_frameConstants_ v c) = geometryFlag c.
Proof. destruct c as [? ? ? ? ? ? ? ? ? ? ? ? ? ? [] ? ? ? ?]; reflexivity. Qed.
Lemma geometryFlag_set_cameraConstants_ v :
  geometryFlag (dirty_set DirtyStateFlags.set_cameraConstants_ v c) = geometryFlag c.
Proof. destruct c as [? ? ? ? ? ? ? ? ? ? ? ? ? ? [] ? ? ? ?]; reflexivity. Qed.
Lemma lightFlags_set_instancingGroup_ v : lightFlags (set_instancingGroup_ v c) = lightFlags c.
Proof. destruct c; reflexivity. Qed.
Lemma lightFlags_set_instancingBuffer_ v : lightFlags (set_instancingBuffer_ v c) = lightFlags c.
Proof. destruct c; reflexivity. Qed.

Lemma drawQueue_set_instancingGroup_ v : drawQueue_ (set_instancingGroup_ v c) = drawQueue_ c.
Proof. destruct c; reflexivity. Qed.
Lemma drawQueue_set_instancingBuffer_ v : drawQueue_ (set_instancingBuffer_ v c) = drawQueue_ c.
Proof. destruct c; reflexivity. Qed.
Lemma dirty_emit cmd : dirty_ (emit cmd c) = dirty_ c.
Proof. destruct c; reflexivity. Qed.
Lemma dirty_set_object_ v : dirty_ (set_object_ v c) = dirty_ c.
Proof. destruct c; reflexivity. Qed.
Lemma dirty_set_instancingGroup_ v : dirty_ (set_instancingGroup_ v c) = dirty_ c.
Proof. destruct c; reflexivity. Qed.
Lemma dirty_set_instancingBuffer_ v : dirty_ (set_instancingBuffer_ v c) = dirty_ c.
Proof. destruct c; reflexivity. Qed.

End MoreSetters.

Lemma dirty_emit_all cmds c : dirty_ (emit_all cmds c) = dirty_ c.
Proof. apply emit_all_frame. intros. apply dirty_emit. Qed.

Lemma emitted_emit_all_map_skip {A} p (f : A -> DrawCommand) l c :
  (forall a, p (f a) = false) -> emitted p (emit_all (map f l) c) = emitted p c.
Proof.
  intros Hf. apply emit_all_frame. intros cmd c' Hin.
  apply emitted_emit_skip. apply in_map_iff in Hin. destruct Hin as (a & <- & _). apply Hf.
Qed.

Lemma environment_emit_all cmds c : environment (emit_all cmds c) = environment c.
Proof. apply emit_all_frame. intros. apply environment_emit. Qed.

Lemma lightFlags_emit_all cmds c : lightFlags (emit_all cmds c) = lightFlags c.
Proof. apply emit_all_frame. intros. apply lightFlags_emit. Qed.

Lemma geometryFlag_emit_all cmds c : geometryFlag (emit_all cmds c) = geometryFlag c.
Proof. apply emit_all_frame. intros. apply geometryFlag_emit. Qed.

#[local] Hint Rewrite
  emitted_dirty_set @emitted_current_set emitted_set_object_ emitted_set_instancingGroup_
  emitted_set_instancingBuffer_ emitted_set_lightVolumeHelpers_
  drawQueue_dirty_set @drawQueue_current_set drawQueue_set_object_
  environment_emit environment_dirty_set @environment_current_set environment_set_object_
  environment_set_instancingGroup_ environment_set_instancingBuffer_
  environment_set_lightVolumeHelpers_ environment_emit_all
  lightFlags_emit lightFlags_set_pipelineState_ lightFlags_set_frameConstants_
  lightFlags_set_cameraConstants_ lightFlags_set_geometry_ lightFlags_set_instancingGroup_
  lightFlags_set_instancingBuffer_ lightFlags_emit_all
  dirty_emit dirty_set_object_ dirty_set_instancingGroup_ dirty_set_instancingBuffer_
  dirty_emit_all @dirty_current_set
  drawQueue_set_instancingGroup_ drawQueue_set_instancingBuffer_
  geometryFlag_emit geometryFlag_set_pipelineState_ geometryFlag_set_frameConstants_
  geometryFlag_set_cameraConstants_ geometryFlag_emit_all
  : frame.

Ltac frame_rewrite ::=
  first
    [ rewrite quiet_emit_skip by reflexivity
    | rewrite quiet_emit_all_map_skip by (intros; reflexivity)
    | rewrite emitted_emit_skip by reflexivity
    | rewrite emitted_emit_all_map_skip by (intros; reflexivity)
    | progress autorewrite with frame ].

Section MoreFrames.
Context `{Externals} (heap : Heap).

Local Abbreviation bindings := (emitted is_binding_or_draw).

Lemma bindings_AddFrameConstants c : bindings (AddFrameConstants c) = bindings c.
Proof. frame_of AddFrameConstants. Qed.
Lemma bindings_AddCameraConstants bias c : bindings (AddCameraConstants bias c) = bindings c.
Proof. frame_of AddCameraConstants. Qed.
Lemma bindings_AddVertexLightConstants c : bindings (AddVertexLightConstants c) = bindings c.
Proof. frame_of AddVertexLightConstants. Qed.
Lemma bindings_AddPixelLightConstants params c :
  bindings (AddPixelLightConstants params c) = bindings c.
Proof. frame_of AddPixelLightConstants. Qed.

Lemma environment_AddFrameConstants c : environment (AddFrameConstants c) = environment c.
Proof. frame_of AddFrameConstants. Qed.
Lemma environment_AddCameraConstants bias c :
  environment (AddCameraConstants bias c) = environment c.
Proof. frame_of AddCameraConstants. Qed.
Lemma environment_AddVertexLightConstants c :
  environment (AddVertexLightConstants c) = environment c.
Proof. frame_of AddVertexLightConstants. Qed.
Lemma environment_AddPixelLightConstants params c :
  environment (AddPixelLightConstants params c) = environment c.
Proof. frame_of AddPixelLightConstants. Qed.

Lemma lightFlags_AddFrameConstants c : lightFlags (AddFrameConstants c) = lightFlags c.
Proof. frame_of AddFrameConstants. Qed.
Lemma lightFlags_AddCameraConstants bias c :
  lightFlags (AddCameraConstants bias c) = lightFlags c.
Proof. frame_of AddCameraConstants. Qed.
Lemma lightFlags_AddVertexLightConstants c :
  lightFlags (AddVertexLightConstants c) = lightFlags c.
Proof. frame_of AddVertexLightConstants. Qed.
Lemma lightFlags_AddPixelLightConstants params c :
  lightFlags (AddPixelLightConstants params c) = lightFlags c.
Proof. frame_of AddPixelLightConstants. Qed.

Lemma geometryFlag_AddFrameConstants c : geometryFlag (AddFrameConstants c) = geometryFlag c.
Proof. frame_of AddFrameConstants. Qed.
Lemma geometryFlag_AddCameraConstants bias c :
  geometryFlag (AddCameraConstants bias c) = geometryFlag c.
Proof. frame_of AddCameraConstants. Qed.
Lemma geometryFlag_AddVertexLightConstants c :
  geometryFlag (AddVertexLightConstants c) = geometryFlag c.
Proof. frame_of AddVertexLightConstants. Qed.
Lemma geometryFlag_AddPixelLightConstants params c :
  geometryFlag (AddPixelLightConstants params c) = geometryFlag c.
Proof. frame_of AddPixelLightConstants. Qed.

Hint Rewrite geometryFlag_AddFrameConstants geometryFlag_AddCameraConstants
  geometryFlag_AddVertexLightConstants geometryFlag_AddPixelLightConstants : frame.

Hint Rewrite bindings_AddFrameConstants bindings_AddCameraConstants
  bindings_AddVertexLightConstants bindings_AddPixelLightConstants
  environment_AddFrameConstants environment_AddCameraConstants
  environment_AddVertexLightConstants environment_AddPixelLightConstants
  lightFlags_AddFrameConstants lightFlags_AddCameraConstants
  lightFlags_AddVertexLightConstants lightFlags_AddPixelLightConstants
  current_AddFrameConstants current_AddCameraConstants
  current_AddVertexLightConstants current_AddPixelLightConstants : frame.

Lemma environment_UpdateDirtyConstants c :
  environment (UpdateDirtyConstants heap c) = environment c.
Proof. frame_of UpdateDirtyConstants. Qed.
Lemma lightFlags_UpdateDirtyConstants c :
  lightFlags (UpdateDirtyConstants heap c) = lightFlags c.
Proof. frame_of UpdateDirtyConstants. Qed.

(** [UpdateDirtyConstants] emits [SetPipelineState] for the cached
    pipeline state exactly when the flag is set, and no other binding. *)
Lemma bindings_UpdateDirtyConstants c :
  bindings (UpdateDirtyConstants heap c)
  = bindings c
    ++ (if DirtyStateFlags.pipelineState_ (dirty_ c)
        then [SetPipelineState (CachedSharedState.pipelineState_ (current_ c))] else []).
Proof.
  cbv beta delta [UpdateDirtyConstants].
  lazymatch goal with
  | |- ?P (let x := ?e in @?B x) = ?R =>
      assert (H1 : P e = R);
      [ | revert H1; generalize e; intros c1 H1; change (P (B c1) = R); cbv beta; frame ]
  end.
  destruct (DirtyStateFlags.pipelineState_ (dirty_ c)).
  - cbv zeta. rewrite emitted_dirty_set, emitted_emit_keep by reflexivity. reflexivity.
  - symmetry. apply app_nil_r.
Qed.

Lemma bindings_UpdateDirtyResources c : bindings (UpdateDirtyResources heap c) = bindings c.
Proof. frame_of UpdateDirtyResources. Qed.
Lemma environment_UpdateDirtyResources c :
  environment (UpdateDirtyResources heap c) = environment c.
Proof. frame_of UpdateDirtyResources. Qed.
Lemma lightFlags_UpdateDirtyResources c :
  lightFlags (UpdateDirtyResources heap c) = lightFlags c.
Proof. frame_of UpdateDirtyResources. Qed.
Lemma dirty_UpdateDirtyResources c : dirty_ (UpdateDirtyResources heap c) = dirty_ c.
Proof. frame_of UpdateDirtyResources. Qed.

Lemma bindings_AddObjectConstants c : bindings (AddObjectConstants c) = bindings c.
Proof. frame_of AddObjectConstants. Qed.
Lemma environment_AddObjectConstants c : environment (AddObjectConstants c) = environment c.
Proof. frame_of AddObjectConstants. Qed.
Lemma dirty_AddObjectConstants c : dirty_ (AddObjectConstants c) = dirty_ c.
Proof. frame_of AddObjectConstants. Qed.

Lemma drawQueue_AddObjectInstanceData c :
  drawQueue_ (AddObjectInstanceData c) = drawQueue_ c.
Proof. frame_of AddObjectInstanceData. Qed.
Lemma environment_AddObjectInstanceData c :
  environment (AddObjectInstanceData c) = environment c.
Proof. frame_of AddObjectInstanceData. Qed.
Lemma dirty_AddObjectInstanceData c : dirty_ (AddObjectInstanceData c) = dirty_ c.
Proof. frame_of AddObjectInstanceData. Qed.

Lemma environment_DrawObject c : environment (DrawObject heap c) = environment c.
Proof. frame_of DrawObject. Qed.
Lemma lightFlags_DrawObject c : lightFlags (DrawObject heap c) = lightFlags c.
Proof. frame_of DrawObject. Qed.

Lemma environment_FlushDrawCommands c : environment (FlushDrawCommands heap c) = environment c.
Proof. cbv beta delta [FlushDrawCommands DrawObjectInstanced]. frame. Qed.
Lemma dirty_FlushDrawCommands c : dirty_ (FlushDrawCommands heap c) = dirty_ c.
Proof. cbv beta delta [FlushDrawCommands DrawObjectInstanced]. frame. Qed.

Lemma drawQueue_ExtractObjectConstants sourceBatch lightAccumulator c :
  drawQueue_ (ExtractObjectConstants sourceBatch lightAccumulator c) = drawQueue_ c.
Proof. frame_of ExtractObjectConstants. Qed.
Lemma drawQueue_CheckDirtyCommonState pipelineBatch c :
  drawQueue_ (CheckDirtyCommonState heap pipelineBatch c) = drawQueue_ c.
Proof. frame_of CheckDirtyCommonState. Qed.
Lemma drawQueue_CheckDirtyPixelLight pipelineBatch c :
  drawQueue_ (CheckDirtyPixelLight pipelineBatch c) = drawQueue_ c.
Proof. frame_of CheckDirtyPixelLight. Qed.
Lemma drawQueue_CheckDirtyVertexLight lightAccumulator c :
  drawQueue_ (CheckDirtyVertexLight lightAccumulator c) = drawQueue_ c.
Proof. frame_of CheckDirtyVertexLight. Qed.
Lemma drawQueue_CheckDirtyLightmap sourceBatch c :
  drawQueue_ (CheckDirtyLightmap sourceBatch c) = drawQueue_ c.
Proof. frame_of CheckDirtyLightmap. Qed.

Hint Rewrite drawQueue_ExtractObjectConstants drawQueue_CheckDirtyCommonState
  drawQueue_CheckDirtyPixelLight drawQueue_CheckDirtyVertexLight
  drawQueue_CheckDirtyLightmap : frame.

(** The dirty checks leave the queue alone. *)
Lemma drawQueue_afterDirtyChecks pipelineBatch sourceBatch c :
  drawQueue_ (afterDirtyChecks heap pipelineBatch sourceBatch c) = drawQueue_ c.
Proof. frame_of afterDirtyChecks. Qed.

Lemma geometryFlag_UpdateDirtyConstants c :
  geometryFlag (UpdateDirtyConstants heap c) = geometryFlag c.
Proof. frame_of UpdateDirtyConstants. Qed.

Lemma bindings_flush_commands c :
  List.filter is_binding_or_draw (flush_commands heap c) = flush_commands heap c.
Proof. unfold flush_commands. destruct (0 <? _); reflexivity. Qed.

Lemma bindings_FlushDrawCommands c :
  bindings (FlushDrawCommands heap c) = bindings c ++ flush_commands heap c.
Proof.
  unfold emitted at 1. rewrite FlushDrawCommands_drawQueue, List.filter_app.
  fold (emitted is_binding_or_draw c). f_equal. apply bindings_flush_commands.
Qed.

Lemma is_binding_direct_draw geometry : is_binding_or_draw (direct_draw heap geometry) = true.
Proof.
  unfold is_binding_or_draw, is_draw. rewrite direct_draw_is_direct.
  apply orb_true_r.
Qed.

Lemma bindings_DrawObject c :
  bindings (DrawObject heap c)
  = bindings c
    ++ (if geometryFlag c
        then [bind_geometry heap (CachedSharedState.geometry_ (current_ c))] else [])
    ++ [direct_draw heap (CachedSharedState.geometry_ (current_ c))].
Proof.
  unfold emitted at 1. rewrite DrawObject_drawQueue, !List.filter_app.
  cbn [List.filter]. rewrite is_binding_direct_draw.
  fold (emitted is_binding_or_draw c). unfold geometryFlag, bind_geometry.
  destruct (DirtyStateFlags.geometry_ (dirty_ c)); reflexivity.
Qed.

Lemma geometryFlag_AddObjectConstants c :
  geometryFlag (AddObjectConstants c) = geometryFlag c.
Proof. unfold geometryFlag. rewrite dirty_AddObjectConstants. reflexivity. Qed.

Lemma geometryFlag_UpdateDirtyResources c :
  geometryFlag (UpdateDirtyResources heap c) = geometryFlag c.
Proof. unfold geometryFlag. rewrite dirty_UpdateDirtyResources. reflexivity. Qed.

Lemma emitted_AddObjectInstanceData p c : emitted p (AddObjectInstanceData c) = emitted p c.
Proof. unfold emitted. rewrite drawQueue_AddObjectInstanceData. reflexivity. Qed.

(** The second half of [ProcessBatch], as to the bindings and draws: at a
    flush point the open run is drawn, the pipeline state is set when its
    flag is set and, unless a run begins, the buffers are bound when the
    geometry flag is set and the batch is drawn; otherwise nothing. *)
Lemma finishBatch_bindings pipelineBatch c :
  bindings (finishBatch heap pipelineBatch c)
  = bindings c
    ++ (if resetInstancingGroup c then
          flush_commands heap c
          ++ (if DirtyStateFlags.pipelineState_ (dirty_ c)
              then [SetPipelineState (CachedSharedState.pipelineState_ (current_ c))]
              else [])
          ++ (if beginInstancingGroup heap pipelineBatch c then []
              else (if geometryFlag c
                    then [bind_geometry heap (CachedSharedState.geometry_ (current_ c))]
                    else [])
                   ++ [direct_draw heap (CachedSharedState.geometry_ (current_ c))])
        else []).
Proof.
  cbv beta delta [finishBatch]. destruct (resetInstancingGroup c).
  - change (if 0 <? InstancingGroupState.count_ (instancingGroup_ c)
            then DrawObjectInstanced heap c else c) with (FlushDrawCommands heap c).
    cbv zeta.
    pose proof (bindings_FlushDrawCommands c) as Hb1.
    pose proof (dirty_FlushDrawCommands c) as Hd1.
    pose proof (current_FlushDrawCommands heap c) as Hc1.
    pose proof (enabled_FlushDrawCommands heap c) as He1.
    revert Hb1 Hd1 Hc1 He1. generalize (FlushDrawCommands heap c).
    intros c1 Hb1 Hd1 Hc1 He1.
    pose proof (bindings_UpdateDirtyConstants c1) as Hb2.
    rewrite <- (bindings_UpdateDirtyResources (UpdateDirtyConstants heap c1)) in Hb2.
    pose proof (geometryFlag_UpdateDirtyConstants c1) as Hg2.
    rewrite <- (geometryFlag_UpdateDirtyResources (UpdateDirtyConstants heap c1)) in Hg2.
    pose proof (UpdateDirty_current heap c1) as Hc2.
    destruct (quiet_inv _ _ (UpdateDirty_quiet heap c1)) as (_ & He2 & _).
    rewrite Hb1, Hd1, Hc1 in Hb2. unfold geometryFlag in Hg2 at 2. rewrite Hd1 in Hg2.
    fold (geometryFlag c) in Hg2. rewrite Hc1 in Hc2. rewrite He1 in He2.
    clear Hb1 Hd1 Hc1 He1.
    revert Hb2 Hg2 Hc2 He2.
    generalize (UpdateDirtyResources heap (UpdateDirtyConstants heap c1)).
    clear c1. intros c2 Hb2 Hg2 Hc2 He2.
    rewrite (beginInstancingGroup_enabled heap pipelineBatch c c2 He2).
    destruct (beginInstancingGroup heap pipelineBatch c).
    + rewrite emitted_AddObjectInstanceData, emitted_set_instancingGroup_,
        emitted_set_instancingBuffer_, Hb2, app_nil_r, <- app_assoc. reflexivity.
    + rewrite bindings_DrawObject.
      rewrite !current_emit, current_AddObjectConstants, current_emit.
      unfold geometryFlag at 1. rewrite dirty_emit, dirty_AddObjectConstants, dirty_emit.
      fold (geometryFlag c2).
      rewrite emitted_emit_skip by reflexivity.
      rewrite bindings_AddObjectConstants.
      rewrite emitted_emit_skip by reflexivity.
      rewrite Hb2, Hg2, Hc2, <- !app_assoc. reflexivity.
  - cbv zeta.
    rewrite emitted_AddObjectInstanceData, emitted_set_instancingBuffer_,
      emitted_set_instancingGroup_, app_nil_r. reflexivity.
Qed.

Lemma environment_DrawObjectInstanced c :
  environment (DrawObjectInstanced heap c) = environment c.
Proof. frame_of DrawObjectInstanced. Qed.
Lemma lightFlags_DrawObjectInstanced c :
  lightFlags (DrawObjectInstanced heap c) = lightFlags c.
Proof. frame_of DrawObjectInstanced. Qed.
Lemma lightFlags_AddObjectConstants c : lightFlags (AddObjectConstants c) = lightFlags c.
Proof. unfold lightFlags. rewrite dirty_AddObjectConstants. reflexivity. Qed.
Lemma lightFlags_AddObjectInstanceData c :
  lightFlags (AddObjectInstanceData c) = lightFlags c.
Proof. unfold lightFlags. rewrite dirty_AddObjectInstanceData. reflexivity. Qed.

Hint Rewrite environment_UpdateDirtyConstants environment_UpdateDirtyResources
  environment_AddObjectConstants environment_AddObjectInstanceData environment_DrawObject
  environment_DrawObjectInstanced
  lightFlags_UpdateDirtyConstants lightFlags_UpdateDirtyResources
  lightFlags_AddObjectConstants lightFlags_AddObjectInstanceData lightFlags_DrawObject
  lightFlags_DrawObjectInstanced : frame.

(** The second half of [ProcessBatch] leaves the constants of the
    compositor, the cache and the flags of the light checks alone. *)
Lemma environment_finishBatch pipelineBatch c :
  environment (finishBatch heap pipelineBatch c) = environment c.
Proof. frame_of finishBatch. Qed.

Lemma lightFlags_finishBatch pipelineBatch c :
  lightFlags (finishBatch heap pipelineBatch c) = lightFlags c.
Proof. frame_of finishBatch. Qed.

Lemma current_finishBatch pipelineBatch c :
  current_ (finishBatch heap pipelineBatch c) = current_ c.
Proof.
  destruct (resetInstancingGroup c) eqn:Hreset.
  - apply (finishBatch_reset heap pipelineBatch c Hreset).
  - apply (finishBatch_continue heap pipelineBatch c Hreset).
Qed.

End MoreFrames.

(** ** One batch, as to the bindings *)

Section BatchBindings.
Context `{Externals} (heap : Heap).

Local Abbreviation bindings := (emitted is_binding_or_draw).
Local Abbreviation count_of c := (InstancingGroupState.count_ (instancingGroup_ c)).

Lemma flush_commands_quiet c c' :
  quiet c' = quiet c -> flush_commands heap c' = flush_commands heap c.
Proof.
  intros Hq. apply quiet_inv in Hq. destruct Hq as (_ & _ & Hg & Hb).
  unfold flush_commands. rewrite Hg, Hb. reflexivity.
Qed.

(** The pipeline state, buffer and draw commands of one [ProcessBatch]. *)
Lemma ProcessBatch_bindings pipelineBatch sourceBatch c :
  bindings (ProcessBatch heap pipelineBatch sourceBatch c)
  = bindings c
    ++ (if resetInstancingGroup (afterDirtyChecks heap pipelineBatch sourceBatch c) then
          flush_commands heap c
          ++ (if negb (CachedSharedState.pipelineState_ (current_ c)
                       =? PipelineBatch.pipelineState_ pipelineBatch)
              then [SetPipelineState (PipelineBatch.pipelineState_ pipelineBatch)]
              else [])
          ++ (if beginInstancingGroup heap pipelineBatch c then []
              else (if negb (CachedSharedState.geometry_ (current_ c)
                             =? PipelineBatch.geometry_ pipelineBatch)
                    then [bind_geometry heap (PipelineBatch.geometry_ pipelineBatch)]
                    else [])
                   ++ [direct_draw heap (PipelineBatch.geometry_ pipelineBatch)])
        else []).
Proof.
  unfold ProcessBatch. rewrite finishBatch_bindings.
  pose proof (afterDirtyChecks_views heap pipelineBatch sourceBatch c) as Hviews.
  cbv zeta in Hviews. destruct Hviews as (Hcommon & _ & _ & _ & Henv).
  pose proof (quiet_afterDirtyChecks heap pipelineBatch sourceBatch c) as Hquiet.
  pose proof (drawQueue_afterDirtyChecks heap pipelineBatch sourceBatch c) as Hqueue.
  revert Hcommon Henv Hquiet Hqueue.
  generalize (afterDirtyChecks heap pipelineBatch sourceBatch c).
  intros c1 Hcommon Henv Hquiet Hqueue.
  rewrite (flush_commands_quiet c c1 Hquiet).
  apply environment_inv in Henv. destruct Henv as (_ & _ & _ & Henabled).
  rewrite (beginInstancingGroup_enabled heap pipelineBatch c c1 Henabled).
  unfold emitted at 1. rewrite Hqueue. fold (emitted is_binding_or_draw c).
  unfold commonView in Hcommon. unfold geometryFlag.
  injection Hcommon as -> _ -> _ _ -> _ -> _.
  reflexivity.
Qed.

(** After a batch the cache holds its pipeline state, material and
    geometry. *)
Lemma ProcessBatch_cache pipelineBatch sourceBatch c :
  let c' := ProcessBatch heap pipelineBatch sourceBatch c in
  CachedSharedState.pipelineState_ (current_ c') = PipelineBatch.pipelineState_ pipelineBatch
  /\ CachedSharedState.material_ (current_ c') = PipelineBatch.material_ pipelineBatch
  /\ CachedSharedState.geometry_ (current_ c') = PipelineBatch.geometry_ pipelineBatch.
Proof.
  cbv zeta. unfold ProcessBatch. rewrite current_finishBatch.
  pose proof (afterDirtyChecks_views heap pipelineBatch sourceBatch c) as Hviews.
  cbv zeta in Hviews. destruct Hviews as (Hcommon & _).
  revert Hcommon. generalize (afterDirtyChecks heap pipelineBatch sourceBatch c).
  intros c1 Hcommon. unfold commonView in Hcommon.
  injection Hcommon as _ _ _ _ _ -> -> -> _. repeat split.
Qed.

Lemma environment_ProcessBatch pipelineBatch sourceBatch c :
  environment (ProcessBatch heap pipelineBatch sourceBatch c) = environment c.
Proof.
  unfold ProcessBatch. rewrite environment_finishBatch.
  apply (afterDirtyChecks_views heap pipelineBatch sourceBatch c).
Qed.

(** The keys of a batch that the cache follows, for the checks the
    features enable. *)
Lemma ProcessBatch_light_cache pipelineBatch sourceBatch c :
  let c' := ProcessBatch heap pipelineBatch sourceBatch c in
  (EnabledFeatureFlags.pixelLighting_ (enabled_ c) = true ->
   CachedSharedState.pixelLightIndex_ (current_ c') = PipelineBatch.lightIndex_ pipelineBatch)
  /\ (EnabledFeatureFlags.vertexLighting_ (enabled_ c) = true ->
      CachedSharedState.vertexLights_ (current_ c')
      = GetVertexLights (GetGeometryLighting (drawableProcessor_ c)
                           (PipelineBatch.drawableIndex_ pipelineBatch)))
  /\ (EnabledFeatureFlags.ambientLighting_ (enabled_ c) = true ->
      CachedSharedState.lightmapScaleOffset_ (current_ c')
      = SourceBatch.lightmapScaleOffset_ sourceBatch).
Proof.
  cbv zeta. unfold ProcessBatch. rewrite current_finishBatch.
  pose proof (afterDirtyChecks_views heap pipelineBatch sourceBatch c) as Hviews.
  cbv zeta in Hviews. destruct Hviews as (_ & Hp & Hv & Hl & _).
  revert Hp Hv Hl. generalize (afterDirtyChecks heap pipelineBatch sourceBatch c).
  intros c1 Hp Hv Hl.
  unfold pixelLightView, vertexLightView, lightmapView in Hp, Hv, Hl.
  repeat split; intros Hon.
  - rewrite Hon in Hp.
    repeat match type of Hp with _ = (if ?b then _ else _) => destruct b end;
      injection Hp as _ _ -> _ _ _; reflexivity.
  - rewrite Hon in Hv. injection Hv as _ ->. reflexivity.
  - rewrite Hon in Hl.
    repeat match type of Hl with _ = (if ?b then _ else _) => destruct b end;
      injection Hl as _ _ -> _; reflexivity.
Qed.

Lemma ProcessBatch_bias_cache pipelineBatch sourceBatch c :
  let c' := ProcessBatch heap pipelineBatch sourceBatch c in
  let bias :=
    PipelineStateDesc.constantDepthBias_
      (PipelineState_GetDesc heap (PipelineBatch.pipelineState_ pipelineBatch)) in
  CachedSharedState.constantDepthBias_ (current_ c')
  = if ne (CachedSharedState.constantDepthBias_ (current_ c)) bias
    then bias else CachedSharedState.constantDepthBias_ (current_ c).
Proof.
  cbv zeta. unfold ProcessBatch. rewrite current_finishBatch.
  pose proof (afterDirtyChecks_views heap pipelineBatch sourceBatch c) as Hviews.
  cbv zeta in Hviews. destruct Hviews as (Hcommon & _).
  revert Hcommon. generalize (afterDirtyChecks heap pipelineBatch sourceBatch c).
  intros c1 Hcommon. unfold commonView in Hcommon.
  injection Hcommon as _ _ _ _ _ _ _ _ ->. reflexivity.
Qed.

(** A batch that arrives with nothing dirty has the cached keys. *)
Lemma clean_batch_keys pipelineBatch sourceBatch c :
  dirtyWhenProcessed heap pipelineBatch sourceBatch c = false ->
  CachedSharedState.pipelineState_ (current_ c) = PipelineBatch.pipelineState_ pipelineBatch
  /\ CachedSharedState.material_ (current_ c) = PipelineBatch.material_ pipelineBatch
  /\ CachedSharedState.geometry_ (current_ c) = PipelineBatch.geometry_ pipelineBatch
  /\ (EnabledFeatureFlags.pixelLighting_ (enabled_ c) = true ->
      CachedSharedState.pixelLightIndex_ (current_ c) = PipelineBatch.lightIndex_ pipelineBatch)
  /\ (EnabledFeatureFlags.vertexLighting_ (enabled_ c) = true ->
      CachedSharedState.vertexLights_ (current_ c)
      = GetVertexLights (GetGeometryLighting (drawableProcessor_ c)
                           (PipelineBatch.drawableIndex_ pipelineBatch)))
  /\ (EnabledFeatureFlags.ambientLighting_ (enabled_ c) = true ->
      CachedSharedState.lightmapScaleOffset_ (current_ c)
      = SourceBatch.lightmapScaleOffset_ sourceBatch).
Proof.
  unfold dirtyWhenProcessed.
  pose proof (afterDirtyChecks_views heap pipelineBatch sourceBatch c) as Hviews.
  cbv zeta in Hviews. destruct Hviews as (Hcommon & Hp & Hv & Hl & _).
  revert Hcommon Hp Hv Hl. generalize (afterDirtyChecks heap pipelineBatch sourceBatch c).
  intros c1 Hcommon Hp Hv Hl Hclean.
  unfold commonView, pixelLightView, vertexLightView, lightmapView in Hcommon, Hp, Hv, Hl.
  destruct (dirty_ c1) as [ps fr cam plc plt vlc lmc lmt mat geo].
  cbn [DirtyStateFlags.pipelineState_ DirtyStateFlags.material_ DirtyStateFlags.geometry_
       DirtyStateFlags.cameraConstants_ DirtyStateFlags.frameConstants_
       DirtyStateFlags.pixelLightConstants_ DirtyStateFlags.pixelLightTextures_
       DirtyStateFlags.vertexLightConstants_ DirtyStateFlags.lightmapConstants_
       DirtyStateFlags.lightmapTextures_] in Hcommon, Hp, Hv, Hl.
  unfold DirtyStateFlags.IsAnyStateDirty in Hclean.
  cbn [DirtyStateFlags.pipelineState_ DirtyStateFlags.material_ DirtyStateFlags.geometry_
       DirtyStateFlags.cameraConstants_ DirtyStateFlags.frameConstants_
       DirtyStateFlags.pixelLightConstants_ DirtyStateFlags.pixelLightTextures_
       DirtyStateFlags.vertexLightConstants_ DirtyStateFlags.lightmapConstants_
       DirtyStateFlags.lightmapTextures_] in Hclean.
  repeat (apply orb_false_iff in Hclean; destruct Hclean as [Hclean ?]).
  injection Hcommon as Hps Hmat Hgeo _ _ _ _ _ _.
  subst ps mat geo.
  repeat match goal with
  | Hn : negb (_ =? _) = false |- _ => apply negb_false_iff, Z.eqb_eq in Hn
  end.
  repeat split; try assumption; intros Hon.
  - rewrite Hon in Hp.
    repeat match type of Hp with _ = (if ?b then _ else _) => destruct b end;
      injection Hp as Hchanged _ _ _ _ _; subst plc; try discriminate.
    match goal with
    | Hn : negb (_ =? _) = false |- _ => apply negb_false_iff, Z.eqb_eq in Hn; exact Hn
    end.
  - rewrite Hon in Hv. injection Hv as Hchanged _. subst vlc.
    match goal with
    | Hn : bool_decide _ = false |- _ => apply bool_decide_eq_false in Hn
    end.
    destruct (decide (CachedSharedState.vertexLights_ (current_ c)
                      = GetVertexLights (GetGeometryLighting (drawableProcessor_ c)
                                           (PipelineBatch.drawableIndex_ pipelineBatch))))
      as [Hsame | Hdiff]; [ exact Hsame | contradiction ].
  - rewrite Hon in Hl.
    repeat match type of Hl with _ = (if ?b then _ else _) => destruct b eqn:? end;
      injection Hl as Hchanged _ _ _; subst lmc; try discriminate.
    match goal with
    | Hn : negb (_ =? _) = false |- _ => apply negb_false_iff, Z.eqb_eq in Hn; exact Hn
    end.
Qed.

End BatchBindings.

(** ** Pipeline state switches *)

Lemma filter_filter_implies {A} (p q : A -> bool) (l : list A) :
  (forall a, p a = true -> q a = true) ->
  List.filter p (List.filter q l) = List.filter p l.
Proof.
  intros Hpq. induction l as [ | a l IH ]; [ reflexivity | ].
  cbn [List.filter]. destruct (q a) eqn:Hq; cbn [List.filter].
  - rewrite IH. reflexivity.
  - destruct (p a) eqn:Hp; [ | exact IH ].
    apply Hpq in Hp. congruence.
Qed.

Lemma is_set_pipeline_state_binding cmd :
  is_set_pipeline_state cmd = true -> is_binding_or_draw cmd = true.
Proof. unfold is_binding_or_draw. intros ->. reflexivity. Qed.

Lemma is_set_buffers_binding cmd :
  is_set_buffers cmd = true -> is_binding_or_draw cmd = true.
Proof. unfold is_binding_or_draw. intros ->. apply orb_true_iff. left. apply orb_true_r. Qed.

Lemma emitted_bindings p c :
  (forall cmd, p cmd = true -> is_binding_or_draw cmd = true) ->
  List.filter p (emitted is_binding_or_draw c) = emitted p c.
Proof. intros Hp. unfold emitted. apply filter_filter_implies, Hp. Qed.

Lemma changes_cons previous x l :
  changes previous (x :: l) = if previous =? x then changes x l else x :: changes x l.
Proof. reflexivity. Qed.

Section PipelineStates.
Context `{Externals} (heap : Heap).

Local Abbreviation switches := (emitted is_set_pipeline_state).
Local Abbreviation count_of c := (InstancingGroupState.count_ (instancingGroup_ c)).

Lemma switches_flush_commands c :
  List.filter is_set_pipeline_state (flush_commands heap c) = [].
Proof. unfold flush_commands. destruct (0 <? _); reflexivity. Qed.

Lemma switches_direct_draw geometry :
  is_set_pipeline_state (direct_draw heap geometry) = false.
Proof. unfold direct_draw. cbv zeta. case_match; reflexivity. Qed.

(** One batch: [SetPipelineState] is emitted exactly when the pipeline
    state of the batch is not the cached one, which it then becomes. *)
Lemma ProcessBatch_switches pipelineBatch sourceBatch c :
  let c' := ProcessBatch heap pipelineBatch sourceBatch c in
  switches c'
  = switches c
    ++ (if negb (CachedSharedState.pipelineState_ (current_ c)
                 =? PipelineBatch.pipelineState_ pipelineBatch)
        then [SetPipelineState (PipelineBatch.pipelineState_ pipelineBatch)] else [])
  /\ CachedSharedState.pipelineState_ (current_ c')
     = PipelineBatch.pipelineState_ pipelineBatch.
Proof.
  cbv zeta. split.
  - rewrite <- !(emitted_bindings is_set_pipeline_state)
      by apply is_set_pipeline_state_binding.
    rewrite ProcessBatch_bindings, List.filter_app. f_equal.
    rewrite resetInstancingGroup_afterDirtyChecks.
    destruct ((count_of c =? 0) || dirtyWhenProcessed heap pipelineBatch sourceBatch c)
      eqn:Hreset.
    + rewrite !List.filter_app, switches_flush_commands.
      destruct (negb (CachedSharedState.pipelineState_ (current_ c)
                      =? PipelineBatch.pipelineState_ pipelineBatch));
        destruct (beginInstancingGroup heap pipelineBatch c);
        destruct (negb (CachedSharedState.geometry_ (current_ c)
                        =? PipelineBatch.geometry_ pipelineBatch));
        cbn [List.filter app is_set_pipeline_state bind_geometry];
        rewrite ?switches_direct_draw; reflexivity.
    + apply orb_false_iff in Hreset. destruct Hreset as [_ Hclean].
      destruct (clean_batch_keys heap pipelineBatch sourceBatch c Hclean) as (-> & _).
      rewrite Z.eqb_refl. reflexivity.
  - apply ProcessBatch_cache.
Qed.

Lemma switches_FlushDrawCommands c : switches (FlushDrawCommands heap c) = switches c.
Proof.
  rewrite <- !(emitted_bindings is_set_pipeline_state)
    by apply is_set_pipeline_state_binding.
  rewrite bindings_FlushDrawCommands, List.filter_app, switches_flush_commands.
  apply app_nil_r.
Qed.

Lemma ProcessLightVolumeBatch_switches pipelineBatch c :
  let c' := ProcessLightVolumeBatch heap pipelineBatch c in
  switches c'
  = switches c
    ++ (if negb (CachedSharedState.pipelineState_ (current_ c)
                 =? PipelineBatch.pipelineState_ pipelineBatch)
        then [SetPipelineState (PipelineBatch.pipelineState_ pipelineBatch)] else [])
  /\ CachedSharedState.pipelineState_ (current_ c')
     = PipelineBatch.pipelineState_ pipelineBatch.
Proof.
  cbv beta delta [ProcessLightVolumeBatch]. cbv zeta.
  match goal with
  | |- context [ProcessBatch heap pipelineBatch ?s (set_lightVolumeHelpers_ ?h c)] =>
      pose proof (ProcessBatch_switches pipelineBatch s (set_lightVolumeHelpers_ h c)) as Hstep
  end.
  cbv zeta in Hstep.
  rewrite emitted_set_lightVolumeHelpers_, current_set_lightVolumeHelpers_ in Hstep.
  exact Hstep.
Qed.

(** Batches streamed from any state: the pipeline state is switched at
    the batches whose pipeline state is not that of the batch before. *)
Lemma pass_switches (process : PipelineBatch.t -> DrawCommandCompositor -> DrawCommandCompositor)
    (batches : list PipelineBatch.t) :
  (forall b c,
     switches (process b c)
     = switches c
       ++ (if negb (CachedSharedState.pipelineState_ (current_ c)
                    =? PipelineBatch.pipelineState_ b)
           then [SetPipelineState (PipelineBatch.pipelineState_ b)] else [])
     /\ CachedSharedState.pipelineState_ (current_ (process b c))
        = PipelineBatch.pipelineState_ b) ->
  forall c,
  switches (fold_left (fun c b => process b c) batches c)
  = switches c
    ++ map SetPipelineState
         (changes (CachedSharedState.pipelineState_ (current_ c))
                  (map PipelineBatch.pipelineState_ batches)).
Proof.
  intros Hprocess. induction batches as [ | b batches IH ]; intros c.
  - symmetry. apply app_nil_r.
  - rewrite fold_left_cons, IH. destruct (Hprocess b c) as [-> ->].
    rewrite map_cons, changes_cons, <- app_assoc. f_equal.
    destruct (CachedSharedState.pipelineState_ (current_ c)
              =? PipelineBatch.pipelineState_ b); reflexivity.
Qed.

(** Each entry point adds to the queue one [SetPipelineState] for every
    batch whose pipeline state differs from that of the batch before it
    (from null, for the first), in the order of the batches, and no other:
    no switch is made twice in a row and none is left out. *)
Theorem passes_switch_pipeline_state_on_change (self : BatchRenderer)
    (drawQueue : DrawCommandQueue) (camera : Camera) :
  (forall flags batches outputShadowSplit,
     switches (RenderBatches_ByState heap self drawQueue camera flags batches
                 outputShadowSplit)
     = List.filter is_set_pipeline_state drawQueue
       ++ map SetPipelineState
            (changes nullptr
               (map (fun sortedBatch =>
                       PipelineBatch.pipelineState_ (byState_pipelineBatch_ sortedBatch))
                    batches)))
  /\ (forall flags batches outputShadowSplit,
        switches (RenderBatches_BackToFront heap self drawQueue camera flags batches
                    outputShadowSplit)
        = List.filter is_set_pipeline_state drawQueue
          ++ map SetPipelineState
               (changes nullptr
                  (map (fun sortedBatch =>
                          PipelineBatch.pipelineState_
                            (backToFront_pipelineBatch_ sortedBatch))
                       batches)))
  /\ (forall ctx batches,
        switches (RenderLightVolumeBatches heap self drawQueue camera ctx batches)
        = List.filter is_set_pipeline_state drawQueue
          ++ map SetPipelineState
               (changes nullptr
                  (map (fun sortedBatch =>
                          PipelineBatch.pipelineState_ (byState_pipelineBatch_ sortedBatch))
                       batches))).
Proof.
  split; [ | split ]; intros.
  - rewrite RenderBatches_ByState_eq, switches_FlushDrawCommands.
    rewrite (pass_switches (ProcessSceneBatch heap))
      by (intros b c; apply ProcessBatch_switches).
    rewrite map_map. reflexivity.
  - rewrite RenderBatches_BackToFront_eq, switches_FlushDrawCommands.
    rewrite (pass_switches (ProcessSceneBatch heap))
      by (intros b c; apply ProcessBatch_switches).
    rewrite map_map. reflexivity.
  - rewrite RenderLightVolumeBatches_eq, switches_FlushDrawCommands.
    rewrite (pass_switches (ProcessLightVolumeBatch heap))
      by (intros b c; apply ProcessLightVolumeBatch_switches).
    rewrite map_map. reflexivity.
Qed.

End PipelineStates.

(** ** What the cache says of the queue, and of the open run *)

Section CacheCoherence.
Context `{Externals} (heap : Heap).

Local Abbreviation switches := (emitted is_set_pipeline_state).
Local Abbreviation count_of c := (InstancingGroupState.count_ (instancingGroup_ c)).

(** The cache is right about the queue: in every state a compositor goes
    through, a cached pipeline state that is not null is the one set by
    the last [SetPipelineState] of the queue, whatever the queue held
    when the pass began. *)
Theorem cached_pipeline_state_is_bound (c : DrawCommandCompositor)
    (run : list PipelineBatch.t) :
  reachable heap c run ->
  CachedSharedState.pipelineState_ (current_ c) <> nullptr ->
  bound_pipeline_state (drawQueue_ c)
  = Some (SetPipelineState (CachedSharedState.pipelineState_ (current_ c))).
Proof.
  unfold bound_pipeline_state.
  induction 1 as [ | c run ? ? _ IH | c run ? _ IH | c run ? _ IH
                 | c run pipelineBatch sourceBatch _ IH | c run _ IH ]; intros Hset.
  - exfalso. apply Hset. reflexivity.
  - destruct c; exact (IH Hset).
  - destruct c; exact (IH Hset).
  - destruct c; exact (IH Hset).
  - destruct (ProcessBatch_switches heap pipelineBatch sourceBatch c) as [Hswitches Hcache].
    revert Hswitches Hcache Hset. generalize (ProcessBatch heap pipelineBatch sourceBatch c).
    intros c' Hswitches Hcache Hset. unfold emitted in Hswitches.
    rewrite Hcache in Hset |- *. rewrite Hswitches.
    destruct (Z.eqb_spec (CachedSharedState.pipelineState_ (current_ c))
                         (PipelineBatch.pipelineState_ pipelineBatch)) as [Hsame | _];
      cbn [negb].
    + rewrite app_nil_r, <- Hsame. apply IH. rewrite Hsame. exact Hset.
    + apply last_snoc.
  - pose proof (switches_FlushDrawCommands heap c) as Hswitches.
    pose proof (current_FlushDrawCommands heap c) as Hcache.
    revert Hswitches Hcache Hset. generalize (FlushDrawCommands heap c).
    intros c' Hswitches Hcache Hset. unfold emitted in Hswitches.
    rewrite Hswitches, Hcache. rewrite Hcache in Hset. exact (IH Hset).
Qed.

(** The batches of the open run share what the instanced draw will be
    made with: whenever the count of the instancing group is positive,
    every batch accumulated into the run has the cached pipeline state and
    material and, when the pass has pixel or vertex lighting, the cached
    light index and the cached vertex lights. *)
Theorem run_shares_cached_state (c : DrawCommandCompositor) (run : list PipelineBatch.t) :
  reachable heap c run ->
  0 < count_of c ->
  forall b, In b run ->
    PipelineBatch.pipelineState_ b = CachedSharedState.pipelineState_ (current_ c)
    /\ PipelineBatch.material_ b = CachedSharedState.material_ (current_ c)
    /\ (EnabledFeatureFlags.pixelLighting_ (enabled_ c) = true ->
        PipelineBatch.lightIndex_ b = CachedSharedState.pixelLightIndex_ (current_ c))
    /\ (EnabledFeatureFlags.vertexLighting_ (enabled_ c) = true ->
        GetVertexLights (GetGeometryLighting (drawableProcessor_ c)
                           (PipelineBatch.drawableIndex_ b))
        = CachedSharedState.vertexLights_ (current_ c)).
Proof.
  induction 1 as [ | c run ? ? Hc IH | c run ? Hc IH | c run ? Hc IH
                 | c run pipelineBatch sourceBatch Hc IH | c run Hc IH ]; intros Hopen.
  - intros b [].
  - destruct c; exact (IH Hopen).
  - destruct c; exact (IH Hopen).
  - destruct c; exact (IH Hopen).
  - pose proof (reachable_count heap c run Hc) as Hcount.
    pose proof (wrap32_range (Z.of_nat (length run))) as Hrange.
    destruct (ProcessBatch_step heap pipelineBatch sourceBatch c) as (_ & _ & Hstep).
    destruct (ProcessBatch_cache heap pipelineBatch sourceBatch c) as (Hps & Hmat & _).
    destruct (ProcessBatch_light_cache heap pipelineBatch sourceBatch c) as (Hpl & Hvl & _).
    pose proof (environment_ProcessBatch heap pipelineBatch sourceBatch c) as Henv.
    apply environment_inv in Henv. destruct Henv as (Hdp & _ & _ & Hen).
    cbv zeta in Hps, Hmat, Hpl, Hvl.
    rewrite resetInstancingGroup_afterDirtyChecks in Hstep.
    unfold accumulate. rewrite resetInstancingGroup_afterDirtyChecks.
    revert Hstep Hps Hmat Hpl Hvl Hdp Hen Hopen.
    generalize (ProcessBatch heap pipelineBatch sourceBatch c).
    intros c' Hstep Hps Hmat Hpl Hvl Hdp Hen Hopen.
    rewrite Hps, Hmat, Hen, Hdp.
    destruct ((count_of c =? 0) || dirtyWhenProcessed heap pipelineBatch sourceBatch c)
      eqn:Hreset.
    + destruct (beginInstancingGroup heap pipelineBatch c); [ | intros b [] ].
      intros b [<- | []].
      repeat split; intros Hon; symmetry; [ apply Hpl | apply Hvl ]; exact Hon.
    + apply orb_false_iff in Hreset. destruct Hreset as [Hnonzero Hclean].
      apply Z.eqb_neq in Hnonzero.
      destruct (clean_batch_keys heap pipelineBatch sourceBatch c Hclean)
        as (Hps' & Hmat' & _ & Hpl' & Hvl' & _).
      intros b Hin. apply in_app_or in Hin. destruct Hin as [Hin | [<- | []]].
      * destruct (IH ltac:(lia) b Hin) as (Hb1 & Hb2 & Hb3 & Hb4).
        repeat split.
        -- congruence.
        -- congruence.
        -- intros Hon. rewrite (Hpl Hon), <- (Hpl' Hon). apply Hb3, Hon.
        -- intros Hon. rewrite (Hvl Hon), <- (Hvl' Hon). apply Hb4, Hon.
      * repeat split; intros Hon; symmetry; [ apply Hpl | apply Hvl ]; exact Hon.
  - intros b [].
Qed.

End CacheCoherence.

(** ** The buffers of a direct draw *)

Section BoundBuffers.
Context `{Externals} (heap : Heap).

Local Abbreviation bindings := (emitted is_binding_or_draw).
Local Abbreviation buffers := (emitted is_set_buffers).
Local Abbreviation count_of c := (InstancingGroupState.count_ (instancingGroup_ c)).

Lemma buffers_direct_draw geometry : is_set_buffers (direct_draw heap geometry) = false.
Proof. unfold direct_draw. cbv zeta. case_match; reflexivity. Qed.

Lemma buffers_flush_commands c :
  List.filter is_set_buffers (flush_commands heap c)
  = if 0 <? count_of c
    then [SetBuffers
            (GetVertexBuffers
               (Geometry_at heap (InstancingGroupState.geometry_ (instancingGroup_ c))))
            (GetIndexBuffer
               (Geometry_at heap (InstancingGroupState.geometry_ (instancingGroup_ c))))
            (GetVertexBuffer (instancingBuffer_ c))]
    else [].
Proof. unfold flush_commands. destruct (0 <? count_of c); reflexivity. Qed.

(** The buffer bindings of one [ProcessBatch]. *)
Lemma ProcessBatch_buffers pipelineBatch sourceBatch c :
  buffers (ProcessBatch heap pipelineBatch sourceBatch c)
  = buffers c
    ++ (if resetInstancingGroup (afterDirtyChecks heap pipelineBatch sourceBatch c) then
          List.filter is_set_buffers (flush_commands heap c)
          ++ (if beginInstancingGroup heap pipelineBatch c then []
              else if negb (CachedSharedState.geometry_ (current_ c)
                            =? PipelineBatch.geometry_ pipelineBatch)
                   then [bind_geometry heap (PipelineBatch.geometry_ pipelineBatch)]
                   else [])
        else []).
Proof.
  rewrite <- !(emitted_bindings is_set_buffers) by apply is_set_buffers_binding.
  rewrite ProcessBatch_bindings, List.filter_app. f_equal.
  destruct (resetInstancingGroup (afterDirtyChecks heap pipelineBatch sourceBatch c));
    [ | reflexivity ].
  rewrite !List.filter_app. f_equal.
  destruct (negb (CachedSharedState.pipelineState_ (current_ c)
                  =? PipelineBatch.pipelineState_ pipelineBatch));
    destruct (beginInstancingGroup heap pipelineBatch c);
    destruct (negb (CachedSharedState.geometry_ (current_ c)
                    =? PipelineBatch.geometry_ pipelineBatch));
    cbn [List.filter app is_set_buffers bind_geometry];
    rewrite ?buffers_direct_draw; reflexivity.
Qed.

Lemma bound_buffers_snoc q cmd :
  is_set_buffers cmd = true -> bound_buffers (q ++ [cmd]) = Some cmd.
Proof.
  intros Hcmd. unfold bound_buffers. rewrite List.filter_app. cbn [List.filter].
  rewrite Hcmd. apply last_snoc.
Qed.

(** One batch keeps the buffers coherent, and a batch that is drawn
    directly is drawn with the buffers of its geometry bound. *)
Lemma ProcessBatch_buffers_coherent pipelineBatch sourceBatch c :
  buffers_coherent heap c -> count_of c + 1 < UNSIGNED_MODULUS ->
  let c' := ProcessBatch heap pipelineBatch sourceBatch c in
  buffers_coherent heap c'
  /\ count_of c' <= count_of c + 1
  /\ (resetInstancingGroup (afterDirtyChecks heap pipelineBatch sourceBatch c) = true ->
      beginInstancingGroup heap pipelineBatch c = false ->
      PipelineBatch.geometry_ pipelineBatch <> nullptr ->
      buffers_bound heap (drawQueue_ c') (PipelineBatch.geometry_ pipelineBatch)).
Proof.
  intros (Hlo & Hgroup & Hbound) Hhi. cbv zeta.
  pose proof (ProcessBatch_buffers pipelineBatch sourceBatch c) as Hbuffers.
  destruct (ProcessBatch_step heap pipelineBatch sourceBatch c) as (_ & Hcache & Hstep).
  rewrite buffers_flush_commands in Hbuffers.
  rewrite resetInstancingGroup_afterDirtyChecks in Hbuffers, Hstep |- *.
  rewrite (FlushDrawCommands_instancingGroup heap c) in Hstep.
  revert Hbuffers Hcache Hstep. generalize (ProcessBatch heap pipelineBatch sourceBatch c).
  intros c' Hbuffers Hcache Hstep.
  unfold buffers_coherent, buffers_bound, bound_buffers in *.
  unfold emitted in Hbuffers. rewrite Hbuffers, Hcache. clear Hbuffers.
  destruct ((count_of c =? 0) || dirtyWhenProcessed heap pipelineBatch sourceBatch c)
    eqn:Hreset.
  - destruct Hstep as [_ Hg]. rewrite Hg. clear Hg.
    destruct (beginInstancingGroup heap pipelineBatch c);
      cbn [InstancingGroupState.count_ InstancingGroupState.geometry_].
    + repeat split; try lia; discriminate.
    + assert (Hdrawn :
        PipelineBatch.geometry_ pipelineBatch <> nullptr ->
        exists instancingBuffer,
          last (List.filter is_set_buffers (drawQueue_ c)
                ++ (if 0 <? count_of c
                    then [SetBuffers
                            (GetVertexBuffers
                               (Geometry_at heap
                                  (InstancingGroupState.geometry_ (instancingGroup_ c))))
                            (GetIndexBuffer
                               (Geometry_at heap
                                  (InstancingGroupState.geometry_ (instancingGroup_ c))))
                            (GetVertexBuffer (instancingBuffer_ c))]
                    else [])
                ++ (if negb (CachedSharedState.geometry_ (current_ c)
                             =? PipelineBatch.geometry_ pipelineBatch)
                    then [bind_geometry heap (PipelineBatch.geometry_ pipelineBatch)]
                    else []))
          = Some (SetBuffers
                    (GetVertexBuffers (Geometry_at heap (PipelineBatch.geometry_ pipelineBatch)))
                    (GetIndexBuffer (Geometry_at heap (PipelineBatch.geometry_ pipelineBatch)))
                    instancingBuffer)).
      { intros Hgeometry.
        destruct (Z.eqb_spec (CachedSharedState.geometry_ (current_ c))
                             (PipelineBatch.geometry_ pipelineBatch)) as [Hsame | _];
          cbn [negb].
        - rewrite app_nil_r.
          destruct (0 <? count_of c) eqn:Hopen.
          + apply Z.ltb_lt in Hopen. rewrite (Hgroup Hopen), Hsame.
            eexists. apply last_snoc.
          + apply Z.ltb_ge in Hopen. rewrite app_nil_r.
            destruct (Hbound ltac:(lia)) as [Hnull | Hb]; [ congruence | ].
            rewrite Hsame in Hb. exact Hb.
        - rewrite app_assoc. eexists. unfold bind_geometry. apply last_snoc. }
      destruct (0 <? count_of c) eqn:Hopen;
        cbn [InstancingGroupState.count_ InstancingGroupState.geometry_].
      * repeat split; try lia.
        -- intros _.
           destruct (Z.eq_dec (PipelineBatch.geometry_ pipelineBatch) nullptr) as [Hn | Hn];
             [ left; exact Hn | right; apply Hdrawn, Hn ].
        -- intros _ _. exact Hdrawn.
      * apply Z.ltb_ge in Hopen. repeat split; try lia.
        -- intros _.
           destruct (Z.eq_dec (PipelineBatch.geometry_ pipelineBatch) nullptr) as [Hn | Hn];
             [ left; exact Hn | right; apply Hdrawn, Hn ].
        -- intros _ _. exact Hdrawn.
  - apply orb_false_iff in Hreset. destruct Hreset as [Hnonzero Hclean].
    apply Z.eqb_neq in Hnonzero.
    destruct Hstep as (_ & Hg & Hsame). rewrite Hg.
    cbn [InstancingGroupState.count_ InstancingGroupState.geometry_].
    rewrite wrap32_small by lia.
    repeat split; try lia; discriminate.
Qed.

Lemma FlushDrawCommands_buffers_coherent c :
  buffers_coherent heap c -> buffers_coherent heap (FlushDrawCommands heap c).
Proof.
  intros (Hlo & Hgroup & Hbound).
  pose proof (FlushDrawCommands_drawQueue heap c) as Hqueue.
  pose proof (FlushDrawCommands_instancingGroup heap c) as Hg.
  pose proof (current_FlushDrawCommands heap c) as Hcache.
  revert Hqueue Hg Hcache. generalize (FlushDrawCommands heap c). intros c' Hqueue Hg Hcache.
  unfold buffers_coherent, buffers_bound in *. rewrite Hqueue, Hg, Hcache.
  destruct (0 <? count_of c) eqn:Hopen;
    cbn [InstancingGroupState.count_ InstancingGroupState.geometry_].
  - apply Z.ltb_lt in Hopen. repeat split; try lia.
    intros _. right. rewrite <- (Hgroup Hopen). cbv zeta.
    eexists. unfold bound_buffers. rewrite List.filter_app. cbn [List.filter is_set_buffers].
    apply last_snoc.
  - apply Z.ltb_ge in Hopen. rewrite app_nil_r. repeat split; try lia; assumption.
Qed.

Lemma scene_pass_buffers_coherent (batches : list PipelineBatch.t) :
  forall c,
  buffers_coherent heap c ->
  count_of c + Z.of_nat (length batches) < UNSIGNED_MODULUS ->
  let c' := fold_left (fun c b => ProcessSceneBatch heap b c) batches c in
  buffers_coherent heap c' /\ count_of c' <= count_of c + Z.of_nat (length batches).
Proof.
  induction batches as [ | b batches IH ]; intros c Hc Hhi; cbv zeta.
  - cbn [fold_left length Z.of_nat]. split; [ exact Hc | lia ].
  - rewrite fold_left_cons, ProcessSceneBatch_eq.
    rewrite length_cons, Nat2Z.inj_succ in Hhi |- *.
    pose proof (ProcessBatch_buffers_coherent b (PipelineBatch.GetSourceBatch b) c Hc
                  ltac:(lia)) as Hstep.
    cbv zeta in Hstep. destruct Hstep as (Hc1 & Hcount & _).
    specialize (IH (ProcessBatch heap b (PipelineBatch.GetSourceBatch b) c)).
    revert Hc1 Hcount IH.
    generalize (ProcessBatch heap b (PipelineBatch.GetSourceBatch b) c).
    intros c1 Hc1 Hcount IH.
    destruct (IH Hc1 ltac:(lia)) as [Hc' Hcount'].
    split; [ exact Hc' | lia ].
Qed.

Lemma last_bindings_direct_draw pipelineBatch sourceBatch c :
  resetInstancingGroup (afterDirtyChecks heap pipelineBatch sourceBatch c) = true ->
  beginInstancingGroup heap pipelineBatch c = false ->
  last (bindings (ProcessBatch heap pipelineBatch sourceBatch c))
  = Some (direct_draw heap (PipelineBatch.geometry_ pipelineBatch)).
Proof.
  intros Hreset Hbegin. rewrite ProcessBatch_bindings, Hreset, Hbegin.
  rewrite !app_assoc. apply last_snoc.
Qed.

(** A batch that a scene pass draws directly is drawn with the vertex
    and index buffers of its geometry bound, also when [DrawObject] binds
    nothing because the geometry is the cached one: the buffers were then
    bound for an earlier direct draw, or by the flush of the run that this
    batch closes. The draw is the last draw or binding of the queue. *)
Theorem direct_draw_has_its_buffers_bound drawQueue settings drawableProcessor
    instancingBuffer renderCamera flags outputShadowSplit
    (before : list PipelineBatch.t) (b : PipelineBatch.t) :
  Z.of_nat (length before) + 1 < UNSIGNED_MODULUS ->
  PipelineBatch.geometry_ b <> nullptr ->
  let c := fold_left (fun c b => ProcessSceneBatch heap b c) before
             (DrawCommandCompositor_new drawQueue settings drawableProcessor
                instancingBuffer renderCamera flags outputShadowSplit) in
  resetInstancingGroup (afterDirtyChecks heap b (PipelineBatch.GetSourceBatch b) c) = true ->
  beginInstancingGroup heap b c = false ->
  let c' := ProcessSceneBatch heap b c in
  buffers_bound heap (drawQueue_ c') (PipelineBatch.geometry_ b)
  /\ last (emitted is_binding_or_draw c')
     = Some (direct_draw heap (PipelineBatch.geometry_ b)).
Proof.
  intros Hlen Hgeometry c Hreset Hbegin c'. subst c'.
  rewrite ProcessSceneBatch_eq.
  split; [ | apply last_bindings_direct_draw; assumption ].
  assert (Hnew : buffers_coherent heap
                   (DrawCommandCompositor_new drawQueue settings drawableProcessor
                      instancingBuffer renderCamera flags outputShadowSplit)).
  { unfold buffers_coherent, DrawCommandCompositor_new.
    cbn [instancingGroup_ current_ drawQueue_].
    unfold InstancingGroupState.init, CachedSharedState.init.
    cbn [InstancingGroupState.count_ InstancingGroupState.geometry_
         CachedSharedState.geometry_].
    repeat split; lia. }
  destruct (scene_pass_buffers_coherent before _ Hnew) as [Hc Hcount].
  { unfold DrawCommandCompositor_new. cbn [instancingGroup_].
    unfold InstancingGroupState.init. cbn [InstancingGroupState.count_]. lia. }
  fold c in Hc, Hcount.
  assert (Hbound : count_of c + 1 < UNSIGNED_MODULUS).
  { revert Hcount. unfold DrawCommandCompositor_new. cbn [instancingGroup_].
    unfold InstancingGroupState.init. cbn [InstancingGroupState.count_]. lia. }
  clear Hcount.
  revert Hreset Hbegin Hc Hbound. generalize c. clear c. intros c Hreset Hbegin Hc Hbound.
  apply (ProcessBatch_buffers_coherent b (PipelineBatch.GetSourceBatch b) c Hc Hbound);
    assumption.
Qed.

End BoundBuffers.

(** ** A batch presented again *)

Lemma eq_self (b : float) : eq b b = match b with S754_nan => false | _ => true end.
Proof.
  destruct b as [ s | [] | | s m e ]; try reflexivity.
  unfold eq, SFeqb, SFcompare.
  destruct s; rewrite Z.compare_refl, Pos.compare_cont_refl; reflexivity.
Qed.

Lemma eq_right_self (a b : float) : eq a b = true -> eq b b = true.
Proof.
  intros Hab. rewrite eq_self. destruct b; try reflexivity.
  destruct a as [ [] | [] | | [] ? ? ]; discriminate Hab.
Qed.

(** The depth bias kept after a comparison with [bias] differs from
    [bias] only if [bias] is a NaN. *)
Lemma ne_cached_bias (cached bias : float) :
  ne (if ne cached bias then bias else cached) bias = ne bias bias.
Proof.
  destruct (ne cached bias) eqn:Hne; [ reflexivity | ].
  rewrite Hne. unfold ne in *. apply negb_false_iff in Hne.
  pose proof (eq_right_self cached bias Hne) as Hbias. unfold eq in Hbias.
  rewrite Hbias. reflexivity.
Qed.

Section RepeatedBatchFlags.
Context `{Externals} (heap : Heap).

(** Evaluating again a batch that has just been processed. The flags of
    the pipeline state, the material and the geometry are clear, and so
    are those of the light index, the vertex lights and the lightmap
    scale and offset when their check is enabled. What is left of the
    first evaluation stays: [frameConstants_] and [cameraConstants_] if
    the queue did not open their group, the two texture flags, which
    nothing clears, and the flags of disabled checks. [cameraConstants_]
    is set again if the depth bias of the pipeline state is a NaN. *)
Theorem repeated_batch_dirty_flags pipelineBatch sourceBatch c :
  let c1 := ProcessBatch heap pipelineBatch sourceBatch c in
  let bias :=
    PipelineStateDesc.constantDepthBias_
      (PipelineState_GetDesc heap (PipelineBatch.pipelineState_ pipelineBatch)) in
  dirty_ (afterDirtyChecks heap pipelineBatch sourceBatch c1)
  = DirtyStateFlags.mk
      false
      (DirtyStateFlags.frameConstants_ (dirty_ c1))
      (DirtyStateFlags.cameraConstants_ (dirty_ c1) || ne bias bias)
      (if EnabledFeatureFlags.pixelLighting_ (enabled_ c)
       then false else DirtyStateFlags.pixelLightConstants_ (dirty_ c1))
      (DirtyStateFlags.pixelLightTextures_ (dirty_ c1))
      (if EnabledFeatureFlags.vertexLighting_ (enabled_ c)
       then false else DirtyStateFlags.vertexLightConstants_ (dirty_ c1))
      (if EnabledFeatureFlags.ambientLighting_ (enabled_ c)
       then false else DirtyStateFlags.lightmapConstants_ (dirty_ c1))
      (DirtyStateFlags.lightmapTextures_ (dirty_ c1))
      false
      false.
Proof.
  cbv zeta.
  destruct (ProcessBatch_cache heap pipelineBatch sourceBatch c) as (Hps & Hmat & Hgeo).
  destruct (ProcessBatch_light_cache heap pipelineBatch sourceBatch c) as (Hpl & Hvl & Hlm).
  pose proof (ProcessBatch_bias_cache heap pipelineBatch sourceBatch c) as Hbias.
  pose proof (environment_ProcessBatch heap pipelineBatch sourceBatch c) as Henv.
  apply environment_inv in Henv. destruct Henv as (Hdp & _ & _ & Hen).
  cbv zeta in Hps, Hmat, Hgeo, Hpl, Hvl, Hlm, Hbias.
  revert Hps Hmat Hgeo Hpl Hvl Hlm Hbias Hdp Hen.
  generalize (ProcessBatch heap pipelineBatch sourceBatch c).
  intros c1 Hps Hmat Hgeo Hpl Hvl Hlm Hbias Hdp Hen.
  pose proof (afterDirtyChecks_views heap pipelineBatch sourceBatch c1) as Hviews.
  cbv zeta in Hviews. revert Hviews.
  generalize (afterDirtyChecks heap pipelineBatch sourceBatch c1).
  intros c2 (Hc & Hp & Hv & Hl & _).
  unfold commonView, pixelLightView, vertexLightView, lightmapView in Hc, Hp, Hv, Hl.
  rewrite Hps, Hmat, Hgeo, Hbias, !Z.eqb_refl, ne_cached_bias in Hc. cbn [negb] in Hc.
  rewrite Hen in Hp, Hv, Hl. rewrite Hdp in Hv.
  destruct (dirty_ c2) as [ps fr cam plc plt vlc lmc lmt mat geo].
  cbn [DirtyStateFlags.pipelineState_ DirtyStateFlags.frameConstants_
       DirtyStateFlags.cameraConstants_ DirtyStateFlags.pixelLightConstants_
       DirtyStateFlags.pixelLightTextures_ DirtyStateFlags.vertexLightConstants_
       DirtyStateFlags.lightmapConstants_ DirtyStateFlags.lightmapTextures_
       DirtyStateFlags.material_ DirtyStateFlags.geometry_] in Hc, Hp, Hv, Hl.
  injection Hc as -> -> -> -> -> _ _ _ _.
  destruct (EnabledFeatureFlags.pixelLighting_ (enabled_ c)).
  - rewrite (Hpl eq_refl), Z.eqb_refl in Hp. cbn [negb andb] in Hp.
    injection Hp as -> -> _ _ _ _.
    destruct (EnabledFeatureFlags.vertexLighting_ (enabled_ c));
      destruct (EnabledFeatureFlags.ambientLighting_ (enabled_ c));
      try (rewrite (Hvl eq_refl) in Hv; rewrite bool_decide_eq_false_2 in Hv by tauto);
      try (rewrite (Hlm eq_refl), Z.eqb_refl in Hl; cbn [negb] in Hl);
      injection Hv as -> _; injection Hl as -> -> _ _; reflexivity.
  - injection Hp as -> -> _ _ _ _.
    destruct (EnabledFeatureFlags.vertexLighting_ (enabled_ c));
      destruct (EnabledFeatureFlags.ambientLighting_ (enabled_ c));
      try (rewrite (Hvl eq_refl) in Hv; rewrite bool_decide_eq_false_2 in Hv by tauto);
      try (rewrite (Hlm eq_refl), Z.eqb_refl in Hl; cbn [negb] in Hl);
      injection Hv as -> _; injection Hl as -> -> _ _; reflexivity.
Qed.

End RepeatedBatchFlags.

(** ** Passes without instancing *)

Lemma flat_map_of_map {A B C : Type} (f : B -> list C) (g : A -> B) (l : list A) :
  flat_map f (map g l) = flat_map (fun a => f (g a)) l.
Proof.
  induction l as [ | a l IH ]; [ reflexivity | ].
  cbn [map flat_map]. rewrite IH. reflexivity.
Qed.

Section DirectPasses.
Context `{Externals} (heap : Heap).

Local Abbreviation count_of c := (InstancingGroupState.count_ (instancingGroup_ c)).

Lemma direct_ops_not_instanced {A : Type} (geometry : A -> ptr) (l : list A) :
  List.filter is_instanced_draw
    (flat_map (fun a => [CommitShaderParameterGroup SP_OBJECT;
                         direct_draw heap (geometry a)]) l) = [].
Proof.
  induction l as [ | a l IH ]; [ reflexivity | ].
  cbn [flat_map]. rewrite List.filter_app, IH, app_nil_r.
  cbn [List.filter is_instanced_draw]. rewrite direct_draw_not_instanced. reflexivity.
Qed.

Lemma direct_step b s c :
  count_of c = 0 ->
  beginInstancingGroup heap b c = false ->
  let c' := ProcessBatch heap b s c in
  enabled_ c' = enabled_ c
  /\ count_of c' = 0
  /\ key_ops c'
     = key_ops c ++ [CommitShaderParameterGroup SP_OBJECT;
                     direct_draw heap (PipelineBatch.geometry_ b)].
Proof.
  intros Hcount Hbegin.
  pose proof (ProcessBatch_step heap b s c) as Hstep. cbv zeta in Hstep |- *.
  rewrite resetInstancingGroup_afterDirtyChecks, FlushDrawCommands_instancingGroup in Hstep.
  unfold flush_ops in Hstep. rewrite Hbegin in Hstep.
  rewrite Hcount in Hstep.
  cbn [Z.eqb Z.ltb Z.compare orb] in Hstep.
  destruct Hstep as (-> & _ & -> & ->).
  rewrite Hcount. repeat split.
Qed.

Lemma direct_pass_ops (flags : EnabledFeatureFlags.t) (batches : list PipelineBatch.t) c :
  enabled_ c = flags ->
  count_of c = 0 ->
  Forall (fun b =>
            EnabledFeatureFlags.staticInstancing_ flags
            && bool_decide (PipelineBatch.geometryType_ b = GEOM_STATIC)
            && negb (GetIndexBuffer (Geometry_at heap (PipelineBatch.geometry_ b)) =? nullptr)
            = false) batches ->
  let c' := fold_left (fun c b => ProcessSceneBatch heap b c) batches c in
  count_of c' = 0
  /\ key_ops c'
     = key_ops c
       ++ flat_map (fun b => [CommitShaderParameterGroup SP_OBJECT;
                              direct_draw heap (PipelineBatch.geometry_ b)]) batches.
Proof.
  revert c. induction batches as [ | b batches IH ]; intros c Henabled Hcount Hall; cbv zeta.
  - cbn [fold_left flat_map]. rewrite app_nil_r. split; [ assumption | reflexivity ].
  - rewrite fold_left_cons. apply Forall_cons_1 in Hall as [Hb Hrest].
    assert (Hbegin : beginInstancingGroup heap b c = false).
    { unfold beginInstancingGroup. rewrite Henabled. exact Hb. }
    rewrite ProcessSceneBatch_eq.
    destruct (direct_step b (PipelineBatch.GetSourceBatch b) c Hcount Hbegin)
      as (He & Hc & Hk).
    rewrite Henabled in He.
    destruct (IH _ He Hc Hrest) as (Hc' & Hk').
    rewrite Hc', Hk', Hk. cbn [flat_map]. rewrite <- !app_assoc.
    split; reflexivity.
Qed.

Lemma direct_pass_flushed (batches : list PipelineBatch.t) c0 flags :
  enabled_ c0 = EnabledFeatureFlags.make flags ->
  count_of c0 = 0 ->
  Forall (fun b =>
            Test flags BatchRenderFlag_InstantiateStaticGeometry
            && bool_decide (PipelineBatch.geometryType_ b = GEOM_STATIC)
            && negb (GetIndexBuffer (Geometry_at heap (PipelineBatch.geometry_ b)) =? nullptr)
            = false) batches ->
  key_ops (FlushDrawCommands heap
             (fold_left (fun c b => ProcessSceneBatch heap b c) batches c0))
  = key_ops c0
    ++ flat_map (fun b => [CommitShaderParameterGroup SP_OBJECT;
                           direct_draw heap (PipelineBatch.geometry_ b)]) batches.
Proof.
  intros Henabled Hcount Hall.
  destruct (direct_pass_ops (EnabledFeatureFlags.make flags) batches c0 Henabled Hcount Hall)
    as (Hc & Hk).
  revert Hc Hk.
  generalize (fold_left (fun c b => ProcessSceneBatch heap b c) batches c0).
  intros c1 Hc Hk.
  rewrite FlushDrawCommands_key_ops, Hk. unfold flush_ops.
  rewrite Hc.
  change (0 <? 0) with false. cbn iota. apply app_nil_r.
Qed.

(** A [RenderBatches] pass none of whose batches can begin an
    instancing group (the pass was not given
    [BatchRenderFlag::InstantiateStaticGeometry], or the batch is not
    [GEOM_STATIC], or its geometry has no index buffer) draws every batch
    by itself and in the order given: of draw operations and object
    commits it appends, for each batch in turn, one commit of the object
    constants followed by the direct draw of the geometry of the batch,
    and no instanced draw. *)
Theorem pass_without_instancing self drawQueue camera flags
    (batches : list PipelineBatchByState) outputShadowSplit :
  Forall (fun sortedBatch =>
            let b := byState_pipelineBatch_ sortedBatch in
            Test flags BatchRenderFlag_InstantiateStaticGeometry = false
            \/ PipelineBatch.geometryType_ b <> GEOM_STATIC
            \/ GetIndexBuffer (Geometry_at heap (PipelineBatch.geometry_ b)) = nullptr)
         batches ->
  let c' := RenderBatches_ByState heap self drawQueue camera flags batches outputShadowSplit in
  List.filter is_key (drawQueue_ c')
  = List.filter is_key drawQueue
    ++ flat_map (fun sortedBatch =>
                   [CommitShaderParameterGroup SP_OBJECT;
                    direct_draw heap
                      (PipelineBatch.geometry_ (byState_pipelineBatch_ sortedBatch))])
                batches
  /\ count is_instanced_draw (drawQueue_ c') = count is_instanced_draw drawQueue.
Proof.
  intros Hall. cbv zeta. rewrite RenderBatches_ByState_eq.
  match goal with
  | |- context [fold_left _ _ ?c0] =>
      assert (Hinit : enabled_ c0 = EnabledFeatureFlags.make flags /\ count_of c0 = 0
                      /\ drawQueue_ c0 = drawQueue) by (repeat split);
      revert Hinit; generalize c0
  end.
  intros c0 (Henabled & Hcount & Hqueue).
  assert (Hall' : Forall (fun b =>
            Test flags BatchRenderFlag_InstantiateStaticGeometry
            && bool_decide (PipelineBatch.geometryType_ b = GEOM_STATIC)
            && negb (GetIndexBuffer (Geometry_at heap (PipelineBatch.geometry_ b)) =? nullptr)
            = false) (map byState_pipelineBatch_ batches)).
  { apply Forall_map. eapply Forall_impl; [ exact Hall | ].
    cbv beta zeta. intros sortedBatch [ -> | [ Htype | -> ] ].
    - reflexivity.
    - rewrite bool_decide_eq_false_2 by exact Htype. rewrite andb_false_r. reflexivity.
    - rewrite Z.eqb_refl. apply andb_false_r. }
  pose proof (direct_pass_flushed _ c0 flags Henabled Hcount Hall') as Hk.
  revert Hk.
  generalize (FlushDrawCommands heap
                (fold_left (fun c b => ProcessSceneBatch heap b c)
                           (map byState_pipelineBatch_ batches) c0)).
  intros c1 Hk.
  destruct (counts_extend c0 _ _ Hk) as (Hi & _ & _).
  rewrite Hi. unfold key_ops in Hk. rewrite Hk, Hqueue, flat_map_of_map.
  split; [ reflexivity | ].
  rewrite direct_ops_not_instanced. cbn [length]. lia.
Qed.

End DirectPasses.

(** ** The properties at sample inputs *)

(** Two static batches of geometry 1 leave a run of two open. *)
Lemma sample_run_reachable :
  reachable (H := Sample.build false) Sample.heap
    (Sample.processed [BatchRenderFlag_InstantiateStaticGeometry]
       [Sample.batch 1 1 1 GEOM_STATIC; Sample.batch 1 1 1 GEOM_STATIC])
    [Sample.batch 1 1 1 GEOM_STATIC; Sample.batch 1 1 1 GEOM_STATIC].
Proof.
  pose proof (reachable_ProcessBatch (H := Sample.build false) Sample.heap _ _
                (Sample.batch 1 1 1 GEOM_STATIC)
                (PipelineBatch.GetSourceBatch (Sample.batch 1 1 1 GEOM_STATIC))
                (reachable_ProcessBatch (H := Sample.build false) Sample.heap _ _
                   (Sample.batch 1 1 1 GEOM_STATIC)
                   (PipelineBatch.GetSourceBatch (Sample.batch 1 1 1 GEOM_STATIC))
                   (reachable_new Sample.heap [] Sample.settings Sample.drawableProcessor
                      (br_instancingBuffer_ Sample.renderer) (Sample.camera false)
                      [BatchRenderFlag_InstantiateStaticGeometry] None))) as Hr.
  match type of Hr with
  | reachable _ _ ?run =>
      replace run with [Sample.batch 1 1 1 GEOM_STATIC; Sample.batch 1 1 1 GEOM_STATIC]
        in Hr by (vm_compute; reflexivity)
  end.
  exact Hr.
Qed.

(** After two batches of pipeline state 1, that state is the bound one. *)
Lemma cached_pipeline_state_is_bound_witness :
  bound_pipeline_state
    (drawQueue_ (Sample.processed [BatchRenderFlag_InstantiateStaticGeometry]
                   [Sample.batch 1 1 1 GEOM_STATIC; Sample.batch 1 1 1 GEOM_STATIC]))
  = Some (SetPipelineState
            (CachedSharedState.pipelineState_
               (current_ (Sample.processed [BatchRenderFlag_InstantiateStaticGeometry]
                            [Sample.batch 1 1 1 GEOM_STATIC;
                             Sample.batch 1 1 1 GEOM_STATIC])))).
Proof.
  apply (cached_pipeline_state_is_bound (H := Sample.build false) Sample.heap _ _
           sample_run_reachable).
  vm_compute. discriminate.
Defined.

(** The open run of two batches: each has the cached state. *)
Lemma run_shares_cached_state_witness :
  PipelineBatch.pipelineState_ (Sample.batch 1 1 1 GEOM_STATIC)
  = CachedSharedState.pipelineState_
      (current_ (Sample.processed [BatchRenderFlag_InstantiateStaticGeometry]
                   [Sample.batch 1 1 1 GEOM_STATIC; Sample.batch 1 1 1 GEOM_STATIC]))
  /\ PipelineBatch.material_ (Sample.batch 1 1 1 GEOM_STATIC)
     = CachedSharedState.material_
         (current_ (Sample.processed [BatchRenderFlag_InstantiateStaticGeometry]
                      [Sample.batch 1 1 1 GEOM_STATIC; Sample.batch 1 1 1 GEOM_STATIC])).
Proof.
  destruct (run_shares_cached_state (H := Sample.build false) Sample.heap _ _
              sample_run_reachable) with (b := Sample.batch 1 1 1 GEOM_STATIC)
    as (Hps & Hmat & _).
  - vm_compute. reflexivity.
  - left. reflexivity.
  - split; [ exact Hps | exact Hmat ].
Defined.

(** A static batch of geometry 1 opens a run; the skinned batch of the
    same geometry that follows has a dirty pipeline state, closes the run
    and is drawn directly: its buffers were bound by the flush. *)
Lemma direct_draw_has_its_buffers_bound_witness :
  buffers_bound Sample.heap
    (drawQueue_
       (ProcessSceneBatch (H := Sample.build false) Sample.heap
          (Sample.batch 2 1 1 GEOM_SKINNED)
          (fold_left (fun c b => ProcessSceneBatch (H := Sample.build false) Sample.heap b c)
             [Sample.batch 1 1 1 GEOM_STATIC]
             (DrawCommandCompositor_new [] Sample.settings Sample.drawableProcessor
                (br_instancingBuffer_ Sample.renderer) (Sample.camera false)
                [BatchRenderFlag_InstantiateStaticGeometry] None))))
    (PipelineBatch.geometry_ (Sample.batch 2 1 1 GEOM_SKINNED))
  /\ last (emitted is_binding_or_draw
             (ProcessSceneBatch (H := Sample.build false) Sample.heap
                (Sample.batch 2 1 1 GEOM_SKINNED)
                (fold_left
                   (fun c b => ProcessSceneBatch (H := Sample.build false) Sample.heap b c)
                   [Sample.batch 1 1 1 GEOM_STATIC]
                   (DrawCommandCompositor_new [] Sample.settings Sample.drawableProcessor
                      (br_instancingBuffer_ Sample.renderer) (Sample.camera false)
                      [BatchRenderFlag_InstantiateStaticGeometry] None))))
     = Some (direct_draw Sample.heap
               (PipelineBatch.geometry_ (Sample.batch 2 1 1 GEOM_SKINNED))).
Proof.
  refine (direct_draw_has_its_buffers_bound (H := Sample.build false) Sample.heap
            [] Sample.settings Sample.drawableProcessor
            (br_instancingBuffer_ Sample.renderer) (Sample.camera false)
            [BatchRenderFlag_InstantiateStaticGeometry] None
            [Sample.batch 1 1 1 GEOM_STATIC] (Sample.batch 2 1 1 GEOM_SKINNED)
            _ _ _ _).
  - vm_compute. reflexivity.
  - vm_compute. discriminate.
  - vm_compute. reflexivity.
  - vm_compute. reflexivity.
Defined.

(** A pass with static instancing over a skinned batch and a static
    batch whose geometry has no index buffer. *)
Lemma pass_without_instancing_witness :
  List.filter is_key
    (drawQueue_ (Sample.scenePass [BatchRenderFlag_InstantiateStaticGeometry]
                   [Sample.batch 1 1 1 GEOM_SKINNED; Sample.batch 1 1 3 GEOM_STATIC]))
  = [CommitShaderParameterGroup SP_OBJECT; direct_draw Sample.heap 1;
     CommitShaderParameterGroup SP_OBJECT; direct_draw Sample.heap 3]
  /\ count is_instanced_draw
       (drawQueue_ (Sample.scenePass [BatchRenderFlag_InstantiateStaticGeometry]
                      [Sample.batch 1 1 1 GEOM_SKINNED; Sample.batch 1 1 3 GEOM_STATIC]))
     = count is_instanced_draw [].
Proof.
  apply (pass_without_instancing (H := Sample.build false) Sample.heap Sample.renderer []
           (Sample.camera false) [BatchRenderFlag_InstantiateStaticGeometry]
           (Sample.byState [Sample.batch 1 1 1 GEOM_SKINNED; Sample.batch 1 1 3 GEOM_STATIC])
           None).
  repeat first [ apply List.Forall_cons | apply List.Forall_nil ]; cbv zeta.
  - right. left. discriminate.
  - right. right. reflexivity.
Defined.

(** ** Every batch is drawn exactly once *)

Lemma objects_drawn_app q q' :
  objects_drawn (q ++ q') = objects_drawn q ++ objects_drawn q'.
Proof. unfold objects_drawn. apply flat_map_app. Qed.

Lemma objects_of_not_key cmd : is_key cmd = false -> objects_of cmd = [].
Proof. destruct cmd; try reflexivity; discriminate. Qed.

Lemma objects_drawn_key q : objects_drawn (List.filter is_key q) = objects_drawn q.
Proof.
  induction q as [ | cmd q IH ]; [ reflexivity | ].
  cbn [List.filter]. destruct (is_key cmd) eqn:Hkey.
  - change (objects_of cmd ++ objects_drawn (List.filter is_key q)
            = objects_of cmd ++ objects_drawn q).
    rewrite IH. reflexivity.
  - change (objects_drawn (List.filter is_key q) = objects_of cmd ++ objects_drawn q).
    rewrite IH, (objects_of_not_key cmd Hkey). reflexivity.
Qed.

Lemma instance_objects_succ indexStart indexCount start count :
  0 <= count ->
  objects_of (DrawIndexedInstanced indexStart indexCount start (count + 1))
  = objects_of (DrawIndexedInstanced indexStart indexCount start count)
    ++ [InstancedObject indexStart indexCount (start + count)].
Proof.
  intros Hcount. cbn [objects_of].
  rewrite Z2Nat.inj_add, Nat.add_1_r, seq_S, map_app by lia.
  cbn [map Nat.add]. rewrite Z2Nat.id by exact Hcount. reflexivity.
Qed.

Lemma instance_objects_one indexStart indexCount start :
  objects_of (DrawIndexedInstanced indexStart indexCount start 1)
  = [InstancedObject indexStart indexCount start].
Proof.
  cbn [objects_of]. change (Z.to_nat 1) with 1%nat. cbn [seq map Z.of_nat].
  rewrite Z.add_0_r. reflexivity.
Qed.

Section ObjectsDrawn.
Context `{Externals} (heap : Heap).

Local Abbreviation count_of c := (InstancingGroupState.count_ (instancingGroup_ c)).
Local Abbreviation next_slot c := (nextVertex_ (instancingBuffer_ c)).

Lemma objects_extend c c' ops :
  key_ops c' = key_ops c ++ ops ->
  objects_drawn (drawQueue_ c') = objects_drawn (drawQueue_ c) ++ objects_drawn ops.
Proof.
  intros Hops.
  rewrite <- (objects_drawn_key (drawQueue_ c')), <- (objects_drawn_key (drawQueue_ c)).
  fold (key_ops c') (key_ops c). rewrite Hops. apply objects_drawn_app.
Qed.

Lemma commit_draw_objects geometry :
  objects_drawn [CommitShaderParameterGroup SP_OBJECT; direct_draw heap geometry]
  = [DirectObject (direct_draw heap geometry)].
Proof.
  unfold objects_drawn. cbn [flat_map objects_of app]. rewrite app_nil_r.
  unfold direct_draw. cbv zeta. case_match; reflexivity.
Qed.

Lemma nextVertex_AddObjectInstanceData c :
  next_slot (AddObjectInstanceData c) = next_slot c.
Proof.
  cbv beta delta [AddObjectInstanceData]. cbv zeta.
  repeat case_match;
    rewrite ?instancingBuffer_set_instancingBuffer_; reflexivity.
Qed.

(** [ProcessBatch] takes one slot of the instancing buffer for a batch
    that begins or joins a run, and none for a batch drawn directly. *)
Lemma ProcessBatch_nextVertex pipelineBatch sourceBatch c :
  next_slot (ProcessBatch heap pipelineBatch sourceBatch c)
  = if resetInstancingGroup (afterDirtyChecks heap pipelineBatch sourceBatch c)
       && negb (beginInstancingGroup heap pipelineBatch c)
    then next_slot c
    else wrap32 (next_slot c + 1).
Proof.
  unfold ProcessBatch.
  destruct (quiet_inv _ _ (quiet_afterDirtyChecks heap pipelineBatch sourceBatch c))
    as (_ & He & _ & Hb).
  revert He Hb. generalize (afterDirtyChecks heap pipelineBatch sourceBatch c).
  intros c1 He Hb. rewrite <- Hb, <- (beginInstancingGroup_enabled heap pipelineBatch c c1 He).
  clear He Hb. cbv beta delta [finishBatch]. destruct (resetInstancingGroup c1).
  - change (if 0 <? count_of c1 then DrawObjectInstanced heap c1 else c1)
      with (FlushDrawCommands heap c1).
    cbv zeta.
    destruct (quiet_inv _ _ (UpdateDirty_quiet heap (FlushDrawCommands heap c1)))
      as (_ & He & _ & Hb).
    rewrite instancingBuffer_FlushDrawCommands in Hb.
    rewrite enabled_FlushDrawCommands in He.
    revert He Hb.
    generalize (UpdateDirtyResources heap (UpdateDirtyConstants heap (FlushDrawCommands heap c1))).
    intros c2 He Hb.
    rewrite (beginInstancingGroup_enabled heap pipelineBatch c1 c2 He).
    destruct (beginInstancingGroup heap pipelineBatch c1); cbn [andb negb].
    + rewrite nextVertex_AddObjectInstanceData, instancingBuffer_set_instancingGroup_,
        instancingBuffer_set_instancingBuffer_, Hb.
      reflexivity.
    + rewrite instancingBuffer_DrawObject, instancingBuffer_emit.
      destruct (quiet_inv _ _ (quiet_AddObjectConstants
                                 (emit (BeginShaderParameterGroup SP_OBJECT true) c2)))
        as (_ & _ & _ & ->).
      rewrite instancingBuffer_emit, Hb. reflexivity.
  - cbv zeta. cbn [andb].
    rewrite nextVertex_AddObjectInstanceData, instancingBuffer_set_instancingBuffer_,
      instancingBuffer_set_instancingGroup_.
    reflexivity.
Qed.

Lemma pending_objects c :
  0 <= count_of c ->
  objects_drawn (flush_ops heap c)
  = objects_of
      (DrawIndexedInstanced
         (GetIndexStart (Geometry_at heap (InstancingGroupState.geometry_ (instancingGroup_ c))))
         (GetIndexCount (Geometry_at heap (InstancingGroupState.geometry_ (instancingGroup_ c))))
         (InstancingGroupState.start_ (instancingGroup_ c)) (count_of c)).
Proof.
  intros Hlo. unfold flush_ops.
  destruct (Z.ltb_spec 0 (count_of c)) as [Hopen | Hopen].
  - cbv zeta. unfold objects_drawn. cbn [flat_map]. apply app_nil_r.
  - replace (count_of c) with 0 by lia. reflexivity.
Qed.

Lemma flush_ops_group c c' :
  instancingGroup_ c' = instancingGroup_ c -> flush_ops heap c' = flush_ops heap c.
Proof. unfold flush_ops. intros ->. reflexivity. Qed.

(** One batch of a pass. The objects drawn so far, followed by those of
    the open run, grow by the object of the batch: an instance at the
    next slot of the instancing buffer, or its direct draw. The open run
    takes the slots up to the next one. *)
Lemma ProcessBatch_objects pipelineBatch sourceBatch c :
  0 <= count_of c -> count_of c + 1 < UNSIGNED_MODULUS ->
  0 <= next_slot c -> next_slot c + 1 < UNSIGNED_MODULUS ->
  (0 < count_of c ->
   InstancingGroupState.start_ (instancingGroup_ c) + count_of c = next_slot c
   /\ InstancingGroupState.geometry_ (instancingGroup_ c)
      = CachedSharedState.geometry_ (current_ c)) ->
  let c' := ProcessBatch heap pipelineBatch sourceBatch c in
  let instanced :=
    negb (resetInstancingGroup (afterDirtyChecks heap pipelineBatch sourceBatch c)
          && negb (beginInstancingGroup heap pipelineBatch c)) in
  0 <= count_of c' <= count_of c + 1
  /\ (0 < count_of c' ->
      InstancingGroupState.start_ (instancingGroup_ c') + count_of c' = next_slot c'
      /\ InstancingGroupState.geometry_ (instancingGroup_ c')
         = CachedSharedState.geometry_ (current_ c'))
  /\ next_slot c' = next_slot c + (if instanced then 1 else 0)
  /\ objects_drawn (key_ops c' ++ flush_ops heap c')
     = objects_drawn (key_ops c ++ flush_ops heap c)
       ++ objects_for heap (next_slot c) [(instanced, PipelineBatch.geometry_ pipelineBatch)].
Proof.
  intros Hlo Hhi Hnext Hfree Hrun. cbv zeta.
  pose proof (ProcessBatch_step heap pipelineBatch sourceBatch c) as Hstep.
  pose proof (ProcessBatch_nextVertex pipelineBatch sourceBatch c) as Hslot.
  cbv zeta in Hstep. destruct Hstep as (_ & Hcur & Hstep).
  assert (Hreset : resetInstancingGroup (afterDirtyChecks heap pipelineBatch sourceBatch c)
                   = false -> 0 < count_of c).
  { rewrite resetInstancingGroup_afterDirtyChecks. intros Hreset.
    apply orb_false_iff in Hreset. destruct Hreset as [Hreset _].
    apply Z.eqb_neq in Hreset. lia. }
  rewrite (FlushDrawCommands_instancingGroup heap c) in Hstep.
  pose proof (pending_objects c Hlo) as Hpending.
  revert Hcur Hstep Hslot Hreset.
  generalize (ProcessBatch heap pipelineBatch sourceBatch c).
  generalize (resetInstancingGroup (afterDirtyChecks heap pipelineBatch sourceBatch c)).
  generalize (beginInstancingGroup heap pipelineBatch c).
  intros eligible reset c' Hcur Hstep Hslot Hreset.
  rewrite !objects_drawn_app, Hpending.
  destruct reset; [ destruct eligible | ]; cbn [andb negb] in Hslot |- *.
  - (* the batch begins a run *)
    destruct Hstep as [Hk Hg].
    rewrite Hslot, wrap32_small by lia.
    rewrite (pending_objects c') by (rewrite Hg; cbn [InstancingGroupState.count_]; lia).
    rewrite Hk, Hg, Hcur, app_nil_r, objects_drawn_app, Hpending.
    cbn [InstancingGroupState.count_ InstancingGroupState.start_
         InstancingGroupState.geometry_ objects_for].
    rewrite instance_objects_one, <- app_assoc.
    repeat split; try lia; reflexivity.
  - (* the batch is drawn directly *)
    destruct Hstep as [Hk Hg].
    rewrite Hslot.
    rewrite (pending_objects c')
      by (rewrite Hg; destruct (0 <? count_of c); cbn [InstancingGroupState.count_]; lia).
    rewrite Hk, Hg, !objects_drawn_app, Hpending, commit_draw_objects.
    assert (Hclosed : InstancingGroupState.count_
                        (if 0 <? count_of c
                         then InstancingGroupState.mk
                                (InstancingGroupState.geometry_ (instancingGroup_ c))
                                (InstancingGroupState.start_ (instancingGroup_ c)) 0
                         else instancingGroup_ c) = 0).
    { destruct (Z.ltb_spec 0 (count_of c)); cbn [InstancingGroupState.count_]; lia. }
    rewrite Hclosed. cbn [objects_of Z.to_nat seq map objects_for].
    rewrite app_nil_r, <- app_assoc.
    repeat split; try lia.
  - (* the batch joins the open run *)
    destruct Hstep as (Hk & Hg & Hsame).
    specialize (Hreset eq_refl). destruct (Hrun Hreset) as [Hslots Hgeometry].
    rewrite Hslot, !wrap32_small by lia.
    rewrite (pending_objects c')
      by (rewrite Hg; cbn [InstancingGroupState.count_]; rewrite wrap32_small; lia).
    rewrite Hk, Hg, Hcur.
    cbn [InstancingGroupState.count_ InstancingGroupState.start_
         InstancingGroupState.geometry_ objects_for].
    rewrite wrap32_small by lia.
    rewrite instance_objects_succ by exact Hlo.
    rewrite Hslots, Hgeometry, Hsame, <- app_assoc.
    repeat split; try lia; reflexivity.
Qed.

End ObjectsDrawn.

(** ** The final flush *)

Section FinalFlush.
Context `{Externals} (heap : Heap).

Local Abbreviation count_of c := (InstancingGroupState.count_ (instancingGroup_ c)).

(** The batches accumulated into the open run are the last ones
    streamed. *)
Lemma scene_pass_run (batches : list PipelineBatch.t) :
  forall c run,
  reachable heap c run ->
  exists drawn run',
    run ++ batches = drawn ++ run'
    /\ reachable heap (fold_left (fun c b => ProcessSceneBatch heap b c) batches c) run'.
Proof.
  induction batches as [ | b batches IH ]; intros c run Hc.
  - exists [], run. split; [ apply app_nil_r | exact Hc ].
  - rewrite fold_left_cons, ProcessSceneBatch_eq.
    pose proof (reachable_ProcessBatch heap c run b (PipelineBatch.GetSourceBatch b) Hc)
      as Hstep.
    assert (Hrun : exists drawn,
               run ++ [b]
               = drawn ++ accumulate heap b (PipelineBatch.GetSourceBatch b) c run).
    { unfold accumulate. repeat case_match.
      - exists run. reflexivity.
      - exists (run ++ [b]). symmetry. apply app_nil_r.
      - exists []. reflexivity. }
    destruct Hrun as (drawn & Hrun). revert Hstep Hrun.
    generalize (accumulate heap b (PipelineBatch.GetSourceBatch b) c run).
    generalize (ProcessBatch heap b (PipelineBatch.GetSourceBatch b) c).
    intros c1 run1 Hstep Hrun.
    destruct (IH c1 run1 Hstep) as (drawn' & run' & Hsplit & Hreach).
    exists (drawn ++ drawn'), run'. split; [ | exact Hreach ].
    change (b :: batches) with ([b] ++ batches).
    rewrite app_assoc, Hrun, <- !app_assoc, Hsplit. reflexivity.
Qed.

(** A light-volume pass accumulates nothing. *)
Lemma light_volume_pass_run (batches : list PipelineBatch.t) :
  forall c,
  enabled_ c = lightVolumeFeatures ->
  count_of c = 0 ->
  reachable heap c [] ->
  reachable heap (fold_left (fun c b => ProcessLightVolumeBatch heap b c) batches c) [].
Proof.
  induction batches as [ | b batches IH ]; intros c Henabled Hcount Hc.
  - exact Hc.
  - rewrite fold_left_cons.
    destruct (light_volume_step heap b c Henabled Hcount) as (He & Hg & _).
    apply IH; [ exact He | exact Hg | ].
    clear He Hg IH. cbv beta delta [ProcessLightVolumeBatch]. cbv zeta.
    match goal with
    | |- reachable _ (ProcessBatch _ _ ?s (set_lightVolumeHelpers_ ?h c)) _ =>
        pose proof (reachable_ProcessBatch heap _ _ b s
                      (reachable_lightVolumeHelpers heap c [] h Hc)) as Hstep;
        destruct (quiet_inv _ _ (quiet_set_lightVolumeHelpers_ c h)) as (_ & He & Hg & _);
        assert (Hnone : accumulate heap b s (set_lightVolumeHelpers_ h c) [] = []);
        [ | rewrite Hnone in Hstep; exact Hstep ]
    end.
    unfold accumulate.
    rewrite resetInstancingGroup_afterDirtyChecks, Hg, Hcount.
    unfold beginInstancingGroup. rewrite He, Henabled. reflexivity.
Qed.

(** The flush of a state whose run has not wrapped the count. *)
Lemma final_flush_of_reachable c run :
  reachable heap c run ->
  Z.of_nat (length run) < UNSIGNED_MODULUS ->
  final_flush heap c (FlushDrawCommands heap c) run.
Proof.
  intros Hc Hlen.
  pose proof (reachable_count heap c run Hc) as Hcount.
  rewrite wrap32_small in Hcount by lia.
  unfold final_flush.
  rewrite FlushDrawCommands_drawQueue, FlushDrawCommands_instancingGroup, Hcount.
  repeat split; [ exact Hc | | ].
  - destruct run as [ | b run ]; [ reflexivity | ].
    replace (0 <? Z.of_nat (length (b :: run))) with true
      by (symmetry; apply Z.ltb_lt; cbn [length]; lia).
    reflexivity.
  - destruct run as [ | b run ].
    + cbn [length Z.of_nat] in Hcount |- *. change (0 <? 0) with false. cbn iota.
      revert Hcount. destruct (instancingGroup_ c) as [geometry start count].
      cbn [InstancingGroupState.count_ InstancingGroupState.geometry_
           InstancingGroupState.start_]. intros ->. reflexivity.
    + replace (0 <? Z.of_nat (length (b :: run))) with true
        by (symmetry; apply Z.ltb_lt; cbn [length]; lia).
      reflexivity.
Qed.

Lemma scene_pass_final_flush (batches : list PipelineBatch.t) drawQueue settings
    drawableProcessor instancingBuffer renderCamera flags outputShadowSplit :
  Z.of_nat (length batches) < UNSIGNED_MODULUS ->
  let c := fold_left (fun c b => ProcessSceneBatch heap b c) batches
             (DrawCommandCompositor_new drawQueue settings drawableProcessor
                instancingBuffer renderCamera flags outputShadowSplit) in
  exists drawn run,
    batches = drawn ++ run /\ final_flush heap c (FlushDrawCommands heap c) run.
Proof.
  intros Hlen. cbv zeta.
  destruct (scene_pass_run batches _ []
              (reachable_new heap drawQueue settings drawableProcessor instancingBuffer
                 renderCamera flags outputShadowSplit))
    as (drawn & run & Hsplit & Hreach).
  cbn [app] in Hsplit.
  exists drawn, run. split; [ exact Hsplit | ].
  apply final_flush_of_reachable; [ exact Hreach | ].
  rewrite Hsplit, length_app, Nat2Z.inj_add in Hlen. lia.
Qed.

(** C8. Each entry point of [BatchRenderer] returns [FlushDrawCommands]
    of the compositor it has streamed its batches through; of a pass of
    fewer than [2^32] batches, the batches accumulated into the instancing
    group and not drawn yet are the last ones of the list, the count is
    their number, and the flush draws them: if there are any it adds the
    binding of the buffers and exactly one [DrawIndexedInstanced] of as
    many instances from [start_] on, and nothing otherwise; the returning
    compositor has an empty instancing group. A light-volume pass has
    accumulated nothing, whatever its length. *)
Theorem entry_points_final_flush :
  (forall self drawQueue camera flags (batches : list PipelineBatchByState)
          outputShadowSplit,
     Z.of_nat (length batches) < UNSIGNED_MODULUS ->
     exists drawn run,
       map byState_pipelineBatch_ batches = drawn ++ run
       /\ final_flush heap
            (fold_left (fun c b => ProcessSceneBatch heap b c)
               (map byState_pipelineBatch_ batches)
               (DrawCommandCompositor_new drawQueue (br_settings_ self)
                  (br_drawableProcessor_ self) (br_instancingBuffer_ self) camera flags
                  outputShadowSplit))
            (RenderBatches_ByState heap self drawQueue camera flags batches
               outputShadowSplit)
            run)
  /\ (forall self drawQueue camera flags (batches : list PipelineBatchBackToFront)
             outputShadowSplit,
        Z.of_nat (length batches) < UNSIGNED_MODULUS ->
        exists drawn run,
          map backToFront_pipelineBatch_ batches = drawn ++ run
          /\ final_flush heap
               (fold_left (fun c b => ProcessSceneBatch heap b c)
                  (map backToFront_pipelineBatch_ batches)
                  (DrawCommandCompositor_new drawQueue (br_settings_ self)
                     (br_drawableProcessor_ self) (br_instancingBuffer_ self) camera flags
                     outputShadowSplit))
               (RenderBatches_BackToFront heap self drawQueue camera flags batches
                  outputShadowSplit)
               run)
  /\ (forall self drawQueue camera ctx (batches : list PipelineBatchByState),
        final_flush heap
          (fold_left (fun c b => ProcessLightVolumeBatch heap b c)
             (map byState_pipelineBatch_ batches)
             (SetGlobalResources (ctx_geometryBuffer_ ctx)
                (SetGBufferParameters (ctx_geometryBufferOffsetAndScale_ ctx)
                   (ctx_geometryBufferInvSize_ ctx)
                   (DrawCommandCompositor_new drawQueue (br_settings_ self)
                      (br_drawableProcessor_ self) (br_instancingBuffer_ self) camera
                      [BatchRenderFlag_PixelLight] None))))
          (RenderLightVolumeBatches heap self drawQueue camera ctx batches)
          []).
Proof.
  split; [ | split ].
  - intros self drawQueue camera flags batches outputShadowSplit Hlen.
    rewrite RenderBatches_ByState_eq.
    apply scene_pass_final_flush. rewrite length_map. exact Hlen.
  - intros self drawQueue camera flags batches outputShadowSplit Hlen.
    rewrite RenderBatches_BackToFront_eq.
    apply scene_pass_final_flush. rewrite length_map. exact Hlen.
  - intros self drawQueue camera ctx batches.
    rewrite RenderLightVolumeBatches_eq.
    apply final_flush_of_reachable; [ | cbn; unfold UNSIGNED_MODULUS; lia ].
    apply light_volume_pass_run; [ reflexivity | reflexivity | ].
    apply reachable_SetGlobalResources, reachable_SetGBufferParameters, reachable_new.
Qed.

End FinalFlush.

(** Two static batches of geometry 1, streamed by [RenderBatches]: both
    are in the run that the final flush draws. *)
Lemma entry_points_final_flush_witness :
  exists drawn run,
    map byState_pipelineBatch_
        (Sample.byState [Sample.batch 1 1 1 GEOM_STATIC; Sample.batch 1 1 1 GEOM_STATIC])
    = drawn ++ run
    /\ final_flush (H := Sample.build false) Sample.heap
         (fold_left (fun c b => ProcessSceneBatch (H := Sample.build false) Sample.heap b c)
            (map byState_pipelineBatch_
               (Sample.byState
                  [Sample.batch 1 1 1 GEOM_STATIC; Sample.batch 1 1 1 GEOM_STATIC]))
            (DrawCommandCompositor_new [] (br_settings_ Sample.renderer)
               (br_drawableProcessor_ Sample.renderer) (br_instancingBuffer_ Sample.renderer)
               (Sample.camera false) [BatchRenderFlag_InstantiateStaticGeometry] None))
         (RenderBatches_ByState (H := Sample.build false) Sample.heap Sample.renderer []
            (Sample.camera false) [BatchRenderFlag_InstantiateStaticGeometry]
            (Sample.byState [Sample.batch 1 1 1 GEOM_STATIC; Sample.batch 1 1 1 GEOM_STATIC])
            None)
         run.
Proof.
  refine (proj1 (entry_points_final_flush (H := Sample.build false) Sample.heap)
            Sample.renderer [] (Sample.camera false)
            [BatchRenderFlag_InstantiateStaticGeometry]
            (Sample.byState [Sample.batch 1 1 1 GEOM_STATIC; Sample.batch 1 1 1 GEOM_STATIC])
            None _).
  vm_compute. reflexivity.
Defined.

(** ** A run of [2^32] batches *)

Section WrappedRun.

Local Abbreviation count_of c := (InstancingGroupState.count_ (instancingGroup_ c)).
Local Abbreviation sample_batch := (Sample.batch 1 1 1 GEOM_STATIC).
Local Abbreviation sample_flags := [BatchRenderFlag_InstantiateStaticGeometry].
Local Abbreviation process :=
  (fun c b => ProcessSceneBatch (H := Sample.build false) Sample.heap b c).

(** The state in which the sample batch finds nothing dirty: it has the
    cached keys of the batch, and the flags that the dirty checks of this
    pass do not assign are clear. *)
Local Abbreviation settled c :=
  (enabled_ c = EnabledFeatureFlags.make sample_flags
   /\ (DirtyStateFlags.frameConstants_ (dirty_ c) = false
       /\ DirtyStateFlags.cameraConstants_ (dirty_ c) = false
       /\ lightFlags c
          = (false, false, false, false, false, DirtyStateFlags.material_ (dirty_ c)))
   /\ CachedSharedState.pipelineState_ (current_ c) = 1
   /\ CachedSharedState.material_ (current_ c) = 1
   /\ CachedSharedState.geometry_ (current_ c) = 1
   /\ CachedSharedState.constantDepthBias_ (current_ c) = zero).

Lemma not_reset `{Externals} heap pipelineBatch sourceBatch c :
  count_of c <> 0 ->
  DirtyStateFlags.IsAnyStateDirty
    (dirty_ (afterDirtyChecks heap pipelineBatch sourceBatch c)) = false ->
  resetInstancingGroup (afterDirtyChecks heap pipelineBatch sourceBatch c) = false.
Proof.
  intros Hopen Hclean. rewrite resetInstancingGroup_afterDirtyChecks.
  unfold dirtyWhenProcessed. rewrite Hclean.
  apply orb_false_iff. split; [ apply Z.eqb_neq; exact Hopen | reflexivity ].
Qed.

(** A batch that joins the open run changes the count, and the
    instancing buffer. *)
Lemma join_step `{Externals} heap pipelineBatch sourceBatch c :
  resetInstancingGroup (afterDirtyChecks heap pipelineBatch sourceBatch c) = false ->
  let c' := ProcessBatch heap pipelineBatch sourceBatch c in
  dirty_ c' = dirty_ (afterDirtyChecks heap pipelineBatch sourceBatch c)
  /\ current_ c' = current_ (afterDirtyChecks heap pipelineBatch sourceBatch c)
  /\ enabled_ c' = enabled_ c
  /\ count_of c' = wrap32 (count_of c + 1)
  /\ key_ops c' = key_ops c.
Proof.
  intros Hreset. cbv zeta.
  pose proof (ProcessBatch_step heap pipelineBatch sourceBatch c) as Hstep.
  cbv zeta in Hstep. rewrite Hreset in Hstep.
  destruct Hstep as (He & _ & Hk & Hg & _).
  rewrite He, Hk, Hg. unfold ProcessBatch. rewrite current_finishBatch.
  revert Hreset. generalize (afterDirtyChecks heap pipelineBatch sourceBatch c).
  intros c1 Hreset. cbv beta delta [finishBatch]. rewrite Hreset. cbv zeta.
  rewrite dirty_AddObjectInstanceData, dirty_set_instancingBuffer_,
    dirty_set_instancingGroup_.
  repeat split.
Qed.

Lemma settled_afterDirtyChecks c :
  settled c ->
  let c' := afterDirtyChecks (H := Sample.build false) Sample.heap sample_batch
              (PipelineBatch.GetSourceBatch sample_batch) c in
  dirty_ c' = DirtyStateFlags.mk false false false false false false false false false false
  /\ CachedSharedState.pipelineState_ (current_ c') = 1
  /\ CachedSharedState.material_ (current_ c') = 1
  /\ CachedSharedState.geometry_ (current_ c') = 1
  /\ CachedSharedState.constantDepthBias_ (current_ c') = zero.
Proof.
  intros (Henabled & (Hframe & Hcamera & Hlights) & Hps & Hmat & Hgeo & Hbias). cbv zeta.
  pose proof (afterDirtyChecks_views (H := Sample.build false) Sample.heap sample_batch
                (PipelineBatch.GetSourceBatch sample_batch) c) as Hviews.
  cbv zeta in Hviews. revert Hviews.
  generalize (afterDirtyChecks (H := Sample.build false) Sample.heap sample_batch
                (PipelineBatch.GetSourceBatch sample_batch) c).
  intros c1 (Hc & Hp & Hv & Hl & _).
  rewrite Henabled in Hp, Hv, Hl.
  change (EnabledFeatureFlags.pixelLighting_ (EnabledFeatureFlags.make sample_flags))
    with false in Hp.
  change (EnabledFeatureFlags.vertexLighting_ (EnabledFeatureFlags.make sample_flags))
    with false in Hv.
  change (EnabledFeatureFlags.ambientLighting_ (EnabledFeatureFlags.make sample_flags))
    with false in Hl.
  cbv iota in Hp, Hv, Hl.
  rewrite Hps, Hmat, Hgeo, Hbias, Hframe, Hcamera in Hc.
  unfold commonView, pixelLightView, vertexLightView, lightmapView in Hc, Hp, Hv, Hl.
  unfold lightFlags in Hlights.
  injection Hlights as Hplc Hplt Hvlc Hlmc Hlmt.
  rewrite Hplc, Hplt in Hp. rewrite Hvlc in Hv. rewrite Hlmc, Hlmt in Hl.
  destruct (dirty_ c1) as [ps fr cam plc plt vlc lmc lmt mat geo].
  cbn [DirtyStateFlags.pipelineState_ DirtyStateFlags.frameConstants_
       DirtyStateFlags.cameraConstants_ DirtyStateFlags.pixelLightConstants_
       DirtyStateFlags.pixelLightTextures_ DirtyStateFlags.vertexLightConstants_
       DirtyStateFlags.lightmapConstants_ DirtyStateFlags.lightmapTextures_
       DirtyStateFlags.material_ DirtyStateFlags.geometry_] in Hc, Hp, Hv, Hl.
  injection Hc as -> -> -> -> -> Hps1 Hmat1 Hgeo1 Hbias1.
  injection Hp as -> -> _ _ _ _. injection Hv as -> _. injection Hl as -> -> _ _.
  repeat split; try assumption; reflexivity.
Qed.

(** With a run open, the sample batch joins it. *)
Lemma settled_step c :
  settled c -> 0 < count_of c ->
  settled (process c sample_batch)
  /\ count_of (process c sample_batch) = wrap32 (count_of c + 1)
  /\ key_ops (process c sample_batch) = key_ops c.
Proof.
  intros Hsettled Hopen.
  pose proof (settled_afterDirtyChecks c Hsettled) as Hchecked. cbv zeta in Hchecked.
  assert (Hreset : resetInstancingGroup
                     (afterDirtyChecks (H := Sample.build false) Sample.heap sample_batch
                        (PipelineBatch.GetSourceBatch sample_batch) c) = false).
  { apply not_reset; [ lia | ]. destruct Hchecked as (-> & _). reflexivity. }
  pose proof (join_step (H := Sample.build false) Sample.heap sample_batch
                (PipelineBatch.GetSourceBatch sample_batch) c Hreset) as Hstep.
  cbv beta. rewrite ProcessSceneBatch_eq.
  revert Hchecked Hstep.
  generalize (ProcessBatch (H := Sample.build false) Sample.heap sample_batch
                (PipelineBatch.GetSourceBatch sample_batch) c).
  generalize (afterDirtyChecks (H := Sample.build false) Sample.heap sample_batch
                (PipelineBatch.GetSourceBatch sample_batch) c).
  intros c1 c' (Hdirty & Hps & Hmat & Hgeo & Hbias) (Hd & Hc & He & Hcount & Hk).
  destruct Hsettled as (Henabled & _).
  unfold lightFlags. rewrite Hd, Hc, He, Hdirty.
  repeat split; assumption.
Qed.

Lemma settled_run (n : nat) :
  forall c,
  settled c -> 0 < count_of c < UNSIGNED_MODULUS ->
  count_of c + Z.of_nat n <= UNSIGNED_MODULUS ->
  count_of (fold_left process (repeat sample_batch n) c) = wrap32 (count_of c + Z.of_nat n)
  /\ key_ops (fold_left process (repeat sample_batch n) c) = key_ops c.
Proof.
  induction n as [ | n IH ]; intros c Hsettled Hopen Hfit.
  - cbn [repeat fold_left Z.of_nat]. rewrite Z.add_0_r, wrap32_small by lia.
    split; reflexivity.
  - cbn [repeat]. rewrite fold_left_cons. cbv beta.
    destruct (settled_step c Hsettled) as (Hsettled1 & Hcount & Hk); [ lia | ].
    cbv beta in Hsettled1, Hcount, Hk.
    rewrite Nat2Z.inj_succ in Hfit |- *.
    revert Hsettled1 Hcount Hk.
    generalize (ProcessSceneBatch (H := Sample.build false) Sample.heap sample_batch c).
    intros c1 Hsettled1 Hcount Hk.
    destruct n as [ | n ].
    + cbn [repeat fold_left]. rewrite Hcount, Hk. split; reflexivity.
    + rewrite wrap32_small in Hcount by (rewrite Nat2Z.inj_succ in Hfit; lia).
      destruct (IH c1 Hsettled1) as (Hcount' & Hk'); [ lia | lia | ].
      rewrite Hcount', Hk', Hcount, Hk. split; [ f_equal; lia | reflexivity ].
Qed.

End WrappedRun.

(** C8, as the specification words it, fails: the count of the
    instancing group is an [unsigned]. A pass with static instancing over
    [2^32] identical static batches accumulates all of them into one run;
    the count has wrapped to zero when the final flush comes, which then
    draws nothing: the pass adds no draw to the queue. *)
Lemma final_flush_drops_a_wrapped_run :
  InstancingGroupState.count_
    (instancingGroup_
       (Sample.processed [BatchRenderFlag_InstantiateStaticGeometry]
          (repeat (Sample.batch 1 1 1 GEOM_STATIC) (Z.to_nat UNSIGNED_MODULUS)))) = 0
  /\ count is_draw
       (drawQueue_
          (Sample.scenePass [BatchRenderFlag_InstantiateStaticGeometry]
             (repeat (Sample.batch 1 1 1 GEOM_STATIC) (Z.to_nat UNSIGNED_MODULUS))))
     = 0%nat.
Proof.
  assert (Hlength : Z.to_nat UNSIGNED_MODULUS = S (Z.to_nat (UNSIGNED_MODULUS - 1))).
  { rewrite <- Z2Nat.inj_succ by (unfold UNSIGNED_MODULUS; lia).
    f_equal; lia. }
  assert (Hmaps : forall l, map byState_pipelineBatch_ (Sample.byState l) = l).
  { intros l. unfold Sample.byState. rewrite map_map. apply map_id. }
  unfold Sample.scenePass, Sample.processed.
  rewrite RenderBatches_ByState_eq, Hmaps.
  change (DrawCommandCompositor_new [] (br_settings_ Sample.renderer)
            (br_drawableProcessor_ Sample.renderer) (br_instancingBuffer_ Sample.renderer)
            (Sample.camera false) [BatchRenderFlag_InstantiateStaticGeometry] None)
    with (Sample.compositor [BatchRenderFlag_InstantiateStaticGeometry]).
  rewrite Hlength. cbn [repeat]. rewrite !fold_left_cons.
  destruct (settled_run (Z.to_nat (UNSIGNED_MODULUS - 1))
              (ProcessSceneBatch (H := Sample.build false) Sample.heap
                 (Sample.batch 1 1 1 GEOM_STATIC)
                 (Sample.compositor [BatchRenderFlag_InstantiateStaticGeometry])))
    as (Hcount & Hk).
  - repeat split; vm_compute; reflexivity.
  - split; vm_compute; reflexivity.
  - replace (InstancingGroupState.count_
               (instancingGroup_
                  (ProcessSceneBatch (H := Sample.build false) Sample.heap
                     (Sample.batch 1 1 1 GEOM_STATIC)
                     (Sample.compositor [BatchRenderFlag_InstantiateStaticGeometry]))))
      with 1 by (vm_compute; reflexivity).
    rewrite Z2Nat.id by (unfold UNSIGNED_MODULUS; lia). lia.
  - replace (InstancingGroupState.count_
               (instancingGroup_
                  (ProcessSceneBatch (H := Sample.build false) Sample.heap
                     (Sample.batch 1 1 1 GEOM_STATIC)
                     (Sample.compositor [BatchRenderFlag_InstantiateStaticGeometry]))))
      with 1 in Hcount by (vm_compute; reflexivity).
    rewrite Z2Nat.id in Hcount by (unfold UNSIGNED_MODULUS; lia).
    replace (1 + (UNSIGNED_MODULUS - 1)) with UNSIGNED_MODULUS in Hcount by lia.
    change (wrap32 UNSIGNED_MODULUS) with 0 in Hcount.
    replace (key_ops
               (ProcessSceneBatch (H := Sample.build false) Sample.heap
                  (Sample.batch 1 1 1 GEOM_STATIC)
                  (Sample.compositor [BatchRenderFlag_InstantiateStaticGeometry])))
      with (@nil DrawCommand) in Hk by (vm_compute; reflexivity).
    revert Hcount Hk.
    generalize (fold_left
                  (fun c b => ProcessSceneBatch (H := Sample.build false) Sample.heap b c)
                  (repeat (Sample.batch 1 1 1 GEOM_STATIC) (Z.to_nat (UNSIGNED_MODULUS - 1)))
                  (ProcessSceneBatch (H := Sample.build false) Sample.heap
                     (Sample.batch 1 1 1 GEOM_STATIC)
                     (Sample.compositor [BatchRenderFlag_InstantiateStaticGeometry]))).
    intros c Hcount Hk. split; [ exact Hcount | ].
    unfold count.
    rewrite <- (filter_filter_key is_draw)
      by (intros cmd Hcmd; unfold is_key; unfold is_draw in Hcmd; rewrite Hcmd; reflexivity).
    change (List.filter is_key (drawQueue_ (FlushDrawCommands Sample.heap c)))
      with (key_ops (FlushDrawCommands Sample.heap c)).
    rewrite FlushDrawCommands_key_ops, Hk. unfold flush_ops. rewrite Hcount.
    reflexivity.
Qed.

(** ** The object constants of a directly drawn batch *)

Section ObjectSetters.
Variable c : DrawCommandCompositor.

Lemma objectView_emit cmd : objectView (emit cmd c) = objectView c.
Proof. destruct c; reflexivity. Qed.
Lemma objectView_dirty_set s v : objectView (dirty_set s v c) = objectView c.
Proof. destruct c; reflexivity. Qed.
Lemma objectView_current_set {A} s (v : A) : objectView (current_set s v c) = objectView c.
Proof. destruct c; reflexivity. Qed.
Lemma objectView_set_instancingGroup_ v : objectView (set_instancingGroup_ v c) = objectView c.
Proof. destruct c; reflexivity. Qed.
Lemma objectView_set_instancingBuffer_ v :
  objectView (set_instancingBuffer_ v c) = objectView c.
Proof. destruct c; reflexivity. Qed.

End ObjectSetters.

Lemma objectView_emit_all cmds c : objectView (emit_all cmds c) = objectView c.
Proof. apply emit_all_frame. intros. apply objectView_emit. Qed.

#[local] Hint Rewrite
  objectView_emit objectView_dirty_set @objectView_current_set objectView_set_instancingGroup_
  objectView_set_instancingBuffer_ objectView_emit_all
  : frame.

Section ObjectFrames.
Context `{Externals} (heap : Heap).

Local Abbreviation object_ops := (emitted is_object_op).
Local Abbreviation count_of c := (InstancingGroupState.count_ (instancingGroup_ c)).

Lemma objectView_AddFrameConstants c : objectView (AddFrameConstants c) = objectView c.
Proof. frame_of AddFrameConstants. Qed.
Lemma objectView_AddCameraConstants bias c :
  objectView (AddCameraConstants bias c) = objectView c.
Proof. frame_of AddCameraConstants. Qed.
Lemma objectView_AddVertexLightConstants c :
  objectView (AddVertexLightConstants c) = objectView c.
Proof. frame_of AddVertexLightConstants. Qed.
Lemma objectView_AddPixelLightConstants params c :
  objectView (AddPixelLightConstants params c) = objectView c.
Proof. frame_of AddPixelLightConstants. Qed.

Lemma object_ops_AddFrameConstants c : object_ops (AddFrameConstants c) = object_ops c.
Proof. frame_of AddFrameConstants. Qed.
Lemma object_ops_AddCameraConstants bias c :
  object_ops (AddCameraConstants bias c) = object_ops c.
Proof. frame_of AddCameraConstants. Qed.
Lemma object_ops_AddVertexLightConstants c :
  object_ops (AddVertexLightConstants c) = object_ops c.
Proof. frame_of AddVertexLightConstants. Qed.
Lemma object_ops_AddPixelLightConstants params c :
  object_ops (AddPixelLightConstants params c) = object_ops c.
Proof. frame_of AddPixelLightConstants. Qed.

Hint Rewrite objectView_AddFrameConstants objectView_AddCameraConstants
  objectView_AddVertexLightConstants objectView_AddPixelLightConstants
  object_ops_AddFrameConstants object_ops_AddCameraConstants
  object_ops_AddVertexLightConstants object_ops_AddPixelLightConstants : frame.

Lemma objectView_UpdateDirtyConstants c :
  objectView (UpdateDirtyConstants heap c) = objectView c.
Proof. frame_of UpdateDirtyConstants. Qed.
Lemma objectView_UpdateDirtyResources c :
  objectView (UpdateDirtyResources heap c) = objectView c.
Proof. frame_of UpdateDirtyResources. Qed.
Lemma object_ops_UpdateDirtyConstants c :
  object_ops (UpdateDirtyConstants heap c) = object_ops c.
Proof. frame_of UpdateDirtyConstants. Qed.
Lemma object_ops_UpdateDirtyResources c :
  object_ops (UpdateDirtyResources heap c) = object_ops c.
Proof. frame_of UpdateDirtyResources. Qed.

Lemma objectView_CheckDirtyCommonState pipelineBatch c :
  objectView (CheckDirtyCommonState heap pipelineBatch c) = objectView c.
Proof. frame_of CheckDirtyCommonState. Qed.
Lemma objectView_CheckDirtyPixelLight pipelineBatch c :
  objectView (CheckDirtyPixelLight pipelineBatch c) = objectView c.
Proof. frame_of CheckDirtyPixelLight. Qed.
Lemma objectView_CheckDirtyVertexLight lightAccumulator c :
  objectView (CheckDirtyVertexLight lightAccumulator c) = objectView c.
Proof. frame_of CheckDirtyVertexLight. Qed.
Lemma objectView_CheckDirtyLightmap sourceBatch c :
  objectView (CheckDirtyLightmap sourceBatch c) = objectView c.
Proof. frame_of CheckDirtyLightmap. Qed.
Lemma objectView_AddObjectConstants c : objectView (AddObjectConstants c) = objectView c.
Proof. frame_of AddObjectConstants. Qed.
Lemma objectView_DrawObject c : objectView (DrawObject heap c) = objectView c.
Proof. frame_of DrawObject. Qed.
Lemma objectView_FlushDrawCommands c :
  objectView (FlushDrawCommands heap c) = objectView c.
Proof. unfold FlushDrawCommands. frame_of DrawObjectInstanced. Qed.


(** Without ambient lighting the object constants extracted from a batch
    are those of its source batch. *)
Lemma objectView_afterDirtyChecks pipelineBatch sourceBatch c :
  EnabledFeatureFlags.ambientLighting_ (enabled_ c) = false ->
  objectView (afterDirtyChecks heap pipelineBatch sourceBatch c)
  = (ObjectState.mk (ObjectState.sh_ (object_ c)) (ObjectState.ambient_ (object_ c))
       (SourceBatch.geometryType_ sourceBatch)
       (SourceBatch.worldTransform_ sourceBatch)
       (SourceBatch.numWorldTransforms_ sourceBatch),
     lightVolumeHelpers_ c).
Proof.
  intros Hambient. rewrite afterDirtyChecks_eq, Hambient.
  match goal with |- context [let lightAccumulator := ?e in _] => generalize e end.
  intros la. cbv zeta.
  assert (Hextract : objectView (ExtractObjectConstants sourceBatch la c)
                     = (ObjectState.mk (ObjectState.sh_ (object_ c))
                          (ObjectState.ambient_ (object_ c))
                          (SourceBatch.geometryType_ sourceBatch)
                          (SourceBatch.worldTransform_ sourceBatch)
                          (SourceBatch.numWorldTransforms_ sourceBatch),
                        lightVolumeHelpers_ c)).
  { cbv beta delta [ExtractObjectConstants]. rewrite Hambient. cbv zeta.
    destruct c; reflexivity. }
  revert Hextract. generalize (ExtractObjectConstants sourceBatch la c).
  intros c0 Hextract.
  repeat case_match;
    rewrite ?objectView_CheckDirtyVertexLight, ?objectView_CheckDirtyPixelLight,
      ?objectView_CheckDirtyCommonState;
    exact Hextract.
Qed.

(** The object group of a static object without ambient lighting: its
    world transform. *)
Lemma object_ops_AddObjectConstants_static c :
  EnabledFeatureFlags.ambientLighting_ (enabled_ c) = false ->
  ObjectState.geometryType_ (object_ c) = GEOM_STATIC ->
  object_ops (AddObjectConstants c)
  = object_ops c
    ++ [AddShaderParameter VSP_MODEL
          (ValMatrix3x4 (nth 0 (ObjectState.worldTransform_ (object_ c)) []))].
Proof.
  intros Hambient Hstatic. cbv beta delta [AddObjectConstants].
  rewrite Hambient. cbv zeta. rewrite Hstatic.
  apply emitted_emit_keep. reflexivity.
Qed.

Lemma object_ops_DrawObject c :
  object_ops (DrawObject heap c)
  = object_ops c ++ [direct_draw heap (CachedSharedState.geometry_ (current_ c))].
Proof.
  cbv beta delta [DrawObject]. cbv zeta.
  assert (Hdraw : forall geometry, is_object_op (direct_draw heap geometry) = true).
  { intros geometry. unfold direct_draw. cbv zeta. case_match; reflexivity. }
  unfold direct_draw. cbv zeta.
  repeat case_match;
    rewrite emitted_emit_keep by reflexivity;
    rewrite ?emitted_dirty_set, ?emitted_emit_skip by reflexivity;
    reflexivity.
Qed.

Lemma object_ops_afterDirtyChecks pipelineBatch sourceBatch c :
  object_ops (afterDirtyChecks heap pipelineBatch sourceBatch c) = object_ops c.
Proof. unfold emitted. rewrite drawQueue_afterDirtyChecks. reflexivity. Qed.

(** A static batch drawn directly, with no run open and no ambient
    lighting: the pass adds to the object group and the draws of the queue
    the group with the world transform of the batch, its commit, and the
    direct draw of its geometry. *)
Lemma direct_batch_object_ops pipelineBatch sourceBatch c :
  count_of c = 0 ->
  beginInstancingGroup heap pipelineBatch c = false ->
  EnabledFeatureFlags.ambientLighting_ (enabled_ c) = false ->
  SourceBatch.geometryType_ sourceBatch = GEOM_STATIC ->
  let c' := ProcessBatch heap pipelineBatch sourceBatch c in
  object_ops c'
  = object_ops c
    ++ [BeginShaderParameterGroup SP_OBJECT true;
        AddShaderParameter VSP_MODEL
          (ValMatrix3x4 (nth 0 (SourceBatch.worldTransform_ sourceBatch) []));
        CommitShaderParameterGroup SP_OBJECT;
        direct_draw heap (PipelineBatch.geometry_ pipelineBatch)]
  /\ lightVolumeHelpers_ c' = lightVolumeHelpers_ c.
Proof.
  intros Hcount Hbegin Hambient Hstatic. cbv zeta. unfold ProcessBatch.
  pose proof (objectView_afterDirtyChecks pipelineBatch sourceBatch c Hambient) as Hobject.
  pose proof (object_ops_afterDirtyChecks pipelineBatch sourceBatch c) as Hops.
  destruct (quiet_inv _ _ (quiet_afterDirtyChecks heap pipelineBatch sourceBatch c))
    as (_ & He & Hg & _).
  destruct (afterDirtyChecks_geometry heap pipelineBatch sourceBatch c) as [Hcur _].
  revert Hobject Hops He Hg Hcur.
  generalize (afterDirtyChecks heap pipelineBatch sourceBatch c).
  intros c1 Hobject Hops He Hg Hcur.
  assert (Hreset : resetInstancingGroup c1 = true).
  { unfold resetInstancingGroup. rewrite Hg, Hcount. reflexivity. }
  cbv beta delta [finishBatch]. rewrite Hreset, Hg, Hcount.
  change (0 <? 0) with false. cbv iota zeta.
  pose proof (object_ops_UpdateDirtyConstants c1) as Hops2.
  rewrite <- (object_ops_UpdateDirtyResources (UpdateDirtyConstants heap c1)) in Hops2.
  pose proof (objectView_UpdateDirtyConstants c1) as Hobject2.
  rewrite <- (objectView_UpdateDirtyResources (UpdateDirtyConstants heap c1)) in Hobject2.
  pose proof (UpdateDirty_current heap c1) as Hcur2.
  destruct (quiet_inv _ _ (UpdateDirty_quiet heap c1)) as (_ & He2 & _).
  revert Hops2 Hobject2 Hcur2 He2.
  generalize (UpdateDirtyResources heap (UpdateDirtyConstants heap c1)).
  intros c2 Hops2 Hobject2 Hcur2 He2.
  rewrite (beginInstancingGroup_enabled heap pipelineBatch c c2)
    by (rewrite He2; exact He).
  rewrite Hbegin.
  assert (Hview : objectView (emit (BeginShaderParameterGroup SP_OBJECT true) c2)
                  = objectView c2) by apply objectView_emit.
  unfold objectView in Hview, Hobject2, Hobject.
  injection Hview as Hobj3 Hhelp3. injection Hobject2 as Hobj2 Hhelp2.
  injection Hobject as Hobj1 Hhelp1.
  assert (Hkept : lightVolumeHelpers_
                    (DrawObject heap
                       (emit (CommitShaderParameterGroup SP_OBJECT)
                          (AddObjectConstants
                             (emit (BeginShaderParameterGroup SP_OBJECT true) c2))))
                  = lightVolumeHelpers_ c).
  { pose proof (objectView_DrawObject
                  (emit (CommitShaderParameterGroup SP_OBJECT)
                     (AddObjectConstants
                        (emit (BeginShaderParameterGroup SP_OBJECT true) c2)))) as Hv.
    rewrite objectView_emit, objectView_AddObjectConstants, objectView_emit in Hv.
    unfold objectView in Hv. injection Hv as _ ->.
    rewrite Hhelp2, Hhelp1. reflexivity. }
  split; [ | exact Hkept ].
  rewrite object_ops_DrawObject.
  rewrite !current_emit, current_AddObjectConstants, current_emit, Hcur2, Hcur.
  rewrite emitted_emit_keep by reflexivity.
  rewrite object_ops_AddObjectConstants_static;
    [ | rewrite enabled_emit, He2, He; exact Hambient
      | rewrite Hobj3, Hobj2, Hobj1; exact Hstatic ].
  rewrite emitted_emit_keep by reflexivity.
  rewrite Hobj3, Hobj2, Hobj1, Hops2, Hops, <- !app_assoc.
  reflexivity.
Qed.

(** One light volume. *)
Lemma light_volume_object_ops b c :
  enabled_ c = lightVolumeFeatures ->
  count_of c = 0 ->
  SourceBatch.geometryType_ (LightVolumeBatchHelpers.sourceBatch_ (lightVolumeHelpers_ c))
  = GEOM_STATIC ->
  let c' := ProcessLightVolumeBatch heap b c in
  object_ops c'
  = object_ops c
    ++ [BeginShaderParameterGroup SP_OBJECT true;
        AddShaderParameter VSP_MODEL
          (ValMatrix3x4
             (GetLight_GetVolumeTransform (lights_ c (PipelineBatch.lightIndex_ b))
                                          (camera_ c)));
        CommitShaderParameterGroup SP_OBJECT;
        direct_draw heap (PipelineBatch.geometry_ b)]
  /\ SourceBatch.geometryType_ (LightVolumeBatchHelpers.sourceBatch_ (lightVolumeHelpers_ c'))
     = GEOM_STATIC
  /\ lights_ c' = lights_ c /\ camera_ c' = camera_ c.
Proof.
  intros Henabled Hcount Hstatic.
  cbv beta delta [ProcessLightVolumeBatch]. cbv zeta.
  match goal with
  | |- context [ProcessBatch heap b ?s (set_lightVolumeHelpers_ ?h c)] =>
      pose proof (direct_batch_object_ops b s (set_lightVolumeHelpers_ h c)) as Hstep;
      pose proof (environment_ProcessBatch heap b s (set_lightVolumeHelpers_ h c)) as Henv;
      rewrite environment_set_lightVolumeHelpers_ in Henv;
      destruct (quiet_inv _ _ (quiet_set_lightVolumeHelpers_ c h)) as (_ & He & Hg & _);
      assert (Hs : SourceBatch.geometryType_ s = GEOM_STATIC
                   /\ SourceBatch.worldTransform_ s
                      = [GetLight_GetVolumeTransform (lights_ c (PipelineBatch.lightIndex_ b))
                           (camera_ c)]
                   /\ LightVolumeBatchHelpers.sourceBatch_ h = s
                   /\ lightVolumeHelpers_ (set_lightVolumeHelpers_ h c) = h
                   /\ object_ops (set_lightVolumeHelpers_ h c) = object_ops c)
        by (clear Hstep Henv He Hg; repeat split; destruct c; try reflexivity; exact Hstatic);
      revert Hstep Henv He Hg Hs;
      generalize s; generalize (set_lightVolumeHelpers_ h c); generalize h
  end.
  intros h c1 s Hstep Henv He Hg (Hs & Ht & Hh & Hhelpers & Hops).
  cbv zeta in Hstep.
  assert (Hcount1 : count_of c1 = 0) by (rewrite Hg; exact Hcount).
  assert (Hbegin : beginInstancingGroup heap b c1 = false)
    by (unfold beginInstancingGroup; rewrite He, Henabled; reflexivity).
  assert (Hambient : EnabledFeatureFlags.ambientLighting_ (enabled_ c1) = false)
    by (rewrite He, Henabled; reflexivity).
  specialize (Hstep Hcount1 Hbegin Hambient Hs).
  revert Hstep Henv. generalize (ProcessBatch heap b s c1).
  intros c' [Hstep Hkept] Henv.
  unfold environment in Henv. injection Henv as _ _ _ _ Hlights Hcamera _ _ _.
  rewrite Hstep, Hkept, Hhelpers, Hh, Ht, Hops, Hlights, Hcamera.
  repeat split. exact Hs.
Qed.

Lemma light_volume_pass_object_ops (batches : list PipelineBatch.t) :
  forall c,
  enabled_ c = lightVolumeFeatures ->
  count_of c = 0 ->
  SourceBatch.geometryType_ (LightVolumeBatchHelpers.sourceBatch_ (lightVolumeHelpers_ c))
  = GEOM_STATIC ->
  object_ops (fold_left (fun c b => ProcessLightVolumeBatch heap b c) batches c)
  = object_ops c
    ++ flat_map (fun b =>
                   [BeginShaderParameterGroup SP_OBJECT true;
                    AddShaderParameter VSP_MODEL
                      (ValMatrix3x4
                         (GetLight_GetVolumeTransform
                            (lights_ c (PipelineBatch.lightIndex_ b)) (camera_ c)));
                    CommitShaderParameterGroup SP_OBJECT;
                    direct_draw heap (PipelineBatch.geometry_ b)]) batches.
Proof.
  induction batches as [ | b batches IH ]; intros c Henabled Hcount Hstatic.
  - cbn [fold_left flat_map]. symmetry. apply app_nil_r.
  - rewrite fold_left_cons.
    destruct (light_volume_step heap b c Henabled Hcount) as (He & Hg & _).
    destruct (light_volume_object_ops b c Henabled Hcount Hstatic)
      as (Hops & Hs & Hlights & Hcamera).
    rewrite (IH _ He Hg Hs), Hops, Hlights, Hcamera. cbn [flat_map].
    rewrite <- !app_assoc. reflexivity.
Qed.

(** C9. [RenderLightVolumeBatches] runs its compositor with the pixel
    light feature only: ambient lighting, vertex lighting and static
    instancing are off. For each batch in turn the pass opens the object
    group, adds to it the volume transform of the light of the batch as
    the model matrix, commits the group and draws the geometry of the
    batch directly; the queue gets no other command of the object group
    and no other draw, so no instanced draw. *)
Theorem light_volume_pass self drawQueue camera ctx (batches : list PipelineBatchByState) :
  let c' := RenderLightVolumeBatches heap self drawQueue camera ctx batches in
  enabled_ c' = EnabledFeatureFlags.mk false false true true false
  /\ List.filter is_object_op (drawQueue_ c')
     = List.filter is_object_op drawQueue
       ++ flat_map (fun sortedBatch =>
                      [BeginShaderParameterGroup SP_OBJECT true;
                       AddShaderParameter VSP_MODEL
                         (ValMatrix3x4
                            (GetLight_GetVolumeTransform
                               (GetLightProcessors (br_drawableProcessor_ self)
                                  (PipelineBatch.lightIndex_
                                     (byState_pipelineBatch_ sortedBatch)))
                               camera));
                       CommitShaderParameterGroup SP_OBJECT;
                       direct_draw heap
                         (PipelineBatch.geometry_ (byState_pipelineBatch_ sortedBatch))])
                   batches
  /\ List.filter is_key (drawQueue_ c')
     = List.filter is_key drawQueue
       ++ flat_map (fun sortedBatch =>
                      [CommitShaderParameterGroup SP_OBJECT;
                       direct_draw heap
                         (PipelineBatch.geometry_ (byState_pipelineBatch_ sortedBatch))])
                   batches
  /\ count is_instanced_draw (drawQueue_ c') = count is_instanced_draw drawQueue
  /\ count is_direct_draw (drawQueue_ c') = (count is_direct_draw drawQueue + length batches)%nat
  /\ count is_object_commit (drawQueue_ c')
     = (count is_object_commit drawQueue + length batches)%nat.
Proof.
  cbv zeta.
  destruct (light_volume_pass_keys heap self drawQueue camera ctx batches)
    as (Henabled & Hkeys & Hcounts).
  split; [ exact Henabled | split; [ | split; [ exact Hkeys | exact Hcounts ] ] ].
  clear Henabled Hkeys Hcounts.
  rewrite RenderLightVolumeBatches_eq.
  match goal with
  | |- context [fold_left _ _ ?c0] =>
      assert (Hinit : enabled_ c0 = lightVolumeFeatures /\ count_of c0 = 0
                      /\ SourceBatch.geometryType_
                           (LightVolumeBatchHelpers.sourceBatch_ (lightVolumeHelpers_ c0))
                         = GEOM_STATIC
                      /\ lights_ c0 = GetLightProcessors (br_drawableProcessor_ self)
                      /\ camera_ c0 = camera
                      /\ drawQueue_ c0 = drawQueue) by (repeat split);
      revert Hinit; generalize c0
  end.
  intros c0 (Henabled & Hcount & Hstatic & Hlights & Hcamera & Hqueue).
  pose proof (light_volume_pass_object_ops (map byState_pipelineBatch_ batches) c0
                Henabled Hcount Hstatic) as Hops.
  destruct (light_volume_pass_ops heap (map byState_pipelineBatch_ batches) c0
              Henabled Hcount) as (_ & Hclosed & _).
  revert Hops Hclosed.
  generalize (fold_left (fun c b => ProcessLightVolumeBatch heap b c)
                        (map byState_pipelineBatch_ batches) c0).
  intros c1 Hops Hclosed.
  unfold FlushDrawCommands. rewrite Hclosed. change (0 <? 0) with false. cbv iota.
  unfold emitted in Hops. rewrite Hops, Hqueue, Hlights, Hcamera, flat_map_of_map.
  reflexivity.
Qed.

End ObjectFrames.

(** ** The instance data of a batch *)

Lemma object_set_object_ v c : object_ (set_object_ v c) = v.
Proof. destruct c; reflexivity. Qed.

Lemma object_set_instancingGroup_ v c : object_ (set_instancingGroup_ v c) = object_ c.
Proof. destruct c; reflexivity. Qed.

Lemma object_set_instancingBuffer_ v c : object_ (set_instancingBuffer_ v c) = object_ c.
Proof. destruct c; reflexivity. Qed.

Lemma objectView_object c c' : objectView c' = objectView c -> object_ c' = object_ c.
Proof. unfold objectView. intros Hview. injection Hview as -> _. reflexivity. Qed.

Section InstanceData.
Context `{Externals} (heap : Heap).

Local Abbreviation count_of c := (InstancingGroupState.count_ (instancingGroup_ c)).
Local Abbreviation next_slot c := (nextVertex_ (instancingBuffer_ c)).
Local Abbreviation transforms c :=
  (List.filter is_transform_write (elements_ (instancingBuffer_ c))).

Lemma worldTransform_ExtractObjectConstants sourceBatch lightAccumulator c :
  ObjectState.worldTransform_ (object_ (ExtractObjectConstants sourceBatch lightAccumulator c))
  = SourceBatch.worldTransform_ sourceBatch.
Proof.
  cbv beta delta [ExtractObjectConstants]. cbv zeta.
  rewrite object_set_object_. reflexivity.
Qed.

Lemma worldTransform_afterDirtyChecks pipelineBatch sourceBatch c :
  ObjectState.worldTransform_ (object_ (afterDirtyChecks heap pipelineBatch sourceBatch c))
  = SourceBatch.worldTransform_ sourceBatch.
Proof.
  rewrite afterDirtyChecks_eq.
  match goal with |- context [let lightAccumulator := ?e in _] => generalize e end.
  intros la. cbv zeta.
  pose proof (worldTransform_ExtractObjectConstants sourceBatch la c) as Hextract.
  revert Hextract. generalize (ExtractObjectConstants sourceBatch la c).
  intros c0 Hextract.
  repeat case_match;
    rewrite ?(objectView_object _ _ (objectView_CheckDirtyLightmap _ _)),
      ?(objectView_object _ _ (objectView_CheckDirtyVertexLight _ _)),
      ?(objectView_object _ _ (objectView_CheckDirtyPixelLight _ _)),
      ?(objectView_object _ _ (objectView_CheckDirtyCommonState heap _ _));
    exact Hextract.
Qed.

(** [AddObjectInstanceData] writes the world transform into the slot
    handed out last. *)
Lemma transforms_AddObjectInstanceData c :
  transforms (AddObjectInstanceData c)
  = transforms c
    ++ [(wrap32 (next_slot c - 1),
         ElementsMatrix3x4 (ObjectState.worldTransform_ (object_ c)), 0, 3)].
Proof.
  cbv beta delta [AddObjectInstanceData]. cbv zeta.
  repeat case_match;
    rewrite ?instancingBuffer_set_instancingBuffer_;
    cbn [SetElements elements_ nextVertex_];
    rewrite ?List.filter_app; cbn [List.filter is_transform_write];
    rewrite ?object_set_instancingBuffer_, ?app_nil_r;
    destruct c; reflexivity.
Qed.

(** One batch: a batch that begins or joins a run has its world transform
    written into the slot it takes, a batch drawn directly writes
    nothing. *)
Lemma ProcessBatch_transforms pipelineBatch sourceBatch c :
  0 <= next_slot c -> next_slot c + 1 < UNSIGNED_MODULUS ->
  let c' := ProcessBatch heap pipelineBatch sourceBatch c in
  let instanced :=
    negb (resetInstancingGroup (afterDirtyChecks heap pipelineBatch sourceBatch c)
          && negb (beginInstancingGroup heap pipelineBatch c)) in
  transforms c'
  = transforms c
    ++ transforms_for (next_slot c) [(instanced, SourceBatch.worldTransform_ sourceBatch)].
Proof.
  intros Hnext Hfree. cbv zeta. unfold ProcessBatch.
  destruct (quiet_inv _ _ (quiet_afterDirtyChecks heap pipelineBatch sourceBatch c))
    as (_ & He & _ & Hb).
  pose proof (worldTransform_afterDirtyChecks pipelineBatch sourceBatch c) as Hobject.
  revert He Hb Hobject. generalize (afterDirtyChecks heap pipelineBatch sourceBatch c).
  intros c1 He Hb Hobject.
  rewrite <- Hb, <- Hobject, <- (beginInstancingGroup_enabled heap pipelineBatch c c1 He).
  rewrite <- Hb in Hnext, Hfree.
  clear He Hb Hobject. cbv beta delta [finishBatch]. destruct (resetInstancingGroup c1).
  - change (if 0 <? count_of c1 then DrawObjectInstanced heap c1 else c1)
      with (FlushDrawCommands heap c1).
    cbv zeta.
    destruct (quiet_inv _ _ (UpdateDirty_quiet heap (FlushDrawCommands heap c1)))
      as (_ & He & _ & Hb).
    rewrite instancingBuffer_FlushDrawCommands in Hb.
    rewrite enabled_FlushDrawCommands in He.
    pose proof (objectView_UpdateDirtyConstants heap (FlushDrawCommands heap c1)) as Hview.
    rewrite <- (objectView_UpdateDirtyResources heap
                  (UpdateDirtyConstants heap (FlushDrawCommands heap c1))) in Hview.
    rewrite objectView_FlushDrawCommands in Hview.
    apply objectView_object in Hview.
    revert He Hb Hview.
    generalize (UpdateDirtyResources heap (UpdateDirtyConstants heap (FlushDrawCommands heap c1))).
    intros c2 He Hb Hview.
    rewrite (beginInstancingGroup_enabled heap pipelineBatch c1 c2 He).
    destruct (beginInstancingGroup heap pipelineBatch c1); cbn [andb negb transforms_for].
    + rewrite transforms_AddObjectInstanceData, !instancingBuffer_set_instancingGroup_,
        !instancingBuffer_set_instancingBuffer_, object_set_instancingGroup_,
        object_set_instancingBuffer_, Hb, Hview.
      cbn [AddInstance snd elements_ nextVertex_].
      rewrite (wrap32_small (next_slot c1 + 1)) by lia.
      replace (next_slot c1 + 1 - 1) with (next_slot c1) by lia.
      rewrite wrap32_small by lia. reflexivity.
    + rewrite instancingBuffer_DrawObject, instancingBuffer_emit.
      destruct (quiet_inv _ _ (quiet_AddObjectConstants
                                 (emit (BeginShaderParameterGroup SP_OBJECT true) c2)))
        as (_ & _ & _ & ->).
      rewrite instancingBuffer_emit, Hb. symmetry. apply app_nil_r.
  - cbv zeta. cbn [andb negb transforms_for].
    rewrite transforms_AddObjectInstanceData, !instancingBuffer_set_instancingBuffer_,
      !instancingBuffer_set_instancingGroup_, object_set_instancingBuffer_,
      object_set_instancingGroup_.
    cbn [AddInstance snd elements_ nextVertex_].
    rewrite (wrap32_small (next_slot c1 + 1)) by lia.
    replace (next_slot c1 + 1 - 1) with (next_slot c1) by lia.
    rewrite wrap32_small by lia. reflexivity.
Qed.

End InstanceData.

Section DrawnOnce.
Context `{Externals} (heap : Heap).

Local Abbreviation count_of c := (InstancingGroupState.count_ (instancingGroup_ c)).
Local Abbreviation next_slot c := (nextVertex_ (instancingBuffer_ c)).
Local Abbreviation transforms c :=
  (List.filter is_transform_write (elements_ (instancingBuffer_ c))).

(** A scene pass streamed from any state whose open run takes the slots
    up to the next one. *)
Lemma scene_pass_once_from (batches : list PipelineBatch.t) :
  forall c,
  0 <= count_of c -> count_of c + Z.of_nat (length batches) < UNSIGNED_MODULUS ->
  0 <= next_slot c -> next_slot c + Z.of_nat (length batches) < UNSIGNED_MODULUS ->
  (0 < count_of c ->
   InstancingGroupState.start_ (instancingGroup_ c) + count_of c = next_slot c
   /\ InstancingGroupState.geometry_ (instancingGroup_ c)
      = CachedSharedState.geometry_ (current_ c)) ->
  let c' := FlushDrawCommands heap
              (fold_left (fun c b => ProcessSceneBatch heap b c) batches c) in
  exists instanced : list bool,
    length instanced = length batches
    /\ objects_drawn (drawQueue_ c')
       = objects_drawn (key_ops c ++ flush_ops heap c)
         ++ objects_for heap (next_slot c)
              (combine instanced (map PipelineBatch.geometry_ batches))
    /\ transforms c'
       = transforms c
         ++ transforms_for (next_slot c)
              (combine instanced
                 (map (fun b => SourceBatch.worldTransform_ (PipelineBatch.GetSourceBatch b))
                      batches)).
Proof.
  induction batches as [ | b batches IH ]; intros c Hlo Hhi Hnext Hfree Hrun; cbv zeta.
  - exists []. split; [ reflexivity | ].
    cbn [fold_left map combine objects_for transforms_for]. rewrite !app_nil_r.
    rewrite instancingBuffer_FlushDrawCommands.
    rewrite <- (objects_drawn_key (drawQueue_ (FlushDrawCommands heap c))).
    fold (key_ops (FlushDrawCommands heap c)). rewrite FlushDrawCommands_key_ops.
    split; reflexivity.
  - rewrite fold_left_cons, ProcessSceneBatch_eq.
    rewrite length_cons, Nat2Z.inj_succ in Hhi, Hfree.
    pose proof (ProcessBatch_objects heap b (PipelineBatch.GetSourceBatch b) c Hlo
                  ltac:(lia) Hnext ltac:(lia) Hrun) as Hstep.
    pose proof (ProcessBatch_transforms heap b (PipelineBatch.GetSourceBatch b) c Hnext
                  ltac:(lia)) as Hdata.
    cbv zeta in Hstep, Hdata.
    specialize (IH (ProcessBatch heap b (PipelineBatch.GetSourceBatch b) c)).
    cbv zeta in IH.
    revert Hstep Hdata IH.
    generalize (negb (resetInstancingGroup
                        (afterDirtyChecks heap b (PipelineBatch.GetSourceBatch b) c)
                      && negb (beginInstancingGroup heap b c))).
    generalize (fold_left (fun c b => ProcessSceneBatch heap b c) batches
                          (ProcessBatch heap b (PipelineBatch.GetSourceBatch b) c)).
    generalize (ProcessBatch heap b (PipelineBatch.GetSourceBatch b) c).
    intros c1 c' i (Hcount & Hrun1 & Hslot & Hobjects) Hdata IH.
    destruct IH as (instanced & Hlength & IHobjects & IHdata);
      [ lia | lia | destruct i; lia | destruct i; lia | exact Hrun1 | ].
    exists (i :: instanced). split; [ cbn [length]; rewrite Hlength; reflexivity | ].
    rewrite IHobjects, IHdata, Hobjects, Hdata, Hslot, <- !app_assoc.
    cbn [map combine objects_for transforms_for app].
    destruct i; [ split; reflexivity | ].
    rewrite Z.add_0_r. split; reflexivity.
Qed.

(** Every batch of a [RenderBatches] pass is drawn exactly once. The
    batches being no more than the slots left in the instancing buffer,
    the objects drawn by the draws that the pass adds to the queue are,
    for each batch in turn, either the direct draw of its geometry or one
    instance of its geometry; the instances are read from the slots of the
    instancing buffer in sequence, from the first free one on, no slot
    being drawn twice, and the slot of a batch holds its world transform.
    So the objects drawn are as many as the batches. *)
Theorem scene_pass_draws_every_batch self drawQueue camera flags
    (batches : list PipelineBatchByState) outputShadowSplit :
  0 <= nextVertex_ (br_instancingBuffer_ self) ->
  nextVertex_ (br_instancingBuffer_ self) + Z.of_nat (length batches) < UNSIGNED_MODULUS ->
  let c' := RenderBatches_ByState heap self drawQueue camera flags batches
              outputShadowSplit in
  exists instanced : list bool,
    length instanced = length batches
    /\ objects_drawn (drawQueue_ c')
       = objects_drawn drawQueue
         ++ objects_for heap (nextVertex_ (br_instancingBuffer_ self))
              (combine instanced
                 (map (fun sortedBatch =>
                         PipelineBatch.geometry_ (byState_pipelineBatch_ sortedBatch))
                      batches))
    /\ List.filter is_transform_write (elements_ (instancingBuffer_ c'))
       = List.filter is_transform_write (elements_ (br_instancingBuffer_ self))
         ++ transforms_for (nextVertex_ (br_instancingBuffer_ self))
              (combine instanced
                 (map (fun sortedBatch =>
                         SourceBatch.worldTransform_
                           (PipelineBatch.GetSourceBatch
                              (byState_pipelineBatch_ sortedBatch)))
                      batches))
    /\ instances_drawn (drawQueue_ c') = instances_drawn drawQueue + Z.of_nat (length batches).
Proof.
  intros Hnext Hfree. cbv zeta.
  pose proof (scene_pass_instances heap self drawQueue camera flags batches outputShadowSplit
                ltac:(lia)) as Hinstances.
  rewrite RenderBatches_ByState_eq in Hinstances |- *.
  match goal with
  | |- context [fold_left _ _ ?c0] =>
      assert (Hinit : count_of c0 = 0
                      /\ instancingBuffer_ c0 = br_instancingBuffer_ self
                      /\ drawQueue_ c0 = drawQueue) by (repeat split);
      revert Hinit Hinstances; generalize c0
  end.
  intros c0 (Hcount & Hbuffer & Hqueue) Hinstances.
  destruct (scene_pass_once_from (map byState_pipelineBatch_ batches) c0)
    as (instanced & Hlength & Hobjects & Hdata);
    rewrite ?length_map, ?Hcount, ?Hbuffer; try lia.
  cbv zeta in Hobjects, Hdata. rewrite length_map in Hlength.
  revert Hobjects Hdata Hinstances.
  generalize (FlushDrawCommands heap
                (fold_left (fun c b => ProcessSceneBatch heap b c)
                           (map byState_pipelineBatch_ batches) c0)).
  intros c' Hobjects Hdata Hinstances.
  exists instanced. split; [ exact Hlength | ].
  rewrite Hobjects, Hdata, Hbuffer, !map_map.
  unfold flush_ops. rewrite Hcount. change (0 <? 0) with false. cbv iota.
  rewrite app_nil_r. unfold key_ops. rewrite objects_drawn_key, Hqueue.
  repeat split. exact Hinstances.
Qed.

End DrawnOnce.

(** The end-to-end example: of three batches two are drawn as the
    instances of one instanced draw and one directly. *)
Lemma scene_pass_draws_every_batch_witness :
  exists instanced : list bool,
    length instanced
    = length (Sample.byState
                [Sample.batch 1 1 1 GEOM_STATIC; Sample.batch 1 1 1 GEOM_STATIC;
                 Sample.batch 1 2 3 GEOM_SKINNED])
    /\ objects_drawn
         (drawQueue_
            (RenderBatches_ByState (H := Sample.build false) Sample.heap Sample.renderer []
               (Sample.camera false) [BatchRenderFlag_InstantiateStaticGeometry]
               (Sample.byState
                  [Sample.batch 1 1 1 GEOM_STATIC; Sample.batch 1 1 1 GEOM_STATIC;
                   Sample.batch 1 2 3 GEOM_SKINNED]) None))
       = objects_drawn []
         ++ objects_for Sample.heap (nextVertex_ (br_instancingBuffer_ Sample.renderer))
              (combine instanced
                 (map (fun sortedBatch =>
                         PipelineBatch.geometry_ (byState_pipelineBatch_ sortedBatch))
                      (Sample.byState
                         [Sample.batch 1 1 1 GEOM_STATIC; Sample.batch 1 1 1 GEOM_STATIC;
                          Sample.batch 1 2 3 GEOM_SKINNED])))
    /\ List.filter is_transform_write
         (elements_
            (instancingBuffer_
               (RenderBatches_ByState (H := Sample.build false) Sample.heap Sample.renderer []
                  (Sample.camera false) [BatchRenderFlag_InstantiateStaticGeometry]
                  (Sample.byState
                     [Sample.batch 1 1 1 GEOM_STATIC; Sample.batch 1 1 1 GEOM_STATIC;
                      Sample.batch 1 2 3 GEOM_SKINNED]) None)))
       = List.filter is_transform_write (elements_ (br_instancingBuffer_ Sample.renderer))
         ++ transforms_for (nextVertex_ (br_instancingBuffer_ Sample.renderer))
              (combine instanced
                 (map (fun sortedBatch =>
                         SourceBatch.worldTransform_
                           (PipelineBatch.GetSourceBatch
                              (byState_pipelineBatch_ sortedBatch)))
                      (Sample.byState
                         [Sample.batch 1 1 1 GEOM_STATIC; Sample.batch 1 1 1 GEOM_STATIC;
                          Sample.batch 1 2 3 GEOM_SKINNED])))
    /\ instances_drawn
         (drawQueue_
            (RenderBatches_ByState (H := Sample.build false) Sample.heap Sample.renderer []
               (Sample.camera false) [BatchRenderFlag_InstantiateStaticGeometry]
               (Sample.byState
                  [Sample.batch 1 1 1 GEOM_STATIC; Sample.batch 1 1 1 GEOM_STATIC;
                   Sample.batch 1 2 3 GEOM_SKINNED]) None))
       = instances_drawn []
         + Z.of_nat (length (Sample.byState
                               [Sample.batch 1 1 1 GEOM_STATIC; Sample.batch 1 1 1 GEOM_STATIC;
                                Sample.batch 1 2 3 GEOM_SKINNED])).
Proof.
  refine (scene_pass_draws_every_batch (H := Sample.build false) Sample.heap Sample.renderer
            [] (Sample.camera false) [BatchRenderFlag_InstantiateStaticGeometry]
            (Sample.byState
               [Sample.batch 1 1 1 GEOM_STATIC; Sample.batch 1 1 1 GEOM_STATIC;
                Sample.batch 1 2 3 GEOM_SKINNED]) None _ _).
  - vm_compute. discriminate.
  - vm_compute. reflexivity.
Defined.
